(** * Hide-and-seek simulation core: shallow embedding and checked properties

    The development follows the C++ sources of the environment:
    - [sim.hpp]       the component and world-state declarations,
    - [sim.cpp]       the per-tick systems, the reset logic and the
                      world constructor,
    - [level_gen.cpp] the procedural level generator,
    - [geo_gen.inl]   [makeDynObject].

    Integers of the source ([int32_t], [CountT]) are unbounded [Z]; the
    values that occur (tick indices below 240, table indices, action
    buckets) are far from the wrap-around.  [float] values are IEEE
    binary32 numbers ([spec_float] with precision 24 and maximal exponent
    128), so that the arithmetic the core performs itself (reward negation
    and penalty, force scaling, the arena-bound test) is the one of the
    machine.  The collaborators of the core -- quaternion algebra,
    trigonometry, bounding-box geometry, the broad-phase ray cast, the
    random bit generator -- are taken as functions supplied from outside
    (record [Extern] and the [BVH] singleton). *)

From Stdlib Require Import ZArith Lia Bool List.
From Stdlib Require Import Floats.SpecFloat.
From stdpp Require Import base option list gmap.

Open Scope Z_scope.

(** ** binary32 arithmetic *)

Abbreviation float := spec_float.

Module F32.
Definition prec : Z := 24.
Definition emax : Z := 128.

(** Conversion of an integer, rounding to nearest even. *)
Definition ofZ (z : Z) : float := binary_normalize prec emax z 0 false.

Definition zero : float := S754_zero false.
Definition add : float -> float -> float := SFadd prec emax.
Definition sub : float -> float -> float := SFsub prec emax.
Definition mul : float -> float -> float := SFmul prec emax.
Definition div : float -> float -> float := SFdiv prec emax.
Definition abs : float -> float := SFabs.
Definition opp : float -> float := SFopp.
(** [a >= b], false when either side is a NaN. *)
Definition geb (a b : float) : bool := SFleb b a.
Definition ltb (a b : float) : bool := SFltb a b.
End F32.

#[global] Instance spec_float_eq_dec : EqDecision spec_float.
Proof. solve_decision. Defined.

(** ** Vectors and quaternions ([madrona::math]) *)

Record Vector2 : Type := mkVector2 { v2x : float; v2y : float }.
Record Vector3 : Type := mkVector3 { v3x : float; v3y : float; v3z : float }.
Record Quat : Type := mkQuat { qw : float; qx : float; qy : float; qz : float }.

#[global] Instance Vector2_eq_dec : EqDecision Vector2.
Proof. solve_decision. Defined.
#[global] Instance Vector3_eq_dec : EqDecision Vector3.
Proof. solve_decision. Defined.
#[global] Instance Quat_eq_dec : EqDecision Quat.
Proof. solve_decision. Defined.

Module math.
Definition up : Vector3 := mkVector3 F32.zero F32.zero (F32.ofZ 1).
Definition fwd : Vector3 := mkVector3 F32.zero (F32.ofZ 1) F32.zero.
Definition right : Vector3 := mkVector3 (F32.ofZ 1) F32.zero F32.zero.
End math.

Definition Vector2_zero : Vector2 := mkVector2 F32.zero F32.zero.
Definition Vector3_zero : Vector3 := mkVector3 F32.zero F32.zero F32.zero.

Definition v3add (a b : Vector3) : Vector3 :=
  mkVector3 (F32.add (v3x a) (v3x b)) (F32.add (v3y a) (v3y b))
            (F32.add (v3z a) (v3z b)).
Definition v3sub (a b : Vector3) : Vector3 :=
  mkVector3 (F32.sub (v3x a) (v3x b)) (F32.sub (v3y a) (v3y b))
            (F32.sub (v3z a) (v3z b)).
Definition v3scale (k : float) (a : Vector3) : Vector3 :=
  mkVector3 (F32.mul k (v3x a)) (F32.mul k (v3y a)) (F32.mul k (v3z a)).
Definition v3dot (a b : Vector3) : float :=
  F32.add (F32.add (F32.mul (v3x a) (v3x b)) (F32.mul (v3y a) (v3y b)))
          (F32.mul (v3z a) (v3z b)).

(** ** Constants ([sim.hpp], [sim.cpp]) *)

Module consts.
Definition maxBoxes : Z := 9.
Definition maxRamps : Z := 2.
Definition maxAgents : Z := 16.
End consts.

Definition numPrepSteps : Z := 96.
Definition episodeLen : Z := 240.

(** ** Enumerations and components *)

Inductive Entity : Type :=
| Entity_none
| Entity_id (n : nat).

#[global] Instance Entity_eq_dec : EqDecision Entity.
Proof. solve_decision. Defined.

Inductive SimObject : Type :=
| Sphere | Plane | Cube | Wall | Agent | Ramp | Box.

Inductive OwnerTeam : Type :=
| OwnerTeam_None | OwnerTeam_Seeker | OwnerTeam_Hider | OwnerTeam_Unownable.

Inductive AgentType : Type :=
| Seeker | Hider.

(** [madrona::phys::ResponseType]. *)
Inductive ResponseType : Type :=
| Dynamic | Kinematic | Static.

#[global] Instance SimObject_eq_dec : EqDecision SimObject.
Proof. solve_decision. Defined.
#[global] Instance OwnerTeam_eq_dec : EqDecision OwnerTeam.
Proof. solve_decision. Defined.
#[global] Instance AgentType_eq_dec : EqDecision AgentType.
Proof. solve_decision. Defined.
#[global] Instance ResponseType_eq_dec : EqDecision ResponseType.
Proof. solve_decision. Defined.

Record Action : Type := mkAction {
  action_x : Z;
  action_y : Z;
  action_r : Z;
  action_g : Z;
  action_l : Z
}.

Record AgentObservation : Type := mkAgentObservation {
  ao_pos : Vector2;
  ao_vel : Vector2
}.

Record BoxObservation : Type := mkBoxObservation {
  bo_pos : Vector2;
  bo_vel : Vector2;
  boxSize : Vector2;
  boxRotation : float
}.

Record RampObservation : Type := mkRampObservation {
  ro_pos : Vector2;
  ro_vel : Vector2;
  rampRotation : float
}.

(** The value-initialised records written by [obs = {}]. *)
Definition AgentObservation_zero : AgentObservation :=
  mkAgentObservation Vector2_zero Vector2_zero.
Definition BoxObservation_zero : BoxObservation :=
  mkBoxObservation Vector2_zero Vector2_zero Vector2_zero F32.zero.
Definition RampObservation_zero : RampObservation :=
  mkRampObservation Vector2_zero Vector2_zero F32.zero.

(** [madrona::RandKey] and the state of [madrona::RNG]: the key of the
    stream and the number of draws made from it. *)
Record RandKey : Type := mkRandKey { rk_a : Z; rk_b : Z }.
Record RNG : Type := mkRNG { rng_key : RandKey; rng_count : Z }.

(** The two flags of [SimFlags] that the core tests ([sim_flags.hpp] is
    a bit set; one boolean per flag here). *)
Record SimFlags : Type := mkSimFlags {
  UseFixedWorld : bool;
  IgnoreEpisodeLength : bool
}.

(** The [broadphase::BVH] singleton is represented by its ray query:
    origin, direction and maximal distance to the first entity hit (or
    [Entity_none]) and the hit distance. *)
Definition BVH : Type := Vector3 -> Vector3 -> float -> Entity * float.

(** A fixed joint made by [PhysicsSystem::makeFixedJoint]; the attach
    frames are kept as the call passes them. *)
Record FixedJoint : Type := mkFixedJoint {
  joint_e1 : Entity;
  joint_e2 : Entity;
  joint_attach1 : Quat;
  joint_attach2 : Quat;
  joint_r1 : Vector3;
  joint_r2 : Vector3;
  joint_separation : float
}.

(** The components of the [DynamicObject] and [DynAgent] archetypes that
    the core reads or writes.  [grabData] is [Some] on a [DynAgent] and
    [None] on a [DynamicObject], which has no such component. *)
Record DynComponents : Type := mkDyn {
  position : Vector3;
  rotation : Quat;
  scale : Vector3;
  objectID : SimObject;
  velocity : Vector3;
  responseType : ResponseType;
  ownerTeam : OwnerTeam;
  externalForce : Vector3;
  externalTorque : Vector3;
  grabData : option Entity
}.

Definition set_position (v : Vector3) (s : DynComponents) : DynComponents :=
  mkDyn v (rotation s) (scale s) (objectID s) (velocity s) (responseType s)
    (ownerTeam s) (externalForce s) (externalTorque s) (grabData s).

Definition set_rotation (v : Quat) (s : DynComponents) : DynComponents :=
  mkDyn (position s) v (scale s) (objectID s) (velocity s) (responseType s)
    (ownerTeam s) (externalForce s) (externalTorque s) (grabData s).

Definition set_responseType (v : ResponseType) (s : DynComponents) : DynComponents :=
  mkDyn (position s) (rotation s) (scale s) (objectID s) (velocity s) v
    (ownerTeam s) (externalForce s) (externalTorque s) (grabData s).

Definition set_ownerTeam (v : OwnerTeam) (s : DynComponents) : DynComponents :=
  mkDyn (position s) (rotation s) (scale s) (objectID s) (velocity s)
    (responseType s) v (externalForce s) (externalTorque s) (grabData s).

Definition set_externalForce (v : Vector3) (s : DynComponents) : DynComponents :=
  mkDyn (position s) (rotation s) (scale s) (objectID s) (velocity s)
    (responseType s) (ownerTeam s) v (externalTorque s) (grabData s).

Definition set_externalTorque (v : Vector3) (s : DynComponents) : DynComponents :=
  mkDyn (position s) (rotation s) (scale s) (objectID s) (velocity s)
    (responseType s) (ownerTeam s) (externalForce s) v (grabData s).

Definition set_grabData (v : option Entity) (s : DynComponents) : DynComponents :=
  mkDyn (position s) (rotation s) (scale s) (objectID s) (velocity s)
    (responseType s) (ownerTeam s) (externalForce s) (externalTorque s) v.

Definition set_velocity (v : Vector3) (s : DynComponents) : DynComponents :=
  mkDyn (position s) (rotation s) (scale s) (objectID s) v (responseType s)
    (ownerTeam s) (externalForce s) (externalTorque s) (grabData s).

(** The exported components of the [AgentInterface] archetype (the
    camera pose and the lidar scan are left out). *)
Record AgentInterface : Type := mkAgentInterface {
  simEntity : Entity;
  prepCounter : Z;
  action : Action;
  agentType : AgentType;
  activeMask : float;
  agentObs : list AgentObservation;
  boxObs : list BoxObservation;
  rampObs : list RampObservation;
  agentVis : list float;
  boxVis : list float;
  rampVis : list float;
  seed : RandKey;
  reward : float;
  done : Z
}.

Definition set_simEntity (v : Entity) (s : AgentInterface) : AgentInterface :=
  mkAgentInterface v (prepCounter s) (action s) (agentType s) (activeMask s)
    (agentObs s) (boxObs s) (rampObs s) (agentVis s) (boxVis s) (rampVis s)
    (seed s) (reward s) (done s).

Definition set_prepCounter (v : Z) (s : AgentInterface) : AgentInterface :=
  mkAgentInterface (simEntity s) v (action s) (agentType s) (activeMask s)
    (agentObs s) (boxObs s) (rampObs s) (agentVis s) (boxVis s) (rampVis s)
    (seed s) (reward s) (done s).

Definition set_action (v : Action) (s : AgentInterface) : AgentInterface :=
  mkAgentInterface (simEntity s) (prepCounter s) v (agentType s)
    (activeMask s) (agentObs s) (boxObs s) (rampObs s) (agentVis s)
    (boxVis s) (rampVis s) (seed s) (reward s) (done s).

Definition set_agentType (v : AgentType) (s : AgentInterface) : AgentInterface :=
  mkAgentInterface (simEntity s) (prepCounter s) (action s) v (activeMask s)
    (agentObs s) (boxObs s) (rampObs s) (agentVis s) (boxVis s) (rampVis s)
    (seed s) (reward s) (done s).

Definition set_activeMask (v : float) (s : AgentInterface) : AgentInterface :=
  mkAgentInterface (simEntity s) (prepCounter s) (action s) (agentType s) v
    (agentObs s) (boxObs s) (rampObs s) (agentVis s) (boxVis s) (rampVis s)
    (seed s) (reward s) (done s).

Definition set_agentObs (v : list AgentObservation) (s : AgentInterface) : AgentInterface :=
  mkAgentInterface (simEntity s) (prepCounter s) (action s) (agentType s)
    (activeMask s) v (boxObs s) (rampObs s) (agentVis s) (boxVis s)
    (rampVis s) (seed s) (reward s) (done s).

Definition set_boxObs (v : list BoxObservation) (s : AgentInterface) : AgentInterface :=
  mkAgentInterface (simEntity s) (prepCounter s) (action s) (agentType s)
    (activeMask s) (agentObs s) v (rampObs s) (agentVis s) (boxVis s)
    (rampVis s) (seed s) (reward s) (done s).

Definition set_rampObs (v : list RampObservation) (s : AgentInterface) : AgentInterface :=
  mkAgentInterface (simEntity s) (prepCounter s) (action s) (agentType s)
    (activeMask s) (agentObs s) (boxObs s) v (agentVis s) (boxVis s)
    (rampVis s) (seed s) (reward s) (done s).

Definition set_agentVis (v : list float) (s : AgentInterface) : AgentInterface :=
  mkAgentInterface (simEntity s) (prepCounter s) (action s) (agentType s)
    (activeMask s) (agentObs s) (boxObs s) (rampObs s) v (boxVis s)
    (rampVis s) (seed s) (reward s) (done s).

Definition set_boxVis (v : list float) (s : AgentInterface) : AgentInterface :=
  mkAgentInterface (simEntity s) (prepCounter s) (action s) (agentType s)
    (activeMask s) (agentObs s) (boxObs s) (rampObs s) (agentVis s) v
    (rampVis s) (seed s) (reward s) (done s).

Definition set_rampVis (v : list float) (s : AgentInterface) : AgentInterface :=
  mkAgentInterface (simEntity s) (prepCounter s) (action s) (agentType s)
    (activeMask s) (agentObs s) (boxObs s) (rampObs s) (agentVis s)
    (boxVis s) v (seed s) (reward s) (done s).

Definition set_seed (v : RandKey) (s : AgentInterface) : AgentInterface :=
  mkAgentInterface (simEntity s) (prepCounter s) (action s) (agentType s)
    (activeMask s) (agentObs s) (boxObs s) (rampObs s) (agentVis s)
    (boxVis s) (rampVis s) v (reward s) (done s).

Definition set_reward (v : float) (s : AgentInterface) : AgentInterface :=
  mkAgentInterface (simEntity s) (prepCounter s) (action s) (agentType s)
    (activeMask s) (agentObs s) (boxObs s) (rampObs s) (agentVis s)
    (boxVis s) (rampVis s) (seed s) v (done s).

Definition set_done (v : Z) (s : AgentInterface) : AgentInterface :=
  mkAgentInterface (simEntity s) (prepCounter s) (action s) (agentType s)
    (activeMask s) (agentObs s) (boxObs s) (rampObs s) (agentVis s)
    (boxVis s) (rampVis s) (seed s) (reward s) v.

(** The per-world state [struct Sim]; fixed-size tables are lists of the
    declared length. *)
Record Sim : Type := mkSim {
  simFlags : SimFlags;
  initRandKey : RandKey;
  curWorldEpisode : Z;
  curEpisodeRNDCounter : RandKey;
  rng : RNG;
  agentInterfaces : list Entity;
  hiders : list Entity;
  numHiders : Z;
  seekers : list Entity;
  numSeekers : Z;
  numActiveAgents : Z;
  obstacles : list Entity;
  numObstacles : Z;
  boxes : list Entity;
  boxSizes : list Vector2;
  boxRotations : list float;
  ramps : list Entity;
  rampRotations : list float;
  numActiveBoxes : Z;
  numActiveRamps : Z;
  curEpisodeStep : Z;
  enableRender : bool;
  minHiders : Z;
  maxHiders : Z;
  minSeekers : Z;
  maxSeekers : Z;
  maxAgentsPerWorld : Z;
  hiderTeamReward : float
}.

Definition set_curWorldEpisode (v : Z) (s : Sim) : Sim :=
  mkSim (simFlags s) (initRandKey s) v (curEpisodeRNDCounter s) (rng s)
    (agentInterfaces s) (hiders s) (numHiders s) (seekers s) (numSeekers s)
    (numActiveAgents s) (obstacles s) (numObstacles s) (boxes s)
    (boxSizes s) (boxRotations s) (ramps s) (rampRotations s)
    (numActiveBoxes s) (numActiveRamps s) (curEpisodeStep s)
    (enableRender s) (minHiders s) (maxHiders s) (minSeekers s)
    (maxSeekers s) (maxAgentsPerWorld s) (hiderTeamReward s).

Definition set_curEpisodeRNDCounter (v : RandKey) (s : Sim) : Sim :=
  mkSim (simFlags s) (initRandKey s) (curWorldEpisode s) v (rng s)
    (agentInterfaces s) (hiders s) (numHiders s) (seekers s) (numSeekers s)
    (numActiveAgents s) (obstacles s) (numObstacles s) (boxes s)
    (boxSizes s) (boxRotations s) (ramps s) (rampRotations s)
    (numActiveBoxes s) (numActiveRamps s) (curEpisodeStep s)
    (enableRender s) (minHiders s) (maxHiders s) (minSeekers s)
    (maxSeekers s) (maxAgentsPerWorld s) (hiderTeamReward s).

Definition set_rng (v : RNG) (s : Sim) : Sim :=
  mkSim (simFlags s) (initRandKey s) (curWorldEpisode s)
    (curEpisodeRNDCounter s) v (agentInterfaces s) (hiders s) (numHiders s)
    (seekers s) (numSeekers s) (numActiveAgents s) (obstacles s)
    (numObstacles s) (boxes s) (boxSizes s) (boxRotations s) (ramps s)
    (rampRotations s) (numActiveBoxes s) (numActiveRamps s)
    (curEpisodeStep s) (enableRender s) (minHiders s) (maxHiders s)
    (minSeekers s) (maxSeekers s) (maxAgentsPerWorld s) (hiderTeamReward s).

Definition set_agentInterfaces (v : list Entity) (s : Sim) : Sim :=
  mkSim (simFlags s) (initRandKey s) (curWorldEpisode s)
    (curEpisodeRNDCounter s) (rng s) v (hiders s) (numHiders s) (seekers s)
    (numSeekers s) (numActiveAgents s) (obstacles s) (numObstacles s)
    (boxes s) (boxSizes s) (boxRotations s) (ramps s) (rampRotations s)
    (numActiveBoxes s) (numActiveRamps s) (curEpisodeStep s)
    (enableRender s) (minHiders s) (maxHiders s) (minSeekers s)
    (maxSeekers s) (maxAgentsPerWorld s) (hiderTeamReward s).

Definition set_hiders (v : list Entity) (s : Sim) : Sim :=
  mkSim (simFlags s) (initRandKey s) (curWorldEpisode s)
    (curEpisodeRNDCounter s) (rng s) (agentInterfaces s) v (numHiders s)
    (seekers s) (numSeekers s) (numActiveAgents s) (obstacles s)
    (numObstacles s) (boxes s) (boxSizes s) (boxRotations s) (ramps s)
    (rampRotations s) (numActiveBoxes s) (numActiveRamps s)
    (curEpisodeStep s) (enableRender s) (minHiders s) (maxHiders s)
    (minSeekers s) (maxSeekers s) (maxAgentsPerWorld s) (hiderTeamReward s).

Definition set_numHiders (v : Z) (s : Sim) : Sim :=
  mkSim (simFlags s) (initRandKey s) (curWorldEpisode s)
    (curEpisodeRNDCounter s) (rng s) (agentInterfaces s) (hiders s) v
    (seekers s) (numSeekers s) (numActiveAgents s) (obstacles s)
    (numObstacles s) (boxes s) (boxSizes s) (boxRotations s) (ramps s)
    (rampRotations s) (numActiveBoxes s) (numActiveRamps s)
    (curEpisodeStep s) (enableRender s) (minHiders s) (maxHiders s)
    (minSeekers s) (maxSeekers s) (maxAgentsPerWorld s) (hiderTeamReward s).

Definition set_seekers (v : list Entity) (s : Sim) : Sim :=
  mkSim (simFlags s) (initRandKey s) (curWorldEpisode s)
    (curEpisodeRNDCounter s) (rng s) (agentInterfaces s) (hiders s)
    (numHiders s) v (numSeekers s) (numActiveAgents s) (obstacles s)
    (numObstacles s) (boxes s) (boxSizes s) (boxRotations s) (ramps s)
    (rampRotations s) (numActiveBoxes s) (numActiveRamps s)
    (curEpisodeStep s) (enableRender s) (minHiders s) (maxHiders s)
    (minSeekers s) (maxSeekers s) (maxAgentsPerWorld s) (hiderTeamReward s).

Definition set_numSeekers (v : Z) (s : Sim) : Sim :=
  mkSim (simFlags s) (initRandKey s) (curWorldEpisode s)
    (curEpisodeRNDCounter s) (rng s) (agentInterfaces s) (hiders s)
    (numHiders s) (seekers s) v (numActiveAgents s) (obstacles s)
    (numObstacles s) (boxes s) (boxSizes s) (boxRotations s) (ramps s)
    (rampRotations s) (numActiveBoxes s) (numActiveRamps s)
    (curEpisodeStep s) (enableRender s) (minHiders s) (maxHiders s)
    (minSeekers s) (maxSeekers s) (maxAgentsPerWorld s) (hiderTeamReward s).

Definition set_numActiveAgents (v : Z) (s : Sim) : Sim :=
  mkSim (simFlags s) (initRandKey s) (curWorldEpisode s)
    (curEpisodeRNDCounter s) (rng s) (agentInterfaces s) (hiders s)
    (numHiders s) (seekers s) (numSeekers s) v (obstacles s)
    (numObstacles s) (boxes s) (boxSizes s) (boxRotations s) (ramps s)
    (rampRotations s) (numActiveBoxes s) (numActiveRamps s)
    (curEpisodeStep s) (enableRender s) (minHiders s) (maxHiders s)
    (minSeekers s) (maxSeekers s) (maxAgentsPerWorld s) (hiderTeamReward s).

Definition set_obstacles (v : list Entity) (s : Sim) : Sim :=
  mkSim (simFlags s) (initRandKey s) (curWorldEpisode s)
    (curEpisodeRNDCounter s) (rng s) (agentInterfaces s) (hiders s)
    (numHiders s) (seekers s) (numSeekers s) (numActiveAgents s) v
    (numObstacles s) (boxes s) (boxSizes s) (boxRotations s) (ramps s)
    (rampRotations s) (numActiveBoxes s) (numActiveRamps s)
    (curEpisodeStep s) (enableRender s) (minHiders s) (maxHiders s)
    (minSeekers s) (maxSeekers s) (maxAgentsPerWorld s) (hiderTeamReward s).

Definition set_numObstacles (v : Z) (s : Sim) : Sim :=
  mkSim (simFlags s) (initRandKey s) (curWorldEpisode s)
    (curEpisodeRNDCounter s) (rng s) (agentInterfaces s) (hiders s)
    (numHiders s) (seekers s) (numSeekers s) (numActiveAgents s)
    (obstacles s) v (boxes s) (boxSizes s) (boxRotations s) (ramps s)
    (rampRotations s) (numActiveBoxes s) (numActiveRamps s)
    (curEpisodeStep s) (enableRender s) (minHiders s) (maxHiders s)
    (minSeekers s) (maxSeekers s) (maxAgentsPerWorld s) (hiderTeamReward s).

Definition set_boxes (v : list Entity) (s : Sim) : Sim :=
  mkSim (simFlags s) (initRandKey s) (curWorldEpisode s)
    (curEpisodeRNDCounter s) (rng s) (agentInterfaces s) (hiders s)
    (numHiders s) (seekers s) (numSeekers s) (numActiveAgents s)
    (obstacles s) (numObstacles s) v (boxSizes s) (boxRotations s) (ramps s)
    (rampRotations s) (numActiveBoxes s) (numActiveRamps s)
    (curEpisodeStep s) (enableRender s) (minHiders s) (maxHiders s)
    (minSeekers s) (maxSeekers s) (maxAgentsPerWorld s) (hiderTeamReward s).

Definition set_boxSizes (v : list Vector2) (s : Sim) : Sim :=
  mkSim (simFlags s) (initRandKey s) (curWorldEpisode s)
    (curEpisodeRNDCounter s) (rng s) (agentInterfaces s) (hiders s)
    (numHiders s) (seekers s) (numSeekers s) (numActiveAgents s)
    (obstacles s) (numObstacles s) (boxes s) v (boxRotations s) (ramps s)
    (rampRotations s) (numActiveBoxes s) (numActiveRamps s)
    (curEpisodeStep s) (enableRender s) (minHiders s) (maxHiders s)
    (minSeekers s) (maxSeekers s) (maxAgentsPerWorld s) (hiderTeamReward s).

Definition set_boxRotations (v : list float) (s : Sim) : Sim :=
  mkSim (simFlags s) (initRandKey s) (curWorldEpisode s)
    (curEpisodeRNDCounter s) (rng s) (agentInterfaces s) (hiders s)
    (numHiders s) (seekers s) (numSeekers s) (numActiveAgents s)
    (obstacles s) (numObstacles s) (boxes s) (boxSizes s) v (ramps s)
    (rampRotations s) (numActiveBoxes s) (numActiveRamps s)
    (curEpisodeStep s) (enableRender s) (minHiders s) (maxHiders s)
    (minSeekers s) (maxSeekers s) (maxAgentsPerWorld s) (hiderTeamReward s).

Definition set_ramps (v : list Entity) (s : Sim) : Sim :=
  mkSim (simFlags s) (initRandKey s) (curWorldEpisode s)
    (curEpisodeRNDCounter s) (rng s) (agentInterfaces s) (hiders s)
    (numHiders s) (seekers s) (numSeekers s) (numActiveAgents s)
    (obstacles s) (numObstacles s) (boxes s) (boxSizes s) (boxRotations s) v
    (rampRotations s) (numActiveBoxes s) (numActiveRamps s)
    (curEpisodeStep s) (enableRender s) (minHiders s) (maxHiders s)
    (minSeekers s) (maxSeekers s) (maxAgentsPerWorld s) (hiderTeamReward s).

Definition set_rampRotations (v : list float) (s : Sim) : Sim :=
  mkSim (simFlags s) (initRandKey s) (curWorldEpisode s)
    (curEpisodeRNDCounter s) (rng s) (agentInterfaces s) (hiders s)
    (numHiders s) (seekers s) (numSeekers s) (numActiveAgents s)
    (obstacles s) (numObstacles s) (boxes s) (boxSizes s) (boxRotations s)
    (ramps s) v (numActiveBoxes s) (numActiveRamps s) (curEpisodeStep s)
    (enableRender s) (minHiders s) (maxHiders s) (minSeekers s)
    (maxSeekers s) (maxAgentsPerWorld s) (hiderTeamReward s).

Definition set_numActiveBoxes (v : Z) (s : Sim) : Sim :=
  mkSim (simFlags s) (initRandKey s) (curWorldEpisode s)
    (curEpisodeRNDCounter s) (rng s) (agentInterfaces s) (hiders s)
    (numHiders s) (seekers s) (numSeekers s) (numActiveAgents s)
    (obstacles s) (numObstacles s) (boxes s) (boxSizes s) (boxRotations s)
    (ramps s) (rampRotations s) v (numActiveRamps s) (curEpisodeStep s)
    (enableRender s) (minHiders s) (maxHiders s) (minSeekers s)
    (maxSeekers s) (maxAgentsPerWorld s) (hiderTeamReward s).

Definition set_numActiveRamps (v : Z) (s : Sim) : Sim :=
  mkSim (simFlags s) (initRandKey s) (curWorldEpisode s)
    (curEpisodeRNDCounter s) (rng s) (agentInterfaces s) (hiders s)
    (numHiders s) (seekers s) (numSeekers s) (numActiveAgents s)
    (obstacles s) (numObstacles s) (boxes s) (boxSizes s) (boxRotations s)
    (ramps s) (rampRotations s) (numActiveBoxes s) v (curEpisodeStep s)
    (enableRender s) (minHiders s) (maxHiders s) (minSeekers s)
    (maxSeekers s) (maxAgentsPerWorld s) (hiderTeamReward s).

Definition set_curEpisodeStep (v : Z) (s : Sim) : Sim :=
  mkSim (simFlags s) (initRandKey s) (curWorldEpisode s)
    (curEpisodeRNDCounter s) (rng s) (agentInterfaces s) (hiders s)
    (numHiders s) (seekers s) (numSeekers s) (numActiveAgents s)
    (obstacles s) (numObstacles s) (boxes s) (boxSizes s) (boxRotations s)
    (ramps s) (rampRotations s) (numActiveBoxes s) (numActiveRamps s) v
    (enableRender s) (minHiders s) (maxHiders s) (minSeekers s)
    (maxSeekers s) (maxAgentsPerWorld s) (hiderTeamReward s).

Definition set_hiderTeamReward (v : float) (s : Sim) : Sim :=
  mkSim (simFlags s) (initRandKey s) (curWorldEpisode s)
    (curEpisodeRNDCounter s) (rng s) (agentInterfaces s) (hiders s)
    (numHiders s) (seekers s) (numSeekers s) (numActiveAgents s)
    (obstacles s) (numObstacles s) (boxes s) (boxSizes s) (boxRotations s)
    (ramps s) (rampRotations s) (numActiveBoxes s) (numActiveRamps s)
    (curEpisodeStep s) (enableRender s) (minHiders s) (maxHiders s)
    (minSeekers s) (maxSeekers s) (maxAgentsPerWorld s) v.

(** [Engine]: the world data together with the entity tables and
    singletons that [ctx] gives access to.  Entity identifiers are issued
    from [nextEntity] and are not reused. *)
Record Engine : Type := mkEngine {
  data : Sim;
  dynEntities : gmap nat DynComponents;
  interfaces : gmap nat AgentInterface;
  constraints : gmap nat FixedJoint;
  nextEntity : nat;
  bvh : BVH;
  worldReset : Z;
  loadCheckpoint : Z;
  checkpoint : RandKey;
  worldID : Z
}.

Definition set_data (v : Sim) (s : Engine) : Engine :=
  mkEngine v (dynEntities s) (interfaces s) (constraints s) (nextEntity s)
    (bvh s) (worldReset s) (loadCheckpoint s) (checkpoint s) (worldID s).

Definition set_dynEntities (v : gmap nat DynComponents) (s : Engine) : Engine :=
  mkEngine (data s) v (interfaces s) (constraints s) (nextEntity s) (bvh s)
    (worldReset s) (loadCheckpoint s) (checkpoint s) (worldID s).

Definition set_interfaces (v : gmap nat AgentInterface) (s : Engine) : Engine :=
  mkEngine (data s) (dynEntities s) v (constraints s) (nextEntity s) (bvh s)
    (worldReset s) (loadCheckpoint s) (checkpoint s) (worldID s).

Definition set_constraints (v : gmap nat FixedJoint) (s : Engine) : Engine :=
  mkEngine (data s) (dynEntities s) (interfaces s) v (nextEntity s) (bvh s)
    (worldReset s) (loadCheckpoint s) (checkpoint s) (worldID s).

Definition set_nextEntity (v : nat) (s : Engine) : Engine :=
  mkEngine (data s) (dynEntities s) (interfaces s) (constraints s) v (bvh s)
    (worldReset s) (loadCheckpoint s) (checkpoint s) (worldID s).

Definition set_bvh (v : BVH) (s : Engine) : Engine :=
  mkEngine (data s) (dynEntities s) (interfaces s) (constraints s)
    (nextEntity s) v (worldReset s) (loadCheckpoint s) (checkpoint s)
    (worldID s).

Definition set_worldReset (v : Z) (s : Engine) : Engine :=
  mkEngine (data s) (dynEntities s) (interfaces s) (constraints s)
    (nextEntity s) (bvh s) v (loadCheckpoint s) (checkpoint s) (worldID s).


(** ** Access to the entity tables *)

(** [ctx.get<T>(e)] for a component of a physics entity.  Reading a
    component of an entity that is not alive is outside the contract of
    the ECS; the systems below leave the world as it is in that case. *)
Definition getDyn (ctx : Engine) (e : Entity) : option DynComponents :=
  match e with
  | Entity_none => None
  | Entity_id n => dynEntities ctx !! n
  end.

Definition updDyn (f : DynComponents -> DynComponents) (e : Entity)
    (ctx : Engine) : Engine :=
  match e with
  | Entity_none => ctx
  | Entity_id n => set_dynEntities (alter f n (dynEntities ctx)) ctx
  end.

Definition getIface (ctx : Engine) (e : Entity) : option AgentInterface :=
  match e with
  | Entity_none => None
  | Entity_id n => interfaces ctx !! n
  end.

Definition updIface (f : AgentInterface -> AgentInterface) (e : Entity)
    (ctx : Engine) : Engine :=
  match e with
  | Entity_none => ctx
  | Entity_id n => set_interfaces (alter f n (interfaces ctx)) ctx
  end.

Definition updData (f : Sim -> Sim) (ctx : Engine) : Engine :=
  set_data (f (data ctx)) ctx.

(** [ctx.destroyEntity] on a constraint entity. *)
Definition destroyConstraint (e : Entity) (ctx : Engine) : Engine :=
  match e with
  | Entity_none => ctx
  | Entity_id n => set_constraints (delete n (constraints ctx)) ctx
  end.

(** [PhysicsSystem::makeFixedJoint]: a new constraint entity. *)
Definition makeFixedJoint (ctx : Engine) (j : FixedJoint) : Entity * Engine :=
  let n := nextEntity ctx in
  (Entity_id n,
   set_nextEntity (S n) (set_constraints (<[n := j]> (constraints ctx)) ctx)).

(** ** Collaborators

    Functions of the math library, of the physics object manager and of
    the random generator that the core calls but does not define. *)

(** The bounding box of an object under a pose, as [AABB::applyTRS]
    receives it: the object's box in its own frame is looked up by the
    object id. *)
Record Placement : Type := mkPlacement {
  pl_obj : SimObject;
  pl_pos : Vector3;
  pl_rot : Quat;
  pl_scale : Vector3
}.

Record Extern : Type := mkExtern {
  rotateVec : Quat -> Vector3 -> Vector3;
  quatInv : Quat -> Quat;
  quatMul : Quat -> Quat -> Quat;
  quatNormalize : Quat -> Quat;
  angleAxis : float -> Vector3 -> Quat;
  v3normalize : Vector3 -> Vector3;
  atan2f : float -> float -> float;
  (** [cosf(toRadians(135.f / 2.f))] *)
  cos_angle_threshold : float;
  (** [math::pi] *)
  pi : float;
  (** [a.applyTRS(..).overlaps(b.applyTRS(..))] on the object boxes *)
  aabbOverlaps : Placement -> Placement -> bool;
  (** the raw 32-bit word and the uniform sample in [0, 1) that the
      generator yields for draw number [n] of the stream of a key *)
  bits32 : RandKey -> Z -> Z;
  uniform01 : RandKey -> Z -> float;
  (** [rand::split_i] *)
  split_i : RandKey -> Z -> Z -> RandKey;
  (** the wall layout that the static-geometry pass draws for an arena of
      the given half extents *)
  staticWalls : RNG -> Vector2 -> list Placement * RNG
}.

(** ** The per-tick systems ([sim.cpp]) *)

Definition discrete_action_buckets : Z := 11.
Definition half_buckets : Z := discrete_action_buckets / 2.
Definition move_discrete_action_max : float := F32.ofZ 60.
Definition move_delta_per_bucket : float :=
  F32.div move_discrete_action_max (F32.ofZ half_buckets).
Definition turn_discrete_action_max : float := F32.ofZ 15.
Definition turn_delta_per_bucket : float :=
  F32.div turn_discrete_action_max (F32.ofZ half_buckets).

(** The literals [0.5f], [1.25f] and [2.5f]. *)
Definition f_0_5 : float := F32.div (F32.ofZ 1) (F32.ofZ 2).
Definition f_1_25 : float := F32.div (F32.ofZ 5) (F32.ofZ 4).
Definition f_2_5 : float := F32.div (F32.ofZ 5) (F32.ofZ 2).

(** The neutral action that "consuming" leaves behind and that
    [makeAgent] installs. *)
Definition Action_neutral : Action := mkAction 5 5 5 0 0.

Section Systems.

Variable ext : Extern.

Definition movementSystem (ctx : Engine) (action : Action) (sim_e : Entity)
    (agent_type : AgentType) : Engine :=
  if decide (sim_e = Entity_none) then ctx
  else if bool_decide (agent_type = Seeker)
          && (curEpisodeStep (data ctx) <? numPrepSteps - 1) then ctx
  else
    match getDyn ctx sim_e with
    | None => ctx
    | Some c =>
        let cur_rot := rotation c in
        let f_x := F32.mul move_delta_per_bucket (F32.ofZ (action_x action - 5)) in
        let f_y := F32.mul move_delta_per_bucket (F32.ofZ (action_y action - 5)) in
        let t_z := F32.mul turn_delta_per_bucket (F32.ofZ (action_r action - 5)) in
        let ctx := updDyn (set_externalForce
                             (rotateVec ext cur_rot (mkVector3 f_x f_y F32.zero)))
                          sim_e ctx in
        updDyn (set_externalTorque (mkVector3 F32.zero F32.zero t_z)) sim_e ctx
    end.

(** The [if (action.l == 1)] block of [actionSystem]. *)
Definition lockBlock (ctx : Engine) (sim_e : Entity) (agent_type : AgentType)
    : Engine :=
  match getDyn ctx sim_e with
  | None => ctx
  | Some c =>
      let cur_pos := position c in
      let cur_rot := rotation c in
      let '(lock_entity, _) :=
        bvh ctx (v3add cur_pos (v3scale f_0_5 math.up))
                (rotateVec ext cur_rot math.fwd) f_2_5 in
      if decide (lock_entity = Entity_none) then ctx
      else
        match getDyn ctx lock_entity with
        | None => ctx
        | Some o =>
            if decide (responseType o = Static) then
              if bool_decide (agent_type = Seeker /\ ownerTeam o = OwnerTeam_Seeker)
                 || bool_decide (agent_type = Hider /\ ownerTeam o = OwnerTeam_Hider)
              then updDyn (fun o => set_ownerTeam OwnerTeam_None
                                      (set_responseType Dynamic o))
                          lock_entity ctx
              else ctx
            else
              if decide (ownerTeam o = OwnerTeam_None) then
                updDyn (fun o =>
                          set_ownerTeam
                            (if decide (agent_type = Hider)
                             then OwnerTeam_Hider else OwnerTeam_Seeker)
                            (set_responseType Static o))
                       lock_entity ctx
              else ctx
        end
  end.

(** The [if (action.g == 1)] block of [actionSystem]. *)
Definition grabBlock (ctx : Engine) (sim_e : Entity) : Engine :=
  match getDyn ctx sim_e with
  | None => ctx
  | Some c =>
      let cur_pos := position c in
      let cur_rot := rotation c in
      match grabData c with
      | None => ctx
      | Some constraintEntity =>
          if decide (constraintEntity <> Entity_none) then
            updDyn (set_grabData (Some Entity_none)) sim_e
                   (destroyConstraint constraintEntity ctx)
          else
            let ray_o := v3add cur_pos (v3scale f_0_5 math.up) in
            let ray_d := rotateVec ext cur_rot math.fwd in
            let '(grab_entity, hit_t) := bvh ctx ray_o ray_d f_2_5 in
            if decide (grab_entity = Entity_none) then ctx
            else
              match getDyn ctx grab_entity with
              | None => ctx
              | Some o =>
                  if bool_decide (ownerTeam o = OwnerTeam_None)
                     && bool_decide (responseType o = Dynamic) then
                    let other_pos := position o in
                    let other_rot := rotation o in
                    let r1 := v3add (v3scale f_1_25 math.fwd)
                                    (v3scale f_0_5 math.up) in
                    let hit_pos := v3add ray_o (v3scale hit_t ray_d) in
                    let r2 := rotateVec ext (quatInv ext other_rot)
                                        (v3sub hit_pos other_pos) in
                    let attach1 := mkQuat (F32.ofZ 1) F32.zero F32.zero F32.zero in
                    let attach2 := quatNormalize ext
                                     (quatMul ext (quatInv ext other_rot) cur_rot) in
                    let separation := F32.sub hit_t f_1_25 in
                    let '(j, ctx) :=
                      makeFixedJoint ctx
                        (mkFixedJoint sim_e grab_entity attach1 attach2
                                      r1 r2 separation) in
                    updDyn (set_grabData (Some j)) sim_e ctx
                  else ctx
              end
      end
  end.

Definition actionSystem (ctx : Engine) (action : Action) (sim_e : Entity)
    (agent_type : AgentType) : Engine * Action :=
  if decide (sim_e = Entity_none) then (ctx, action)
  else if bool_decide (agent_type = Seeker)
          && (curEpisodeStep (data ctx) <? numPrepSteps - 1) then (ctx, action)
  else
    let ctx := if action_l action =? 1
               then lockBlock ctx sim_e agent_type else ctx in
    let ctx := if action_g action =? 1
               then grabBlock ctx sim_e else ctx in
    (ctx, mkAction 5 5 5 0 0).

(** A table read [tbl[i]]; the tables hold [Entity_none] where nothing
    was stored. *)
Definition entityAt (tbl : list Entity) (i : Z) : Entity :=
  default Entity_none (tbl !! Z.to_nat i).

(** A write [arr[i] = v] into a fixed-size array.  The systems only
    write below the declared length; a write past the end, undefined in
    the source, leaves the list as it is. *)
Definition writeAt {A : Type} (i : Z) (v : A) (arr : list A) : list A :=
  <[Z.to_nat i := v]> arr.

(** The components of a physics entity for a read-only use; the record of
    a dead entity is never read by a system on a live agent, and reads as
    a fixed null record here. *)
Definition DynComponents_null : DynComponents :=
  mkDyn Vector3_zero (mkQuat F32.zero F32.zero F32.zero F32.zero) Vector3_zero
        Sphere Vector3_zero Dynamic OwnerTeam_None Vector3_zero Vector3_zero None.

Definition readDyn (ctx : Engine) (e : Entity) : DynComponents :=
  default DynComponents_null (getDyn ctx e).

(** The yaw of a relative rotation, as both observation loops compute
    it with [atan2f]. *)
Definition relativeYaw (relative_rot : Quat) : float :=
  let two := F32.ofZ 2 in
  atan2f ext
    (F32.mul two (F32.add (F32.mul (qw relative_rot) (qz relative_rot))
                          (F32.mul (qx relative_rot) (qy relative_rot))))
    (F32.sub (F32.ofZ 1)
       (F32.mul two (F32.add (F32.mul (qy relative_rot) (qy relative_rot))
                             (F32.mul (qz relative_rot) (qz relative_rot))))).

Definition boxObservationOf (ctx : Engine) (agent_pos : Vector3)
    (agent_rot : Quat) (box_idx : Z) : BoxObservation :=
  let box_e := entityAt (boxes (data ctx)) box_idx in
  let box_pos := position (readDyn ctx box_e) in
  let box_vel := velocity (readDyn ctx box_e) in
  let box_rot := rotation (readDyn ctx box_e) in
  let box_relative_pos :=
    rotateVec ext (quatInv ext agent_rot) (v3sub box_pos agent_pos) in
  let box_relative_vel := rotateVec ext (quatInv ext agent_rot) box_vel in
  let relative_rot := quatMul ext agent_rot (quatInv ext box_rot) in
  mkBoxObservation
    (mkVector2 (v3x box_relative_pos) (v3y box_relative_pos))
    (mkVector2 (v3x box_relative_vel) (v3y box_relative_vel))
    (default Vector2_zero (boxSizes (data ctx) !! Z.to_nat box_idx))
    (relativeYaw relative_rot).

Definition rampObservationOf (ctx : Engine) (agent_pos : Vector3)
    (agent_rot : Quat) (ramp_idx : Z) : RampObservation :=
  let ramp_e := entityAt (ramps (data ctx)) ramp_idx in
  let ramp_pos := position (readDyn ctx ramp_e) in
  let ramp_vel := velocity (readDyn ctx ramp_e) in
  let ramp_rot := rotation (readDyn ctx ramp_e) in
  let ramp_relative_pos :=
    rotateVec ext (quatInv ext agent_rot) (v3sub ramp_pos agent_pos) in
  let ramp_relative_vel := rotateVec ext (quatInv ext agent_rot) ramp_vel in
  let relative_rot := quatMul ext agent_rot (quatInv ext ramp_rot) in
  mkRampObservation
    (mkVector2 (v3x ramp_relative_pos) (v3y ramp_relative_pos))
    (mkVector2 (v3x ramp_relative_vel) (v3y ramp_relative_vel))
    (relativeYaw relative_rot).

Definition agentObservationOf (ctx : Engine) (agent_pos : Vector3)
    (agent_rot : Quat) (other_agent_e : Entity) : AgentObservation :=
  let other_agent_sim_e :=
    match getIface ctx other_agent_e with
    | Some i => simEntity i
    | None => Entity_none
    end in
  let other_agent_pos := position (readDyn ctx other_agent_sim_e) in
  let other_agent_vel := velocity (readDyn ctx other_agent_sim_e) in
  let other_agent_relative_pos :=
    rotateVec ext (quatInv ext agent_rot) (v3sub other_agent_pos agent_pos) in
  let other_agent_relative_vel :=
    rotateVec ext (quatInv ext agent_rot) other_agent_vel in
  mkAgentObservation
    (mkVector2 (v3x other_agent_relative_pos) (v3y other_agent_relative_pos))
    (mkVector2 (v3x other_agent_relative_vel) (v3y other_agent_relative_vel)).

(** The three loops of [collectObservationsSystem]; each runs over the
    whole table and writes the slots in place. *)
Definition boxObsLoop (ctx : Engine) (agent_pos : Vector3) (agent_rot : Quat)
    (box_obs : list BoxObservation) : list BoxObservation :=
  let num_boxes := numActiveBoxes (data ctx) in
  foldl (fun obs box_idx =>
           if box_idx >=? num_boxes
           then writeAt box_idx BoxObservation_zero obs
           else writeAt box_idx (boxObservationOf ctx agent_pos agent_rot box_idx) obs)
        box_obs (seqZ 0 consts.maxBoxes).

Definition rampObsLoop (ctx : Engine) (agent_pos : Vector3) (agent_rot : Quat)
    (ramp_obs : list RampObservation) : list RampObservation :=
  let num_ramps := numActiveRamps (data ctx) in
  foldl (fun obs ramp_idx =>
           if ramp_idx >=? num_ramps
           then writeAt ramp_idx RampObservation_zero obs
           else writeAt ramp_idx (rampObservationOf ctx agent_pos agent_rot ramp_idx) obs)
        ramp_obs (seqZ 0 consts.maxRamps).

Definition agentObsLoop (ctx : Engine) (agent_e : Entity) (agent_pos : Vector3)
    (agent_rot : Quat) (agent_obs : list AgentObservation)
    : list AgentObservation * Z :=
  let num_agents := numActiveAgents (data ctx) in
  foldl (fun '(obs, num_other_agents) agent_idx =>
           if agent_idx >=? num_agents
           then (writeAt num_other_agents AgentObservation_zero obs,
                 num_other_agents + 1)
           else
             let other_agent_e := entityAt (agentInterfaces (data ctx)) agent_idx in
             if decide (agent_e = other_agent_e) then (obs, num_other_agents)
             else (writeAt num_other_agents
                           (agentObservationOf ctx agent_pos agent_rot other_agent_e)
                           obs,
                   num_other_agents + 1))
        (agent_obs, 0) (seqZ 0 consts.maxAgents).

Definition collectObservationsSystem (ctx : Engine) (agent_e sim_e : Entity)
    (agent_obs : list AgentObservation) (box_obs : list BoxObservation)
    (ramp_obs : list RampObservation) (prep_counter : Z)
    : list AgentObservation * list BoxObservation * list RampObservation * Z :=
  if decide (sim_e = Entity_none) then (agent_obs, box_obs, ramp_obs, prep_counter)
  else
    let cur_step := curEpisodeStep (data ctx) in
    let prep_counter :=
      if cur_step <=? numPrepSteps then numPrepSteps - cur_step
      else prep_counter in
    let agent_pos := position (readDyn ctx sim_e) in
    let agent_rot := rotation (readDyn ctx sim_e) in
    let box_obs := boxObsLoop ctx agent_pos agent_rot box_obs in
    let ramp_obs := rampObsLoop ctx agent_pos agent_rot ramp_obs in
    let agent_obs := fst (agentObsLoop ctx agent_e agent_pos agent_rot agent_obs) in
    (agent_obs, box_obs, ramp_obs, prep_counter).

(** The lambda [checkVisibility] of [computeVisibilitySystem]. *)
Definition checkVisibility (ctx : Engine) (agent_pos agent_fwd : Vector3)
    (other_e : Entity) : float :=
  let other_pos := position (readDyn ctx other_e) in
  let to_other := v3sub other_pos agent_pos in
  let to_other_norm := v3normalize ext to_other in
  let cos_angle := v3dot to_other_norm agent_fwd in
  if F32.ltb cos_angle (cos_angle_threshold ext) then F32.zero
  else
    let '(hit_entity, _) := bvh ctx agent_pos to_other (F32.ofZ 1) in
    if decide (hit_entity = other_e) then F32.ofZ 1 else F32.zero.

(** A [float] used as a condition, and a [bool] stored into a [float]. *)
Definition float_to_bool (f : float) : bool :=
  match f with
  | S754_zero _ => false
  | _ => true
  end.
Definition bool_to_float (b : bool) : float :=
  if b then F32.ofZ 1 else F32.zero.

(** [computeVisibilitySystem], the host path (the branch compiled when
    [MADRONA_GPU_MODE] is not defined). *)
Definition boxVisLoop (ctx : Engine) (agent_pos agent_fwd : Vector3)
    (box_vis : list float) : list float :=
  let num_boxes := numActiveBoxes (data ctx) in
  foldl (fun vis box_idx =>
           if box_idx <? num_boxes
           then writeAt box_idx
                  (checkVisibility ctx agent_pos agent_fwd
                     (entityAt (boxes (data ctx)) box_idx)) vis
           else writeAt box_idx F32.zero vis)
        box_vis (seqZ 0 consts.maxBoxes).

Definition rampVisLoop (ctx : Engine) (agent_pos agent_fwd : Vector3)
    (ramp_vis : list float) : list float :=
  let num_ramps := numActiveRamps (data ctx) in
  foldl (fun vis ramp_idx =>
           if ramp_idx <? num_ramps
           then writeAt ramp_idx
                  (checkVisibility ctx agent_pos agent_fwd
                     (entityAt (ramps (data ctx)) ramp_idx)) vis
           else writeAt ramp_idx F32.zero vis)
        ramp_vis (seqZ 0 consts.maxRamps).

(** The agent loop also stores into [hiderTeamReward]; the accumulator
    is threaded through the loop together with the running slot
    index. *)
Definition agentVisLoop (ctx : Engine) (agent_e : Entity) (agent_type : AgentType)
    (agent_pos agent_fwd : Vector3) (agent_vis : list float)
    : list float * Z * float :=
  let num_agents := numActiveAgents (data ctx) in
  foldl (fun '(vis, num_other_agents, team_reward) agent_idx =>
           if agent_idx >=? num_agents
           then (writeAt num_other_agents F32.zero vis, num_other_agents + 1,
                 team_reward)
           else
             let other_agent_e := entityAt (agentInterfaces (data ctx)) agent_idx in
             if decide (agent_e = other_agent_e)
             then (vis, num_other_agents, team_reward)
             else
               let other_agent_sim_e :=
                 match getIface ctx other_agent_e with
                 | Some i => simEntity i
                 | None => Entity_none
                 end in
               let is_visible :=
                 float_to_bool
                   (checkVisibility ctx agent_pos agent_fwd other_agent_sim_e) in
               let team_reward :=
                 if bool_decide (agent_type = Seeker) && is_visible then
                   match getIface ctx other_agent_e with
                   | Some i => if decide (agentType i = Hider)
                               then F32.ofZ (-1) else team_reward
                   | None => team_reward
                   end
                 else team_reward in
               (writeAt num_other_agents (bool_to_float is_visible) vis,
                num_other_agents + 1, team_reward))
        (agent_vis, 0, hiderTeamReward (data ctx)) (seqZ 0 consts.maxAgents).

Definition computeVisibilitySystem (ctx : Engine) (agent_e sim_e : Entity)
    (agent_type : AgentType) (agent_vis box_vis ramp_vis : list float)
    : Engine * list float * list float * list float :=
  if decide (sim_e = Entity_none) then (ctx, agent_vis, box_vis, ramp_vis)
  else
    let agent_pos := position (readDyn ctx sim_e) in
    let agent_rot := rotation (readDyn ctx sim_e) in
    let agent_fwd := rotateVec ext agent_rot math.fwd in
    let box_vis := boxVisLoop ctx agent_pos agent_fwd box_vis in
    let ramp_vis := rampVisLoop ctx agent_pos agent_fwd ramp_vis in
    let '(agent_vis, _, team_reward) :=
      agentVisLoop ctx agent_e agent_type agent_pos agent_fwd agent_vis in
    (updData (set_hiderTeamReward team_reward) ctx, agent_vis, box_vis, ramp_vis).

(** The team value of an agent before the arena-bound penalty: the
    shared scalar, negated for a seeker. *)
Definition teamRewardVal (ctx : Engine) (agent_type : AgentType) : float :=
  let reward_val := hiderTeamReward (data ctx) in
  if decide (agent_type = Seeker)
  then F32.mul reward_val (F32.ofZ (-1)) else reward_val.

(** The test [fabsf(pos.x) >= 18.f || fabsf(pos.y) >= 18.f]. *)
Definition outsideArena (pos : Vector3) : bool :=
  F32.geb (F32.abs (v3x pos)) (F32.ofZ 18)
  || F32.geb (F32.abs (v3y pos)) (F32.ofZ 18).

Definition outputRewardsDonesSystem (ctx : Engine) (sim_e : Entity)
    (agent_type : AgentType) (reward : float) (done : Z) : float * Z :=
  if decide (sim_e = Entity_none) then (reward, done)
  else
    let cur_step := curEpisodeStep (data ctx) in
    let done := if cur_step =? 0 then 0 else done in
    if cur_step <? numPrepSteps - 1 then (F32.zero, done)
    else
      let done := if cur_step =? episodeLen - 1 then 1 else done in
      let reward_val := teamRewardVal ctx agent_type in
      let pos := position (readDyn ctx sim_e) in
      let reward_val :=
        if outsideArena pos then F32.sub reward_val (F32.ofZ 10)
        else reward_val in
      (reward_val, done).

End Systems.

(** ** The random generator ([madrona::RNG])

    The generator belongs to the engine library.  A draw reads the raw
    word (or the uniform sample) that [Extern] supplies for the current
    position of the stream and advances the position.  [sampleI32 a b]
    reduces the raw word to the half-open range from [a] to [b] by a
    multiply-high, so that an empty range yields [a]. *)

Definition two32 : Z := 2 ^ 32.

(** ** Fallible, stateful code

    The reset path writes into fixed-size tables and checks assertions.
    A computation of type [Gen A] runs on the engine state and either
    returns a value and the new state or stops with a fault: a table
    access past the declared length, a failed [assert], the use of an
    entity that was never created, or a loop that did not finish within
    the given fuel. *)

Inductive Fault : Type :=
| OutOfBounds
| AssertFailed
| InvalidEntity
| OutOfFuel.

Inductive Result (A : Type) : Type :=
| Ok (a : A)
| Err (f : Fault).

Arguments Ok {A} a.
Arguments Err {A} f.

Definition Gen (A : Type) : Type := Engine -> Result (A * Engine).

Definition ret {A : Type} (a : A) : Gen A := fun ctx => Ok (a, ctx).

Definition bind {A B : Type} (m : Gen A) (k : A -> Gen B) : Gen B :=
  fun ctx =>
    match m ctx with
    | Ok (a, ctx') => k a ctx'
    | Err f => Err f
    end.

Notation "x <- m ;; k" := (bind m (fun x => k))
  (at level 90, m at level 89, right associativity).
Notation "m ;;; k" := (bind m (fun _ => k))
  (at level 90, right associativity).

Definition fail {A : Type} (f : Fault) : Gen A := fun _ => Err f.
Definition gets {A : Type} (f : Engine -> A) : Gen A := fun ctx => Ok (f ctx, ctx).
Definition modify (f : Engine -> Engine) : Gen unit := fun ctx => Ok (tt, f ctx).
Definition assert (b : bool) : Gen unit :=
  if b then ret tt else fail AssertFailed.

Section Generator.

Variable ext : Extern.

Definition sampleI32 (a b : Z) (r : RNG) : Z * RNG :=
  let s := (b - a) mod two32 in
  let u := bits32 ext (rng_key r) (rng_count r) mod two32 in
  (a + (u * s) / two32, mkRNG (rng_key r) (rng_count r + 1)).

Definition sampleUniform (r : RNG) : float * RNG :=
  (uniform01 ext (rng_key r) (rng_count r),
   mkRNG (rng_key r) (rng_count r + 1)).

(** [rng.sampleI32(a, b)] and [rng.sampleUniform()] on [ctx.data().rng]. *)
Definition rngSampleI32 (a b : Z) : Gen Z :=
  fun ctx =>
    let '(v, r) := sampleI32 a b (rng (data ctx)) in
    Ok (v, updData (set_rng r) ctx).

Definition rngSampleUniform : Gen float :=
  fun ctx =>
    let '(v, r) := sampleUniform (rng (data ctx)) in
    Ok (v, updData (set_rng r) ctx).

(** A bounds-checked read and write of a table of the world state. *)
Definition tableRead {A : Type} (tbl : Sim -> list A) (i : Z) : Gen A :=
  fun ctx =>
    if i <? 0 then Err OutOfBounds
    else match tbl (data ctx) !! Z.to_nat i with
         | Some v => Ok (v, ctx)
         | None => Err OutOfBounds
         end.

Definition tableWrite {A : Type} (tbl : Sim -> list A)
    (set : list A -> Sim -> Sim) (i : Z) (v : A) : Gen unit :=
  fun ctx =>
    if (i <? 0) || (Z.of_nat (length (tbl (data ctx))) <=? i) then Err OutOfBounds
    else Ok (tt, updData (fun d => set (<[Z.to_nat i := v]> (tbl d)) d) ctx).

(** [for (CountT i = 0; i < n; i++) body(i)]. *)
Fixpoint forLoopFrom (count : nat) (i : Z) (body : Z -> Gen unit) : Gen unit :=
  match count with
  | O => ret tt
  | S count' => body i ;;; forLoopFrom count' (i + 1) body
  end.

Definition forLoop (n : Z) (body : Z -> Gen unit) : Gen unit :=
  forLoopFrom (Z.to_nat n) 0 body.

(** A new physics entity ([ctx.makeRenderableEntity]) carrying the given
    components. *)
Definition newDynEntity (c : DynComponents) : Gen Entity :=
  fun ctx =>
    let n := nextEntity ctx in
    Ok (Entity_id n,
        set_nextEntity (S n) (set_dynEntities (<[n := c]> (dynEntities ctx)) ctx)).

(** [ctx.destroyRenderableEntity]. *)
Definition destroyRenderableEntity (e : Entity) (ctx : Engine) : Engine :=
  match e with
  | Entity_none => ctx
  | Entity_id n => set_dynEntities (delete n (dynEntities ctx)) ctx
  end.

Definition one3 : Vector3 := mkVector3 (F32.ofZ 1) (F32.ofZ 1) (F32.ofZ 1).

(** [makeDynObject] ([geo_gen.inl]); the callers that pass four
    arguments get a dynamic, unowned object of unit scale. *)
Definition makeDynObject (pos : Vector3) (rot : Quat) (obj_id : SimObject)
    (response_type : ResponseType) (owner_team : OwnerTeam) (scale : Vector3)
    : Gen Entity :=
  newDynEntity (mkDyn pos rot scale obj_id Vector3_zero response_type owner_team
                      Vector3_zero Vector3_zero None).

Definition makePlane (offset : Vector3) (rot : Quat) : Gen Entity :=
  makeDynObject offset rot Plane Static OwnerTeam_Unownable one3.

(** ** Agents ([level_gen.cpp]) *)

(** A write to a component of an agent interface; the slot must hold an
    interface entity made by the constructor. *)
Definition ifaceWrite (agent_iface : Entity) (f : AgentInterface -> AgentInterface)
    : Gen unit :=
  fun ctx =>
    match getIface ctx agent_iface with
    | Some _ => Ok (tt, updIface f agent_iface ctx)
    | None => Err InvalidEntity
    end.

Definition makeAgent (agent_type : AgentType) : Gen Entity :=
  n <- gets (fun ctx => numActiveAgents (data ctx)) ;;
  agent_iface <- tableRead agentInterfaces n ;;
  modify (updData (set_numActiveAgents (n + 1))) ;;;
  ifaceWrite agent_iface (set_agentType agent_type) ;;;
  agent <- newDynEntity (set_grabData (Some Entity_none) DynComponents_null) ;;
  ifaceWrite agent_iface (set_simEntity agent) ;;;
  ifaceWrite agent_iface (set_activeMask (F32.ofZ 1)) ;;;
  (if decide (agent_type = Seeker) then
     k <- gets (fun ctx => numSeekers (data ctx)) ;;
     modify (updData (set_numSeekers (k + 1))) ;;;
     tableWrite seekers set_seekers k agent
   else
     k <- gets (fun ctx => numHiders (data ctx)) ;;
     modify (updData (set_numHiders (k + 1))) ;;;
     tableWrite hiders set_hiders k agent) ;;;
  key <- gets (fun ctx => curEpisodeRNDCounter (data ctx)) ;;
  ifaceWrite agent_iface (set_seed key) ;;;
  ifaceWrite agent_iface (set_action (mkAction 5 5 5 0 0)) ;;;
  ret agent.

(** The lambda [makeDynAgent] of the training generator. *)
Definition makeDynAgent (pos : Vector3) (rot : Quat) (agent_type : AgentType)
    : Gen Entity :=
  agent <- makeAgent agent_type ;;
  modify (updDyn (fun _ =>
            mkDyn pos rot one3 Agent Vector3_zero Dynamic OwnerTeam_Unownable
                  Vector3_zero Vector3_zero (Some Entity_none)) agent) ;;;
  ret agent.

(** ** The training level ([generateTrainingEnvironment]) *)

Definition max_rejections : Z := 20.
Definition bounds : Vector2 := mkVector2 (F32.ofZ (-18)) (F32.ofZ 18).
Definition bounds_diff : float := F32.sub (v2y bounds) (v2x bounds).
Definition zAxis : Vector3 := mkVector3 F32.zero F32.zero (F32.ofZ 1).
Definition xAxis : Vector3 := mkVector3 (F32.ofZ 1) F32.zero F32.zero.

(** A [for] loop that carries the local counter [num_entities]. *)
Fixpoint forLoopAccFrom {Acc : Type} (count : nat) (i : Z) (acc : Acc)
    (body : Z -> Acc -> Gen Acc) : Gen Acc :=
  match count with
  | O => ret acc
  | S count' => acc' <- body i acc ;; forLoopAccFrom count' (i + 1) acc' body
  end.

Definition forLoopAcc {Acc : Type} (n : Z) (acc : Acc)
    (body : Z -> Acc -> Gen Acc) : Gen Acc :=
  forLoopAccFrom (Z.to_nat n) 0 acc body.

(** Modelled from the spec: [populateStaticGeometry] is defined in
    [geo_gen.cpp], which is not among the sources.  The spec has it
    populate the static arena geometry first, as the baseline of the
    overlap checks: the walls of the layout are created as static,
    unownable objects and stored at the front of the obstacle table, and
    their number is returned. *)
Definition populateStaticGeometry (level_scale : Vector2) : Gen Z :=
  r <- gets (fun ctx => rng (data ctx)) ;;
  let '(walls, r') := staticWalls ext r level_scale in
  modify (updData (set_rng r')) ;;;
  forLoopAcc (Z.of_nat (length walls)) 0
    (fun i num_entities =>
       match walls !! Z.to_nat i with
       | None => fail OutOfBounds
       | Some w =>
           e <- makeDynObject (pl_pos w) (pl_rot w) Wall Static
                              OwnerTeam_Unownable (pl_scale w) ;;
           tableWrite obstacles set_obstacles num_entities e ;;;
           ret (num_entities + 1)
       end).

(** The lambda [checkOverlap]: [true] when the box overlaps none of the
    first [num_entities] obstacles. *)
Definition checkOverlap (num_entities : Z) (aabb : Placement) (ctx : Engine)
    : bool :=
  forallb (fun i =>
             let c := readDyn ctx (entityAt (obstacles (data ctx)) i) in
             negb (aabbOverlaps ext aabb
                     (mkPlacement (objectID c) (position c) (rotation c) (scale c))))
          (seqZ 0 num_entities).

(** One pass of a sampling loop up to the acceptance test: a position in
    the arena at height 1 and a rotation angle below pi. *)
Definition samplePose : Gen (Vector3 * float) :=
  ux <- rngSampleUniform ;;
  uy <- rngSampleUniform ;;
  ur <- rngSampleUniform ;;
  ret (mkVector3 (F32.add (v2x bounds) (F32.mul ux bounds_diff))
                 (F32.add (v2x bounds) (F32.mul uy bounds_diff))
                 (F32.ofZ 1),
       F32.mul ur (pi ext)).

(** The [while (true)] loop shared, up to the object placed, by the five
    placement loops.  It returns the accepted pose together with the
    number of rejections counted when the pose was accepted; the caller
    then runs the body of the accepting branch. *)
Fixpoint rejectionLoop (fuel : nat) (obj : SimObject) (num_entities : Z)
    (rejections : Z) : Gen (Vector3 * Quat * float * Z) :=
  match fuel with
  | O => fail OutOfFuel
  | S fuel' =>
      p <- samplePose ;;
      let pos := fst p in
      let angle := snd p in
      let rot := angleAxis ext angle zAxis in
      let aabb := mkPlacement obj pos rot one3 in
      free <- gets (checkOverlap num_entities aabb) ;;
      if free || (rejections =? max_rejections)
      then ret (pos, rot, angle, rejections)
      else rejectionLoop fuel' obj num_entities (rejections + 1)
  end.

Definition placeElongated (fuel : nat) (i : Z) (num_entities : Z) : Gen Z :=
  p <- rejectionLoop fuel Box num_entities 0 ;;
  let '(pos, rot, box_rotation, _) := p in
  e <- makeDynObject pos rot Box Dynamic OwnerTeam_None one3 ;;
  tableWrite obstacles set_obstacles num_entities e ;;;
  tableWrite boxes set_boxes i e ;;;
  tableWrite boxSizes set_boxSizes i
    (mkVector2 (F32.ofZ 8) (F32.div (F32.ofZ 3) (F32.ofZ 2))) ;;;
  tableWrite boxRotations set_boxRotations i box_rotation ;;;
  ret (num_entities + 1).

Definition placeCube (fuel : nat) (num_elongated : Z) (i : Z) (num_entities : Z)
    : Gen Z :=
  p <- rejectionLoop fuel Cube num_entities 0 ;;
  let '(pos, rot, box_rotation, _) := p in
  let box_idx := i + num_elongated in
  e <- makeDynObject pos rot Cube Dynamic OwnerTeam_None one3 ;;
  tableWrite obstacles set_obstacles num_entities e ;;;
  tableWrite boxes set_boxes box_idx e ;;;
  tableWrite boxSizes set_boxSizes box_idx (mkVector2 (F32.ofZ 2) (F32.ofZ 2)) ;;;
  tableWrite boxRotations set_boxRotations box_idx box_rotation ;;;
  ret (num_entities + 1).

Definition placeRamp (fuel : nat) (i : Z) (num_entities : Z) : Gen Z :=
  p <- rejectionLoop fuel Ramp num_entities 0 ;;
  let '(pos, rot, ramp_rotation, _) := p in
  e <- makeDynObject pos rot Ramp Dynamic OwnerTeam_None one3 ;;
  tableWrite obstacles set_obstacles num_entities e ;;;
  tableWrite ramps set_ramps i e ;;;
  tableWrite rampRotations set_rampRotations i ramp_rotation ;;;
  ret (num_entities + 1).

Definition placeAgent (fuel : nat) (agent_type : AgentType) (num_entities : Z)
    : Gen unit :=
  p <- rejectionLoop fuel Agent num_entities 0 ;;
  let '(pos, rot, _, _) := p in
  makeDynAgent pos rot agent_type ;;;
  ret tt.

(** The two draws at the head of the generator and the two assertions on
    them: the total number of boxes, the elongated ones and the cubes. *)
Definition sampleBoxCounts : Gen (Z * Z * Z) :=
  total_num_boxes <- rngSampleI32 3 10 ;;
  assert (total_num_boxes <=? consts.maxBoxes) ;;;
  num_elongated <- rngSampleI32 3 total_num_boxes ;;
  let num_cubes := total_num_boxes - num_elongated in
  assert (num_elongated + num_cubes =? total_num_boxes) ;;;
  ret (total_num_boxes, num_elongated, num_cubes).

Definition generateTrainingEnvironment (fuel : nat) (num_hiders num_seekers : Z)
    : Gen unit :=
  counts <- sampleBoxCounts ;;
  let '(total_num_boxes, num_elongated, num_cubes) := counts in
  num_entities <- populateStaticGeometry (mkVector2 (v2y bounds) (v2y bounds)) ;;
  num_entities <- forLoopAcc num_elongated num_entities (placeElongated fuel) ;;
  num_entities <- forLoopAcc num_cubes num_entities
                    (placeCube fuel num_elongated) ;;
  modify (updData (set_numActiveBoxes total_num_boxes)) ;;;
  let num_ramps := consts.maxRamps in
  num_entities <- forLoopAcc num_ramps num_entities (placeRamp fuel) ;;
  modify (updData (set_numActiveRamps num_ramps)) ;;;
  forLoop num_hiders (fun _ => placeAgent fuel Hider num_entities) ;;;
  forLoop num_seekers (fun _ => placeAgent fuel Seeker num_entities) ;;;
  e <- makePlane Vector3_zero (angleAxis ext F32.zero xAxis) ;;
  tableWrite obstacles set_obstacles num_entities e ;;;
  modify (updData (set_numObstacles (num_entities + 1))).

(** ** Reset ([sim.cpp]) *)

(** The hand-authored debug scenes (level ids from 2) play no part in
    the properties below and are taken as given. *)
Variable generateDebugEnvironment : Z -> Gen unit.

Definition generateEnvironment (fuel : nat) (level_id num_hiders num_seekers : Z)
    : Gen unit :=
  (if level_id =? 1
   then generateTrainingEnvironment fuel num_hiders num_seekers
   else generateDebugEnvironment level_id) ;;;
  first <- gets (fun ctx => numActiveAgents (data ctx)) ;;
  last <- gets (fun ctx => maxAgentsPerWorld (data ctx)) ;;
  forLoopFrom (Z.to_nat (last - first)) first
    (fun i =>
       agent_iface <- tableRead agentInterfaces i ;;
       ifaceWrite agent_iface (set_simEntity Entity_none) ;;;
       ifaceWrite agent_iface (set_activeMask F32.zero)).

Definition initEpisodeRNG (ctx : Engine) : Engine :=
  let '(new_rnd_counter, ctx) :=
    if UseFixedWorld (simFlags (data ctx)) then (mkRandKey 0 0, ctx)
    else if loadCheckpoint ctx =? 1 then (checkpoint ctx, ctx)
    else (mkRandKey (curWorldEpisode (data ctx)) (worldID ctx),
          updData (set_curWorldEpisode (curWorldEpisode (data ctx) + 1)) ctx) in
  let ctx := updData (set_curEpisodeRNDCounter new_rnd_counter) ctx in
  updData (set_rng (mkRNG (split_i ext (initRandKey (data ctx))
                                   (rk_a new_rnd_counter) (rk_b new_rnd_counter))
                          0)) ctx.

(** The lambda [destroyAgent] of [resetEnvironment]. *)
Definition destroyAgent (e : Entity) (ctx : Engine) : Engine :=
  let ctx :=
    match getDyn ctx e with
    | Some c =>
        match grabData c with
        | Some constraint_entity => destroyConstraint constraint_entity ctx
        | None => ctx
        end
    | None => ctx
    end in
  destroyRenderableEntity e ctx.

Definition resetEnvironment (ctx : Engine) : Engine :=
  let ctx := updData (set_curEpisodeStep 0) ctx in
  let ctx := foldl (fun ctx i =>
                      destroyRenderableEntity (entityAt (obstacles (data ctx)) i) ctx)
                   ctx (seqZ 0 (numObstacles (data ctx))) in
  let ctx := updData (set_numObstacles 0) ctx in
  let ctx := updData (set_numActiveBoxes 0) ctx in
  let ctx := updData (set_numActiveRamps 0) ctx in
  let ctx := foldl (fun ctx i => destroyAgent (entityAt (hiders (data ctx)) i) ctx)
                   ctx (seqZ 0 (numHiders (data ctx))) in
  let ctx := updData (set_numHiders 0) ctx in
  let ctx := foldl (fun ctx i => destroyAgent (entityAt (seekers (data ctx)) i) ctx)
                   ctx (seqZ 0 (numSeekers (data ctx))) in
  let ctx := updData (set_numSeekers 0) ctx in
  let ctx := updData (set_numActiveAgents 0) ctx in
  initEpisodeRNG ctx.

(** [resetSystem]; the [WorldReset] singleton is the field [worldReset]
    of the engine state. *)
Definition resetSystem (fuel : nat) : Gen unit :=
  level0 <- gets worldReset ;;
  ctx0 <- gets id ;;
  let level :=
    if negb (IgnoreEpisodeLength (simFlags (data ctx0)))
       && (curEpisodeStep (data ctx0) =? episodeLen - 1)
    then 1 else level0 in
  (if negb (level =? 0) then
     modify resetEnvironment ;;;
     modify (set_worldReset 0) ;;;
     lo <- gets (fun ctx => minHiders (data ctx)) ;;
     hi <- gets (fun ctx => maxHiders (data ctx)) ;;
     num_hiders <- rngSampleI32 lo (hi + 1) ;;
     lo <- gets (fun ctx => minSeekers (data ctx)) ;;
     hi <- gets (fun ctx => maxSeekers (data ctx)) ;;
     num_seekers <- rngSampleI32 lo (hi + 1) ;;
     generateEnvironment fuel level num_hiders num_seekers
   else
     modify (fun ctx =>
               updData (set_curEpisodeStep (curEpisodeStep (data ctx) + 1)) ctx)) ;;;
  modify (updData (set_hiderTeamReward (F32.ofZ 1))).

(** ** World construction ([Sim::Sim]) *)

Record Config : Type := mkConfig {
  cfg_simFlags : SimFlags;
  cfg_initRandKey : RandKey;
  cfg_minHiders : Z;
  cfg_maxHiders : Z;
  cfg_minSeekers : Z;
  cfg_maxSeekers : Z
}.

(** The constructor.  The [assert] is the only check it makes on the
    configuration.  Fields that the constructor leaves unset (the entity
    tables, the box and ramp counts, the episode key) hold null values
    here; the reset of the init task graph runs before anything reads
    them.  [fresh] stands for the contents of a newly made interface
    entity. *)
Definition Sim_ctor (cfg : Config) (world_idx : Z) (bvh0 : BVH)
    (fresh : AgentInterface) : Result Engine :=
  let maxAgentsPerWorld := cfg_maxHiders cfg + cfg_maxSeekers cfg in
  if negb ((maxAgentsPerWorld <=? consts.maxAgents) && (0 <? maxAgentsPerWorld))
  then Err AssertFailed
  else
    let n := Z.to_nat maxAgentsPerWorld in
    let ifaces := Entity_id <$> seq 0 n in
    Ok (mkEngine
          (mkSim (cfg_simFlags cfg) (cfg_initRandKey cfg) 0 (mkRandKey 0 0)
                 (mkRNG (mkRandKey 0 0) 0)
                 (ifaces ++ replicate (Z.to_nat consts.maxAgents - n) Entity_none)
                 (replicate 3 Entity_none) 0 (replicate 3 Entity_none) 0 0
                 (replicate (Z.to_nat (consts.maxBoxes + consts.maxRamps
                                       + consts.maxAgents + 30)) Entity_none) 0
                 (replicate (Z.to_nat consts.maxBoxes) Entity_none)
                 (replicate (Z.to_nat consts.maxBoxes) Vector2_zero)
                 (replicate (Z.to_nat consts.maxBoxes) F32.zero)
                 (replicate (Z.to_nat consts.maxRamps) Entity_none)
                 (replicate (Z.to_nat consts.maxRamps) F32.zero)
                 0 0 0 true
                 (cfg_minHiders cfg) (cfg_maxHiders cfg)
                 (cfg_minSeekers cfg) (cfg_maxSeekers cfg)
                 maxAgentsPerWorld (F32.ofZ 1))
          ∅
          (list_to_map ((fun i => (i, fresh)) <$> seq 0 n))
          ∅ n bvh0 1 0 (mkRandKey 0 0) world_idx).

(** ** The task graphs

    A [ParallelForNode] runs its system once for every entity of the
    [AgentInterface] archetype; the entities are visited in table
    order. *)

Definition interfaceSlots (ctx : Engine) : list Entity :=
  take (Z.to_nat (maxAgentsPerWorld (data ctx))) (agentInterfaces (data ctx)).

Definition forEachAgent (f : Engine -> Entity -> AgentInterface -> Engine)
    (ctx : Engine) : Engine :=
  foldl (fun ctx e =>
           match getIface ctx e with
           | Some i => f ctx e i
           | None => ctx
           end)
        ctx (interfaceSlots ctx).

Definition movementNode : Engine -> Engine :=
  forEachAgent (fun ctx _ i =>
    movementSystem ext ctx (action i) (simEntity i) (agentType i)).

Definition actionNode : Engine -> Engine :=
  forEachAgent (fun ctx e i =>
    let '(ctx, a) := actionSystem ext ctx (action i) (simEntity i) (agentType i) in
    updIface (set_action a) e ctx).

Definition outputRewardsDonesNode : Engine -> Engine :=
  forEachAgent (fun ctx e i =>
    let '(r, d) :=
      outputRewardsDonesSystem ctx (simEntity i) (agentType i) (reward i) (done i) in
    updIface (fun i => set_done d (set_reward r i)) e ctx).

Definition collectObservationsNode : Engine -> Engine :=
  forEachAgent (fun ctx e i =>
    let '(agent_obs, box_obs, ramp_obs, prep) :=
      collectObservationsSystem ext ctx e (simEntity i) (agentObs i) (boxObs i)
                                (rampObs i) (prepCounter i) in
    updIface (fun i => set_prepCounter prep
                         (set_rampObs ramp_obs
                            (set_boxObs box_obs (set_agentObs agent_obs i))))
             e ctx).

Definition computeVisibilityNode : Engine -> Engine :=
  forEachAgent (fun ctx e i =>
    let '(ctx, agent_vis, box_vis, ramp_vis) :=
      computeVisibilitySystem ext ctx e (simEntity i) (agentType i)
                              (agentVis i) (boxVis i) (rampVis i) in
    updIface (fun i => set_rampVis ramp_vis
                         (set_boxVis box_vis (set_agentVis agent_vis i)))
             e ctx).

Definition observationsTasks (ctx : Engine) : Engine :=
  computeVisibilityNode (collectObservationsNode ctx).

(** The physics collaborator acts on the physics entities, the joints
    and the BVH only: the broad-phase set-up rebuilds the BVH, the solver
    steps move the entities. *)
Variable setupBroadphase : gmap nat DynComponents -> BVH -> BVH.
Variable physicsStep :
  gmap nat DynComponents -> gmap nat FixedJoint -> gmap nat DynComponents.

Definition broadphaseTasks (ctx : Engine) : Engine :=
  set_bvh (setupBroadphase (dynEntities ctx) (bvh ctx)) ctx.

Definition physicsTasks (ctx : Engine) : Engine :=
  set_dynEntities (physicsStep (dynEntities ctx) (constraints ctx)) ctx.

(** What the host writes before a step: a reset request, if any, and
    the action of each interface slot for which it supplies one. *)
Record HostInput : Type := mkHostInput {
  host_reset : option Z;
  host_actions : list (option Action)
}.

Definition applyHost (h : HostInput) (ctx : Engine) : Engine :=
  let ctx := match host_reset h with
             | Some level => set_worldReset level ctx
             | None => ctx
             end in
  foldl (fun ctx '(e, oa) =>
           match oa with
           | Some a => updIface (set_action a) e ctx
           | None => ctx
           end)
        ctx (zip (interfaceSlots ctx) (host_actions h)).

(** [setupInitTasks] and [setupStepTasks]. *)
Definition resetTasks (fuel : nat) : Gen unit :=
  resetSystem fuel ;;; modify broadphaseTasks.

Definition initTasks (fuel : nat) : Gen unit :=
  resetTasks fuel ;;; modify observationsTasks.

Definition stepTasks (fuel : nat) : Gen unit :=
  modify movementNode ;;;
  modify broadphaseTasks ;;;
  modify actionNode ;;;
  modify physicsTasks ;;;
  modify outputRewardsDonesNode ;;;
  resetTasks fuel ;;;
  modify observationsTasks.

Definition step (fuel : nat) (h : HostInput) : Gen unit :=
  modify (applyHost h) ;;; stepTasks fuel.

(** The world after construction and the init task graph, then a run of
    steps under the given host inputs. *)
Definition initWorld (fuel : nat) (cfg : Config) (world_idx : Z) (bvh0 : BVH)
    (fresh : AgentInterface) : Result (unit * Engine) :=
  match Sim_ctor cfg world_idx bvh0 fresh with
  | Ok ctx => initTasks fuel ctx
  | Err f => Err f
  end.

Fixpoint run (fuel : nat) (hs : list HostInput) : Gen unit :=
  match hs with
  | [] => ret tt
  | h :: hs' => step fuel h ;;; run fuel hs'
  end.

End Generator.

(** ** Vocabulary of the statements *)

(** The owner tag of the team of an agent. *)
Definition teamOf (agent_type : AgentType) : OwnerTeam :=
  match agent_type with
  | Hider => OwnerTeam_Hider
  | Seeker => OwnerTeam_Seeker
  end.

(** An agent whose input is processed at the current tick: every hider,
    and a seeker once the tick index has reached [numPrepSteps - 1]. *)
Definition processed (ctx : Engine) (agent_type : AgentType) : Prop :=
  agent_type = Hider \/ numPrepSteps - 1 <= curEpisodeStep (data ctx).

(** The origin and the direction of the interaction ray of an agent. *)
Definition interactOrigin (a : DynComponents) : Vector3 :=
  v3add (position a) (v3scale f_0_5 math.up).
Definition interactDir (ext : Extern) (a : DynComponents) : Vector3 :=
  rotateVec ext (rotation a) math.fwd.

(** Two component records that agree on mobility and ownership. *)
Definition sameBody (c c' : DynComponents) : Prop :=
  responseType c' = responseType c /\ ownerTeam c' = ownerTeam c.

(** The shared team scalar holds one of the two values that the source
    ever stores into it: [1.f] (constructor, reset) or [-1.f]
    (visibility). *)
Definition teamRewardSet (ctx : Engine) : Prop :=
  hiderTeamReward (data ctx) = F32.ofZ 1 \/
  hiderTeamReward (data ctx) = F32.ofZ (-1).

(** The last step of the reward system: the penalty of an agent outside
    the arena, subtracted from its team value. *)
Definition withBoundaryPenalty (pos : Vector3) (reward_val : float) : float :=
  if outsideArena pos then F32.sub reward_val (F32.ofZ 10) else reward_val.

(** The reward and done components of one agent along successive ticks:
    [ctxs] lists the worlds that the reward system sees, [rd] holds the
    two components before the first of them. *)
Fixpoint rewardDoneTrace (ctxs : list Engine) (sim_e : Entity)
    (agent_type : AgentType) (rd : float * Z) : list (float * Z) :=
  match ctxs with
  | [] => []
  | ctx :: rest =>
      let rd' := outputRewardsDonesSystem ctx sim_e agent_type (fst rd) (snd rd) in
      rd' :: rewardDoneTrace rest sim_e agent_type rd'
  end.

(** The ticks of a stretch of an episode that starts at tick [first]:
    the [k]-th world has tick index [first + k]. *)
Definition ticksFrom (first : Z) (ctxs : list Engine) : Prop :=
  forall (k : nat) (ctx : Engine),
    ctxs !! k = Some ctx -> curEpisodeStep (data ctx) = first + Z.of_nat k.

(** A fallible computation that, run on [ctx], returns without a fault
    and satisfies [Q] on its result and final state. *)
Definition wp {A : Type} (m : Gen A) (Q : A -> Engine -> Prop) (ctx : Engine)
    : Prop :=
  match m ctx with
  | Ok (a, ctx') => Q a ctx'
  | Err _ => False
  end.

(** The tables of the world have their declared lengths. *)
Definition tablesOk (ctx : Engine) : Prop :=
  length (agentInterfaces (data ctx)) = Z.to_nat consts.maxAgents /\
  length (hiders (data ctx)) = 3%nat /\
  length (seekers (data ctx)) = 3%nat /\
  length (obstacles (data ctx)) =
    Z.to_nat (consts.maxBoxes + consts.maxRamps + consts.maxAgents + 30) /\
  length (boxes (data ctx)) = Z.to_nat consts.maxBoxes /\
  length (boxSizes (data ctx)) = Z.to_nat consts.maxBoxes /\
  length (boxRotations (data ctx)) = Z.to_nat consts.maxBoxes /\
  length (ramps (data ctx)) = Z.to_nat consts.maxRamps /\
  length (rampRotations (data ctx)) = Z.to_nat consts.maxRamps.

(** The first [maxAgentsPerWorld] slots of the interface table hold
    interface entities that exist. *)
Definition interfacesOk (ctx : Engine) : Prop :=
  forall k, 0 <= k < maxAgentsPerWorld (data ctx) ->
    exists id, agentInterfaces (data ctx) !! Z.to_nat k = Some (Entity_id id) /\
               is_Some (interfaces ctx !! id).

(** The physics entities of [ctx] are still there, unchanged, in
    [ctx']; entities made in between have identifiers from
    [nextEntity ctx] on. *)
Definition dynExtends (ctx ctx' : Engine) : Prop :=
  (nextEntity ctx <= nextEntity ctx')%nat /\
  forall n, (n < nextEntity ctx)%nat -> dynEntities ctx' !! n = dynEntities ctx !! n.

(** The number of passes that a sampling loop made, from the position
    of the random stream before and after: a pass draws three uniform
    samples. *)
Definition samplingPasses (before after : Engine) : Z :=
  (rng_count (rng (data after)) - rng_count (rng (data before))) / 3.

(** What no system changes after construction: the interface table and
    the configuration. *)
Definition staticView (ctx : Engine) :=
  (agentInterfaces (data ctx), maxAgentsPerWorld (data ctx),
   minHiders (data ctx), maxHiders (data ctx),
   minSeekers (data ctx), maxSeekers (data ctx),
   simFlags (data ctx)).

(** What the placement of a box, a ramp or a wall leaves alone: the
    agent tables, all counters, the interface entities and the tick
    index. *)
Definition placementView (ctx : Engine) :=
  (numActiveAgents (data ctx), numHiders (data ctx), numSeekers (data ctx),
   agentInterfaces (data ctx), hiders (data ctx), seekers (data ctx),
   maxAgentsPerWorld (data ctx), interfaces ctx, curEpisodeStep (data ctx),
   hiderTeamReward (data ctx),
   numActiveBoxes (data ctx), numActiveRamps (data ctx), numObstacles (data ctx),
   staticView ctx, worldReset ctx).

Definition objFrame (ctx ctx' : Engine) : Prop :=
  placementView ctx' = placementView ctx /\
  tablesOk ctx' /\
  dynExtends ctx ctx'.

(** What the creation of an agent leaves alone: the object tables and
    counters, the interface table and the tick index. *)
Definition agentPhaseView (ctx : Engine) :=
  (agentInterfaces (data ctx), maxAgentsPerWorld (data ctx),
   curEpisodeStep (data ctx), hiderTeamReward (data ctx),
   numActiveBoxes (data ctx), numActiveRamps (data ctx),
   numObstacles (data ctx), obstacles (data ctx), boxes (data ctx),
   boxSizes (data ctx), ramps (data ctx), staticView ctx, worldReset ctx).

Definition agentFrame (ctx ctx' : Engine) : Prop :=
  agentPhaseView ctx' = agentPhaseView ctx /\
  tablesOk ctx' /\
  dynExtends ctx ctx' /\
  interfacesOk ctx'.

(** The world that the training generator leaves. *)
Definition trainingLevel (ctx : Engine) (num_hiders num_seekers total : Z)
    (ctx' : Engine) : Prop :=
  numActiveBoxes (data ctx') = total /\
  numActiveRamps (data ctx') = consts.maxRamps /\
  numActiveAgents (data ctx') = num_hiders + num_seekers /\
  numHiders (data ctx') = num_hiders /\
  numSeekers (data ctx') = num_seekers /\
  (exists r0 r1 c0 c1,
     ramps (data ctx') = [Entity_id r0; Entity_id r1] /\ r0 <> r1 /\
     dynEntities ctx' !! r0 = Some c0 /\ objectID c0 = Ramp /\
     dynEntities ctx' !! r1 = Some c1 /\ objectID c1 = Ramp) /\
  tablesOk ctx' /\
  interfacesOk ctx' /\
  agentInterfaces (data ctx') = agentInterfaces (data ctx) /\
  maxAgentsPerWorld (data ctx') = maxAgentsPerWorld (data ctx) /\
  curEpisodeStep (data ctx') = curEpisodeStep (data ctx) /\
  staticView ctx' = staticView ctx /\
  worldReset ctx' = worldReset ctx.



(** ** Vocabulary of the contents of the training level *)

(** The random stream [n] draws further on. *)
Definition advance (r : RNG) (n : Z) : RNG :=
  mkRNG (rng_key r) (rng_count r + n).



(** The position and the angle that one pass of a sampling loop draws at
    position [r] of the stream, and those of pass [k] of a loop that
    starts at [r]: a pass takes three draws. *)
Definition poseAt (ext : Extern) (r : RNG) : Vector3 * float :=
  (mkVector3
     (F32.add (v2x bounds)
        (F32.mul (uniform01 ext (rng_key r) (rng_count r)) bounds_diff))
     (F32.add (v2x bounds)
        (F32.mul (uniform01 ext (rng_key r) (rng_count r + 1)) bounds_diff))
     (F32.ofZ 1),
   F32.mul (uniform01 ext (rng_key r) (rng_count r + 2)) (pi ext)).

Definition posePass (ext : Extern) (r : RNG) (k : Z) : Vector3 * float :=
  poseAt ext (advance r (3 * k)).

(** The box of obstacle [i] as the overlap test reads it. *)
Definition obstaclePlacement (ctx : Engine) (i : Z) : Placement :=
  let c := readDyn ctx (entityAt (obstacles (data ctx)) i) in
  mkPlacement (objectID c) (position c) (rotation c) (scale c).

(** The box that pass [k] tests for an object of kind [obj], and the
    outcome of the test against the first [n] obstacles of [ctx]. *)
Definition passPlacement (ext : Extern) (obj : SimObject) (r : RNG) (k : Z)
    : Placement :=
  mkPlacement obj (fst (posePass ext r k))
              (angleAxis ext (snd (posePass ext r k)) zAxis) one3.

Definition passFree (ext : Extern) (ctx : Engine) (obj : SimObject) (n : Z)
    (r : RNG) (k : Z) : bool :=
  checkOverlap ext n (passPlacement ext obj r k) ctx.

(** Pass [rej] is the one that a loop started at [r] accepts: every
    earlier pass overlaps one of the first [n] obstacles, and pass [rej]
    overlaps none of them or is the one after [max_rejections]
    rejections. *)
Definition acceptedAt (ext : Extern) (ctx : Engine) (obj : SimObject) (n : Z)
    (r : RNG) (rej : Z) : Prop :=
  0 <= rej <= max_rejections /\
  (forall k, 0 <= k < rej -> passFree ext ctx obj n r k = false) /\
  (passFree ext ctx obj n r rej = true \/ rej = max_rejections).

(** The objects of a training level in the order of their placement:
    object [j] is an elongated box, a cube, a ramp or an agent, and its
    loop tests the walls and the boxes and ramps placed before it; no
    agent is entered into the obstacle table, so that the loop of every
    agent tests the walls, the boxes and the two ramps. *)
Definition objectKind (num_elongated total j : Z) : SimObject :=
  if j <? num_elongated then Box
  else if j <? total then Cube
  else if j <? total + consts.maxRamps then Ramp
  else Agent.

Definition obstaclesTested (walls total j : Z) : Z :=
  walls + Z.min j (total + consts.maxRamps).

(** The entities [first], [first + 1], ... up to [count] of them are the
    objects of a level, placed one after the other along the random
    stream from [r0] to [r_end]: each has the kind of its rank, sits at
    the pose of the pass that its loop accepts, and its loop starts where
    the loop before it stopped. *)
Fixpoint placedInOrder (ext : Extern) (ctx : Engine) (first : nat)
    (walls num_elongated total : Z) (r0 : RNG) (count : nat) (r_end : RNG)
    : Prop :=
  match count with
  | O => r_end = r0
  | S k =>
      exists (r : RNG) (rej : Z) (c : DynComponents),
        placedInOrder ext ctx first walls num_elongated total r0 k r /\
        acceptedAt ext ctx (objectKind num_elongated total (Z.of_nat k))
                   (obstaclesTested walls total (Z.of_nat k)) r rej /\
        dynEntities ctx !! (first + k)%nat = Some c /\
        objectID c = objectKind num_elongated total (Z.of_nat k) /\
        position c = fst (posePass ext r rej) /\
        rotation c = angleAxis ext (snd (posePass ext r rej)) zAxis /\
        scale c = one3 /\
        r_end = advance r (3 * (rej + 1))
  end.

(** The extents recorded for box [i]: 8 by 1.5 for an elongated box, 2
    by 2 for a cube. *)
Definition boxSizeOf (num_elongated i : Z) : Vector2 :=
  if i <? num_elongated
  then mkVector2 (F32.ofZ 8) (F32.div (F32.ofZ 3) (F32.ofZ 2))
  else mkVector2 (F32.ofZ 2) (F32.ofZ 2).

(** [ctx'] is [ctx] after a sampling loop that tested the first [n]
    obstacles and made an object of kind [obj], the entity
    [nextEntity ctx], at the pose of the pass it accepted. *)
Definition objectPlaced (ext : Extern) (obj : SimObject) (n : Z)
    (ctx ctx' : Engine) : Prop :=
  exists (rej : Z) (c : DynComponents),
    acceptedAt ext ctx obj n (rng (data ctx)) rej /\
    rng (data ctx') = advance (rng (data ctx)) (3 * (rej + 1)) /\
    nextEntity ctx' = S (nextEntity ctx) /\
    dynEntities ctx' !! nextEntity ctx = Some c /\
    objectID c = obj /\
    position c = fst (posePass ext (rng (data ctx)) rej) /\
    rotation c = angleAxis ext (snd (posePass ext (rng (data ctx)) rej)) zAxis /\
    scale c = one3.

(** The generator after [k] objects, in a world whose first free
    entity was [n0] and whose layout has [w] walls: the walls and the
    objects are the entities from [n0] on, in the order in which they
    were made, and the walls, boxes and ramps fill the obstacle table in
    that order. *)
Definition levelSoFar (ext : Extern) (n0 w : nat) (num_elongated total : Z)
    (r0 : RNG) (k : nat) (c : Engine) : Prop :=
  tablesOk c /\
  nextEntity c = (n0 + w + k)%nat /\
  (forall j : nat,
     Z.of_nat j < obstaclesTested (Z.of_nat w) total (Z.of_nat k) ->
     obstacles (data c) !! j = Some (Entity_id (n0 + j))) /\
  placedInOrder ext c (n0 + w) (Z.of_nat w) num_elongated total r0 k
                (rng (data c)).

(** The first [count] slots of an entity table hold the entities from
    [first] on, in order. *)
Definition tableFilled (tbl : list Entity) (first : nat) (count : Z) : Prop :=
  forall i, 0 <= i < count ->
    tbl !! Z.to_nat i = Some (Entity_id (first + Z.to_nat i)).

(** The first [count] boxes have the extents of their kind on record. *)
Definition sizesFilled (sizes : list Vector2) (num_elongated count : Z) : Prop :=
  forall i, 0 <= i < count ->
    sizes !! Z.to_nat i = Some (boxSizeOf num_elongated i).

(** ** Invariants of the task graphs *)

(** The team ranges fit the two handle tables and add up to the number
    of interface entities. *)
Definition configOk (ctx : Engine) : Prop :=
  0 <= minHiders (data ctx) <= maxHiders (data ctx) /\
  maxHiders (data ctx) <= 3 /\
  0 <= minSeekers (data ctx) <= maxSeekers (data ctx) /\
  maxSeekers (data ctx) <= 3 /\
  maxAgentsPerWorld (data ctx) = maxHiders (data ctx) + maxSeekers (data ctx).

(** The invariant of the task graphs. *)
Definition worldInv (ctx : Engine) : Prop :=
  tablesOk ctx /\ interfacesOk ctx /\ configOk ctx /\ teamRewardSet ctx.

(** [ctx'] differs from [ctx] in the physics entities, the joints and
    the BVH at most. *)
Definition physicsOnly (ctx ctx' : Engine) : Prop :=
  data ctx' = data ctx /\ interfaces ctx' = interfaces ctx /\
  worldReset ctx' = worldReset ctx.

(** The level that [resetSystem] builds at [ctx]; 0 when no reset is
    due. *)
Definition resetLevelOf (ctx : Engine) : Z :=
  if negb (IgnoreEpisodeLength (simFlags (data ctx)))
     && (curEpisodeStep (data ctx) =? episodeLen - 1)
  then 1 else worldReset ctx.

(** The type of [staticView]. *)
Definition StaticView : Type :=
  (list Entity * Z * Z * Z * Z * Z * SimFlags)%type.

(** A world at tick [t] of an episode, with static part [sv] and reset
    request [w]. *)
Definition runningAt (sv : StaticView) (t w : Z) (ctx : Engine) : Prop :=
  worldInv ctx /\ staticView ctx = sv /\ curEpisodeStep (data ctx) = t /\
  worldReset ctx = w.

(** The world between [resetEnvironment] and the generator: the
    counters and the tick index are zero and the reset request is
    cleared. *)
Definition freshEpisode (sv : StaticView) (ctx : Engine) : Prop :=
  tablesOk ctx /\ interfacesOk ctx /\ configOk ctx /\ staticView ctx = sv /\
  numActiveAgents (data ctx) = 0 /\
  numHiders (data ctx) = 0 /\
  numSeekers (data ctx) = 0 /\
  curEpisodeStep (data ctx) = 0 /\
  worldReset ctx = 0.

(** The fields of the world data other than the random stream and the
    episode counters. *)
Definition resetView (ctx : Engine) :=
  (agentInterfaces (data ctx), hiders (data ctx), numHiders (data ctx),
   seekers (data ctx), numSeekers (data ctx), numActiveAgents (data ctx),
   obstacles (data ctx), numObstacles (data ctx), boxes (data ctx),
   boxSizes (data ctx), boxRotations (data ctx), ramps (data ctx),
   rampRotations (data ctx), numActiveBoxes (data ctx),
   numActiveRamps (data ctx), curEpisodeStep (data ctx),
   minHiders (data ctx), maxHiders (data ctx), minSeekers (data ctx),
   maxSeekers (data ctx), maxAgentsPerWorld (data ctx),
   hiderTeamReward (data ctx), simFlags (data ctx), interfaces ctx,
   worldReset ctx).

(** The host asks for no level other than the training level. *)
Definition hostOk (h : HostInput) : Prop :=
  host_reset h = None \/ host_reset h = Some 0 \/ host_reset h = Some 1.

(** The reset request after the host has written its input over the
    request [w]. *)
Definition requestAfter (h : HostInput) (w : Z) : Z :=
  match host_reset h with
  | Some level => level
  | None => w
  end.

(** Tick [t] is the last one of an episode of full length. *)
Definition episodeOver (sv : StaticView) (t : Z) : bool :=
  negb (IgnoreEpisodeLength (snd sv)) && (t =? episodeLen - 1).

(** The tick index after [resetSystem] has run at tick [t] with reset
    request [w], and after a whole step under the host input [h]. *)
Definition tickAfter (sv : StaticView) (t w : Z) : Z :=
  if episodeOver sv t || negb (w =? 0) then 0 else t + 1.

Definition nextTick (sv : StaticView) (t : Z) (h : HostInput) : Z :=
  tickAfter sv t (requestAfter h 0).

(** The ranges of a configuration fit the two team tables and there is
    at least one agent slot. *)
Definition configValid (cfg : Config) : Prop :=
  0 <= cfg_minHiders cfg <= cfg_maxHiders cfg /\
  cfg_maxHiders cfg <= 3 /\
  0 <= cfg_minSeekers cfg <= cfg_maxSeekers cfg /\
  cfg_maxSeekers cfg <= 3 /\
  0 < cfg_maxHiders cfg + cfg_maxSeekers cfg.

(** The static part of a world built from [cfg]. *)
Definition staticOf (cfg : Config) : StaticView :=
  ((Entity_id <$> seq 0 (Z.to_nat (cfg_maxHiders cfg + cfg_maxSeekers cfg)))
     ++ replicate (Z.to_nat consts.maxAgents
                   - Z.to_nat (cfg_maxHiders cfg + cfg_maxSeekers cfg))
                  Entity_none,
   cfg_maxHiders cfg + cfg_maxSeekers cfg,
   cfg_minHiders cfg, cfg_maxHiders cfg,
   cfg_minSeekers cfg, cfg_maxSeekers cfg,
   cfg_simFlags cfg).


(** ** Concrete worlds

    A collaborator record, configurations and host inputs on which the
    systems can be run: rotations are the identity, every uniform sample
    is one half (so that every object is placed at the centre of the
    arena), the raw words of the first episode lie in the middle of their
    range and those of later episodes are zero, and there are no
    walls. *)

Definition quat_id : Quat := mkQuat (F32.ofZ 1) F32.zero F32.zero F32.zero.

Definition demo_ext (overlap : bool) : Extern :=
  mkExtern (fun _ v => v) (fun q => q) (fun q _ => q) (fun q => q)
           (fun _ _ => quat_id) (fun v => v) (fun _ _ => F32.zero)
           (S754_finite false 12840656 (-25))
           (S754_finite false 13176795 (-22))
           (fun _ _ => overlap)
           (fun k _ => if rk_a k =? 0 then 2 ^ 31 else 0)
           (fun _ _ => f_0_5)
           (fun _ a b => mkRandKey a b)
           (fun r _ => ([], r)).

(** A BVH in which every ray hits the entity with identifier 2 at
    distance 1.5. *)
Definition demo_bvh : BVH :=
  fun _ _ _ => (Entity_id 2, F32.div (F32.ofZ 3) (F32.ofZ 2)).

Definition demo_fresh : AgentInterface :=
  mkAgentInterface Entity_none 0 Action_neutral Seeker F32.zero
    (replicate 15 AgentObservation_zero) (replicate 9 BoxObservation_zero)
    (replicate 2 RampObservation_zero)
    (replicate 15 F32.zero) (replicate 9 F32.zero) (replicate 2 F32.zero)
    (mkRandKey 0 0) F32.zero 0.

Definition demo_cfg (minH maxH minS maxS : Z) : Config :=
  mkConfig (mkSimFlags false false) (mkRandKey 7 7) minH maxH minS maxS.

Definition demo_debug : Z -> Gen unit := fun _ => ret tt.

Definition Engine_null : Engine :=
  mkEngine
    (mkSim (mkSimFlags false false) (mkRandKey 0 0) 0 (mkRandKey 0 0)
           (mkRNG (mkRandKey 0 0) 0) [] [] 0 [] 0 0 [] 0 [] [] [] [] [] 0 0 0
           true 0 0 0 0 0 F32.zero)
    ∅ ∅ ∅ 0 (fun _ _ _ => (Entity_none, F32.zero)) 0 0 (mkRandKey 0 0) 0.

Definition worldOf (r : Result (unit * Engine)) : Engine :=
  match r with
  | Ok (_, ctx) => ctx
  | Err _ => Engine_null
  end.

(** The world of a configuration after construction, the init task graph
    and the given host inputs; physics leaves the entities where they
    are. *)
Definition demo_run (cfg : Config) (hs : list HostInput)
    : Result (unit * Engine) :=
  match initWorld (demo_ext false) demo_debug (fun _ b => b) 21 cfg 0
                  demo_bvh demo_fresh with
  | Ok (_, ctx) =>
      run (demo_ext false) demo_debug (fun _ b => b) (fun d _ => d) 21 hs ctx
  | Err f => Err f
  end.

Definition no_input : HostInput := mkHostInput None [].

(** The world that the constructor makes for one hider and one seeker,
    before the init task graph. *)
Definition demo_constructed : Engine :=
  match Sim_ctor (demo_cfg 1 1 1 1) 0 demo_bvh demo_fresh with
  | Ok ctx => ctx
  | Err _ => Engine_null
  end.

(** The collaborators of [demo_ext] with a box test under which two
    agents overlap and nothing else does, and the level that the training
    generator builds under them for one hider and one seeker. *)
Definition demo_ext_agents : Extern :=
  mkExtern (fun _ v => v) (fun q => q) (fun q _ => q) (fun q => q)
           (fun _ _ => quat_id) (fun v => v) (fun _ _ => F32.zero)
           (S754_finite false 12840656 (-25))
           (S754_finite false 13176795 (-22))
           (fun a b => match pl_obj a, pl_obj b with
                       | Agent, Agent => true
                       | _, _ => false
                       end)
           (fun k _ => if rk_a k =? 0 then 2 ^ 31 else 0)
           (fun _ _ => f_0_5)
           (fun _ a b => mkRandKey a b)
           (fun r _ => ([], r)).

Definition demo_agents_level : Engine :=
  worldOf (generateTrainingEnvironment demo_ext_agents 21 1 1 demo_constructed).

(** One hider (interface 0, physics entity 10) and one seeker (interface
    1, physics entity 11) among six boxes (from entity 2) and two ramps,
    after [n] steps without host input. *)
Definition demo_world (n : nat) : Engine :=
  worldOf (demo_run (demo_cfg 1 1 1 1) (replicate n no_input)).

(** The worlds that the reward system sees at the ticks of a run without
    host input: each is the world at the start of the step after the
    movement, action and physics tasks of that step. *)
Fixpoint demo_rewardWorlds (n : nat) (ctx : Engine) : list Engine :=
  match n with
  | O => []
  | S n' =>
      let ext := demo_ext false in
      physicsTasks (fun d _ => d)
        (actionNode ext (broadphaseTasks (fun _ b => b) (movementNode ext ctx)))
      :: demo_rewardWorlds n'
           (worldOf (step ext demo_debug (fun _ b => b) (fun d _ => d) 21
                          no_input ctx))
  end.

Definition demo_episode : list Engine :=
  demo_rewardWorlds (Z.to_nat episodeLen) (demo_world 0).

(** The world [demo_world 0] with the hider one unit in front of the
    seeker and a BVH in which every ray hits the hider. *)
Definition demo_world_sight : Engine :=
  set_bvh (fun _ _ _ => (Entity_id 10, F32.ofZ 1))
    (updDyn (set_position (mkVector3 F32.zero (F32.ofZ 1) (F32.ofZ 1)))
            (Entity_id 10) (demo_world 0)).

(** Two hiders at most: the first episode has two hiders and one seeker,
    the second, started by the natural reset after 240 steps, one of
    each, so that interface 2 is active in the first episode only. *)
Definition demo_world_shrunk : Engine :=
  worldOf (demo_run (demo_cfg 1 2 1 1) (replicate 240 no_input)).

(** The same run one step later: tick 0 of the second episode has run. *)
Definition demo_world_second_episode : Engine :=
  worldOf (demo_run (demo_cfg 1 2 1 1) (replicate 241 no_input)).

(** ** Vocabulary of the further properties *)

(** A visibility mask entry: [0.f] or [1.f]. *)
Definition binaryMask (f : float) : Prop := f = F32.zero \/ f = F32.ofZ 1.

(** Two component records that differ in the external force and torque
    at most. *)
Definition sameButForces (c c' : DynComponents) : Prop :=
  set_externalTorque (externalTorque c) (set_externalForce (externalForce c) c')
  = c.

(** The physics entity behind an agent interface ([SimEntity]), none
    for an entity with no interface. *)
Definition simEntityOf (ctx : Engine) (agent_e : Entity) : Entity :=
  match getIface ctx agent_e with
  | Some i => simEntity i
  | None => Entity_none
  end.

(** The entities that the tables of the world register: the first
    [numObstacles] obstacles, and the first [numHiders] hiders and
    [numSeekers] seekers. *)
Definition registeredObstacles (ctx : Engine) : list Entity :=
  entityAt (obstacles (data ctx)) <$> seqZ 0 (numObstacles (data ctx)).

Definition registeredAgents (ctx : Engine) : list Entity :=
  (entityAt (hiders (data ctx)) <$> seqZ 0 (numHiders (data ctx)))
  ++ (entityAt (seekers (data ctx)) <$> seqZ 0 (numSeekers (data ctx))).

Definition registeredEntities (ctx : Engine) : list Entity :=
  registeredObstacles ctx ++ registeredAgents ctx.

(** [ctx'] is [ctx] with some physics entities and joints destroyed. *)
Definition destroyedFrom (ctx ctx' : Engine) : Prop :=
  data ctx' = data ctx /\ interfaces ctx' = interfaces ctx /\
  nextEntity ctx' = nextEntity ctx /\ bvh ctx' = bvh ctx /\
  worldReset ctx' = worldReset ctx /\ loadCheckpoint ctx' = loadCheckpoint ctx /\
  checkpoint ctx' = checkpoint ctx /\ worldID ctx' = worldID ctx /\
  constraints ctx' ⊆ constraints ctx.

(** The counters that [resetEnvironment] clears. *)
Definition clearCounters (d : Sim) : Sim :=
  set_numActiveAgents 0 (set_numSeekers 0 (set_numHiders 0
    (set_numActiveRamps 0 (set_numActiveBoxes 0 (set_numObstacles 0
      (set_curEpisodeStep 0 d)))))).

(** Interface slot [k] holds an interface entity that is marked
    inactive: no physics entity and mask [0.f]. *)
Definition slotCleared (ctx : Engine) (k : Z) : Prop :=
  exists id i,
    agentInterfaces (data ctx) !! Z.to_nat k = Some (Entity_id id) /\
    interfaces ctx !! id = Some i /\
    simEntity i = Entity_none /\ activeMask i = F32.zero.

(** A level under construction from a world whose next free identifier
    was [n0]: [no] obstacles, [nh] hiders and [ns] seekers have been made
    and stored at the head of their tables, and every entity made since
    is among them. *)
Definition built (n0 : nat) (no nh ns : nat) (ctx : Engine) : Prop :=
  nextEntity ctx = (n0 + no + nh + ns)%nat /\
  tablesOk ctx /\ interfacesOk ctx /\
  numHiders (data ctx) = Z.of_nat nh /\
  numSeekers (data ctx) = Z.of_nat ns /\
  numActiveAgents (data ctx) = Z.of_nat (nh + ns) /\
  forall n, (n0 <= n < nextEntity ctx)%nat ->
    Entity_id n ∈ take no (obstacles (data ctx))
                  ++ take nh (hiders (data ctx))
                  ++ take ns (seekers (data ctx)).

(** ** The debug export of positions ([globalPositionsDebugSystem]) *)

Record GlobalDebugPositions : Type := mkGlobalDebugPositions {
  boxPositions : list Vector2;
  rampPositions : list Vector2;
  agentPositions : list Vector2
}.

(** The lambda [getXY]. *)
Definition getXY (v : Vector3) : Vector2 := mkVector2 (v3x v) (v3y v).

(** The last loop of the system,
    [for (; out_offset < maxAgents; out_offset++)
       agentPositions[out_offset++] = {0, 0}]:
    the index advances once in the body and once in the loop header.
    The loop makes at most [maxAgents] passes. *)
Fixpoint padAgentPositions (passes : nat) (out_offset : Z)
    (agent_positions : list Vector2) : list Vector2 :=
  match passes with
  | O => agent_positions
  | S passes' =>
      if out_offset <? consts.maxAgents then
        let agent_positions := writeAt out_offset Vector2_zero agent_positions in
        let out_offset := out_offset + 1 in
        padAgentPositions passes' (out_offset + 1) agent_positions
      else agent_positions
  end.

Definition globalPositionsDebugSystem (ctx : Engine)
    (global_positions : GlobalDebugPositions) : GlobalDebugPositions :=
  let box_positions :=
    foldl (fun bp i =>
             if i >=? numActiveBoxes (data ctx)
             then writeAt i Vector2_zero bp
             else writeAt i
                    (getXY (position (readDyn ctx (entityAt (boxes (data ctx)) i))))
                    bp)
          (boxPositions global_positions) (seqZ 0 consts.maxBoxes) in
  let ramp_positions :=
    foldl (fun rp i =>
             if i >=? numActiveRamps (data ctx)
             then writeAt i Vector2_zero rp
             else writeAt i
                    (getXY (position (readDyn ctx (entityAt (ramps (data ctx)) i))))
                    rp)
          (rampPositions global_positions) (seqZ 0 consts.maxRamps) in
  let '(agent_positions, out_offset) :=
    foldl (fun '(ap, out_offset) i =>
             (writeAt out_offset
                (getXY (position (readDyn ctx (entityAt (hiders (data ctx)) i))))
                ap,
              out_offset + 1))
          (agentPositions global_positions, 0)
          (seqZ 0 (numHiders (data ctx))) in
  let '(agent_positions, out_offset) :=
    foldl (fun '(ap, out_offset) i =>
             (writeAt out_offset
                (getXY (position (readDyn ctx (entityAt (seekers (data ctx)) i))))
                ap,
              out_offset + 1))
          (agent_positions, out_offset)
          (seqZ 0 (numSeekers (data ctx))) in
  let agent_positions :=
    padAgentPositions (Z.to_nat consts.maxAgents) out_offset agent_positions in
  mkGlobalDebugPositions box_positions ramp_positions agent_positions.

(** ** The lidar ([lidarSystem]) *)

(** Functions of the C library and of the math library that the lidar
    and the debug levels call. *)
Record MathLib : Type := mkMathLib {
  cosf : float -> float;
  sinf : float -> float;
  atanf : float -> float;
  sqrtf : float -> float;
  toRadians : float -> float;
  (** [math::pi_d2] *)
  pi_d2 : float
}.

(** The direction of ray [idx] in the lambda [traceRay]. *)
Definition lidarRayDir (ext : Extern) (lm : MathLib) (rot : Quat) (idx : Z)
    : Vector3 :=
  let agent_fwd := rotateVec ext rot math.fwd in
  let right := rotateVec ext rot math.right in
  let theta :=
    F32.add (F32.mul (F32.mul (F32.ofZ 2) (pi ext))
                     (F32.div (F32.ofZ idx) (F32.ofZ 30)))
            (F32.div (pi ext) (F32.ofZ 2)) in
  let x := cosf lm theta in
  let y := sinf lm theta in
  v3normalize ext (v3add (v3scale x right) (v3scale y agent_fwd)).

Definition traceRay (ext : Extern) (lm : MathLib) (ctx : Engine)
    (pos : Vector3) (rot : Quat) (idx : Z) (depth : list float) : list float :=
  let ray_dir := lidarRayDir ext lm rot idx in
  let '(hit_entity, hit_t) := bvh ctx pos ray_dir (F32.ofZ 200) in
  if decide (hit_entity = Entity_none) then writeAt idx F32.zero depth
  else writeAt idx hit_t depth.

(** The host path of the system (the loop over the 30 rays). *)
Definition lidarSystem (ext : Extern) (lm : MathLib) (ctx : Engine)
    (sim_e : Entity) (depth : list float) : list float :=
  if decide (sim_e = Entity_none) then depth
  else
    let pos := position (readDyn ctx sim_e) in
    let rot := rotation (readDyn ctx sim_e) in
    foldl (fun depth i => traceRay ext lm ctx pos rot i depth) depth (seqZ 0 30).

(** ** Vocabulary of the visibility properties *)

(** The agent at table index [idx] is another agent, is a hider, and is
    visible from [agent_pos] along [agent_fwd]. *)
Definition seesHiderAt (ext : Extern) (ctx : Engine) (agent_e : Entity)
    (agent_pos agent_fwd : Vector3) (idx : Z) : Prop :=
  let other := entityAt (agentInterfaces (data ctx)) idx in
  other <> agent_e /\
  float_to_bool
    (checkVisibility ext ctx agent_pos agent_fwd (simEntityOf ctx other)) = true /\
  exists i, getIface ctx other = Some i /\ agentType i = Hider.

(** ** The debug levels ([level_gen.cpp])

    The hand-authored scenes behind the level ids 2 to 8; they
    instantiate the parameter [generateDebugEnvironment] of
    [generateEnvironment]. *)

Section DebugLevels.

Variable ext : Extern.
Variable lm : MathLib.

Definition yAxis : Vector3 := mkVector3 F32.zero (F32.ofZ 1) F32.zero.

Definition singleCubeLevel (pos : Vector3) (rot : Quat) : Gen unit :=
  let total_entities := 0 in
  test_cube <- makeDynObject pos rot Cube Dynamic OwnerTeam_None one3 ;;
  tableWrite obstacles set_obstacles total_entities test_cube ;;;
  let total_entities := total_entities + 1 in
  e <- makePlane Vector3_zero (angleAxis ext F32.zero xAxis) ;;
  tableWrite obstacles set_obstacles total_entities e ;;;
  let total_entities := total_entities + 1 in
  modify (updData (set_numObstacles total_entities)).

Definition level2 : Gen unit :=
  let cube_rotation :=
    quatNormalize ext (quatNormalize ext
      (quatMul ext
         (angleAxis ext (atanf lm (F32.div (F32.ofZ 1) (sqrtf lm (F32.ofZ 2))))
                    yAxis)
         (angleAxis ext (toRadians lm (F32.ofZ 45)) xAxis))) in
  singleCubeLevel (mkVector3 F32.zero F32.zero (F32.ofZ 5)) cube_rotation.

Definition level3 : Gen unit :=
  singleCubeLevel (mkVector3 F32.zero F32.zero (F32.ofZ 5))
                  (angleAxis ext F32.zero zAxis).

Definition level4 : Gen unit :=
  let pos := mkVector3 F32.zero F32.zero (F32.ofZ 5) in
  let rot := quatNormalize ext (angleAxis ext (toRadians lm (F32.ofZ 45)) yAxis) in
  let total_entities := 0 in
  e <- makeDynObject (v3add pos (mkVector3 F32.zero F32.zero (F32.ofZ 5))) rot
                     Box Dynamic OwnerTeam_None one3 ;;
  tableWrite obstacles set_obstacles total_entities e ;;;
  let total_entities := total_entities + 1 in
  e <- makePlane Vector3_zero (angleAxis ext F32.zero xAxis) ;;
  tableWrite obstacles set_obstacles total_entities e ;;;
  let total_entities := total_entities + 1 in
  modify (updData (set_numObstacles total_entities)).

(** Level 5 stores the plane in the obstacle table and makes one hider;
    it does not assign [numObstacles]. *)
Definition level5 : Gen unit :=
  let num_entities := 0 in
  e <- makePlane Vector3_zero (angleAxis ext F32.zero xAxis) ;;
  tableWrite obstacles set_obstacles num_entities e ;;;
  makeDynAgent (mkVector3 F32.zero F32.zero (F32.ofZ 1))
               (mkQuat (F32.ofZ 1) F32.zero F32.zero F32.zero) Hider ;;;
  ret tt.

Definition level6 : Gen unit :=
  let num_entities := 0 in
  e <- makePlane Vector3_zero (angleAxis ext F32.zero xAxis) ;;
  tableWrite obstacles set_obstacles num_entities e ;;;
  let num_entities := num_entities + 1 in
  e <- makeDynObject Vector3_zero (angleAxis ext F32.zero xAxis) Wall Static
         OwnerTeam_Unownable
         (mkVector3 (F32.ofZ 10) (F32.div (F32.ofZ 1) (F32.ofZ 5)) (F32.ofZ 1)) ;;
  tableWrite obstacles set_obstacles num_entities e ;;;
  let num_entities := num_entities + 1 in
  e <- makeDynObject (mkVector3 F32.zero (F32.ofZ (-5)) (F32.ofZ 1))
         (angleAxis ext F32.zero xAxis) Cube Dynamic OwnerTeam_None one3 ;;
  tableWrite obstacles set_obstacles num_entities e ;;;
  let num_entities := num_entities + 1 in
  makeDynAgent (mkVector3 (F32.ofZ (-15)) (F32.ofZ (-15))
                          (F32.div (F32.ofZ 3) (F32.ofZ 2)))
               (angleAxis ext (toRadians lm (F32.ofZ (-45))) zAxis) Hider ;;;
  makeDynAgent (mkVector3 (F32.ofZ (-15)) (F32.ofZ (-10))
                          (F32.div (F32.ofZ 3) (F32.ofZ 2)))
               (angleAxis ext (toRadians lm (F32.ofZ 45)) zAxis) Seeker ;;;
  modify (updData (set_numObstacles num_entities)).

Definition level7 : Gen unit :=
  let pos := mkVector3 F32.zero F32.zero (F32.ofZ 5) in
  let rot :=
    quatNormalize ext
      (quatMul ext (angleAxis ext (toRadians lm (F32.ofZ 45)) yAxis)
                   (angleAxis ext (toRadians lm (F32.ofZ 40)) xAxis)) in
  let total_entities := 0 in
  e <- makeDynObject pos rot Cube Dynamic OwnerTeam_None one3 ;;
  tableWrite obstacles set_obstacles total_entities e ;;;
  let total_entities := total_entities + 1 in
  e <- makeDynObject (v3add pos (mkVector3 F32.zero F32.zero (F32.ofZ 5))) rot
                     Cube Dynamic OwnerTeam_None one3 ;;
  tableWrite obstacles set_obstacles total_entities e ;;;
  let total_entities := total_entities + 1 in
  e <- makePlane Vector3_zero (angleAxis ext F32.zero xAxis) ;;
  tableWrite obstacles set_obstacles total_entities e ;;;
  let total_entities := total_entities + 1 in
  e <- makePlane (mkVector3 (F32.ofZ (-20)) F32.zero F32.zero)
                 (angleAxis ext (pi_d2 lm) yAxis) ;;
  tableWrite obstacles set_obstacles total_entities e ;;;
  let total_entities := total_entities + 1 in
  e <- makePlane (mkVector3 (F32.ofZ 20) F32.zero F32.zero)
                 (angleAxis ext (F32.opp (pi_d2 lm)) yAxis) ;;
  tableWrite obstacles set_obstacles total_entities e ;;;
  let total_entities := total_entities + 1 in
  modify (updData (set_numObstacles total_entities)).

Definition level8 : Gen unit :=
  let total_entities := 0 in
  let ramp_pos := mkVector3 F32.zero F32.zero (F32.ofZ 10) in
  let ramp_rot :=
    quatNormalize ext
      (quatMul ext
         (quatMul ext (angleAxis ext (toRadians lm (F32.ofZ 25)) yAxis)
                      (angleAxis ext (toRadians lm (F32.ofZ 90)) zAxis))
         (angleAxis ext (toRadians lm (F32.ofZ 45)) xAxis)) in
  ramp_dyn <- makeDynObject ramp_pos ramp_rot Ramp Dynamic OwnerTeam_None one3 ;;
  tableWrite obstacles set_obstacles total_entities ramp_dyn ;;;
  let total_entities := total_entities + 1 in
  modify (updDyn (set_velocity (mkVector3 F32.zero F32.zero (F32.ofZ (-30))))
                 ramp_dyn) ;;;
  e <- makeDynObject
         (mkVector3 (F32.div (F32.ofZ (-1)) (F32.ofZ 2))
                    (F32.div (F32.ofZ (-1)) (F32.ofZ 2)) (F32.ofZ 1))
         (quatNormalize ext
            (quatMul ext (angleAxis ext (toRadians lm (F32.ofZ (-90))) xAxis)
                         (angleAxis ext (pi ext) yAxis)))
         Ramp Static OwnerTeam_None one3 ;;
  tableWrite obstacles set_obstacles total_entities e ;;;
  let total_entities := total_entities + 1 in
  e <- makePlane Vector3_zero (angleAxis ext F32.zero xAxis) ;;
  tableWrite obstacles set_obstacles total_entities e ;;;
  let total_entities := total_entities + 1 in
  e <- makePlane (mkVector3 (F32.ofZ (-20)) F32.zero F32.zero)
                 (angleAxis ext (pi_d2 lm) yAxis) ;;
  tableWrite obstacles set_obstacles total_entities e ;;;
  let total_entities := total_entities + 1 in
  e <- makePlane (mkVector3 (F32.ofZ 20) F32.zero F32.zero)
                 (angleAxis ext (F32.opp (pi_d2 lm)) yAxis) ;;
  tableWrite obstacles set_obstacles total_entities e ;;;
  let total_entities := total_entities + 1 in
  modify (updData (set_numObstacles total_entities)).

(** The [switch] has no default: any other level id builds nothing. *)
Definition generateDebugEnvironment (level_id : Z) : Gen unit :=
  match level_id with
  | 2 => level2
  | 3 => level3
  | 4 => level4
  | 5 => level5
  | 6 => level6
  | 7 => level7
  | 8 => level8
  | _ => ret tt
  end.

End DebugLevels.

(** An export buffer whose slots all hold (1, 1). *)
Definition demo_positions : GlobalDebugPositions :=
  let one := mkVector2 (F32.ofZ 1) (F32.ofZ 1) in
  mkGlobalDebugPositions (replicate 9 one) (replicate 2 one) (replicate 16 one).

Definition demo_mathlib : MathLib :=
  mkMathLib (fun _ => F32.zero) (fun _ => F32.ofZ 1) (fun x => x) (fun x => x)
            (fun x => x) F32.zero.

(** The world of the examples after [resetEnvironment]: no object and
    no agent is left. *)
Definition demo_reset : Engine := resetEnvironment (demo_ext false) (demo_world 0).


(** * Properties *)

(** ** Entity tables *)

Lemma getDyn_updDyn (f : DynComponents -> DynComponents) (e e' : Entity)
    (ctx : Engine) :
  getDyn (updDyn f e ctx) e' =
  if decide (e = e') then f <$> getDyn ctx e' else getDyn ctx e'.
Proof.
  destruct (decide (e = e')) as [<-|Hne].
  - destruct e as [|n]; [reflexivity|]. apply lookup_alter_eq.
  - destruct e as [|n]; [reflexivity|].
    destruct e' as [|n']; [reflexivity|].
    apply lookup_alter_ne. congruence.
Qed.

Lemma data_updDyn (f : DynComponents -> DynComponents) (e : Entity)
    (ctx : Engine) :
  data (updDyn f e ctx) = data ctx.
Proof. destruct e; reflexivity. Qed.

Lemma getDyn_destroyConstraint (j e : Entity) (ctx : Engine) :
  getDyn (destroyConstraint j ctx) e = getDyn ctx e.
Proof. destruct j, e; reflexivity. Qed.

Section ActionProperties.

Variable ext : Extern.

Lemma grabBlock_body (ctx : Engine) (sim_e e : Entity) (c : DynComponents) :
  getDyn ctx e = Some c ->
  exists c', getDyn (grabBlock ext ctx sim_e) e = Some c' /\ sameBody c c'.
Proof.
  intros He. unfold grabBlock.
  destruct (getDyn ctx sim_e) as [a|] eqn:Ha; [|exists c; split; [done|split; done]].
  destruct (grabData a) as [ce|]; [|exists c; split; [done|split; done]].
  destruct (decide (ce <> Entity_none)).
  { rewrite getDyn_updDyn, getDyn_destroyConstraint, He.
    destruct (decide (sim_e = e)); eexists; (split; [reflexivity|split; reflexivity]). }
  destruct (bvh ctx _ _ _) as [g hit_t].
  destruct (decide (g = Entity_none)); [exists c; split; [done|split; done]|].
  destruct (getDyn ctx g) as [o|]; [|exists c; split; [done|split; done]].
  destruct (_ && _); [|exists c; split; [done|split; done]].
  cbn [makeFixedJoint]. rewrite getDyn_updDyn.
  replace (getDyn _ e) with (Some c)
    by (destruct e; [discriminate He | exact (eq_sym He)]).
  destruct (decide (sim_e = e)); eexists; (split; [reflexivity|split; reflexivity]).
Qed.

Lemma gate_open (ctx : Engine) (agent_type : AgentType) :
  processed ctx agent_type ->
  bool_decide (agent_type = Seeker)
  && (curEpisodeStep (data ctx) <? numPrepSteps - 1) = false.
Proof.
  intros [->|H].
  - reflexivity.
  - apply andb_false_iff. right. apply Z.ltb_ge. exact H.
Qed.

Lemma gate_closed (ctx : Engine) :
  curEpisodeStep (data ctx) < numPrepSteps - 1 ->
  bool_decide (Seeker = Seeker)
  && (curEpisodeStep (data ctx) <? numPrepSteps - 1) = true.
Proof.
  intros H. apply andb_true_iff. split.
  - apply bool_decide_eq_true. reflexivity.
  - apply Z.ltb_lt. exact H.
Qed.

(** The state of the object that the lock ray hits, after the lock
    block. *)
Lemma lockBlock_hit (ctx : Engine) (sim_e obj : Entity) (agent_type : AgentType)
    (a o : DynComponents) (hit_t : float) :
  getDyn ctx sim_e = Some a ->
  bvh ctx (interactOrigin a) (interactDir ext a) f_2_5 = (obj, hit_t) ->
  getDyn ctx obj = Some o ->
  exists o', getDyn (lockBlock ext ctx sim_e agent_type) obj = Some o' /\
    (responseType o <> Static -> ownerTeam o = OwnerTeam_None ->
       responseType o' = Static /\ ownerTeam o' = teamOf agent_type) /\
    (responseType o = Static -> ownerTeam o = teamOf agent_type ->
       responseType o' = Dynamic /\ ownerTeam o' = OwnerTeam_None) /\
    (responseType o = Static -> ownerTeam o <> teamOf agent_type -> o' = o) /\
    (responseType o <> Static -> ownerTeam o <> OwnerTeam_None -> o' = o).
Proof.
  intros Ha Hray Ho. unfold lockBlock. rewrite Ha.
  unfold interactOrigin, interactDir in Hray. rewrite Hray.
  assert (Hobj : obj <> Entity_none) by (intros ->; discriminate Ho).
  destruct (decide (obj = Entity_none)) as [E|_]; [contradiction|].
  rewrite Ho.
  destruct (decide (responseType o = Static)) as [Hs|Hs].
  - destruct (bool_decide _ || bool_decide _) eqn:Hown.
    + rewrite getDyn_updDyn, Ho. rewrite decide_True by reflexivity.
      eexists. split; [reflexivity|].
      apply orb_true_iff in Hown.
      split; [intros H; contradiction|].
      split; [intros _ _; split; reflexivity|].
      split; [|intros H; contradiction].
      intros _ Hne. exfalso. apply Hne.
      destruct Hown as [H|H]; apply bool_decide_eq_true in H;
        destruct H as [-> ->]; reflexivity.
    + exists o. split; [exact Ho|].
      apply orb_false_iff in Hown. destruct Hown as [H1 H2].
      apply bool_decide_eq_false in H1. apply bool_decide_eq_false in H2.
      split; [intros H; contradiction|].
      split; [|split; [reflexivity|intros H; contradiction]].
      intros _ Hown. exfalso. destruct agent_type; simpl in Hown; tauto.
  - destruct (decide (ownerTeam o = OwnerTeam_None)) as [Hn|Hn].
    + rewrite getDyn_updDyn, Ho. rewrite decide_True by reflexivity.
      eexists. split; [reflexivity|].
      split; [intros _ _; split; [reflexivity|destruct agent_type; reflexivity]|].
      split; [intros H; contradiction|].
      split; [intros H; contradiction|intros _ H; contradiction].
    + exists o. split; [exact Ho|].
      split; [intros _ H; contradiction|].
      split; [intros H; contradiction|].
      split; [intros H; contradiction|reflexivity].
Qed.

(** C1 (as amended).  While the tick index is below [numPrepSteps - 1]
    (ticks 0 to 94) the movement system and the action system return the
    world, and the action record, of a seeker as they received them: no
    force, no torque, no lock, no grab.  An agent that is processed -- a
    hider at any tick, a seeker from tick 95 on -- has its force and
    torque written from the action, and its lock and grab blocks run. *)
Theorem seeker_gate (ctx : Engine) (action : Action) (sim_e : Entity)
    (agent_type : AgentType) (a : DynComponents) :
  getDyn ctx sim_e = Some a ->
  (agent_type = Seeker -> curEpisodeStep (data ctx) < numPrepSteps - 1 ->
     movementSystem ext ctx action sim_e agent_type = ctx /\
     actionSystem ext ctx action sim_e agent_type = (ctx, action)) /\
  (processed ctx agent_type ->
     getDyn (movementSystem ext ctx action sim_e agent_type) sim_e =
       Some (set_externalTorque
               (mkVector3 F32.zero F32.zero
                  (F32.mul turn_delta_per_bucket (F32.ofZ (action_r action - 5))))
               (set_externalForce
                  (rotateVec ext (rotation a)
                     (mkVector3
                        (F32.mul move_delta_per_bucket (F32.ofZ (action_x action - 5)))
                        (F32.mul move_delta_per_bucket (F32.ofZ (action_y action - 5)))
                        F32.zero))
                  a)) /\
     fst (actionSystem ext ctx action sim_e agent_type) =
       (let ctx1 := if action_l action =? 1
                    then lockBlock ext ctx sim_e agent_type else ctx in
        if action_g action =? 1 then grabBlock ext ctx1 sim_e else ctx1)).
Proof.
  intros Ha.
  assert (Hlive : sim_e <> Entity_none) by (intros ->; discriminate Ha).
  split.
  - intros -> Hstep. unfold movementSystem, actionSystem.
    rewrite !decide_False by exact Hlive.
    rewrite (gate_closed ctx Hstep). split; reflexivity.
  - intros Hp. unfold movementSystem, actionSystem.
    rewrite !decide_False by exact Hlive.
    rewrite (gate_open ctx agent_type Hp). rewrite Ha. split; [|reflexivity].
    rewrite !getDyn_updDyn, Ha. rewrite !decide_True by reflexivity.
    reflexivity.
Qed.

(** C3 (as amended).  After the action system has run for an agent that
    is alive and processed at that tick, its action record reads neutral:
    x = 5, y = 5, r = 5, g = 0, l = 0. *)
Theorem action_consumed (ctx : Engine) (action : Action) (sim_e : Entity)
    (agent_type : AgentType) :
  sim_e <> Entity_none ->
  processed ctx agent_type ->
  snd (actionSystem ext ctx action sim_e agent_type) = mkAction 5 5 5 0 0.
Proof.
  intros Hlive Hp. unfold actionSystem.
  rewrite decide_False by exact Hlive.
  rewrite (gate_open ctx agent_type Hp). reflexivity.
Qed.

(** C4.  An agent issues lock ([action.l = 1]) and its interaction ray
    hits the object [obj].  A dynamic, unowned object becomes static and
    owned by the team of the agent; a static object owned by the agent's
    own team becomes dynamic and unowned; a static object owned by the
    other team keeps its mobility and its owner. *)
Theorem lock_toggles_ownership (ctx : Engine) (action : Action)
    (sim_e obj : Entity) (agent_type : AgentType) (a o : DynComponents)
    (hit_t : float) :
  getDyn ctx sim_e = Some a ->
  processed ctx agent_type ->
  action_l action = 1 ->
  bvh ctx (interactOrigin a) (interactDir ext a) f_2_5 = (obj, hit_t) ->
  getDyn ctx obj = Some o ->
  exists o',
    getDyn (fst (actionSystem ext ctx action sim_e agent_type)) obj = Some o' /\
    (responseType o = Dynamic -> ownerTeam o = OwnerTeam_None ->
       responseType o' = Static /\ ownerTeam o' = teamOf agent_type) /\
    (responseType o = Static -> ownerTeam o = teamOf agent_type ->
       responseType o' = Dynamic /\ ownerTeam o' = OwnerTeam_None) /\
    (forall other : AgentType, other <> agent_type ->
       responseType o = Static -> ownerTeam o = teamOf other ->
       responseType o' = Static /\ ownerTeam o' = teamOf other).
Proof.
  intros Ha Hp Hl Hray Ho.
  assert (Hlive : sim_e <> Entity_none) by (intros ->; discriminate Ha).
  destruct (lockBlock_hit ctx sim_e obj agent_type a o hit_t Ha Hray Ho)
    as (o1 & Ho1 & Hlock & Hrelease & Hforeign & _).
  assert (Hgrab : exists o',
            getDyn (fst (actionSystem ext ctx action sim_e agent_type)) obj = Some o'
            /\ sameBody o1 o').
  { unfold actionSystem. rewrite decide_False by exact Hlive.
    rewrite (gate_open ctx agent_type Hp). rewrite Hl. cbn [Z.eqb Pos.eqb fst].
    destruct (action_g action =? 1).
    - apply grabBlock_body. exact Ho1.
    - exists o1. split; [exact Ho1|split; reflexivity]. }
  destruct Hgrab as (o' & Ho' & Hr & Hw).
  exists o'. split; [exact Ho'|]. rewrite Hr, Hw.
  split; [|split].
  - intros Hd Hn. apply Hlock; [rewrite Hd; discriminate|exact Hn].
  - exact Hrelease.
  - intros other Hne Hs Hown.
    assert (E : o1 = o).
    { apply Hforeign; [exact Hs|]. rewrite Hown.
      destruct other, agent_type; simpl; congruence. }
    rewrite E. split; [exact Hs|exact Hown].
Qed.

End ActionProperties.

(** ** Rewards and episode boundaries *)

Lemma output_live (ctx : Engine) (sim_e : Entity) (agent_type : AgentType)
    (reward : float) (done : Z) :
  sim_e <> Entity_none ->
  outputRewardsDonesSystem ctx sim_e agent_type reward done =
  let cur_step := curEpisodeStep (data ctx) in
  let done := if cur_step =? 0 then 0 else done in
  if cur_step <? numPrepSteps - 1 then (F32.zero, done)
  else (withBoundaryPenalty (position (readDyn ctx sim_e))
          (teamRewardVal ctx agent_type),
        if cur_step =? episodeLen - 1 then 1 else done).
Proof.
  intros Hlive. unfold outputRewardsDonesSystem, withBoundaryPenalty.
  rewrite decide_False by exact Hlive. cbv zeta.
  destruct (_ <? _); [reflexivity|]. destruct (outsideArena _); reflexivity.
Qed.

(** C5.  At a tick at or after the preparation phase the reward emitted
    to a hider and the reward emitted to a seeker are their team values
    followed by the arena-bound penalty; the team value of the hider is
    the shared scalar, the one of the seeker is its negation, and the two
    add up to zero. *)
Theorem reward_zero_sum (ctx : Engine) (hider_e seeker_e : Entity)
    (rh rs : float) (dh ds : Z) :
  hider_e <> Entity_none ->
  seeker_e <> Entity_none ->
  numPrepSteps <= curEpisodeStep (data ctx) ->
  teamRewardSet ctx ->
  fst (outputRewardsDonesSystem ctx hider_e Hider rh dh) =
    withBoundaryPenalty (position (readDyn ctx hider_e)) (teamRewardVal ctx Hider) /\
  fst (outputRewardsDonesSystem ctx seeker_e Seeker rs ds) =
    withBoundaryPenalty (position (readDyn ctx seeker_e)) (teamRewardVal ctx Seeker) /\
  teamRewardVal ctx Hider = hiderTeamReward (data ctx) /\
  teamRewardVal ctx Seeker = F32.opp (hiderTeamReward (data ctx)) /\
  F32.add (teamRewardVal ctx Hider) (teamRewardVal ctx Seeker) = F32.zero.
Proof.
  intros Hh Hs Hstep Hset.
  assert (Hlate : (curEpisodeStep (data ctx) <? numPrepSteps - 1) = false).
  { apply Z.ltb_ge. unfold numPrepSteps in *. lia. }
  rewrite !output_live by assumption. cbv zeta. rewrite Hlate. cbn [fst].
  split; [reflexivity|]. split; [reflexivity|].
  unfold teamRewardVal. cbn [decide].
  rewrite decide_False by discriminate. rewrite decide_True by reflexivity.
  destruct Hset as [-> | ->]; repeat split; vm_compute; reflexivity.
Qed.

Lemma rewardDoneTrace_length (ctxs : list Engine) (sim_e : Entity)
    (agent_type : AgentType) (rd : float * Z) :
  length (rewardDoneTrace ctxs sim_e agent_type rd) = length ctxs.
Proof.
  revert rd. induction ctxs as [|ctx rest IH]; intros rd; [reflexivity|].
  cbn [rewardDoneTrace length]. rewrite IH. reflexivity.
Qed.

Lemma rewardDoneTrace_lookup (ctxs : list Engine) (sim_e : Entity)
    (agent_type : AgentType) :
  sim_e <> Entity_none ->
  forall (first : Z) (rd : float * Z),
    0 <= first ->
    first + Z.of_nat (length ctxs) <= episodeLen ->
    ticksFrom first ctxs ->
    (first = 0 \/ snd rd = 0) ->
    forall (k : nat) (r : float) (d : Z),
      rewardDoneTrace ctxs sim_e agent_type rd !! k = Some (r, d) ->
      d = (if first + Z.of_nat k =? episodeLen - 1 then 1 else 0) /\
      (first + Z.of_nat k < numPrepSteps - 1 -> r = F32.zero).
Proof.
  intros Hlive. induction ctxs as [|ctx rest IH]; intros first rd H0 Hlen Hticks Hrd k r d Hk.
  - destruct k; discriminate Hk.
  - assert (Hstep : curEpisodeStep (data ctx) = first).
    { rewrite (Hticks 0%nat ctx eq_refl). lia. }
    cbn [rewardDoneTrace] in Hk. rewrite output_live in Hk by exact Hlive.
    cbv zeta in Hk. rewrite Hstep in Hk.
    cbn [length] in Hlen.
    set (d0 := if first =? 0 then 0 else snd rd) in Hk.
    assert (Hd0 : d0 = 0).
    { unfold d0. destruct Hrd as [-> | ->]; [reflexivity|].
      destruct (first =? 0); reflexivity. }
    destruct k as [|k].
    + cbn in Hk. replace (first + Z.of_nat 0) with first by lia.
      destruct (first <? numPrepSteps - 1) eqn:Hprep.
      * injection Hk as <- <-. split; [|reflexivity].
        apply Z.ltb_lt in Hprep. unfold numPrepSteps, episodeLen in *.
        rewrite Hd0. destruct (first =? 240 - 1) eqn:E; [|reflexivity].
        apply Z.eqb_eq in E. lia.
      * injection Hk as <- <-. split.
        -- rewrite Hd0. reflexivity.
        -- apply Z.ltb_ge in Hprep. lia.
    + cbn [lookup list_lookup] in Hk.
      replace (first + Z.of_nat (S k)) with ((first + 1) + Z.of_nat k) by lia.
      eapply IH; [| | | |exact Hk].
      * lia.
      * lia.
      * intros j c Hj. rewrite (Hticks (S j) c Hj). lia.
      * right.
        destruct (first <? numPrepSteps - 1); cbn [snd]; [exact Hd0|].
        rewrite Hd0. destruct (first =? episodeLen - 1) eqn:E; [|reflexivity].
        apply Z.eqb_eq in E. apply lookup_lt_Some in Hk.
        rewrite rewardDoneTrace_length in Hk. unfold episodeLen in *. lia.
Qed.

Lemma rewardDoneTrace_inactive (ctxs : list Engine) (agent_type : AgentType)
    (rd : float * Z) (k : nat) :
  (k < length ctxs)%nat ->
  rewardDoneTrace ctxs Entity_none agent_type rd !! k = Some rd.
Proof.
  revert k. induction ctxs as [|ctx rest IH]; intros k Hk; cbn [length] in Hk;
    [lia|].
  cbn [rewardDoneTrace]. unfold outputRewardsDonesSystem.
  rewrite decide_True by reflexivity. destruct rd as [r d]. cbn [fst snd].
  destruct k as [|k]; [reflexivity|]. cbn [lookup list_lookup].
  apply IH. lia.
Qed.

(** C6 (as amended).  Along the 240 ticks of an episode the done flag of
    a live agent, one whose slot holds a sim entity, reads 0 after each of
    the ticks 0 to 238 and 1 after tick 239, whatever it held before the
    episode; its reward reads zero after each of the ticks 0 to 94; and
    the first tick of the next episode clears its flag.  A slot without a
    sim entity is skipped by the guard of the system: its reward and its
    done flag keep, after every tick of the episode, the values they held
    before it, and tick 0 of the next episode leaves any reward and any
    flag of such a slot as they are, so that the flag of an agent whose
    slot the reset has emptied stays at 1. *)
Theorem episode_done_and_reward (ctxs : list Engine) (next : Engine)
    (sim_e : Entity) (agent_type : AgentType) (rd0 : float * Z) :
  sim_e <> Entity_none ->
  length ctxs = Z.to_nat episodeLen ->
  ticksFrom 0 ctxs ->
  curEpisodeStep (data next) = 0 ->
  (forall (k : nat) (r : float) (d : Z),
     rewardDoneTrace ctxs sim_e agent_type rd0 !! k = Some (r, d) ->
     (Z.of_nat k <= episodeLen - 2 -> d = 0) /\
     (Z.of_nat k = episodeLen - 1 -> d = 1) /\
     (Z.of_nat k <= numPrepSteps - 2 -> r = F32.zero)) /\
  (exists (r : float) (d : Z),
     rewardDoneTrace ctxs sim_e agent_type rd0 !! Z.to_nat (episodeLen - 1)
       = Some (r, d) /\
     d = 1 /\
     snd (outputRewardsDonesSystem next sim_e agent_type r d) = 0) /\
  (forall (k : nat), (k < length ctxs)%nat ->
     rewardDoneTrace ctxs Entity_none agent_type rd0 !! k = Some rd0) /\
  (forall (r : float) (d : Z),
     outputRewardsDonesSystem next Entity_none agent_type r d = (r, d)).
Proof.
  intros Hlive Hlen Hticks Hnext.
  cut ((forall (k : nat) (r : float) (d : Z),
          rewardDoneTrace ctxs sim_e agent_type rd0 !! k = Some (r, d) ->
          (Z.of_nat k <= episodeLen - 2 -> d = 0) /\
          (Z.of_nat k = episodeLen - 1 -> d = 1) /\
          (Z.of_nat k <= numPrepSteps - 2 -> r = F32.zero)) /\
       (exists (r : float) (d : Z),
          rewardDoneTrace ctxs sim_e agent_type rd0
            !! Z.to_nat (episodeLen - 1) = Some (r, d) /\
          d = 1 /\
          snd (outputRewardsDonesSystem next sim_e agent_type r d) = 0)).
  { intros [H1 H2]. split; [exact H1|]. split; [exact H2|]. split.
    - intros k Hk. apply rewardDoneTrace_inactive. exact Hk.
    - intros r d. unfold outputRewardsDonesSystem.
      rewrite decide_True by reflexivity. reflexivity. }
  assert (Hall : forall (k : nat) (r : float) (d : Z),
            rewardDoneTrace ctxs sim_e agent_type rd0 !! k = Some (r, d) ->
            d = (if 0 + Z.of_nat k =? episodeLen - 1 then 1 else 0) /\
            (0 + Z.of_nat k < numPrepSteps - 1 -> r = F32.zero)).
  { apply (rewardDoneTrace_lookup ctxs sim_e agent_type Hlive 0 rd0).
    - lia.
    - rewrite Hlen. unfold episodeLen. lia.
    - exact Hticks.
    - left. reflexivity. }
  split.
  - intros k r d Hk. destruct (Hall k r d Hk) as [Hd Hr].
    unfold episodeLen, numPrepSteps in *. repeat split.
    + intros Hle. rewrite Hd. destruct (0 + Z.of_nat k =? 240 - 1) eqn:E;
        [apply Z.eqb_eq in E; lia|reflexivity].
    + intros Heq. rewrite Hd. replace (0 + Z.of_nat k) with 239 by lia.
      reflexivity.
    + intros Hle. apply Hr. lia.
  - destruct (rewardDoneTrace ctxs sim_e agent_type rd0
                !! Z.to_nat (episodeLen - 1)) as [[r d]|] eqn:Hk.
    + exists r, d. destruct (Hall _ r d Hk) as [Hd _].
      split; [reflexivity|]. split.
      * rewrite Hd. reflexivity.
      * rewrite output_live by exact Hlive. cbv zeta. rewrite Hnext.
        reflexivity.
    + apply lookup_ge_None in Hk. rewrite rewardDoneTrace_length, Hlen in Hk.
      unfold episodeLen in Hk. lia.
Qed.

(** ** Observations of inactive slots *)

Lemma length_writeAt {A : Type} (i : Z) (v : A) (arr : list A) :
  length (writeAt i v arr) = length arr.
Proof. apply length_insert. Qed.

(** A loop that stores [g i] at every index [i] of a list of indices. *)
Lemma foldl_writeAt_length {A : Type} (g : Z -> A) (idxs : list Z) (arr : list A) :
  length (foldl (fun obs i => writeAt i (g i) obs) arr idxs) = length arr.
Proof.
  revert arr. induction idxs as [|i idxs IH]; intros arr; [reflexivity|].
  cbn [foldl]. rewrite IH. apply length_writeAt.
Qed.

Lemma foldl_writeAt_lookup {A : Type} (g : Z -> A) (idxs : list Z) (arr : list A)
    (k : Z) :
  k ∈ idxs ->
  Forall (fun i => 0 <= i) idxs ->
  (Z.to_nat k < length arr)%nat ->
  foldl (fun obs i => writeAt i (g i) obs) arr idxs !! Z.to_nat k = Some (g k).
Proof.
  revert arr. induction idxs as [|i idxs IH] using rev_ind; intros arr Hin Hpos Hlen.
  - inversion Hin.
  - rewrite foldl_app. cbn [foldl].
    apply Forall_app in Hpos. destruct Hpos as [Hpos Hi].
    apply Forall_inv in Hi.
    destruct (decide (i = k)) as [->|Hne].
    + apply list_lookup_insert_eq. rewrite foldl_writeAt_length. exact Hlen.
    + unfold writeAt. rewrite list_lookup_insert_ne.
      * apply IH; [|exact Hpos|exact Hlen].
        apply elem_of_app in Hin. destruct Hin as [Hin|Hin]; [exact Hin|].
        apply list_elem_of_singleton in Hin. congruence.
      * intros E. apply Hne. apply Z2Nat.inj in E; [exact E|exact Hi|].
        apply elem_of_app in Hin. destruct Hin as [Hin|Hin].
        -- rewrite Forall_forall in Hpos. apply Hpos. exact Hin.
        -- apply list_elem_of_singleton in Hin. subst k. exact Hi.
Qed.

Lemma seqZ_0_nonneg (n : Z) : Forall (fun i => 0 <= i) (seqZ 0 n).
Proof.
  apply Forall_forall. intros i Hi. apply elem_of_seqZ in Hi. lia.
Qed.

Lemma geb_true (a b : Z) : b <= a -> (a >=? b) = true.
Proof. intros H. rewrite Z.geb_leb. apply Z.leb_le. exact H. Qed.

Lemma geb_false (a b : Z) : a < b -> (a >=? b) = false.
Proof. intros H. rewrite Z.geb_leb. apply Z.leb_gt. exact H. Qed.

Lemma foldl_ext {A B : Type} (f g : A -> B -> A) (a : A) (l : list B) :
  (forall a b, f a b = g a b) -> foldl f a l = foldl g a l.
Proof.
  intros Hfg. revert a. induction l as [|b l IH]; intros a; [reflexivity|].
  cbn [foldl]. rewrite Hfg. apply IH.
Qed.

(** The loops over the other agents keep a running slot index.  The
    argument is made once, for any state [St] with an array and a counter:
    below [n] a step either skips (the agent itself) or fills one slot,
    from [n] on it stores [zero] at the counter. *)
Section CounterLoop.

Context {St A : Type}.
Variable arr : St -> list A.
Variable cnt : St -> Z.
Variable G : St -> Z -> St.
Variable zero : A.
Variable n : Z.
Variable self : Z.

Hypothesis G_pad : forall s i, n <= i ->
  arr (G s i) = writeAt (cnt s) zero (arr s) /\ cnt (G s i) = cnt s + 1.
Hypothesis G_other : forall s i, 0 <= i < n -> i <> self ->
  cnt (G s i) = cnt s + 1 /\ length (arr (G s i)) = length (arr s).
Hypothesis G_self : forall s, self < n -> G s self = s.

Lemma counter_pad (m : nat) : forall (a : Z) (s : St),
  n <= a ->
  arr (foldl G s (seqZ a (Z.of_nat m))) =
    foldl (fun o j => writeAt j ((fun _ => zero) j) o) (arr s)
          (seqZ (cnt s) (Z.of_nat m)) /\
  cnt (foldl G s (seqZ a (Z.of_nat m))) = cnt s + Z.of_nat m.
Proof.
  induction m as [|m IH]; intros a s Ha.
  - rewrite !seqZ_nil by lia. cbn [foldl]. split; [reflexivity|lia].
  - rewrite !(seqZ_cons _ (Z.of_nat (S m))) by lia.
    replace (Z.pred (Z.of_nat (S m))) with (Z.of_nat m) by lia.
    cbn [foldl]. destruct (G_pad s a Ha) as [Harr Hcnt].
    destruct (IH (Z.succ a) (G s a) ltac:(lia)) as [IH1 IH2].
    rewrite IH1, IH2, Harr, Hcnt. split; [reflexivity|lia].
Qed.

Lemma counter_others (m : nat) : forall (a : Z) (s : St),
  0 <= a ->
  a + Z.of_nat m <= n ->
  (self < a \/ a + Z.of_nat m <= self) ->
  cnt (foldl G s (seqZ a (Z.of_nat m))) = cnt s + Z.of_nat m /\
  length (arr (foldl G s (seqZ a (Z.of_nat m)))) = length (arr s).
Proof.
  induction m as [|m IH]; intros a s H0 Ha Hself.
  - rewrite !seqZ_nil by lia. cbn [foldl]. split; [lia|reflexivity].
  - rewrite (seqZ_cons _ (Z.of_nat (S m))) by lia.
    replace (Z.pred (Z.of_nat (S m))) with (Z.of_nat m) by lia.
    cbn [foldl]. destruct (G_other s a ltac:(lia) ltac:(lia)) as [Hcnt Hlen].
    destruct (IH (Z.succ a) (G s a) ltac:(lia) ltac:(lia) ltac:(lia))
      as [IH1 IH2].
    rewrite IH1, IH2, Hcnt, Hlen. split; [lia|reflexivity].
Qed.

Lemma counter_loop_padding (total : Z) (s : St) (k : Z) :
  0 <= self < n -> n <= total ->
  cnt s = 0 ->
  n - 1 <= k < total - 1 ->
  (Z.to_nat k < length (arr s))%nat ->
  arr (foldl G s (seqZ 0 total)) !! Z.to_nat k = Some zero.
Proof.
  intros Hself Hn Hc Hk Hlen.
  replace total with (self + (1 + ((n - self - 1) + (total - n)))) by lia.
  rewrite !seqZ_app by lia. rewrite !foldl_app.
  replace (0 + self) with self by lia.
  replace (self + 1 + (n - self - 1)) with n by lia.
  set (s1 := foldl G s (seqZ 0 self)).
  destruct (counter_others (Z.to_nat self) 0 s) as [H1c H1l]; [lia|lia|lia|].
  rewrite Z2Nat.id in H1c, H1l by lia. fold s1 in H1c, H1l.
  replace (seqZ self 1) with [self] by reflexivity. cbn [foldl].
  rewrite G_self by lia.
  set (s2 := foldl G s1 (seqZ (self + 1) (n - self - 1))).
  destruct (counter_others (Z.to_nat (n - self - 1)) (self + 1) s1)
    as [H2c H2l]; [lia|lia|lia|].
  rewrite Z2Nat.id in H2c, H2l by lia. fold s2 in H2c, H2l.
  destruct (counter_pad (Z.to_nat (total - n)) n s2) as [H3 _]; [lia|].
  rewrite Z2Nat.id in H3 by lia. rewrite H3.
  apply foldl_writeAt_lookup.
  - apply elem_of_seqZ. lia.
  - apply Forall_forall. intros i Hi. apply elem_of_seqZ in Hi. lia.
  - rewrite H2l, H1l. exact Hlen.
Qed.

End CounterLoop.

Section ObservationProperties.

Variable ext : Extern.

Lemma boxObsLoop_lookup (ctx : Engine) (agent_pos : Vector3) (agent_rot : Quat)
    (box_obs : list BoxObservation) (k : Z) :
  0 <= k < consts.maxBoxes ->
  length box_obs = Z.to_nat consts.maxBoxes ->
  boxObsLoop ext ctx agent_pos agent_rot box_obs !! Z.to_nat k =
  Some (if k >=? numActiveBoxes (data ctx) then BoxObservation_zero
        else boxObservationOf ext ctx agent_pos agent_rot k).
Proof.
  intros Hk Hlen. unfold boxObsLoop.
  rewrite (foldl_ext _ (fun obs i => writeAt i
             (if i >=? numActiveBoxes (data ctx) then BoxObservation_zero
              else boxObservationOf ext ctx agent_pos agent_rot i) obs) _ _)
    by (intros obs i; destruct (_ >=? _); reflexivity).
  apply foldl_writeAt_lookup.
  - apply elem_of_seqZ. lia.
  - apply seqZ_0_nonneg.
  - rewrite Hlen. unfold consts.maxBoxes in *. lia.
Qed.

Lemma rampObsLoop_lookup (ctx : Engine) (agent_pos : Vector3) (agent_rot : Quat)
    (ramp_obs : list RampObservation) (k : Z) :
  0 <= k < consts.maxRamps ->
  length ramp_obs = Z.to_nat consts.maxRamps ->
  rampObsLoop ext ctx agent_pos agent_rot ramp_obs !! Z.to_nat k =
  Some (if k >=? numActiveRamps (data ctx) then RampObservation_zero
        else rampObservationOf ext ctx agent_pos agent_rot k).
Proof.
  intros Hk Hlen. unfold rampObsLoop.
  rewrite (foldl_ext _ (fun obs i => writeAt i
             (if i >=? numActiveRamps (data ctx) then RampObservation_zero
              else rampObservationOf ext ctx agent_pos agent_rot i) obs) _ _)
    by (intros obs i; destruct (_ >=? _); reflexivity).
  apply foldl_writeAt_lookup.
  - apply elem_of_seqZ. lia.
  - apply seqZ_0_nonneg.
  - rewrite Hlen. unfold consts.maxRamps in *. lia.
Qed.

Lemma boxVisLoop_lookup (ctx : Engine) (agent_pos agent_fwd : Vector3)
    (box_vis : list float) (k : Z) :
  0 <= k < consts.maxBoxes ->
  length box_vis = Z.to_nat consts.maxBoxes ->
  boxVisLoop ext ctx agent_pos agent_fwd box_vis !! Z.to_nat k =
  Some (if k <? numActiveBoxes (data ctx)
        then checkVisibility ext ctx agent_pos agent_fwd
               (entityAt (boxes (data ctx)) k)
        else F32.zero).
Proof.
  intros Hk Hlen. unfold boxVisLoop.
  rewrite (foldl_ext _ (fun vis i => writeAt i
             (if i <? numActiveBoxes (data ctx)
              then checkVisibility ext ctx agent_pos agent_fwd
                     (entityAt (boxes (data ctx)) i)
              else F32.zero) vis) _ _)
    by (intros vis i; destruct (_ <? _); reflexivity).
  apply foldl_writeAt_lookup.
  - apply elem_of_seqZ. lia.
  - apply seqZ_0_nonneg.
  - rewrite Hlen. unfold consts.maxBoxes in *. lia.
Qed.

Lemma rampVisLoop_lookup (ctx : Engine) (agent_pos agent_fwd : Vector3)
    (ramp_vis : list float) (k : Z) :
  0 <= k < consts.maxRamps ->
  length ramp_vis = Z.to_nat consts.maxRamps ->
  rampVisLoop ext ctx agent_pos agent_fwd ramp_vis !! Z.to_nat k =
  Some (if k <? numActiveRamps (data ctx)
        then checkVisibility ext ctx agent_pos agent_fwd
               (entityAt (ramps (data ctx)) k)
        else F32.zero).
Proof.
  intros Hk Hlen. unfold rampVisLoop.
  rewrite (foldl_ext _ (fun vis i => writeAt i
             (if i <? numActiveRamps (data ctx)
              then checkVisibility ext ctx agent_pos agent_fwd
                     (entityAt (ramps (data ctx)) i)
              else F32.zero) vis) _ _)
    by (intros vis i; destruct (_ <? _); reflexivity).
  apply foldl_writeAt_lookup.
  - apply elem_of_seqZ. lia.
  - apply seqZ_0_nonneg.
  - rewrite Hlen. unfold consts.maxRamps in *. lia.
Qed.

Lemma agentObsLoop_padding (ctx : Engine) (agent_e : Entity)
    (agent_pos : Vector3) (agent_rot : Quat)
    (agent_obs : list AgentObservation) (self k : Z) :
  0 <= self < numActiveAgents (data ctx) ->
  numActiveAgents (data ctx) <= consts.maxAgents ->
  entityAt (agentInterfaces (data ctx)) self = agent_e ->
  (forall i, 0 <= i < numActiveAgents (data ctx) -> i <> self ->
             entityAt (agentInterfaces (data ctx)) i <> agent_e) ->
  length agent_obs = Z.to_nat (consts.maxAgents - 1) ->
  numActiveAgents (data ctx) - 1 <= k < consts.maxAgents - 1 ->
  fst (agentObsLoop ext ctx agent_e agent_pos agent_rot agent_obs) !! Z.to_nat k
  = Some AgentObservation_zero.
Proof.
  intros Hself Hn Hme Hothers Hlen Hk. unfold agentObsLoop.
  apply (counter_loop_padding fst snd _ AgentObservation_zero
           (numActiveAgents (data ctx)) self).
  - intros [obs c] i Hi. cbn [fst snd].
    replace (i >=? numActiveAgents (data ctx)) with true
      by (symmetry; apply geb_true; lia).
    split; reflexivity.
  - intros [obs c] i Hi Hne. cbn [fst snd].
    replace (i >=? numActiveAgents (data ctx)) with false
      by (symmetry; apply geb_false; lia).
    rewrite decide_False by (intros E; exact (Hothers i Hi Hne (eq_sym E))).
    cbn [fst snd]. split; [reflexivity|apply length_writeAt].
  - intros [obs c] Hlt.
    replace (self >=? numActiveAgents (data ctx)) with false
      by (symmetry; apply geb_false; lia).
    rewrite decide_True by (symmetry; exact Hme). reflexivity.
  - exact Hself.
  - exact Hn.
  - reflexivity.
  - exact Hk.
  - cbn [fst]. rewrite Hlen. unfold consts.maxAgents in *. lia.
Qed.

Lemma agentVisLoop_padding (ctx : Engine) (agent_e : Entity)
    (agent_type : AgentType) (agent_pos agent_fwd : Vector3)
    (agent_vis : list float) (self k : Z) :
  0 <= self < numActiveAgents (data ctx) ->
  numActiveAgents (data ctx) <= consts.maxAgents ->
  entityAt (agentInterfaces (data ctx)) self = agent_e ->
  (forall i, 0 <= i < numActiveAgents (data ctx) -> i <> self ->
             entityAt (agentInterfaces (data ctx)) i <> agent_e) ->
  length agent_vis = Z.to_nat (consts.maxAgents - 1) ->
  numActiveAgents (data ctx) - 1 <= k < consts.maxAgents - 1 ->
  fst (fst (agentVisLoop ext ctx agent_e agent_type agent_pos agent_fwd agent_vis))
    !! Z.to_nat k
  = Some F32.zero.
Proof.
  intros Hself Hn Hme Hothers Hlen Hk. unfold agentVisLoop.
  apply (counter_loop_padding (fun s => fst (fst s)) (fun s => snd (fst s)) _
           F32.zero (numActiveAgents (data ctx)) self).
  - intros [[vis c] t] i Hi. cbn [fst snd].
    replace (i >=? numActiveAgents (data ctx)) with true
      by (symmetry; apply geb_true; lia).
    split; reflexivity.
  - intros [[vis c] t] i Hi Hne. cbn [fst snd].
    replace (i >=? numActiveAgents (data ctx)) with false
      by (symmetry; apply geb_false; lia).
    rewrite decide_False by (intros E; exact (Hothers i Hi Hne (eq_sym E))).
    cbn [fst snd]. split; [reflexivity|apply length_writeAt].
  - intros [[vis c] t] Hlt.
    replace (self >=? numActiveAgents (data ctx)) with false
      by (symmetry; apply geb_false; lia).
    rewrite decide_True by (symmetry; exact Hme). reflexivity.
  - exact Hself.
  - exact Hn.
  - reflexivity.
  - exact Hk.
  - cbn [fst]. rewrite Hlen. unfold consts.maxAgents in *. lia.
Qed.

End ObservationProperties.

(** ** The systems on the concrete world *)

(** The gate on the world before its first step: the seeker is frozen,
    the hider is processed. *)
Lemma seeker_gate_witness :
  getDyn (demo_world 0) (Entity_id 11) = Some (readDyn (demo_world 0) (Entity_id 11)) /\
  curEpisodeStep (data (demo_world 0)) < numPrepSteps - 1 /\
  movementSystem (demo_ext false) (demo_world 0) (mkAction 9 5 6 1 1)
                 (Entity_id 11) Seeker = demo_world 0 /\
  actionSystem (demo_ext false) (demo_world 0) (mkAction 9 5 6 1 1)
               (Entity_id 11) Seeker = (demo_world 0, mkAction 9 5 6 1 1).
Proof.
  assert (Ha : getDyn (demo_world 0) (Entity_id 11)
               = Some (readDyn (demo_world 0) (Entity_id 11)))
    by (vm_compute; reflexivity).
  assert (Hstep : curEpisodeStep (data (demo_world 0)) < numPrepSteps - 1)
    by (vm_compute; reflexivity).
  split; [exact Ha|]. split; [exact Hstep|].
  exact (proj1 (seeker_gate (demo_ext false) (demo_world 0) (mkAction 9 5 6 1 1)
                  (Entity_id 11) Seeker _ Ha) eq_refl Hstep).
Defined.

(** C1 as stated fails at tick 95, the last tick of the range 0 to
    [numPrepSteps - 1]: the movement system writes the torque of the
    seeker's turn input, and the action system carries out its lock. *)
Lemma seeker_processed_at_tick_95 :
  curEpisodeStep (data (demo_world 95)) = numPrepSteps - 1 /\
  (simEntity <$> getIface (demo_world 95) (Entity_id 1)) = Some (Entity_id 11) /\
  (agentType <$> getIface (demo_world 95) (Entity_id 1)) = Some Seeker /\
  (externalTorque <$> getDyn (demo_world 95) (Entity_id 11)) = Some Vector3_zero /\
  (externalTorque <$>
     getDyn (movementSystem (demo_ext false) (demo_world 95) (mkAction 5 5 6 0 0)
                            (Entity_id 11) Seeker) (Entity_id 11))
    = Some (mkVector3 F32.zero F32.zero (F32.ofZ 3)) /\
  ((fun o => (responseType o, ownerTeam o)) <$>
     getDyn (demo_world 95) (Entity_id 2)) = Some (Dynamic, OwnerTeam_None) /\
  ((fun o => (responseType o, ownerTeam o)) <$>
     getDyn (fst (actionSystem (demo_ext false) (demo_world 95) (mkAction 5 5 5 0 1)
                               (Entity_id 11) Seeker)) (Entity_id 2))
    = Some (Static, OwnerTeam_Seeker).
Proof. vm_compute. repeat split; reflexivity. Qed.

Lemma action_consumed_witness :
  Entity_id 10 <> Entity_none /\
  processed (demo_world 0) Hider /\
  snd (actionSystem (demo_ext false) (demo_world 0) (mkAction 9 5 6 1 1)
                    (Entity_id 10) Hider) = mkAction 5 5 5 0 0.
Proof.
  assert (Hlive : Entity_id 10 <> Entity_none) by discriminate.
  assert (Hp : processed (demo_world 0) Hider) by (left; reflexivity).
  split; [exact Hlive|]. split; [exact Hp|].
  exact (action_consumed (demo_ext false) (demo_world 0) (mkAction 9 5 6 1 1)
           (Entity_id 10) Hider Hlive Hp).
Defined.

(** C3 as stated fails for a seeker during the preparation ticks: its
    action record still holds the lock and grab requests after the action
    system has run, and they are carried out when nothing overwrites them
    until tick 95. *)
Lemma seeker_action_not_consumed :
  (simEntity <$> getIface (demo_world 0) (Entity_id 1)) = Some (Entity_id 11) /\
  (agentType <$> getIface (demo_world 0) (Entity_id 1)) = Some Seeker /\
  curEpisodeStep (data (demo_world 0)) = 0 /\
  snd (actionSystem (demo_ext false) (demo_world 0) (mkAction 5 5 5 0 1)
                    (Entity_id 11) Seeker) = mkAction 5 5 5 0 1 /\
  mkAction 5 5 5 0 1 <> mkAction 5 5 5 0 0.
Proof. vm_compute. repeat split; try reflexivity. discriminate. Qed.

Lemma lock_toggles_ownership_witness :
  exists o',
    getDyn (fst (actionSystem (demo_ext false) (demo_world 0) (mkAction 5 5 5 0 1)
                              (Entity_id 10) Hider)) (Entity_id 2) = Some o' /\
    responseType o' = Static /\ ownerTeam o' = OwnerTeam_Hider.
Proof.
  destruct (lock_toggles_ownership (demo_ext false) (demo_world 0)
              (mkAction 5 5 5 0 1) (Entity_id 10) (Entity_id 2) Hider
              (readDyn (demo_world 0) (Entity_id 10))
              (readDyn (demo_world 0) (Entity_id 2))
              (F32.div (F32.ofZ 3) (F32.ofZ 2)))
    as (o' & Ho' & Hlock & _ & _).
  - vm_compute; reflexivity.
  - left; reflexivity.
  - reflexivity.
  - vm_compute; reflexivity.
  - vm_compute; reflexivity.
  - exists o'. split; [exact Ho'|]. apply Hlock; vm_compute; reflexivity.
Defined.

(** The lock of one team, a lock of the other team and a second lock of
    the first team, on the box in front of both agents at tick 95. *)
Example lock_sequence :
  let ext := demo_ext false in
  let lock := mkAction 5 5 5 0 1 in
  let w0 := demo_world 95 in
  let w1 := fst (actionSystem ext w0 lock (Entity_id 10) Hider) in
  let w2 := fst (actionSystem ext w1 lock (Entity_id 11) Seeker) in
  let w3 := fst (actionSystem ext w2 lock (Entity_id 10) Hider) in
  let tag w := (fun o => (responseType o, ownerTeam o)) <$> getDyn w (Entity_id 2) in
  tag w0 = Some (Dynamic, OwnerTeam_None) /\
  tag w1 = Some (Static, OwnerTeam_Hider) /\
  tag w2 = Some (Static, OwnerTeam_Hider) /\
  tag w3 = Some (Dynamic, OwnerTeam_None).
Proof. vm_compute. repeat split; reflexivity. Qed.

Lemma reward_zero_sum_witness :
  numPrepSteps <= curEpisodeStep (data (demo_world 100)) /\
  teamRewardSet (demo_world 100) /\
  fst (outputRewardsDonesSystem (demo_world 100) (Entity_id 10) Hider F32.zero 0)
    = F32.ofZ 1 /\
  fst (outputRewardsDonesSystem (demo_world 100) (Entity_id 11) Seeker F32.zero 0)
    = F32.ofZ (-1) /\
  F32.add (teamRewardVal (demo_world 100) Hider)
          (teamRewardVal (demo_world 100) Seeker) = F32.zero.
Proof.
  assert (Hstep : numPrepSteps <= curEpisodeStep (data (demo_world 100)))
    by (vm_compute; discriminate).
  assert (Hset : teamRewardSet (demo_world 100))
    by (left; vm_compute; reflexivity).
  destruct (reward_zero_sum (demo_world 100) (Entity_id 10) (Entity_id 11)
              F32.zero F32.zero 0 0 ltac:(discriminate) ltac:(discriminate)
              Hstep Hset) as (Hh & Hs & _ & _ & Hsum).
  split; [exact Hstep|]. split; [exact Hset|].
  split; [rewrite Hh; vm_compute; reflexivity|].
  split; [rewrite Hs; vm_compute; reflexivity|exact Hsum].
Defined.

Lemma demo_episode_ticks : ticksFrom 0 demo_episode.
Proof.
  assert (H : (fun c => curEpisodeStep (data c)) <$> demo_episode
              = seqZ 0 episodeLen) by (vm_compute; reflexivity).
  intros k ctx Hk.
  assert (Hf : ((fun c => curEpisodeStep (data c)) <$> demo_episode) !! k
               = Some (curEpisodeStep (data ctx)))
    by (rewrite list_lookup_fmap, Hk; reflexivity).
  rewrite H in Hf. apply lookup_seqZ in Hf. lia.
Qed.

Lemma episode_done_and_reward_witness :
  (snd <$> rewardDoneTrace demo_episode (Entity_id 10) Hider (F32.ofZ 7, 1)
             !! 238%nat) = Some 0 /\
  (snd <$> rewardDoneTrace demo_episode (Entity_id 10) Hider (F32.ofZ 7, 1)
             !! 239%nat) = Some 1 /\
  (fst <$> rewardDoneTrace demo_episode (Entity_id 10) Hider (F32.ofZ 7, 1)
             !! 94%nat) = Some F32.zero.
Proof.
  destruct (episode_done_and_reward demo_episode (demo_world 0) (Entity_id 10)
              Hider (F32.ofZ 7, 1) ltac:(discriminate)
              ltac:(vm_compute; reflexivity) demo_episode_ticks
              ltac:(vm_compute; reflexivity)) as [Hall _].
  assert (Hlen : length (rewardDoneTrace demo_episode (Entity_id 10) Hider
                           (F32.ofZ 7, 1)) = 240%nat)
    by (rewrite rewardDoneTrace_length; vm_compute; reflexivity).
  split; [|split].
  - destruct (lookup_lt_is_Some_2 _ 238%nat ltac:(rewrite Hlen; lia))
      as [[r d] Hk].
    rewrite Hk. destruct (Hall _ _ _ Hk) as (H & _ & _).
    cbn. rewrite H by (vm_compute; discriminate). reflexivity.
  - destruct (lookup_lt_is_Some_2 _ 239%nat ltac:(rewrite Hlen; lia))
      as [[r d] Hk].
    rewrite Hk. destruct (Hall _ _ _ Hk) as (_ & H & _).
    cbn. rewrite H by (vm_compute; reflexivity). reflexivity.
  - destruct (lookup_lt_is_Some_2 _ 94%nat ltac:(rewrite Hlen; lia))
      as [[r d] Hk].
    rewrite Hk. destruct (Hall _ _ _ Hk) as (_ & _ & H).
    cbn. rewrite H by (vm_compute; discriminate). reflexivity.
Defined.

(** The components that the pipeline leaves in the interface of the
    hider agree with the trace: done is 0 after 239 steps and 1 after
    240, of which the last has also reset the world. *)
Example demo_done_flag :
  (done <$> getIface (demo_world 239) (Entity_id 0)) = Some 0 /\
  (done <$> getIface (demo_world 240) (Entity_id 0)) = Some 1 /\
  curEpisodeStep (data (demo_world 240)) = 0 /\
  (done <$> getIface (demo_world 241) (Entity_id 0)) = Some 0.
Proof. vm_compute. repeat split; reflexivity. Qed.

(** C6 as stated fails on an agent slot that the reset has left without a
    sim entity.  Interface 2 is the seeker of the first episode of this
    world; the reset after tick 239 leaves it inactive with done = 1 and
    reward -1, and after tick 0 of the second episode, which clears the
    flag of the two live agents, it still reads done = 1 and reward -1. *)
Lemma inactive_slot_keeps_done_flag :
  curEpisodeStep (data demo_world_shrunk) = 0 /\
  (simEntity <$> getIface demo_world_shrunk (Entity_id 2)) = Some Entity_none /\
  (done <$> getIface demo_world_shrunk (Entity_id 2)) = Some 1 /\
  curEpisodeStep (data demo_world_second_episode) = 1 /\
  (simEntity <$> getIface demo_world_second_episode (Entity_id 2))
    = Some Entity_none /\
  (done <$> getIface demo_world_second_episode (Entity_id 0)) = Some 0 /\
  (done <$> getIface demo_world_second_episode (Entity_id 1)) = Some 0 /\
  (done <$> getIface demo_world_second_episode (Entity_id 2)) = Some 1 /\
  (reward <$> getIface demo_world_second_episode (Entity_id 2))
    = Some (F32.ofZ (-1)) /\
  F32.ofZ (-1) <> F32.zero.
Proof.
  vm_compute. repeat split; try reflexivity. discriminate.
Qed.

(** ** Inactive slots *)

Section InactiveSlots.

Variable ext : Extern.

(** C2 (as amended).  The observation and visibility systems return at
    once for an inactive agent slot (null sim entity): its exported
    records keep whatever they held.  What the two systems do set to zero
    are, in the records of every live agent, the slots of the boxes and
    ramps past the active counts and the slots past the other active
    agents. *)
Theorem inactive_slots (ctx : Engine) (agent_e sim_e : Entity)
    (agent_type : AgentType) (agent_obs : list AgentObservation)
    (box_obs : list BoxObservation) (ramp_obs : list RampObservation)
    (prep : Z) (agent_vis box_vis ramp_vis : list float) (self : Z) :
  (collectObservationsSystem ext ctx agent_e Entity_none
     agent_obs box_obs ramp_obs prep = (agent_obs, box_obs, ramp_obs, prep) /\
   computeVisibilitySystem ext ctx agent_e Entity_none agent_type
     agent_vis box_vis ramp_vis = (ctx, agent_vis, box_vis, ramp_vis)) /\
  (sim_e <> Entity_none ->
   length agent_obs = Z.to_nat (consts.maxAgents - 1) ->
   length box_obs = Z.to_nat consts.maxBoxes ->
   length ramp_obs = Z.to_nat consts.maxRamps ->
   length agent_vis = Z.to_nat (consts.maxAgents - 1) ->
   length box_vis = Z.to_nat consts.maxBoxes ->
   length ramp_vis = Z.to_nat consts.maxRamps ->
   let obs := collectObservationsSystem ext ctx agent_e sim_e
                agent_obs box_obs ramp_obs prep in
   let vis := computeVisibilitySystem ext ctx agent_e sim_e agent_type
                agent_vis box_vis ramp_vis in
   (forall k, 0 <= k -> numActiveBoxes (data ctx) <= k < consts.maxBoxes ->
      obs.1.1.2 !! Z.to_nat k = Some BoxObservation_zero /\
      vis.1.2 !! Z.to_nat k = Some F32.zero) /\
   (forall k, 0 <= k -> numActiveRamps (data ctx) <= k < consts.maxRamps ->
      obs.1.2 !! Z.to_nat k = Some RampObservation_zero /\
      vis.2 !! Z.to_nat k = Some F32.zero) /\
   (0 <= self < numActiveAgents (data ctx) ->
    numActiveAgents (data ctx) <= consts.maxAgents ->
    entityAt (agentInterfaces (data ctx)) self = agent_e ->
    (forall i, 0 <= i < numActiveAgents (data ctx) -> i <> self ->
               entityAt (agentInterfaces (data ctx)) i <> agent_e) ->
    forall k, numActiveAgents (data ctx) - 1 <= k < consts.maxAgents - 1 ->
      obs.1.1.1 !! Z.to_nat k = Some AgentObservation_zero /\
      vis.1.1.2 !! Z.to_nat k = Some F32.zero)).
Proof.
  split; [split; reflexivity|].
  intros Hlive Hao Hbo Hro Hav Hbv Hrv obs vis. subst obs vis.
  unfold collectObservationsSystem, computeVisibilitySystem.
  rewrite !decide_False by exact Hlive. cbv zeta.
  destruct (agentVisLoop ext ctx agent_e agent_type
              (position (readDyn ctx sim_e))
              (rotateVec ext (rotation (readDyn ctx sim_e)) math.fwd) agent_vis)
    as [[av c] t] eqn:Hloop.
  cbn [fst snd].
  split; [|split].
  - intros k H0 Hk. split.
    + rewrite boxObsLoop_lookup by (try exact Hbo; lia).
      rewrite geb_true by lia. reflexivity.
    + rewrite boxVisLoop_lookup by (try exact Hbv; lia).
      replace (k <? numActiveBoxes (data ctx)) with false
        by (symmetry; apply Z.ltb_ge; lia).
      reflexivity.
  - intros k H0 Hk. split.
    + rewrite rampObsLoop_lookup by (try exact Hro; lia).
      rewrite geb_true by lia. reflexivity.
    + rewrite rampVisLoop_lookup by (try exact Hrv; lia).
      replace (k <? numActiveRamps (data ctx)) with false
        by (symmetry; apply Z.ltb_ge; lia).
      reflexivity.
  - intros Hself Hn Hme Hothers k Hk. split.
    + apply (agentObsLoop_padding ext ctx agent_e _ _ agent_obs self k);
        assumption.
    + pose proof (agentVisLoop_padding ext ctx agent_e agent_type
                    (position (readDyn ctx sim_e))
                    (rotateVec ext (rotation (readDyn ctx sim_e)) math.fwd)
                    agent_vis self k Hself Hn Hme Hothers Hav Hk) as H.
      rewrite Hloop in H. exact H.
Qed.

End InactiveSlots.

(** C2 as stated fails on a slot that was active in an earlier episode.
    In the second episode of this world interface 2 is inactive (null sim
    entity, mask 0), and its exported box record still holds the extents
    8 by 1.5 of a box of the first episode. *)
Lemma inactive_slot_keeps_stale_observation :
  (simEntity <$> getIface demo_world_shrunk (Entity_id 2)) = Some Entity_none /\
  (activeMask <$> getIface demo_world_shrunk (Entity_id 2)) = Some F32.zero /\
  ((fun i => boxObs i !! 0%nat) <$> getIface demo_world_shrunk (Entity_id 2))
    = Some (Some (mkBoxObservation Vector2_zero Vector2_zero
                    (mkVector2 (F32.ofZ 8) (F32.div (F32.ofZ 3) (F32.ofZ 2)))
                    F32.zero)) /\
  mkBoxObservation Vector2_zero Vector2_zero
    (mkVector2 (F32.ofZ 8) (F32.div (F32.ofZ 3) (F32.ofZ 2))) F32.zero
  <> BoxObservation_zero.
Proof.
  vm_compute. repeat split; try reflexivity. discriminate.
Qed.

Lemma inactive_slots_witness :
  numActiveBoxes (data (demo_world 0)) <= 8 < consts.maxBoxes /\
  (collectObservationsSystem (demo_ext false) (demo_world 0) (Entity_id 0)
     (Entity_id 10) (agentObs demo_fresh) (boxObs demo_fresh)
     (rampObs demo_fresh) 0).1.1.2 !! Z.to_nat 8 = Some BoxObservation_zero.
Proof.
  assert (Hk : numActiveBoxes (data (demo_world 0)) <= 8 < consts.maxBoxes)
    by (vm_compute; split; [discriminate|reflexivity]).
  split; [exact Hk|].
  destruct (inactive_slots (demo_ext false) (demo_world 0) (Entity_id 0)
              (Entity_id 10) Hider (agentObs demo_fresh) (boxObs demo_fresh)
              (rampObs demo_fresh) 0 (agentVis demo_fresh) (boxVis demo_fresh)
              (rampVis demo_fresh) 0) as [_ H].
  destruct (H ltac:(discriminate) eq_refl eq_refl eq_refl eq_refl eq_refl eq_refl)
    as (Hbox & _ & _).
  exact (proj1 (Hbox 8 ltac:(lia) Hk)).
Defined.

(** ** Reasoning about fallible code *)

Lemma wp_ret {A : Type} (a : A) (Q : A -> Engine -> Prop) (ctx : Engine) :
  Q a ctx -> wp (ret a) Q ctx.
Proof. intros H. exact H. Qed.

Lemma wp_bind {A B : Type} (m : Gen A) (k : A -> Gen B)
    (Q : B -> Engine -> Prop) (ctx : Engine) :
  wp m (fun a ctx' => wp (k a) Q ctx') ctx -> wp (bind m k) Q ctx.
Proof.
  unfold wp, bind. destruct (m ctx) as [[a ctx']|f]; intros H; exact H.
Qed.

Lemma wp_mono {A : Type} (m : Gen A) (Q Q' : A -> Engine -> Prop) (ctx : Engine) :
  wp m Q ctx -> (forall a ctx', Q a ctx' -> Q' a ctx') -> wp m Q' ctx.
Proof.
  unfold wp. destruct (m ctx) as [[a ctx']|f]; intros H HQ; [apply HQ|]; exact H.
Qed.

Lemma wp_run {A : Type} (m : Gen A) (Q : A -> Engine -> Prop) (ctx : Engine) :
  wp m Q ctx <-> exists a ctx', m ctx = Ok (a, ctx') /\ Q a ctx'.
Proof.
  unfold wp. split.
  - destruct (m ctx) as [[a ctx']|f]; intros H; [|contradiction].
    exists a, ctx'. split; [reflexivity|exact H].
  - intros (a & ctx' & -> & H). exact H.
Qed.

Lemma wp_gets {A : Type} (f : Engine -> A) (Q : A -> Engine -> Prop)
    (ctx : Engine) :
  Q (f ctx) ctx -> wp (gets f) Q ctx.
Proof. intros H. exact H. Qed.

Lemma wp_modify (f : Engine -> Engine) (Q : unit -> Engine -> Prop)
    (ctx : Engine) :
  Q tt (f ctx) -> wp (modify f) Q ctx.
Proof. intros H. exact H. Qed.

Lemma wp_assert (b : bool) (Q : unit -> Engine -> Prop) (ctx : Engine) :
  b = true -> Q tt ctx -> wp (assert b) Q ctx.
Proof. intros -> H. exact H. Qed.

Lemma wp_tableWrite {A : Type} (tbl : Sim -> list A)
    (set : list A -> Sim -> Sim) (i : Z) (v : A)
    (Q : unit -> Engine -> Prop) (ctx : Engine) :
  0 <= i < Z.of_nat (length (tbl (data ctx))) ->
  Q tt (updData (fun d => set (<[Z.to_nat i := v]> (tbl d)) d) ctx) ->
  wp (tableWrite tbl set i v) Q ctx.
Proof.
  intros Hi H. unfold wp, tableWrite.
  replace (i <? 0) with false by (symmetry; apply Z.ltb_ge; lia).
  replace (Z.of_nat (length (tbl (data ctx))) <=? i) with false
    by (symmetry; apply Z.leb_gt; lia).
  exact H.
Qed.

Lemma wp_tableRead {A : Type} (tbl : Sim -> list A) (i : Z) (v : A)
    (Q : A -> Engine -> Prop) (ctx : Engine) :
  0 <= i ->
  tbl (data ctx) !! Z.to_nat i = Some v ->
  Q v ctx ->
  wp (tableRead tbl i) Q ctx.
Proof.
  intros Hi Hv H. unfold wp, tableRead.
  replace (i <? 0) with false by (symmetry; apply Z.ltb_ge; lia).
  rewrite Hv. exact H.
Qed.

Lemma wp_ifaceWrite (e : Entity) (f : AgentInterface -> AgentInterface)
    (i : AgentInterface) (Q : unit -> Engine -> Prop) (ctx : Engine) :
  getIface ctx e = Some i ->
  Q tt (updIface f e ctx) ->
  wp (ifaceWrite e f) Q ctx.
Proof. intros Hi H. unfold wp, ifaceWrite. rewrite Hi. exact H. Qed.

Lemma wp_newDynEntity (c : DynComponents) (Q : Entity -> Engine -> Prop)
    (ctx : Engine) :
  Q (Entity_id (nextEntity ctx))
    (set_nextEntity (S (nextEntity ctx))
       (set_dynEntities (<[nextEntity ctx := c]> (dynEntities ctx)) ctx)) ->
  wp (newDynEntity c) Q ctx.
Proof. intros H. exact H. Qed.

(** The loop rules: an invariant [I] indexed by the loop variable. *)
Lemma wp_forLoopAccFrom {Acc : Type} (I : Z -> Acc -> Engine -> Prop)
    (body : Z -> Acc -> Gen Acc) (count : nat) :
  forall (i0 : Z) (acc : Acc) (ctx : Engine),
    I i0 acc ctx ->
    (forall i a c, i0 <= i < i0 + Z.of_nat count -> I i a c ->
                   wp (body i a) (fun a' c' => I (i + 1) a' c') c) ->
    wp (forLoopAccFrom count i0 acc body)
       (fun a c => I (i0 + Z.of_nat count) a c) ctx.
Proof.
  induction count as [|count IH]; intros i0 acc ctx HI Hbody.
  - cbn [forLoopAccFrom]. apply wp_ret.
    replace (i0 + Z.of_nat 0) with i0 by lia. exact HI.
  - cbn [forLoopAccFrom]. apply wp_bind.
    eapply wp_mono; [apply (Hbody i0 acc ctx); [lia|exact HI]|].
    intros a c Ha. cbv beta in Ha.
    replace (i0 + Z.of_nat (S count)) with ((i0 + 1) + Z.of_nat count) by lia.
    apply IH; [exact Ha|].
    intros i a' c' Hi. apply Hbody. lia.
Qed.

Lemma wp_forLoopFrom (I : Z -> Engine -> Prop) (body : Z -> Gen unit)
    (count : nat) :
  forall (i0 : Z) (ctx : Engine),
    I i0 ctx ->
    (forall i c, i0 <= i < i0 + Z.of_nat count -> I i c ->
                 wp (body i) (fun _ c' => I (i + 1) c') c) ->
    wp (forLoopFrom count i0 body) (fun _ c => I (i0 + Z.of_nat count) c) ctx.
Proof.
  induction count as [|count IH]; intros i0 ctx HI Hbody.
  - cbn [forLoopFrom]. apply wp_ret.
    replace (i0 + Z.of_nat 0) with i0 by lia. exact HI.
  - cbn [forLoopFrom]. apply wp_bind.
    eapply wp_mono; [apply (Hbody i0 ctx); [lia|exact HI]|].
    intros a c Ha. cbv beta in Ha.
    replace (i0 + Z.of_nat (S count)) with ((i0 + 1) + Z.of_nat count) by lia.
    apply IH; [exact Ha|].
    intros i c' Hi. apply Hbody. lia.
Qed.

(** ** The training generator *)

(** *** The random draws *)

Section GeneratorProperties.

Variable ext : Extern.

Lemma sampleI32_range (a b : Z) (r : RNG) :
  a < b -> b - a < two32 ->
  a <= fst (sampleI32 ext a b r) < b.
Proof.
  intros Hab Hs. unfold sampleI32. cbn [fst].
  rewrite (Z.mod_small (b - a)) by lia.
  assert (Hu : 0 <= bits32 ext (rng_key r) (rng_count r) mod two32 < two32)
    by (apply Z.mod_pos_bound; reflexivity).
  set (u := bits32 ext (rng_key r) (rng_count r) mod two32) in *.
  assert (H0 : 0 <= u * (b - a) / two32)
    by (apply Z.div_pos; [nia|reflexivity]).
  assert (H1 : u * (b - a) / two32 < b - a).
  { apply Z.div_lt_upper_bound; [reflexivity|]. nia. }
  lia.
Qed.

Lemma sampleI32_empty (a : Z) (r : RNG) :
  fst (sampleI32 ext a a r) = a.
Proof.
  unfold sampleI32. cbn [fst]. replace (a - a) with 0 by lia.
  rewrite Z.mod_0_l by discriminate. rewrite Z.mul_0_r. rewrite Z.div_0_l by discriminate.
  lia.
Qed.

Lemma rngSampleI32_run (a b : Z) (ctx : Engine) :
  rngSampleI32 ext a b ctx =
  Ok (fst (sampleI32 ext a b (rng (data ctx))),
      updData (set_rng (snd (sampleI32 ext a b (rng (data ctx))))) ctx).
Proof. unfold rngSampleI32. destruct (sampleI32 _ _ _ _); reflexivity. Qed.

Lemma wp_rngSampleI32 (a b : Z) (Q : Z -> Engine -> Prop) (ctx : Engine) :
  Q (fst (sampleI32 ext a b (rng (data ctx))))
    (updData (set_rng (snd (sampleI32 ext a b (rng (data ctx))))) ctx) ->
  wp (rngSampleI32 ext a b) Q ctx.
Proof. intros H. unfold wp. rewrite rngSampleI32_run. exact H. Qed.

Lemma wp_rngSampleUniform (Q : float -> Engine -> Prop) (ctx : Engine) :
  Q (uniform01 ext (rng_key (rng (data ctx))) (rng_count (rng (data ctx))))
    (updData (set_rng (mkRNG (rng_key (rng (data ctx)))
                             (rng_count (rng (data ctx)) + 1))) ctx) ->
  wp (rngSampleUniform ext) Q ctx.
Proof. intros H. exact H. Qed.


(** *** The sampling loop *)

Lemma updData_rng_twice (r1 r2 : RNG) (ctx : Engine) :
  updData (set_rng r2) (updData (set_rng r1) ctx) = updData (set_rng r2) ctx.
Proof. reflexivity. Qed.

Lemma checkOverlap_rng (n : Z) (aabb : Placement) (r : RNG) (ctx : Engine) :
  checkOverlap ext n aabb (updData (set_rng r) ctx) = checkOverlap ext n aabb ctx.
Proof. reflexivity. Qed.

Lemma samplePose_run (ctx : Engine) :
  exists p,
    samplePose ext ctx
    = Ok (p, updData (set_rng (mkRNG (rng_key (rng (data ctx)))
                                     (rng_count (rng (data ctx)) + 3))) ctx).
Proof.
  eexists. unfold samplePose, bind, rngSampleUniform, sampleUniform, ret.
  cbn [data updData set_data set_rng rng rng_key rng_count].
  replace (rng_count (rng (data ctx)) + 1 + 1 + 1)
    with (rng_count (rng (data ctx)) + 3) by lia.
  reflexivity.
Qed.

(** From [rejections] rejections on, a loop with enough fuel returns:
    the pose it accepts either passes the overlap test or is the one
    sampled when the count has reached [max_rejections]; the loop made
    one pass per rejection counted since, plus the accepting one, and
    touched nothing but the random stream. *)
Lemma rejectionLoop_run (fuel : nat) (obj : SimObject) (num_entities : Z) :
  forall (rejections : Z) (ctx : Engine),
    0 <= rejections <= max_rejections ->
    max_rejections - rejections < Z.of_nat fuel ->
    exists pos rot angle rej r',
      rejectionLoop ext fuel obj num_entities rejections ctx
      = Ok ((pos, rot, angle, rej), updData (set_rng r') ctx) /\
      rejections <= rej <= max_rejections /\
      (checkOverlap ext num_entities (mkPlacement obj pos rot one3) ctx = true
       \/ rej = max_rejections) /\
      rng_key r' = rng_key (rng (data ctx)) /\
      rng_count r' = rng_count (rng (data ctx)) + 3 * (rej - rejections + 1).
Proof.
  induction fuel as [|fuel IH]; intros rejections ctx Hrej Hfuel.
  - lia.
  - cbn [rejectionLoop]. unfold bind at 1.
    destruct (samplePose_run ctx) as [p Hp]. rewrite Hp.
    unfold bind at 1. unfold gets at 1. rewrite checkOverlap_rng.
    destruct (checkOverlap ext num_entities _ ctx) eqn:Hfree.
    + cbn [orb ret]. do 5 eexists. split; [reflexivity|].
      split; [lia|]. split; [left; exact Hfree|].
      split; [reflexivity|]. cbn [rng_count]. lia.
    + cbn [orb]. destruct (rejections =? max_rejections) eqn:Hmax.
      * apply Z.eqb_eq in Hmax. cbn [ret]. do 5 eexists.
        split; [reflexivity|].
        split; [lia|]. split; [right; exact Hmax|].
        split; [reflexivity|]. cbn [rng_count]. lia.
      * apply Z.eqb_neq in Hmax.
        destruct (IH (rejections + 1)
                    (updData (set_rng (mkRNG (rng_key (rng (data ctx)))
                                             (rng_count (rng (data ctx)) + 3))) ctx))
          as (pos & rot & angle & rej & r' & Hrun & Hb & Hacc & Hkey & Hcnt);
          [lia|lia|].
        exists pos, rot, angle, rej, r'.
        rewrite Hrun, updData_rng_twice. split; [reflexivity|].
        split; [lia|]. split; [rewrite checkOverlap_rng in Hacc; exact Hacc|].
        split; [exact Hkey|].
        rewrite Hcnt. cbn [data updData set_data set_rng rng rng_count]. lia.
Qed.

(** *** The phases of the generator *)

Lemma dynExtends_refl (ctx : Engine) : dynExtends ctx ctx.
Proof. split; [lia|reflexivity]. Qed.

Lemma dynExtends_trans (c1 c2 c3 : Engine) :
  dynExtends c1 c2 -> dynExtends c2 c3 -> dynExtends c1 c3.
Proof.
  intros [H1 H1'] [H2 H2']. split; [lia|].
  intros n Hn. rewrite H2' by lia. apply H1'. exact Hn.
Qed.

Lemma objFrame_trans (c1 c2 c3 : Engine) :
  objFrame c1 c2 -> objFrame c2 c3 -> objFrame c1 c3.
Proof.
  intros (Ha & _ & Hd) (Ha' & Ht & Hd'). split; [congruence|].
  split; [exact Ht|]. eapply dynExtends_trans; eassumption.
Qed.

Lemma wp_rejectionLoop (fuel : nat) (obj : SimObject) (num_entities : Z)
    (Q : Vector3 * Quat * float * Z -> Engine -> Prop) (ctx : Engine) :
  (21 <= fuel)%nat ->
  (forall pos rot angle rej r',
     Q (pos, rot, angle, rej) (updData (set_rng r') ctx)) ->
  wp (rejectionLoop ext fuel obj num_entities 0) Q ctx.
Proof.
  intros Hfuel HQ.
  destruct (rejectionLoop_run fuel obj num_entities 0 ctx)
    as (pos & rot & angle & rej & r' & Hrun & _);
    [unfold max_rejections; lia|unfold max_rejections; lia|].
  unfold wp. rewrite Hrun. apply HQ.
Qed.

Ltac tables_tac :=
  match goal with
  | H : tablesOk _ |- tablesOk _ =>
      unfold tablesOk in H |- *;
      cbn [data updData set_data set_rng set_obstacles
        set_boxes set_boxSizes set_boxRotations set_ramps set_rampRotations
        set_dynEntities set_nextEntity set_interfaces set_numActiveBoxes
        set_numActiveRamps set_numObstacles set_numActiveAgents set_numHiders
        set_numSeekers set_hiders set_seekers updIface updDyn
        agentInterfaces hiders seekers obstacles boxes boxSizes boxRotations
        ramps rampRotations];
      rewrite ?length_insert;
      exact H
  end.

(** One box, cube or ramp: a new physics entity, stored at the next
    free obstacle slot and in its own table. *)
Lemma wp_placeElongated (fuel : nat) (i num_entities : Z)
    (Q : Z -> Engine -> Prop) (ctx : Engine) :
  (21 <= fuel)%nat ->
  tablesOk ctx ->
  0 <= num_entities < 57 ->
  0 <= i < consts.maxBoxes ->
  (forall ctx', objFrame ctx ctx' ->
                nextEntity ctx' = S (nextEntity ctx) ->
                Q (num_entities + 1) ctx') ->
  wp (placeElongated ext fuel i num_entities) Q ctx.
Proof.
  intros Hfuel Ht Hn Hi HQ. unfold placeElongated.
  assert (Hlens := Ht). destruct Hlens as (_ & _ & _ & Lo & Lb & Ls & Lr & _ & _).
  unfold consts.maxBoxes, consts.maxRamps, consts.maxAgents in *.
  apply wp_bind, wp_rejectionLoop; [exact Hfuel|].
  intros pos rot angle rej r'. cbv beta iota.
  unfold makeDynObject. apply wp_bind, wp_newDynEntity.
  apply wp_bind, wp_tableWrite; [cbn; rewrite Lo; lia|].
  apply wp_bind, wp_tableWrite; [cbn; rewrite Lb; lia|].
  apply wp_bind, wp_tableWrite; [cbn; rewrite Ls; lia|].
  apply wp_bind, wp_tableWrite; [cbn; rewrite Lr; lia|].
  apply wp_ret. apply HQ; [|reflexivity].
  split; [reflexivity|]. split; [tables_tac|].
  split; [cbn; lia|].
  intros n Hlt. cbn. apply lookup_insert_ne. lia.
Qed.

Lemma wp_placeCube (fuel : nat) (num_elongated i num_entities : Z)
    (Q : Z -> Engine -> Prop) (ctx : Engine) :
  (21 <= fuel)%nat ->
  tablesOk ctx ->
  0 <= num_entities < 57 ->
  0 <= i + num_elongated < consts.maxBoxes ->
  (forall ctx', objFrame ctx ctx' ->
                nextEntity ctx' = S (nextEntity ctx) ->
                Q (num_entities + 1) ctx') ->
  wp (placeCube ext fuel num_elongated i num_entities) Q ctx.
Proof.
  intros Hfuel Ht Hn Hi HQ. unfold placeCube.
  assert (Hlens := Ht). destruct Hlens as (_ & _ & _ & Lo & Lb & Ls & Lr & _ & _).
  unfold consts.maxBoxes, consts.maxRamps, consts.maxAgents in *.
  apply wp_bind, wp_rejectionLoop; [exact Hfuel|].
  intros pos rot angle rej r'. cbv beta iota zeta.
  unfold makeDynObject. apply wp_bind, wp_newDynEntity.
  apply wp_bind, wp_tableWrite; [cbn; rewrite Lo; lia|].
  apply wp_bind, wp_tableWrite; [cbn; rewrite Lb; lia|].
  apply wp_bind, wp_tableWrite; [cbn; rewrite Ls; lia|].
  apply wp_bind, wp_tableWrite; [cbn; rewrite Lr; lia|].
  apply wp_ret. apply HQ; [|reflexivity].
  split; [reflexivity|]. split; [tables_tac|].
  split; [cbn; lia|].
  intros n Hlt. cbn. apply lookup_insert_ne. lia.
Qed.

Lemma wp_placeRamp (fuel : nat) (i num_entities : Z)
    (Q : Z -> Engine -> Prop) (ctx : Engine) :
  (21 <= fuel)%nat ->
  tablesOk ctx ->
  0 <= num_entities < 57 ->
  0 <= i < consts.maxRamps ->
  (forall ctx' c,
     objFrame ctx ctx' ->
     nextEntity ctx' = S (nextEntity ctx) ->
     ramps (data ctx') = <[Z.to_nat i := Entity_id (nextEntity ctx)]> (ramps (data ctx)) ->
     dynEntities ctx' !! nextEntity ctx = Some c ->
     objectID c = Ramp ->
     Q (num_entities + 1) ctx') ->
  wp (placeRamp ext fuel i num_entities) Q ctx.
Proof.
  intros Hfuel Ht Hn Hi HQ. unfold placeRamp.
  assert (Hlens := Ht). destruct Hlens as (_ & _ & _ & Lo & _ & _ & _ & Lr & Lrr).
  unfold consts.maxBoxes, consts.maxRamps, consts.maxAgents in *.
  apply wp_bind, wp_rejectionLoop; [exact Hfuel|].
  intros pos rot angle rej r'. cbv beta iota zeta.
  unfold makeDynObject. apply wp_bind, wp_newDynEntity.
  apply wp_bind, wp_tableWrite; [cbn; rewrite Lo; lia|].
  apply wp_bind, wp_tableWrite; [cbn; rewrite Lr; lia|].
  apply wp_bind, wp_tableWrite; [cbn; rewrite Lrr; lia|].
  apply wp_ret. eapply HQ; [|reflexivity|reflexivity| |].
  - split; [reflexivity|]. split; [tables_tac|].
    split; [cbn; lia|].
    intros n Hlt. cbn. apply lookup_insert_ne. lia.
  - cbn. apply lookup_insert_eq.
  - reflexivity.
Qed.

Lemma objFrame_refl (ctx : Engine) : tablesOk ctx -> objFrame ctx ctx.
Proof.
  intros Ht. split; [reflexivity|]. split; [exact Ht|apply dynExtends_refl].
Qed.

Lemma wp_populateStaticGeometry (level_scale : Vector2)
    (Q : Z -> Engine -> Prop) (ctx : Engine) :
  tablesOk ctx ->
  (forall r s, (length (fst (staticWalls ext r s)) <= 45)%nat) ->
  (forall ctx' n, objFrame ctx ctx' -> 0 <= n <= 45 -> Q n ctx') ->
  wp (populateStaticGeometry ext level_scale) Q ctx.
Proof.
  intros Ht Hwalls HQ. unfold populateStaticGeometry.
  apply wp_bind, wp_gets.
  specialize (Hwalls (rng (data ctx)) level_scale).
  destruct (staticWalls ext (rng (data ctx)) level_scale) as [walls r'].
  cbn [fst] in Hwalls.
  apply wp_bind, wp_modify.
  set (c0 := updData (set_rng r') ctx).
  assert (Ht0 : tablesOk c0) by (subst c0; tables_tac).
  assert (Hf0 : objFrame ctx c0).
  { split; [reflexivity|]. split; [exact Ht0|].
    split; [cbn; lia|reflexivity]. }
  unfold forLoopAcc. rewrite Nat2Z.id.
  eapply wp_mono.
  - apply (wp_forLoopAccFrom
             (fun i n c => objFrame c0 c /\ n = i /\ 0 <= i)).
    + split; [apply objFrame_refl; exact Ht0|]. split; lia.
    + intros i n c Hi (Hf & -> & _).
      destruct (walls !! Z.to_nat i) as [w|] eqn:Hw;
        [|apply lookup_ge_None in Hw; lia].
      assert (Htc : tablesOk c) by (apply Hf).
      assert (Hlens := Htc).
      destruct Hlens as (_ & _ & _ & Lo & _).
      unfold consts.maxBoxes, consts.maxRamps, consts.maxAgents in *.
      unfold makeDynObject. apply wp_bind, wp_newDynEntity.
      apply wp_bind, wp_tableWrite; [cbn; rewrite Lo; lia|].
      apply wp_ret. split; [|split; lia].
      eapply objFrame_trans; [exact Hf|].
      split; [reflexivity|]. split; [tables_tac|].
      split; [cbn; lia|].
      intros n Hlt. cbn. apply lookup_insert_ne. lia.
  - intros n c (Hf & -> & _). apply HQ; [|lia].
    exact (objFrame_trans _ _ _ Hf0 Hf).
Qed.

Lemma agentFrame_trans (c1 c2 c3 : Engine) :
  agentFrame c1 c2 -> agentFrame c2 c3 -> agentFrame c1 c3.
Proof.
  intros (Ha & _ & Hd & _) (Ha' & Ht & Hd' & Hi). split; [congruence|].
  split; [exact Ht|]. split; [|exact Hi].
  eapply dynExtends_trans; eassumption.
Qed.

Lemma wp_placeAgent (fuel : nat) (agent_type : AgentType) (num_entities : Z)
    (Q : unit -> Engine -> Prop) (ctx : Engine) :
  (21 <= fuel)%nat ->
  tablesOk ctx ->
  interfacesOk ctx ->
  0 <= numActiveAgents (data ctx) < maxAgentsPerWorld (data ctx) ->
  (agent_type = Hider -> 0 <= numHiders (data ctx) < 3) ->
  (agent_type = Seeker -> 0 <= numSeekers (data ctx) < 3) ->
  (forall ctx',
     agentFrame ctx ctx' ->
     numActiveAgents (data ctx') = numActiveAgents (data ctx) + 1 ->
     numHiders (data ctx') =
       numHiders (data ctx) + (if decide (agent_type = Hider) then 1 else 0) ->
     numSeekers (data ctx') =
       numSeekers (data ctx) + (if decide (agent_type = Seeker) then 1 else 0) ->
     Q tt ctx') ->
  wp (placeAgent ext fuel agent_type num_entities) Q ctx.
Proof.
  intros Hfuel Ht Hio Hn Hh Hs HQ. unfold placeAgent.
  assert (Hlens := Ht). destruct Hlens as (_ & Lh & Ls & _).
  destruct (Hio _ Hn) as (id & Hslot & [i0 Hi0]).
  apply wp_bind, wp_rejectionLoop; [exact Hfuel|].
  intros pos rot angle rej r'. cbv beta iota zeta.
  unfold makeDynAgent, makeAgent.
  apply wp_bind, wp_bind, wp_bind, wp_gets.
  apply wp_bind. eapply wp_tableRead; [cbn; lia|cbn; exact Hslot|].
  apply wp_bind, wp_modify.
  apply wp_bind. eapply wp_ifaceWrite;
    [cbn [getIface interfaces updData set_data]; exact Hi0|].
  apply wp_bind, wp_newDynEntity.
  apply wp_bind. eapply wp_ifaceWrite;
    [cbn [getIface interfaces updData set_data updIface set_interfaces
          set_nextEntity set_dynEntities];
     rewrite ?lookup_alter_eq, Hi0; reflexivity|].
  apply wp_bind. eapply wp_ifaceWrite;
    [cbn [getIface interfaces updData set_data updIface set_interfaces
          set_nextEntity set_dynEntities];
     rewrite ?lookup_alter_eq, Hi0; reflexivity|].
  assert (Hview : forall c', Q tt c' -> Q tt c') by auto.
  destruct agent_type.
  - (* Seeker *)
    rewrite decide_True by reflexivity.
    apply wp_bind, wp_bind, wp_gets.
    apply wp_bind, wp_modify.
    apply wp_tableWrite; [cbn; rewrite Ls; specialize (Hs eq_refl); lia|].
    apply wp_bind, wp_gets.
    apply wp_bind. eapply wp_ifaceWrite;
      [cbn [getIface interfaces updData set_data updIface set_interfaces
            set_nextEntity set_dynEntities];
       rewrite ?lookup_alter_eq, Hi0; reflexivity|].
    apply wp_bind. eapply wp_ifaceWrite;
      [cbn [getIface interfaces updData set_data updIface set_interfaces
            set_nextEntity set_dynEntities];
       rewrite ?lookup_alter_eq, Hi0; reflexivity|].
    apply wp_ret. apply wp_bind, wp_modify. apply wp_ret. apply wp_ret.
    apply HQ; [|cbn; lia|cbn; repeat case_decide; try congruence; lia
               |cbn; repeat case_decide; try congruence; lia].
    split; [reflexivity|]. split; [tables_tac|]. split.
    + split; [cbn; lia|]. intros n Hlt. cbn.
      rewrite lookup_alter_ne by lia. apply lookup_insert_ne. lia.
    + intros k Hk. destruct (Hio k Hk) as (id' & Hslot' & Hsome).
      exists id'. split; [exact Hslot'|]. cbn.
      rewrite !lookup_alter_is_Some. exact Hsome.
  - (* Hider *)
    rewrite decide_False by discriminate.
    apply wp_bind, wp_bind, wp_gets.
    apply wp_bind, wp_modify.
    apply wp_tableWrite; [cbn; rewrite Lh; specialize (Hh eq_refl); lia|].
    apply wp_bind, wp_gets.
    apply wp_bind. eapply wp_ifaceWrite;
      [cbn [getIface interfaces updData set_data updIface set_interfaces
            set_nextEntity set_dynEntities];
       rewrite ?lookup_alter_eq, Hi0; reflexivity|].
    apply wp_bind. eapply wp_ifaceWrite;
      [cbn [getIface interfaces updData set_data updIface set_interfaces
            set_nextEntity set_dynEntities];
       rewrite ?lookup_alter_eq, Hi0; reflexivity|].
    apply wp_ret. apply wp_bind, wp_modify. apply wp_ret. apply wp_ret.
    apply HQ; [|cbn; lia|cbn; repeat case_decide; try congruence; lia
               |cbn; repeat case_decide; try congruence; lia].
    split; [reflexivity|]. split; [tables_tac|]. split.
    + split; [cbn; lia|]. intros n Hlt. cbn.
      rewrite lookup_alter_ne by lia. apply lookup_insert_ne. lia.
    + intros k Hk. destruct (Hio k Hk) as (id' & Hslot' & Hsome).
      exists id'. split; [exact Hslot'|]. cbn.
      rewrite !lookup_alter_is_Some. exact Hsome.
Qed.

Lemma wp_sampleBoxCounts (Q : Z * Z * Z -> Engine -> Prop) (ctx : Engine) :
  (forall total_num_boxes num_elongated r',
     total_num_boxes = fst (sampleI32 ext 3 10 (rng (data ctx))) ->
     3 <= total_num_boxes <= consts.maxBoxes ->
     3 <= num_elongated <= total_num_boxes ->
     (3 < total_num_boxes -> num_elongated < total_num_boxes) ->
     rng_key r' = rng_key (rng (data ctx)) ->
     rng_count r' = rng_count (rng (data ctx)) + 2 ->
     Q (total_num_boxes, num_elongated, total_num_boxes - num_elongated)
       (updData (set_rng r') ctx)) ->
  wp (sampleBoxCounts ext) Q ctx.
Proof.
  intros HQ.
  pose proof (sampleI32_range 3 10 (rng (data ctx)) ltac:(lia)
                ltac:(unfold two32; lia)) as Ht.
  set (total := fst (sampleI32 ext 3 10 (rng (data ctx)))) in *.
  set (r1 := snd (sampleI32 ext 3 10 (rng (data ctx)))).
  assert (He : 3 <= fst (sampleI32 ext 3 total r1) <= total /\
               (3 < total -> fst (sampleI32 ext 3 total r1) < total)).
  { destruct (Z.eq_dec total 3) as [E|E].
    - rewrite E, sampleI32_empty. lia.
    - pose proof (sampleI32_range 3 total r1 ltac:(lia)
                    ltac:(unfold two32; lia)). lia. }
  set (elong := fst (sampleI32 ext 3 total r1)) in *.
  unfold sampleBoxCounts.
  apply wp_bind, wp_rngSampleI32. fold total r1.
  apply wp_bind, wp_assert; [apply Z.leb_le; unfold consts.maxBoxes; lia|].
  apply wp_bind, wp_rngSampleI32.
  cbn [data updData set_data set_rng rng]. fold elong.
  apply wp_bind, wp_assert; [apply Z.eqb_eq; lia|].
  apply wp_ret. rewrite updData_rng_twice.
  apply HQ; unfold consts.maxBoxes; try reflexivity; try lia.
  cbn. lia.
Qed.

Lemma placementView_facts (c c' : Engine) :
  placementView c' = placementView c ->
  numActiveAgents (data c') = numActiveAgents (data c) /\
  numHiders (data c') = numHiders (data c) /\
  numSeekers (data c') = numSeekers (data c) /\
  agentInterfaces (data c') = agentInterfaces (data c) /\
  maxAgentsPerWorld (data c') = maxAgentsPerWorld (data c) /\
  interfaces c' = interfaces c /\
  curEpisodeStep (data c') = curEpisodeStep (data c) /\
  hiderTeamReward (data c') = hiderTeamReward (data c) /\
  numActiveBoxes (data c') = numActiveBoxes (data c) /\
  numActiveRamps (data c') = numActiveRamps (data c) /\
  numObstacles (data c') = numObstacles (data c) /\
  staticView c' = staticView c /\
  worldReset c' = worldReset c.
Proof.
  unfold placementView, staticView. intros H.
  injection H; intros. repeat split; congruence.
Qed.

Lemma agentPhaseView_facts (c c' : Engine) :
  agentPhaseView c' = agentPhaseView c ->
  agentInterfaces (data c') = agentInterfaces (data c) /\
  maxAgentsPerWorld (data c') = maxAgentsPerWorld (data c) /\
  curEpisodeStep (data c') = curEpisodeStep (data c) /\
  hiderTeamReward (data c') = hiderTeamReward (data c) /\
  numActiveBoxes (data c') = numActiveBoxes (data c) /\
  numActiveRamps (data c') = numActiveRamps (data c) /\
  numObstacles (data c') = numObstacles (data c) /\
  ramps (data c') = ramps (data c) /\
  staticView c' = staticView c /\
  worldReset c' = worldReset c.
Proof.
  unfold agentPhaseView, staticView. intros H.
  injection H; intros. repeat split; congruence.
Qed.

Lemma interfacesOk_view (c c' : Engine) :
  placementView c' = placementView c -> interfacesOk c -> interfacesOk c'.
Proof.
  intros Hv Hi k Hk.
  destruct (placementView_facts c c' Hv) as (_ & _ & _ & Ha & Hm & Hi' & _).
  rewrite Hm in Hk. destruct (Hi k Hk) as (id & H1 & H2).
  exists id. rewrite Ha, Hi'. split; assumption.
Qed.

(** The box phase: [count] boxes of one kind from slot [first] on. *)
Lemma wp_boxLoop (body : Z -> Z -> Gen Z) (count : Z) (n0 : Z)
    (Q : Z -> Engine -> Prop) (ctx : Engine) :
  tablesOk ctx ->
  0 <= n0 -> n0 + count <= 57 ->
  (forall i n c (Q' : Z -> Engine -> Prop),
     0 <= i < count -> tablesOk c -> 0 <= n < 57 ->
     (forall c', objFrame c c' -> nextEntity c' = S (nextEntity c) ->
                 Q' (n + 1) c') ->
     wp (body i n) Q' c) ->
  (forall ctx', objFrame ctx ctx' -> Q (n0 + Z.max 0 count) ctx') ->
  wp (forLoopAcc count n0 body) Q ctx.
Proof.
  intros Ht Hn0 Hcap Hbody HQ. unfold forLoopAcc.
  eapply wp_mono.
  - apply (wp_forLoopAccFrom (fun i n c => objFrame ctx c /\ n = n0 + i)).
    + split; [apply objFrame_refl; exact Ht|lia].
    + intros i n c Hi (Hf & ->).
      apply Hbody; [lia|apply Hf|lia|].
      intros c' Hf' _. split; [|lia].
      exact (objFrame_trans _ _ _ Hf Hf').
  - intros n c (Hf & ->). cbv beta.
    replace (n0 + (0 + Z.of_nat (Z.to_nat count))) with (n0 + Z.max 0 count)
      by lia.
    apply HQ. exact Hf.
Qed.

(** The ramp phase places [consts.maxRamps] = 2 ramps and fills both
    slots of the ramp table with the new entities. *)
Lemma wp_rampLoop (fuel : nat) (n0 : Z) (Q : Z -> Engine -> Prop) (ctx : Engine) :
  (21 <= fuel)%nat ->
  tablesOk ctx ->
  0 <= n0 -> n0 + 2 <= 57 ->
  (forall ctx' c0 c1,
     objFrame ctx ctx' ->
     nextEntity ctx' = S (S (nextEntity ctx)) ->
     ramps (data ctx') =
       [Entity_id (nextEntity ctx); Entity_id (S (nextEntity ctx))] ->
     dynEntities ctx' !! nextEntity ctx = Some c0 -> objectID c0 = Ramp ->
     dynEntities ctx' !! S (nextEntity ctx) = Some c1 -> objectID c1 = Ramp ->
     Q (n0 + 2) ctx') ->
  wp (forLoopAcc consts.maxRamps n0 (placeRamp ext fuel)) Q ctx.
Proof.
  intros Hfuel Ht Hn0 Hcap HQ.
  unfold forLoopAcc, consts.maxRamps.
  change (Z.to_nat 2) with 2%nat. cbn [forLoopAccFrom].
  apply wp_bind. apply wp_placeRamp;
    [exact Hfuel|exact Ht|lia|unfold consts.maxRamps; lia|].
  intros c1 k0 Hf1 Hnext1 Hramps1 Hk0 Hobj0.
  apply wp_bind. apply wp_placeRamp;
    [exact Hfuel|apply Hf1|lia|unfold consts.maxRamps; lia|].
  intros c2 k1 Hf2 Hnext2 Hramps2 Hk1 Hobj1.
  apply wp_ret. replace (n0 + 1 + 1) with (n0 + 2) by lia.
  apply (HQ c2 k0 k1).
  - exact (objFrame_trans _ _ _ Hf1 Hf2).
  - rewrite Hnext2, Hnext1. reflexivity.
  - rewrite Hramps2, Hramps1, Hnext1.
    destruct Ht as (_ & _ & _ & _ & _ & _ & _ & Lr & _).
    destruct (ramps (data ctx)) as [|a [|b [|? ?]]]; try discriminate Lr.
    reflexivity.
  - destruct Hf2 as (_ & _ & _ & Hd). rewrite Hd by lia. exact Hk0.
  - exact Hobj0.
  - rewrite <- Hnext1. exact Hk1.
  - exact Hobj1.
Qed.

Lemma agentFrame_refl (ctx : Engine) :
  tablesOk ctx -> interfacesOk ctx -> agentFrame ctx ctx.
Proof.
  intros Ht Hi. split; [reflexivity|]. split; [exact Ht|].
  split; [apply dynExtends_refl|exact Hi].
Qed.

(** The agent phase: [count] agents of one team. *)
Lemma wp_agentLoop (fuel : nat) (agent_type : AgentType) (count num_entities : Z)
    (Q : unit -> Engine -> Prop) (ctx : Engine) :
  (21 <= fuel)%nat ->
  tablesOk ctx ->
  interfacesOk ctx ->
  0 <= count ->
  0 <= numActiveAgents (data ctx) ->
  numActiveAgents (data ctx) + count <= maxAgentsPerWorld (data ctx) ->
  (agent_type = Hider -> 0 <= numHiders (data ctx) /\ numHiders (data ctx) + count <= 3) ->
  (agent_type = Seeker -> 0 <= numSeekers (data ctx) /\ numSeekers (data ctx) + count <= 3) ->
  (forall ctx',
     agentFrame ctx ctx' ->
     numActiveAgents (data ctx') = numActiveAgents (data ctx) + count ->
     numHiders (data ctx') =
       numHiders (data ctx) + (if decide (agent_type = Hider) then count else 0) ->
     numSeekers (data ctx') =
       numSeekers (data ctx) + (if decide (agent_type = Seeker) then count else 0) ->
     Q tt ctx') ->
  wp (forLoop count (fun _ => placeAgent ext fuel agent_type num_entities)) Q ctx.
Proof.
  intros Hfuel Ht Hi Hc Ha Hcap Hh Hs HQ. unfold forLoop.
  eapply wp_mono.
  - apply (wp_forLoopFrom (fun i c =>
      agentFrame ctx c /\
      numActiveAgents (data c) = numActiveAgents (data ctx) + i /\
      numHiders (data c) =
        numHiders (data ctx) + (if decide (agent_type = Hider) then i else 0) /\
      numSeekers (data c) =
        numSeekers (data ctx) + (if decide (agent_type = Seeker) then i else 0))).
    + split; [apply agentFrame_refl; assumption|].
      repeat case_decide; lia.
    + intros i c Hi' (Hf & Hna & Hnh & Hns).
      destruct (agentPhaseView_facts _ _ (proj1 Hf)) as (_ & Hm & _).
      apply wp_placeAgent.
      * exact Hfuel.
      * apply Hf.
      * apply Hf.
      * rewrite Hm, Hna. lia.
      * intros ->. rewrite Hnh. rewrite decide_True by reflexivity.
        specialize (Hh eq_refl). lia.
      * intros ->. rewrite Hns. rewrite decide_True by reflexivity.
        specialize (Hs eq_refl). lia.
      * intros c' Hf' Hna' Hnh' Hns'.
        split; [exact (agentFrame_trans _ _ _ Hf Hf')|].
        rewrite Hna', Hnh', Hns', Hna, Hnh, Hns.
        repeat case_decide; try congruence; lia.
  - intros [] c (Hf & Hna & Hnh & Hns). cbv beta in *.
    replace (0 + Z.of_nat (Z.to_nat count)) with count in * by lia.
    apply HQ; assumption.
Qed.

Lemma generateTrainingEnvironment_run (fuel : nat) (num_hiders num_seekers : Z)
    (ctx : Engine) :
  (21 <= fuel)%nat ->
  tablesOk ctx ->
  interfacesOk ctx ->
  (forall r s, (length (fst (staticWalls ext r s)) <= 45)%nat) ->
  numActiveAgents (data ctx) = 0 ->
  numHiders (data ctx) = 0 ->
  numSeekers (data ctx) = 0 ->
  0 <= num_hiders <= 3 ->
  0 <= num_seekers <= 3 ->
  num_hiders + num_seekers <= maxAgentsPerWorld (data ctx) ->
  wp (generateTrainingEnvironment ext fuel num_hiders num_seekers)
     (fun _ ctx' =>
        exists total,
          total = fst (sampleI32 ext 3 10 (rng (data ctx))) /\
          3 <= total <= consts.maxBoxes /\
          trainingLevel ctx num_hiders num_seekers total ctx')
     ctx.
Proof.
  intros Hfuel Ht Hio Hwalls Hna Hnh Hns Hh Hs Hcap.
  unfold generateTrainingEnvironment.
  apply wp_bind, wp_sampleBoxCounts.
  intros total elong r' Htot Htb Heb _ _ _. cbv beta iota zeta.
  set (c1 := updData (set_rng r') ctx).
  assert (Ht1 : tablesOk c1) by (subst c1; tables_tac).
  assert (Hv1 : placementView c1 = placementView ctx) by reflexivity.
  unfold consts.maxBoxes in Htb.
  apply wp_bind, wp_populateStaticGeometry; [exact Ht1|exact Hwalls|].
  intros c2 n2 Hf2 Hn2.
  apply wp_bind. apply wp_boxLoop; [apply Hf2|lia|lia| |].
  { intros i n c Q' Hi Htc Hn HQ'. apply wp_placeElongated;
      [exact Hfuel|exact Htc|exact Hn|unfold consts.maxBoxes; lia|exact HQ']. }
  intros c3 Hf3.
  apply wp_bind. apply wp_boxLoop; [apply Hf3|lia|lia| |].
  { intros i n c Q' Hi Htc Hn HQ'. apply wp_placeCube;
      [exact Hfuel|exact Htc|exact Hn|unfold consts.maxBoxes; lia|exact HQ']. }
  intros c4 Hf4.
  apply wp_bind, wp_modify.
  set (c5 := updData (set_numActiveBoxes total) c4).
  assert (Ht5 : tablesOk c5) by (subst c5; destruct Hf4 as (_ & Ht4 & _); tables_tac).
  apply wp_bind. apply wp_rampLoop; [exact Hfuel|exact Ht5|lia|lia|].
  intros c6 k0 k1 Hf6 Hnext6 Hramps6 Hk0 Hobj0 Hk1 Hobj1.
  apply wp_bind, wp_modify.
  set (c7 := updData (set_numActiveRamps consts.maxRamps) c6).
  (* the agent tables are those of [ctx] *)
  assert (Hv7 : numActiveAgents (data c7) = 0 /\ numHiders (data c7) = 0 /\
                numSeekers (data c7) = 0 /\
                agentInterfaces (data c7) = agentInterfaces (data ctx) /\
                maxAgentsPerWorld (data c7) = maxAgentsPerWorld (data ctx) /\
                interfaces c7 = interfaces ctx /\
                curEpisodeStep (data c7) = curEpisodeStep (data ctx)).
  { destruct (placementView_facts _ _ (proj1 Hf2))
      as (A2 & B2 & C2 & D2 & E2 & F2 & G2 & _).
    destruct (placementView_facts _ _ (proj1 Hf3))
      as (A3 & B3 & C3 & D3 & E3 & F3 & G3 & _).
    destruct (placementView_facts _ _ (proj1 Hf4))
      as (A4 & B4 & C4 & D4 & E4 & F4 & G4 & _).
    destruct (placementView_facts _ _ (proj1 Hf6))
      as (A6 & B6 & C6 & D6 & E6 & F6 & G6 & _).
    subst c7 c5 c1.
    cbn [data updData set_data set_numActiveRamps set_numActiveBoxes set_rng
         numActiveAgents numHiders numSeekers agentInterfaces
         maxAgentsPerWorld interfaces curEpisodeStep] in *.
    repeat split; congruence. }
  destruct Hv7 as (A7 & B7 & C7 & D7 & E7 & F7 & G7).
  assert (NB7 : numActiveBoxes (data c7) = total).
  { destruct (placementView_facts _ _ (proj1 Hf6))
      as (_ & _ & _ & _ & _ & _ & _ & _ & NB6 & _).
    subst c7 c5. cbn in *. exact NB6. }
  assert (NR7 : numActiveRamps (data c7) = consts.maxRamps) by reflexivity.
  assert (Ht7 : tablesOk c7)
    by (subst c7; destruct Hf6 as (_ & Ht6 & _); tables_tac).
  assert (Hio7 : interfacesOk c7).
  { intros k Hk. rewrite E7 in Hk. destruct (Hio k Hk) as (id & H1 & H2).
    exists id. rewrite D7, F7. split; assumption. }
  apply wp_bind. apply wp_agentLoop;
    [exact Hfuel|exact Ht7|exact Hio7|lia|lia|lia|lia
    |intros E; discriminate E|].
  intros c8 Hf8 Hna8 Hnh8 Hns8.
  rewrite decide_True in Hnh8 by reflexivity.
  rewrite decide_False in Hns8 by discriminate.
  destruct (agentPhaseView_facts _ _ (proj1 Hf8))
    as (D8 & E8 & G8 & _ & NB8 & NR8 & _ & R8 & S8 & W8).
  apply wp_bind. apply wp_agentLoop;
    [exact Hfuel|apply Hf8|apply Hf8|lia|lia|lia
    |intros E; discriminate E|lia|].
  intros c9 Hf9 Hna9 Hnh9 Hns9.
  rewrite decide_False in Hnh9 by discriminate.
  rewrite decide_True in Hns9 by reflexivity.
  destruct (agentPhaseView_facts _ _ (proj1 Hf9))
    as (D9 & E9 & G9 & _ & NB9 & NR9 & _ & R9 & S9 & W9).
  unfold makePlane, makeDynObject.
  apply wp_bind, wp_newDynEntity.
  destruct Hf9 as (_ & Ht9 & Hd9 & Hio9).
  destruct Hf8 as (_ & Ht8 & Hd8 & Hio8).
  apply wp_bind, wp_tableWrite.
  { cbn. destruct Ht9 as (_ & _ & _ & Lo & _). rewrite Lo.
    unfold consts.maxBoxes, consts.maxRamps, consts.maxAgents. lia. }
  apply wp_modify.
  exists total. split; [exact Htot|]. split; [unfold consts.maxBoxes; lia|].
  unfold trainingLevel.
  cbn [data updData set_data set_numObstacles set_obstacles set_nextEntity
       set_dynEntities numActiveBoxes numActiveRamps numActiveAgents
       numHiders numSeekers ramps dynEntities agentInterfaces
       maxAgentsPerWorld curEpisodeStep].
  split; [rewrite NB9, NB8; exact NB7|].
  split; [rewrite NR9, NR8; exact NR7|].
  split; [lia|]. split; [lia|]. split; [lia|].
  split.
  { exists (nextEntity c5), (S (nextEntity c5)), k0, k1.
    assert (Hlt : (S (nextEntity c5) < nextEntity c9)%nat).
    { destruct Hd8 as [H8 _]. destruct Hd9 as [H9 _].
      change (nextEntity c7) with (nextEntity c6) in H8. lia. }
    split; [rewrite R9, R8; exact Hramps6|]. split; [lia|].
    assert (Hkeep : forall n, (n < nextEntity c6)%nat ->
              <[nextEntity c9 := mkDyn Vector3_zero (angleAxis ext F32.zero xAxis)
                                   one3 Plane Vector3_zero Static
                                   OwnerTeam_Unownable Vector3_zero
                                   Vector3_zero None]>
                (dynEntities c9) !! n = dynEntities c6 !! n).
    { intros n Hn. destruct Hd8 as [H8 H8']. destruct Hd9 as [H9 H9'].
      change (nextEntity c7) with (nextEntity c6) in *.
      rewrite lookup_insert_ne by lia.
      rewrite H9' by lia. rewrite H8' by lia. reflexivity. }
    rewrite !Hkeep by lia. repeat split; assumption. }
  split; [tables_tac|].
  split.
  { intros k Hk. cbn in Hk. destruct (Hio9 k Hk) as (id & H1 & H2).
    exists id. split; [exact H1|exact H2]. }
  split; [congruence|]. split; [congruence|]. split; [congruence|].
  assert (S7 : staticView c7 = staticView ctx /\ worldReset c7 = worldReset ctx).
  { destruct (placementView_facts _ _ (proj1 Hf2))
      as (_ & _ & _ & _ & _ & _ & _ & _ & _ & _ & _ & S2 & W2).
    destruct (placementView_facts _ _ (proj1 Hf3))
      as (_ & _ & _ & _ & _ & _ & _ & _ & _ & _ & _ & S3 & W3).
    destruct (placementView_facts _ _ (proj1 Hf4))
      as (_ & _ & _ & _ & _ & _ & _ & _ & _ & _ & _ & S4 & W4).
    destruct (placementView_facts _ _ (proj1 Hf6))
      as (_ & _ & _ & _ & _ & _ & _ & _ & _ & _ & _ & S6 & W6).
    change (staticView c7) with (staticView c6).
    change (staticView c5) with (staticView c4) in S6.
    change (staticView c1) with (staticView ctx) in S2.
    change (worldReset c7) with (worldReset c6).
    change (worldReset c5) with (worldReset c4) in W6.
    change (worldReset c1) with (worldReset ctx) in W2.
    split; congruence. }
  destruct S7 as [S7 W7].
  split; [change (staticView c9 = staticView ctx); congruence|].
  change (worldReset c9 = worldReset ctx). congruence.
Qed.


(** *** The contents of the level *)

Lemma advance_0 (r : RNG) : advance r 0 = r.
Proof. destruct r as [k c]. unfold advance. cbn. rewrite Z.add_0_r. reflexivity. Qed.

Lemma advance_advance (r : RNG) (a b : Z) :
  advance (advance r a) b = advance r (a + b).
Proof. unfold advance. cbn. f_equal. lia. Qed.



Lemma samplePose_exact (ctx : Engine) :
  samplePose ext ctx
  = Ok (poseAt ext (rng (data ctx)),
        updData (set_rng (advance (rng (data ctx)) 3)) ctx).
Proof.
  unfold samplePose, bind, rngSampleUniform, sampleUniform, ret, poseAt, advance.
  cbn [data updData set_data set_rng rng rng_key rng_count].
  replace (rng_count (rng (data ctx)) + 1 + 1 + 1)
    with (rng_count (rng (data ctx)) + 3) by lia.
  replace (rng_count (rng (data ctx)) + 1 + 1)
    with (rng_count (rng (data ctx)) + 2) by lia.
  reflexivity.
Qed.

(** A loop that has counted [k0] rejections, all of poses that are not
    free, accepts the first later pass whose pose is free, or pass 20. *)
Lemma rejectionLoop_exact (fuel : nat) (obj : SimObject) (n : Z) (r : RNG) :
  forall (k0 : Z) (ctx : Engine),
    0 <= k0 <= max_rejections ->
    max_rejections - k0 < Z.of_nat fuel ->
    rng (data ctx) = advance r (3 * k0) ->
    (forall k, 0 <= k < k0 -> passFree ext ctx obj n r k = false) ->
    exists rej,
      k0 <= rej /\
      acceptedAt ext ctx obj n r rej /\
      rejectionLoop ext fuel obj n k0 ctx
      = Ok ((fst (posePass ext r rej),
             angleAxis ext (snd (posePass ext r rej)) zAxis,
             snd (posePass ext r rej), rej),
            updData (set_rng (advance r (3 * (rej + 1)))) ctx).
Proof.
  induction fuel as [|fuel IH]; intros k0 ctx Hk0 Hfuel Hr Hbefore.
  - lia.
  - cbn [rejectionLoop]. unfold bind at 1. rewrite samplePose_exact.
    unfold bind at 1. unfold gets at 1. rewrite checkOverlap_rng.
    rewrite Hr. rewrite advance_advance.
    change (poseAt ext (advance r (3 * k0))) with (posePass ext r k0).
    change (checkOverlap ext n
              (mkPlacement obj (fst (posePass ext r k0))
                 (angleAxis ext (snd (posePass ext r k0)) zAxis) one3) ctx)
      with (passFree ext ctx obj n r k0).
    destruct (passFree ext ctx obj n r k0) eqn:Hfree.
    + cbn [orb ret]. exists k0. split; [lia|]. split.
      * split; [lia|]. split; [exact Hbefore|left; exact Hfree].
      * replace (3 * k0 + 3) with (3 * (k0 + 1)) by lia. reflexivity.
    + cbn [orb]. destruct (k0 =? max_rejections) eqn:Hmax.
      * apply Z.eqb_eq in Hmax. cbn [ret]. exists k0. split; [lia|]. split.
        -- split; [lia|]. split; [exact Hbefore|right; exact Hmax].
        -- replace (3 * k0 + 3) with (3 * (k0 + 1)) by lia. reflexivity.
      * apply Z.eqb_neq in Hmax.
        destruct (IH (k0 + 1)
                    (updData (set_rng (advance r (3 * k0 + 3))) ctx))
          as (rej & Hle & Hacc & Hrun); [lia|lia| | |].
        -- cbn [data updData set_data set_rng rng]. f_equal. lia.
        -- intros k Hk. destruct (Z.eq_dec k k0) as [->|Hne];
             [exact Hfree|apply Hbefore; lia].
        -- exists rej. split; [lia|]. split; [exact Hacc|].
           rewrite Hrun. reflexivity.
Qed.

Lemma wp_rejectionLoop_exact (fuel : nat) (obj : SimObject) (n : Z)
    (Q : Vector3 * Quat * float * Z -> Engine -> Prop) (ctx : Engine) :
  (21 <= fuel)%nat ->
  (forall rej,
     acceptedAt ext ctx obj n (rng (data ctx)) rej ->
     Q (fst (posePass ext (rng (data ctx)) rej),
        angleAxis ext (snd (posePass ext (rng (data ctx)) rej)) zAxis,
        snd (posePass ext (rng (data ctx)) rej), rej)
       (updData (set_rng (advance (rng (data ctx)) (3 * (rej + 1)))) ctx)) ->
  wp (rejectionLoop ext fuel obj n 0) Q ctx.
Proof.
  intros Hfuel HQ.
  destruct (rejectionLoop_exact fuel obj n (rng (data ctx)) 0 ctx)
    as (rej & _ & Hacc & Hrun).
  - unfold max_rejections; lia.
  - unfold max_rejections; lia.
  - symmetry. apply advance_0.
  - intros k Hk. lia.
  - unfold wp. rewrite Hrun. apply HQ. exact Hacc.
Qed.

(** The overlap test passes when the box overlaps none of the first
    [n] obstacles. *)
Lemma checkOverlap_spec (n : Z) (aabb : Placement) (ctx : Engine) :
  checkOverlap ext n aabb ctx = true
  <-> forall i, 0 <= i < n ->
        aabbOverlaps ext aabb (obstaclePlacement ctx i) = false.
Proof.
  unfold checkOverlap. rewrite forallb_forall. split.
  - intros H i Hi. apply negb_true_iff. apply (H i).
    apply list_elem_of_In, elem_of_seqZ. lia.
  - intros H i Hi. apply list_elem_of_In, elem_of_seqZ in Hi.
    apply negb_true_iff. apply (H i). lia.
Qed.

(** The overlap test reads the first [n] obstacles and their
    components only. *)
Lemma checkOverlap_ext (n : Z) (aabb : Placement) (ctx ctx' : Engine) :
  (forall j, 0 <= j < n ->
     exists m, obstacles (data ctx) !! Z.to_nat j = Some (Entity_id m) /\
               (m < nextEntity ctx)%nat) ->
  dynExtends ctx ctx' ->
  (forall j, 0 <= j < n ->
     obstacles (data ctx') !! Z.to_nat j = obstacles (data ctx) !! Z.to_nat j) ->
  checkOverlap ext n aabb ctx' = checkOverlap ext n aabb ctx.
Proof.
  intros Hreg [_ Hdyn] Hobs. unfold checkOverlap.
  assert (Hpt : forall i, 0 <= i < n ->
            readDyn ctx' (entityAt (obstacles (data ctx')) i)
            = readDyn ctx (entityAt (obstacles (data ctx)) i)).
  { intros i Hi. unfold entityAt. rewrite Hobs by exact Hi.
    destruct (Hreg i Hi) as (m & Hm & Hlt). rewrite Hm. cbn [default].
    unfold readDyn, getDyn, id. rewrite Hdyn by exact Hlt. reflexivity. }
  assert (Hall : forall i, i ∈ seqZ 0 n -> 0 <= i < n)
    by (intros i Hi; apply elem_of_seqZ in Hi; lia).
  induction (seqZ 0 n) as [|i l IH]; [reflexivity|].
  cbn [forallb]. rewrite IH by (intros k Hk; apply Hall; right; exact Hk).
  cbv zeta. rewrite Hpt by (apply Hall; left). reflexivity.
Qed.


Lemma acceptedAt_ext (obj : SimObject) (n : Z) (r : RNG) (rej : Z)
    (ctx ctx' : Engine) :
  (forall j, 0 <= j < n ->
     exists m, obstacles (data ctx) !! Z.to_nat j = Some (Entity_id m) /\
               (m < nextEntity ctx)%nat) ->
  dynExtends ctx ctx' ->
  (forall j, 0 <= j < n ->
     obstacles (data ctx') !! Z.to_nat j = obstacles (data ctx) !! Z.to_nat j) ->
  acceptedAt ext ctx obj n r rej -> acceptedAt ext ctx' obj n r rej.
Proof.
  intros Hreg Hdyn Hobs (Hb & Hbefore & Hlast).
  assert (E : forall k, passFree ext ctx' obj n r k = passFree ext ctx obj n r k)
    by (intros k; apply checkOverlap_ext; assumption).
  split; [exact Hb|]. split.
  - intros k Hk. rewrite E. apply Hbefore. exact Hk.
  - rewrite E. exact Hlast.
Qed.

Lemma obstaclesTested_mono (w total j k : Z) :
  j <= k -> obstaclesTested w total j <= obstaclesTested w total k.
Proof. unfold obstaclesTested. lia. Qed.

(** What was placed stays placed while the world grows. *)
Lemma placedInOrder_ext (n0 w : nat) (num_elongated total : Z) (r0 : RNG)
    (k : nat) (ctx ctx' : Engine) :
  (forall j : nat,
     Z.of_nat j < obstaclesTested (Z.of_nat w) total (Z.of_nat k) ->
     obstacles (data ctx) !! j = Some (Entity_id (n0 + j))) ->
  nextEntity ctx = (n0 + w + k)%nat ->
  dynExtends ctx ctx' ->
  (forall j : nat,
     Z.of_nat j < obstaclesTested (Z.of_nat w) total (Z.of_nat k) ->
     obstacles (data ctx') !! j = obstacles (data ctx) !! j) ->
  forall (k' : nat) (r : RNG),
    (k' <= k)%nat ->
    placedInOrder ext ctx (n0 + w) (Z.of_nat w) num_elongated total r0 k' r ->
    placedInOrder ext ctx' (n0 + w) (Z.of_nat w) num_elongated total r0 k' r.
Proof.
  intros Hreg Hnext Hdyn Hobs.
  induction k' as [|k' IH]; intros r Hle H; [exact H|].
  cbn [placedInOrder] in *.
  destruct H as (r1 & rej & c & Hprev & Hacc & Hc & Hrest).
  exists r1, rej, c. split; [apply IH; [lia|exact Hprev]|].
  assert (Hm := obstaclesTested_mono (Z.of_nat w) total (Z.of_nat k')
                  (Z.of_nat k) ltac:(lia)).
  split.
  - apply (acceptedAt_ext _ _ _ _ ctx); [| exact Hdyn | | exact Hacc].
    + intros j Hj. exists (n0 + Z.to_nat j)%nat. split.
      * apply Hreg. lia.
      * rewrite Hnext. unfold obstaclesTested in *. lia.
    + intros j Hj. apply Hobs. lia.
  - split; [|exact Hrest].
    destruct Hdyn as [_ Hd]. rewrite Hd by lia. exact Hc.
Qed.

(** One more object. *)
Lemma levelSoFar_step (n0 w : nat) (num_elongated total : Z) (r0 : RNG)
    (k : nat) (c c' : Engine) :
  levelSoFar ext n0 w num_elongated total r0 k c ->
  objectPlaced ext (objectKind num_elongated total (Z.of_nat k))
               (obstaclesTested (Z.of_nat w) total (Z.of_nat k)) c c' ->
  tablesOk c' ->
  dynExtends c c' ->
  (forall j : nat,
     Z.of_nat j < obstaclesTested (Z.of_nat w) total (Z.of_nat k) ->
     obstacles (data c') !! j = obstacles (data c) !! j) ->
  (Z.of_nat k < total + consts.maxRamps ->
   obstacles (data c') !! (w + k)%nat = Some (Entity_id (n0 + w + k))) ->
  levelSoFar ext n0 w num_elongated total r0 (S k) c'.
Proof.
  intros (Ht & Hnext & Hreg & Hchain) (rej & comp & Hacc & Hrng & Hnext' & Hc & Hrest)
         Ht' Hdyn Hobs Hnew.
  split; [exact Ht'|]. split; [lia|]. split.
  - intros j Hj.
    destruct (Z_lt_dec (Z.of_nat j)
                (obstaclesTested (Z.of_nat w) total (Z.of_nat k))) as [Hlt|Hge].
    + rewrite Hobs by exact Hlt. apply Hreg. exact Hlt.
    + unfold obstaclesTested in *.
      assert (j = (w + k)%nat) by lia. subst j.
      rewrite Hnew by lia. f_equal. f_equal. lia.
  - cbn [placedInOrder]. exists (rng (data c)), rej, comp.
    split.
    { apply (placedInOrder_ext n0 w num_elongated total r0 k c c');
        try assumption. lia. }
    split.
    { apply (acceptedAt_ext _ _ _ _ c); [| exact Hdyn | | exact Hacc].
      - intros j Hj. exists (n0 + Z.to_nat j)%nat. split.
        + apply Hreg. lia.
        + rewrite Hnext. unfold obstaclesTested in *. lia.
      - intros j Hj. apply Hobs. lia. }
    rewrite <- Hnext. split; [exact Hc|]. 
    destruct Hrest as (A & B & C & D). repeat split; assumption.
Qed.

(** A step of the generator that places nothing and leaves the
    obstacles, the entities and the stream alone. *)
Lemma levelSoFar_frame (n0 w : nat) (num_elongated total : Z) (r0 : RNG)
    (k : nat) (c c' : Engine) :
  levelSoFar ext n0 w num_elongated total r0 k c ->
  tablesOk c' ->
  nextEntity c' = nextEntity c ->
  dynEntities c' = dynEntities c ->
  obstacles (data c') = obstacles (data c) ->
  rng (data c') = rng (data c) ->
  levelSoFar ext n0 w num_elongated total r0 k c'.
Proof.
  intros (Ht & Hnext & Hreg & Hchain) Ht' Hn Hd Ho Hr.
  split; [exact Ht'|]. split; [congruence|]. split.
  - intros j Hj. rewrite Ho. apply Hreg. exact Hj.
  - rewrite Hr.
    apply (placedInOrder_ext n0 w num_elongated total r0 k c c');
      try assumption.
    + split; [lia|]. intros n _. rewrite Hd. reflexivity.
    + intros j _. rewrite Ho. reflexivity.
    + lia.
Qed.

Lemma wp_placeElongated_exact (fuel : nat) (i num_entities : Z)
    (Q : Z -> Engine -> Prop) (ctx : Engine) :
  (21 <= fuel)%nat ->
  tablesOk ctx ->
  0 <= num_entities < 57 ->
  0 <= i < consts.maxBoxes ->
  (forall ctx',
     objFrame ctx ctx' ->
     objectPlaced ext Box num_entities ctx ctx' ->
     obstacles (data ctx')
       = <[Z.to_nat num_entities := Entity_id (nextEntity ctx)]>
           (obstacles (data ctx)) ->
     boxes (data ctx')
       = <[Z.to_nat i := Entity_id (nextEntity ctx)]> (boxes (data ctx)) ->
     boxSizes (data ctx')
       = <[Z.to_nat i := mkVector2 (F32.ofZ 8) (F32.div (F32.ofZ 3) (F32.ofZ 2))]>
           (boxSizes (data ctx)) ->
     ramps (data ctx') = ramps (data ctx) ->
     Q (num_entities + 1) ctx') ->
  wp (placeElongated ext fuel i num_entities) Q ctx.
Proof.
  intros Hfuel Ht Hn Hi HQ. unfold placeElongated.
  assert (Hlens := Ht). destruct Hlens as (_ & _ & _ & Lo & Lb & Ls & Lr & _ & _).
  unfold consts.maxBoxes, consts.maxRamps, consts.maxAgents in *.
  apply wp_bind, wp_rejectionLoop_exact; [exact Hfuel|].
  intros rej Hacc. cbv beta iota.
  unfold makeDynObject. apply wp_bind, wp_newDynEntity.
  apply wp_bind, wp_tableWrite; [cbn; rewrite Lo; lia|].
  apply wp_bind, wp_tableWrite; [cbn; rewrite Lb; lia|].
  apply wp_bind, wp_tableWrite; [cbn; rewrite Ls; lia|].
  apply wp_bind, wp_tableWrite; [cbn; rewrite Lr; lia|].
  apply wp_ret. apply HQ; try reflexivity.
  - split; [reflexivity|]. split; [tables_tac|].
    split; [cbn; lia|].
    intros n Hlt. cbn. apply lookup_insert_ne. lia.
  - eexists rej, _. split; [exact Hacc|]. split; [reflexivity|].
    split; [reflexivity|]. split; [cbn; apply lookup_insert_eq|].
    repeat split; reflexivity.
Qed.

Lemma wp_placeCube_exact (fuel : nat) (num_elongated i num_entities : Z)
    (Q : Z -> Engine -> Prop) (ctx : Engine) :
  (21 <= fuel)%nat ->
  tablesOk ctx ->
  0 <= num_entities < 57 ->
  0 <= i + num_elongated < consts.maxBoxes ->
  (forall ctx',
     objFrame ctx ctx' ->
     objectPlaced ext Cube num_entities ctx ctx' ->
     obstacles (data ctx')
       = <[Z.to_nat num_entities := Entity_id (nextEntity ctx)]>
           (obstacles (data ctx)) ->
     boxes (data ctx')
       = <[Z.to_nat (i + num_elongated) := Entity_id (nextEntity ctx)]>
           (boxes (data ctx)) ->
     boxSizes (data ctx')
       = <[Z.to_nat (i + num_elongated) := mkVector2 (F32.ofZ 2) (F32.ofZ 2)]>
           (boxSizes (data ctx)) ->
     ramps (data ctx') = ramps (data ctx) ->
     Q (num_entities + 1) ctx') ->
  wp (placeCube ext fuel num_elongated i num_entities) Q ctx.
Proof.
  intros Hfuel Ht Hn Hi HQ. unfold placeCube.
  assert (Hlens := Ht). destruct Hlens as (_ & _ & _ & Lo & Lb & Ls & Lr & _ & _).
  unfold consts.maxBoxes, consts.maxRamps, consts.maxAgents in *.
  apply wp_bind, wp_rejectionLoop_exact; [exact Hfuel|].
  intros rej Hacc. cbv beta iota zeta.
  unfold makeDynObject. apply wp_bind, wp_newDynEntity.
  apply wp_bind, wp_tableWrite; [cbn; rewrite Lo; lia|].
  apply wp_bind, wp_tableWrite; [cbn; rewrite Lb; lia|].
  apply wp_bind, wp_tableWrite; [cbn; rewrite Ls; lia|].
  apply wp_bind, wp_tableWrite; [cbn; rewrite Lr; lia|].
  apply wp_ret. apply HQ; try reflexivity.
  - split; [reflexivity|]. split; [tables_tac|].
    split; [cbn; lia|].
    intros n Hlt. cbn. apply lookup_insert_ne. lia.
  - eexists rej, _. split; [exact Hacc|]. split; [reflexivity|].
    split; [reflexivity|]. split; [cbn; apply lookup_insert_eq|].
    repeat split; reflexivity.
Qed.

Lemma wp_placeRamp_exact (fuel : nat) (i num_entities : Z)
    (Q : Z -> Engine -> Prop) (ctx : Engine) :
  (21 <= fuel)%nat ->
  tablesOk ctx ->
  0 <= num_entities < 57 ->
  0 <= i < consts.maxRamps ->
  (forall ctx',
     objFrame ctx ctx' ->
     objectPlaced ext Ramp num_entities ctx ctx' ->
     obstacles (data ctx')
       = <[Z.to_nat num_entities := Entity_id (nextEntity ctx)]>
           (obstacles (data ctx)) ->
     ramps (data ctx')
       = <[Z.to_nat i := Entity_id (nextEntity ctx)]> (ramps (data ctx)) ->
     boxes (data ctx') = boxes (data ctx) ->
     boxSizes (data ctx') = boxSizes (data ctx) ->
     Q (num_entities + 1) ctx') ->
  wp (placeRamp ext fuel i num_entities) Q ctx.
Proof.
  intros Hfuel Ht Hn Hi HQ. unfold placeRamp.
  assert (Hlens := Ht). destruct Hlens as (_ & _ & _ & Lo & _ & _ & _ & Lr & Lrr).
  unfold consts.maxBoxes, consts.maxRamps, consts.maxAgents in *.
  apply wp_bind, wp_rejectionLoop_exact; [exact Hfuel|].
  intros rej Hacc. cbv beta iota zeta.
  unfold makeDynObject. apply wp_bind, wp_newDynEntity.
  apply wp_bind, wp_tableWrite; [cbn; rewrite Lo; lia|].
  apply wp_bind, wp_tableWrite; [cbn; rewrite Lr; lia|].
  apply wp_bind, wp_tableWrite; [cbn; rewrite Lrr; lia|].
  apply wp_ret. apply HQ; try reflexivity.
  - split; [reflexivity|]. split; [tables_tac|].
    split; [cbn; lia|].
    intros n Hlt. cbn. apply lookup_insert_ne. lia.
  - eexists rej, _. split; [exact Hacc|]. split; [reflexivity|].
    split; [reflexivity|]. split; [cbn; apply lookup_insert_eq|].
    repeat split; reflexivity.
Qed.


Lemma wp_placeAgent_exact (fuel : nat) (agent_type : AgentType) (num_entities : Z)
    (Q : unit -> Engine -> Prop) (ctx : Engine) :
  (21 <= fuel)%nat ->
  tablesOk ctx ->
  interfacesOk ctx ->
  0 <= numActiveAgents (data ctx) < maxAgentsPerWorld (data ctx) ->
  (agent_type = Hider -> 0 <= numHiders (data ctx) < 3) ->
  (agent_type = Seeker -> 0 <= numSeekers (data ctx) < 3) ->
  (forall ctx',
     agentFrame ctx ctx' ->
     numActiveAgents (data ctx') = numActiveAgents (data ctx) + 1 ->
     numHiders (data ctx') =
       numHiders (data ctx) + (if decide (agent_type = Hider) then 1 else 0) ->
     numSeekers (data ctx') =
       numSeekers (data ctx) + (if decide (agent_type = Seeker) then 1 else 0) ->
     objectPlaced ext Agent num_entities ctx ctx' ->
     hiders (data ctx') =
       (if decide (agent_type = Hider)
        then <[Z.to_nat (numHiders (data ctx)) := Entity_id (nextEntity ctx)]>
               (hiders (data ctx))
        else hiders (data ctx)) ->
     seekers (data ctx') =
       (if decide (agent_type = Seeker)
        then <[Z.to_nat (numSeekers (data ctx)) := Entity_id (nextEntity ctx)]>
               (seekers (data ctx))
        else seekers (data ctx)) ->
     Q tt ctx') ->
  wp (placeAgent ext fuel agent_type num_entities) Q ctx.
Proof.
  intros Hfuel Ht Hio Hn Hh Hs HQ. unfold placeAgent.
  assert (Hlens := Ht). destruct Hlens as (_ & Lh & Ls & _).
  destruct (Hio _ Hn) as (id & Hslot & [i0 Hi0]).
  apply wp_bind, wp_rejectionLoop_exact; [exact Hfuel|].
  intros rej Hacc. cbv beta iota zeta.
  unfold makeDynAgent, makeAgent.
  apply wp_bind, wp_bind, wp_bind, wp_gets.
  apply wp_bind. eapply wp_tableRead; [cbn; lia|cbn; exact Hslot|].
  apply wp_bind, wp_modify.
  apply wp_bind. eapply wp_ifaceWrite;
    [cbn [getIface interfaces updData set_data]; exact Hi0|].
  apply wp_bind, wp_newDynEntity.
  apply wp_bind. eapply wp_ifaceWrite;
    [cbn [getIface interfaces updData set_data updIface set_interfaces
          set_nextEntity set_dynEntities];
     rewrite ?lookup_alter_eq, Hi0; reflexivity|].
  apply wp_bind. eapply wp_ifaceWrite;
    [cbn [getIface interfaces updData set_data updIface set_interfaces
          set_nextEntity set_dynEntities];
     rewrite ?lookup_alter_eq, Hi0; reflexivity|].
  destruct agent_type.
  - (* Seeker *)
    rewrite decide_True by reflexivity.
    apply wp_bind, wp_bind, wp_gets.
    apply wp_bind, wp_modify.
    apply wp_tableWrite; [cbn; rewrite Ls; specialize (Hs eq_refl); lia|].
    apply wp_bind, wp_gets.
    apply wp_bind. eapply wp_ifaceWrite;
      [cbn [getIface interfaces updData set_data updIface set_interfaces
            set_nextEntity set_dynEntities];
       rewrite ?lookup_alter_eq, Hi0; reflexivity|].
    apply wp_bind. eapply wp_ifaceWrite;
      [cbn [getIface interfaces updData set_data updIface set_interfaces
            set_nextEntity set_dynEntities];
       rewrite ?lookup_alter_eq, Hi0; reflexivity|].
    apply wp_ret. apply wp_bind, wp_modify. apply wp_ret. apply wp_ret.
    apply HQ; [|cbn; lia|cbn; repeat case_decide; try congruence; lia
               |cbn; repeat case_decide; try congruence; lia
               | |reflexivity|reflexivity].
    + split; [reflexivity|]. split; [tables_tac|]. split.
      * split; [cbn; lia|]. intros n Hlt. cbn.
        rewrite lookup_alter_ne by lia. apply lookup_insert_ne. lia.
      * intros k Hk. destruct (Hio k Hk) as (id' & Hslot' & Hsome).
        exists id'. split; [exact Hslot'|]. cbn.
        rewrite !lookup_alter_is_Some. exact Hsome.
    + eexists rej, _. split; [exact Hacc|]. split; [reflexivity|].
      split; [reflexivity|]. split.
      * cbn. rewrite lookup_alter_eq, lookup_insert_eq. reflexivity.
      * repeat split; reflexivity.
  - (* Hider *)
    rewrite decide_False by discriminate.
    apply wp_bind, wp_bind, wp_gets.
    apply wp_bind, wp_modify.
    apply wp_tableWrite; [cbn; rewrite Lh; specialize (Hh eq_refl); lia|].
    apply wp_bind, wp_gets.
    apply wp_bind. eapply wp_ifaceWrite;
      [cbn [getIface interfaces updData set_data updIface set_interfaces
            set_nextEntity set_dynEntities];
       rewrite ?lookup_alter_eq, Hi0; reflexivity|].
    apply wp_bind. eapply wp_ifaceWrite;
      [cbn [getIface interfaces updData set_data updIface set_interfaces
            set_nextEntity set_dynEntities];
       rewrite ?lookup_alter_eq, Hi0; reflexivity|].
    apply wp_ret. apply wp_bind, wp_modify. apply wp_ret. apply wp_ret.
    apply HQ; [|cbn; lia|cbn; repeat case_decide; try congruence; lia
               |cbn; repeat case_decide; try congruence; lia
               | |reflexivity|reflexivity].
    + split; [reflexivity|]. split; [tables_tac|]. split.
      * split; [cbn; lia|]. intros n Hlt. cbn.
        rewrite lookup_alter_ne by lia. apply lookup_insert_ne. lia.
      * intros k Hk. destruct (Hio k Hk) as (id' & Hslot' & Hsome).
        exists id'. split; [exact Hslot'|]. cbn.
        rewrite !lookup_alter_is_Some. exact Hsome.
    + eexists rej, _. split; [exact Hacc|]. split; [reflexivity|].
      split; [reflexivity|]. split.
      * cbn. rewrite lookup_alter_eq, lookup_insert_eq. reflexivity.
      * repeat split; reflexivity.
Qed.

(** The walls are the first entities of the level and fill the front of
    the obstacle table. *)
Lemma wp_populateStaticGeometry_exact (level_scale : Vector2)
    (Q : Z -> Engine -> Prop) (ctx : Engine) :
  tablesOk ctx ->
  (forall r s, (length (fst (staticWalls ext r s)) <= 45)%nat) ->
  (forall ctx',
     objFrame ctx ctx' ->
     rng (data ctx') = snd (staticWalls ext (rng (data ctx)) level_scale) ->
     nextEntity ctx'
       = (nextEntity ctx
          + length (fst (staticWalls ext (rng (data ctx)) level_scale)))%nat ->
     (forall j : nat,
        (j < length (fst (staticWalls ext (rng (data ctx)) level_scale)))%nat ->
        obstacles (data ctx') !! j = Some (Entity_id (nextEntity ctx + j))) ->
     Q (Z.of_nat (length (fst (staticWalls ext (rng (data ctx)) level_scale))))
       ctx') ->
  wp (populateStaticGeometry ext level_scale) Q ctx.
Proof.
  intros Ht Hwalls HQ. unfold populateStaticGeometry.
  apply wp_bind, wp_gets.
  specialize (Hwalls (rng (data ctx)) level_scale).
  destruct (staticWalls ext (rng (data ctx)) level_scale) as [walls r'].
  cbn [fst snd] in Hwalls, HQ.
  apply wp_bind, wp_modify.
  set (c0 := updData (set_rng r') ctx).
  assert (Ht0 : tablesOk c0) by (subst c0; tables_tac).
  assert (Hf0 : objFrame ctx c0).
  { split; [reflexivity|]. split; [exact Ht0|].
    split; [cbn; lia|reflexivity]. }
  unfold forLoopAcc. rewrite Nat2Z.id.
  eapply wp_mono.
  - apply (wp_forLoopAccFrom
             (fun i n c =>
                objFrame c0 c /\ n = i /\ 0 <= i /\
                rng (data c) = r' /\
                nextEntity c = (nextEntity ctx + Z.to_nat i)%nat /\
                forall j : nat, (j < Z.to_nat i)%nat ->
                  obstacles (data c) !! j = Some (Entity_id (nextEntity ctx + j)))).
    + split; [apply objFrame_refl; exact Ht0|]. split; [lia|]. split; [lia|].
      split; [reflexivity|]. split; [cbn; lia|]. intros j Hj. cbn in Hj. lia.
    + intros i n c Hi (Hf & -> & _ & Hr & Hnext & Hobs).
      destruct (walls !! Z.to_nat i) as [w|] eqn:Hw;
        [|apply lookup_ge_None in Hw; lia].
      assert (Htc : tablesOk c) by (apply Hf).
      assert (Hlens := Htc).
      destruct Hlens as (_ & _ & _ & Lo & _).
      unfold consts.maxBoxes, consts.maxRamps, consts.maxAgents in *.
      unfold makeDynObject. apply wp_bind, wp_newDynEntity.
      apply wp_bind, wp_tableWrite; [cbn; rewrite Lo; lia|].
      apply wp_ret. split; [|split; [lia|split; [lia|split; [exact Hr|split]]]].
      * eapply objFrame_trans; [exact Hf|].
        split; [reflexivity|]. split; [tables_tac|].
        split; [cbn; lia|].
        intros n Hlt. cbn. apply lookup_insert_ne. lia.
      * cbn. rewrite Hnext. lia.
      * intros j Hj. cbn.
        destruct (decide (j = Z.to_nat i)) as [->|Hne].
        -- rewrite list_lookup_insert_eq by (rewrite Lo; lia).
           rewrite Hnext. reflexivity.
        -- rewrite list_lookup_insert_ne by congruence. apply Hobs. lia.
  - intros n c (Hf & -> & _ & Hr & Hnext & Hobs). cbv beta.
    replace (0 + Z.of_nat (length walls)) with (Z.of_nat (length walls)) by lia.
    apply HQ.
    + exact (objFrame_trans _ _ _ Hf0 Hf).
    + exact Hr.
    + rewrite Hnext. lia.
    + intros j Hj. apply Hobs. lia.
Qed.


Lemma wp_sampleBoxCounts_exact (Q : Z * Z * Z -> Engine -> Prop) (ctx : Engine) :
  (let r1 := snd (sampleI32 ext 3 10 (rng (data ctx))) in
   let total := fst (sampleI32 ext 3 10 (rng (data ctx))) in
   let elong := fst (sampleI32 ext 3 total r1) in
   3 <= total <= 9 -> 3 <= elong <= total ->
   (3 < total -> elong < total) ->
   Q (total, elong, total - elong)
     (updData (set_rng (snd (sampleI32 ext 3 total r1))) ctx)) ->
  wp (sampleBoxCounts ext) Q ctx.
Proof.
  cbv zeta. intros HQ.
  pose proof (sampleI32_range 3 10 (rng (data ctx)) ltac:(lia)
                ltac:(unfold two32; lia)) as Ht.
  set (total := fst (sampleI32 ext 3 10 (rng (data ctx)))) in *.
  set (r1 := snd (sampleI32 ext 3 10 (rng (data ctx)))) in *.
  assert (He : 3 <= fst (sampleI32 ext 3 total r1) <= total /\
               (3 < total -> fst (sampleI32 ext 3 total r1) < total)).
  { destruct (Z.eq_dec total 3) as [E|E].
    - rewrite E, sampleI32_empty. lia.
    - pose proof (sampleI32_range 3 total r1 ltac:(lia)
                    ltac:(unfold two32; lia)). lia. }
  set (elong := fst (sampleI32 ext 3 total r1)) in *.
  unfold sampleBoxCounts.
  apply wp_bind, wp_rngSampleI32. fold total r1.
  apply wp_bind, wp_assert; [apply Z.leb_le; unfold consts.maxBoxes; lia|].
  apply wp_bind, wp_rngSampleI32.
  cbn [data updData set_data set_rng rng]. fold elong.
  apply wp_bind, wp_assert; [apply Z.eqb_eq; lia|].
  apply wp_ret. rewrite updData_rng_twice.
  apply HQ; lia.
Qed.

Lemma tableFilled_insert (tbl : list Entity) (first : nat) (k : Z) :
  0 <= k -> (Z.to_nat k < length tbl)%nat ->
  tableFilled tbl first k ->
  tableFilled (<[Z.to_nat k := Entity_id (first + Z.to_nat k)]> tbl) first (k + 1).
Proof.
  intros Hk Hlen Hf i Hi.
  destruct (Z.eq_dec i k) as [->|Hne].
  - apply list_lookup_insert_eq. exact Hlen.
  - rewrite list_lookup_insert_ne by lia. apply Hf. lia.
Qed.

Lemma sizesFilled_insert (sizes : list Vector2) (num_elongated k : Z) :
  0 <= k -> (Z.to_nat k < length sizes)%nat ->
  sizesFilled sizes num_elongated k ->
  sizesFilled (<[Z.to_nat k := boxSizeOf num_elongated k]> sizes)
              num_elongated (k + 1).
Proof.
  intros Hk Hlen Hf i Hi.
  destruct (Z.eq_dec i k) as [->|Hne].
  - apply list_lookup_insert_eq. exact Hlen.
  - rewrite list_lookup_insert_ne by lia. apply Hf. lia.
Qed.

(** A box, cube or ramp enters the obstacle table behind the objects
    placed before it. *)
Lemma levelSoFar_object (n0 w : nat) (num_elongated total : Z) (r0 : RNG)
    (k : nat) (c c' : Engine) :
  Z.of_nat k < total + consts.maxRamps ->
  Z.of_nat w + Z.of_nat k < 57 ->
  levelSoFar ext n0 w num_elongated total r0 k c ->
  objFrame c c' ->
  objectPlaced ext (objectKind num_elongated total (Z.of_nat k))
               (Z.of_nat w + Z.of_nat k) c c' ->
  obstacles (data c')
    = <[Z.to_nat (Z.of_nat w + Z.of_nat k) := Entity_id (nextEntity c)]>
        (obstacles (data c)) ->
  levelSoFar ext n0 w num_elongated total r0 (S k) c'.
Proof.
  intros Hk Hcap Hl (_ & Ht' & Hdyn) Hp Hobs.
  assert (Hn : obstaclesTested (Z.of_nat w) total (Z.of_nat k)
               = Z.of_nat w + Z.of_nat k) by (unfold obstaclesTested; lia).
  assert (Hnext : nextEntity c = (n0 + w + k)%nat) by apply Hl.
  apply (levelSoFar_step n0 w num_elongated total r0 k c c'); try assumption.
  - rewrite Hn. exact Hp.
  - intros j Hj. rewrite Hobs. apply list_lookup_insert_ne. lia.
  - intros _. rewrite Hobs.
    replace (Z.to_nat (Z.of_nat w + Z.of_nat k)) with (w + k)%nat by lia.
    rewrite list_lookup_insert_eq.
    + rewrite Hnext. reflexivity.
    + destruct Hl as ((_ & _ & _ & Lo' & _) & _). rewrite Lo'.
      unfold consts.maxBoxes, consts.maxRamps, consts.maxAgents. lia.
Qed.


(** An agent is tested against the walls, the boxes and the ramps, and
    is not entered into the obstacle table. *)
Lemma levelSoFar_agent (n0 w : nat) (num_elongated total : Z) (r0 : RNG)
    (k : nat) (c c' : Engine) :
  num_elongated <= total ->
  total + consts.maxRamps <= Z.of_nat k ->
  levelSoFar ext n0 w num_elongated total r0 k c ->
  agentFrame c c' ->
  objectPlaced ext Agent (Z.of_nat w + total + consts.maxRamps) c c' ->
  levelSoFar ext n0 w num_elongated total r0 (S k) c'.
Proof.
  intros He Hk Hl (Hv & Ht' & Hdyn & _) Hp.
  assert (Hobs : obstacles (data c') = obstacles (data c)).
  { unfold agentPhaseView in Hv. injection Hv; intros. congruence. }
  apply (levelSoFar_step n0 w num_elongated total r0 k c c'); try assumption.
  - replace (objectKind num_elongated total (Z.of_nat k)) with Agent.
    + replace (obstaclesTested (Z.of_nat w) total (Z.of_nat k))
        with (Z.of_nat w + total + consts.maxRamps)
        by (unfold obstaclesTested; lia).
      exact Hp.
    + unfold objectKind.
      replace (Z.of_nat k <? num_elongated) with false
        by (symmetry; apply Z.ltb_ge; unfold consts.maxRamps in *; lia).
      replace (Z.of_nat k <? total) with false
        by (symmetry; apply Z.ltb_ge; unfold consts.maxRamps in *; lia).
      replace (Z.of_nat k <? total + consts.maxRamps) with false
        by (symmetry; apply Z.ltb_ge; lia).
      reflexivity.
  - intros j _. rewrite Hobs. reflexivity.
  - intros H. lia.
Qed.

(** The two box phases: [count] boxes of one kind from box slot [off]
    on. *)
Lemma wp_boxPhase (body : Z -> Z -> Gen Z) (n0 w : nat)
    (num_elongated total : Z) (r0 : RNG) (off count : Z) (kind : SimObject)
    (Q : Z -> Engine -> Prop) (ctx : Engine) :
  0 <= off -> 0 <= count -> off + count <= total -> total <= 9 ->
  (w <= 45)%nat ->
  (forall i, off <= i < off + count ->
     objectKind num_elongated total i = kind) ->
  levelSoFar ext n0 w num_elongated total r0 (Z.to_nat off) ctx ->
  tableFilled (boxes (data ctx)) (n0 + w) off ->
  sizesFilled (boxSizes (data ctx)) num_elongated off ->
  (forall i n c (Q' : Z -> Engine -> Prop),
     0 <= i < count -> tablesOk c -> 0 <= n < 57 ->
     (forall c',
        objFrame c c' ->
        objectPlaced ext kind n c c' ->
        obstacles (data c')
          = <[Z.to_nat n := Entity_id (nextEntity c)]> (obstacles (data c)) ->
        boxes (data c')
          = <[Z.to_nat (off + i) := Entity_id (nextEntity c)]> (boxes (data c)) ->
        boxSizes (data c')
          = <[Z.to_nat (off + i) := boxSizeOf num_elongated (off + i)]>
              (boxSizes (data c)) ->
        ramps (data c') = ramps (data c) ->
        Q' (n + 1) c') ->
     wp (body i n) Q' c) ->
  (forall ctx',
     objFrame ctx ctx' ->
     levelSoFar ext n0 w num_elongated total r0 (Z.to_nat (off + count)) ctx' ->
     tableFilled (boxes (data ctx')) (n0 + w) (off + count) ->
     sizesFilled (boxSizes (data ctx')) num_elongated (off + count) ->
     ramps (data ctx') = ramps (data ctx) ->
     Q (Z.of_nat w + off + count) ctx') ->
  wp (forLoopAcc count (Z.of_nat w + off) body) Q ctx.
Proof.
  intros Hoff Hcount Htot Hcap Hw Hkind Hl Hb Hs Hbody HQ. unfold forLoopAcc.
  eapply wp_mono.
  - apply (wp_forLoopAccFrom
             (fun i n c =>
                objFrame ctx c /\ n = Z.of_nat w + off + i /\
                levelSoFar ext n0 w num_elongated total r0 (Z.to_nat (off + i)) c /\
                tableFilled (boxes (data c)) (n0 + w) (off + i) /\
                sizesFilled (boxSizes (data c)) num_elongated (off + i) /\
                ramps (data c) = ramps (data ctx))).
    + split; [apply objFrame_refl; apply Hl|]. split; [lia|].
      rewrite Z.add_0_r. repeat split; try assumption; apply Hl.
    + intros i n c Hi (Hf & -> & Hlc & Hbc & Hsc & Hrc).
      assert (Htc : tablesOk c) by apply Hlc.
      assert (Hnext : nextEntity c = (n0 + w + Z.to_nat (off + i))%nat)
        by apply Hlc.
      apply Hbody; [lia|exact Htc|lia|].
      intros c' Hf' Hp Hobs Hboxes Hsizes Hramps.
      split; [exact (objFrame_trans _ _ _ Hf Hf')|]. split; [lia|].
      destruct Htc as (_ & _ & _ & _ & Lb & Ls & _).
      unfold consts.maxBoxes in Lb, Ls.
      split; [|split; [|split]].
      * replace (Z.to_nat (off + (i + 1))) with (S (Z.to_nat (off + i))) by lia.
        apply (levelSoFar_object n0 w num_elongated total r0 _ c c').
        -- unfold consts.maxRamps. lia.
        -- lia.
        -- exact Hlc.
        -- exact Hf'.
        -- rewrite Z2Nat.id by lia. rewrite Hkind by lia.
           replace (Z.of_nat w + (off + i)) with (Z.of_nat w + off + i) by lia.
           exact Hp.
        -- rewrite Z2Nat.id by lia.
           replace (Z.of_nat w + (off + i)) with (Z.of_nat w + off + i) by lia.
           exact Hobs.
      * rewrite Hboxes, Hnext. replace (off + (i + 1)) with (off + i + 1) by lia.
        replace (n0 + w + Z.to_nat (off + i))%nat
          with ((n0 + w) + Z.to_nat (off + i))%nat by lia.
        apply tableFilled_insert; [lia|rewrite Lb; lia|exact Hbc].
      * rewrite Hsizes. replace (off + (i + 1)) with (off + i + 1) by lia.
        apply sizesFilled_insert; [lia|rewrite Ls; lia|exact Hsc].
      * congruence.
  - intros n c (Hf & -> & Hlc & Hbc & Hsc & Hrc). cbv beta in *.
    replace (0 + Z.of_nat (Z.to_nat count)) with count in * by lia.
    apply HQ; assumption.
Qed.

(** The ramp phase. *)
Lemma wp_rampPhase (fuel : nat) (n0 w : nat) (num_elongated total : Z)
    (r0 : RNG) (Q : Z -> Engine -> Prop) (ctx : Engine) :
  (21 <= fuel)%nat ->
  0 <= num_elongated <= total -> total <= 9 -> (w <= 45)%nat ->
  levelSoFar ext n0 w num_elongated total r0 (Z.to_nat total) ctx ->
  (forall ctx',
     objFrame ctx ctx' ->
     levelSoFar ext n0 w num_elongated total r0
                (Z.to_nat (total + consts.maxRamps)) ctx' ->
     tableFilled (ramps (data ctx')) (n0 + w + Z.to_nat total) consts.maxRamps ->
     boxes (data ctx') = boxes (data ctx) ->
     boxSizes (data ctx') = boxSizes (data ctx) ->
     Q (Z.of_nat w + total + consts.maxRamps) ctx') ->
  wp (forLoopAcc consts.maxRamps (Z.of_nat w + total) (placeRamp ext fuel)) Q ctx.
Proof.
  intros Hfuel He Hcap Hw Hl HQ. unfold forLoopAcc.
  eapply wp_mono.
  - apply (wp_forLoopAccFrom
             (fun i n c =>
                objFrame ctx c /\ n = Z.of_nat w + total + i /\
                levelSoFar ext n0 w num_elongated total r0 (Z.to_nat (total + i)) c /\
                tableFilled (ramps (data c)) (n0 + w + Z.to_nat total) i /\
                boxes (data c) = boxes (data ctx) /\
                boxSizes (data c) = boxSizes (data ctx))).
    + split; [apply objFrame_refl; apply Hl|]. split; [lia|].
      rewrite Z.add_0_r. split; [exact Hl|]. split; [intros i Hi; lia|].
      split; reflexivity.
    + intros i n c Hi (Hf & -> & Hlc & Hrc & Hbc & Hsc).
      unfold consts.maxRamps in Hi. change (Z.to_nat 2) with 2%nat in Hi.
      assert (Htc : tablesOk c) by apply Hlc.
      assert (Hnext : nextEntity c = (n0 + w + Z.to_nat (total + i))%nat)
        by apply Hlc.
      apply wp_placeRamp_exact;
        [exact Hfuel|exact Htc|lia|unfold consts.maxRamps; lia|].
      intros c' Hf' Hp Hobs Hramps Hboxes Hsizes.
      split; [exact (objFrame_trans _ _ _ Hf Hf')|]. split; [lia|].
      destruct Htc as (_ & _ & _ & _ & _ & _ & _ & Lr & _).
      unfold consts.maxRamps in Lr.
      split; [|split; [|split]].
      * replace (Z.to_nat (total + (i + 1))) with (S (Z.to_nat (total + i)))
          by lia.
        apply (levelSoFar_object n0 w num_elongated total r0 _ c c').
        -- unfold consts.maxRamps. lia.
        -- lia.
        -- exact Hlc.
        -- exact Hf'.
        -- rewrite Z2Nat.id by lia.
           replace (objectKind num_elongated total (total + i)) with Ramp.
           ++ replace (Z.of_nat w + (total + i)) with (Z.of_nat w + total + i)
                by lia.
              exact Hp.
           ++ unfold objectKind, consts.maxRamps.
              replace (total + i <? num_elongated) with false
                by (symmetry; apply Z.ltb_ge; lia).
              replace (total + i <? total) with false
                by (symmetry; apply Z.ltb_ge; lia).
              replace (total + i <? total + 2) with true
                by (symmetry; apply Z.ltb_lt; lia).
              reflexivity.
        -- rewrite Z2Nat.id by lia.
           replace (Z.of_nat w + (total + i)) with (Z.of_nat w + total + i) by lia.
           exact Hobs.
      * rewrite Hramps, Hnext.
        replace (n0 + w + Z.to_nat (total + i))%nat
          with ((n0 + w + Z.to_nat total) + Z.to_nat i)%nat by lia.
        apply tableFilled_insert; [lia|rewrite Lr; lia|exact Hrc].
      * congruence.
      * congruence.
  - intros n c (Hf & -> & Hlc & Hrc & Hbc & Hsc). cbv beta in *.
    replace (0 + Z.of_nat (Z.to_nat consts.maxRamps)) with consts.maxRamps in *
      by (unfold consts.maxRamps; lia).
    apply HQ; assumption.
Qed.

Lemma agentPhaseView_tables (c c' : Engine) :
  agentPhaseView c' = agentPhaseView c ->
  obstacles (data c') = obstacles (data c) /\
  boxes (data c') = boxes (data c) /\
  boxSizes (data c') = boxSizes (data c) /\
  ramps (data c') = ramps (data c) /\
  maxAgentsPerWorld (data c') = maxAgentsPerWorld (data c).
Proof.
  unfold agentPhaseView. intros H. injection H; intros.
  repeat split; congruence.
Qed.

(** The hider phase. *)
Lemma wp_hiderPhase (fuel : nat) (n0 w : nat) (num_elongated total : Z)
    (r0 : RNG) (count : Z) (Q : unit -> Engine -> Prop) (ctx : Engine) :
  (21 <= fuel)%nat ->
  0 <= num_elongated <= total ->
  0 <= count <= 3 ->
  levelSoFar ext n0 w num_elongated total r0
             (Z.to_nat (total + consts.maxRamps)) ctx ->
  interfacesOk ctx ->
  numActiveAgents (data ctx) = 0 ->
  numHiders (data ctx) = 0 ->
  count <= maxAgentsPerWorld (data ctx) ->
  (forall ctx',
     agentFrame ctx ctx' ->
     levelSoFar ext n0 w num_elongated total r0
                (Z.to_nat (total + consts.maxRamps + count)) ctx' ->
     numActiveAgents (data ctx') = count ->
     numHiders (data ctx') = count ->
     numSeekers (data ctx') = numSeekers (data ctx) ->
     tableFilled (hiders (data ctx'))
                 (n0 + w + Z.to_nat (total + consts.maxRamps)) count ->
     seekers (data ctx') = seekers (data ctx) ->
     Q tt ctx') ->
  wp (forLoop count
        (fun _ => placeAgent ext fuel Hider
                    (Z.of_nat w + total + consts.maxRamps))) Q ctx.
Proof.
  intros Hfuel He Hc Hl Hio Hna Hnh Hcap HQ. unfold forLoop.
  eapply wp_mono.
  - apply (wp_forLoopFrom
             (fun i c =>
                agentFrame ctx c /\
                levelSoFar ext n0 w num_elongated total r0
                           (Z.to_nat (total + consts.maxRamps + i)) c /\
                numActiveAgents (data c) = i /\
                numHiders (data c) = i /\
                numSeekers (data c) = numSeekers (data ctx) /\
                tableFilled (hiders (data c))
                            (n0 + w + Z.to_nat (total + consts.maxRamps)) i /\
                seekers (data c) = seekers (data ctx))).
    + split; [apply agentFrame_refl; [apply Hl|exact Hio]|].
      rewrite Z.add_0_r. split; [exact Hl|]. split; [exact Hna|].
      split; [exact Hnh|]. split; [reflexivity|].
      split; [intros i Hi; lia|reflexivity].
    + intros i c Hi (Hf & Hlc & Hac & Hhc & Hsc & Htc & Hkc).
      assert (Hnext : nextEntity c
                = (n0 + w + Z.to_nat (total + consts.maxRamps + i))%nat)
        by apply Hlc.
      destruct (agentPhaseView_tables _ _ (proj1 Hf)) as (_ & _ & _ & _ & Hm).
      apply wp_placeAgent_exact.
      * exact Hfuel.
      * apply Hf.
      * apply Hf.
      * rewrite Hm, Hac. lia.
      * intros _. rewrite Hhc. lia.
      * intros E. discriminate E.
      * intros c' Hf' Hna' Hnh' Hns' Hp Hhid Hseek.
        rewrite decide_True in Hnh' by reflexivity.
        rewrite decide_True in Hhid by reflexivity.
        rewrite decide_False in Hns' by discriminate.
        rewrite decide_False in Hseek by discriminate.
        split; [exact (agentFrame_trans _ _ _ Hf Hf')|].
        split; [|split; [lia|split; [lia|split; [lia|split]]]].
        -- replace (Z.to_nat (total + consts.maxRamps + (i + 1)))
             with (S (Z.to_nat (total + consts.maxRamps + i)))
             by (unfold consts.maxRamps; lia).
           apply (levelSoFar_agent n0 w num_elongated total r0 _ c c');
             [lia|unfold consts.maxRamps in *; lia|exact Hlc|exact Hf'|exact Hp].
        -- rewrite Hhid, Hhc, Hnext.
           replace (n0 + w + Z.to_nat (total + consts.maxRamps + i))%nat
             with ((n0 + w + Z.to_nat (total + consts.maxRamps)) + Z.to_nat i)%nat
             by (unfold consts.maxRamps; lia).
           apply tableFilled_insert; [lia| |exact Htc].
           destruct Hf as (_ & (_ & Lh & _) & _). rewrite Lh. lia.
        -- congruence.
  - intros [] c (Hf & Hlc & Hac & Hhc & Hsc & Htc & Hkc). cbv beta in *.
    replace (0 + Z.of_nat (Z.to_nat count)) with count in * by lia.
    apply HQ; assumption.
Qed.

(** The seeker phase, after [num_hiders] hiders. *)
Lemma wp_seekerPhase (fuel : nat) (n0 w : nat) (num_elongated total : Z)
    (r0 : RNG) (num_hiders count : Z) (Q : unit -> Engine -> Prop)
    (ctx : Engine) :
  (21 <= fuel)%nat ->
  0 <= num_elongated <= total ->
  0 <= num_hiders ->
  0 <= count <= 3 ->
  levelSoFar ext n0 w num_elongated total r0
             (Z.to_nat (total + consts.maxRamps + num_hiders)) ctx ->
  interfacesOk ctx ->
  numActiveAgents (data ctx) = num_hiders ->
  numSeekers (data ctx) = 0 ->
  num_hiders + count <= maxAgentsPerWorld (data ctx) ->
  (forall ctx',
     agentFrame ctx ctx' ->
     levelSoFar ext n0 w num_elongated total r0
                (Z.to_nat (total + consts.maxRamps + num_hiders + count)) ctx' ->
     numActiveAgents (data ctx') = num_hiders + count ->
     numSeekers (data ctx') = count ->
     numHiders (data ctx') = numHiders (data ctx) ->
     tableFilled (seekers (data ctx'))
                 (n0 + w + Z.to_nat (total + consts.maxRamps + num_hiders))
                 count ->
     hiders (data ctx') = hiders (data ctx) ->
     Q tt ctx') ->
  wp (forLoop count
        (fun _ => placeAgent ext fuel Seeker
                    (Z.of_nat w + total + consts.maxRamps))) Q ctx.
Proof.
  intros Hfuel He Hh Hc Hl Hio Hna Hns Hcap HQ. unfold forLoop.
  eapply wp_mono.
  - apply (wp_forLoopFrom
             (fun i c =>
                agentFrame ctx c /\
                levelSoFar ext n0 w num_elongated total r0
                           (Z.to_nat (total + consts.maxRamps + num_hiders + i)) c /\
                numActiveAgents (data c) = num_hiders + i /\
                numSeekers (data c) = i /\
                numHiders (data c) = numHiders (data ctx) /\
                tableFilled (seekers (data c))
                  (n0 + w + Z.to_nat (total + consts.maxRamps + num_hiders)) i /\
                hiders (data c) = hiders (data ctx))).
    + split; [apply agentFrame_refl; [apply Hl|exact Hio]|].
      rewrite !Z.add_0_r. split; [exact Hl|]. split; [exact Hna|].
      split; [exact Hns|]. split; [reflexivity|].
      split; [intros i Hi; lia|reflexivity].
    + intros i c Hi (Hf & Hlc & Hac & Hsc & Hhc & Htc & Hkc).
      assert (Hnext : nextEntity c
                = (n0 + w + Z.to_nat (total + consts.maxRamps + num_hiders + i))%nat)
        by apply Hlc.
      destruct (agentPhaseView_tables _ _ (proj1 Hf)) as (_ & _ & _ & _ & Hm).
      apply wp_placeAgent_exact.
      * exact Hfuel.
      * apply Hf.
      * apply Hf.
      * rewrite Hm, Hac. lia.
      * intros E. discriminate E.
      * intros _. rewrite Hsc. lia.
      * intros c' Hf' Hna' Hnh' Hns' Hp Hhid Hseek.
        rewrite decide_False in Hnh' by discriminate.
        rewrite decide_False in Hhid by discriminate.
        rewrite decide_True in Hns' by reflexivity.
        rewrite decide_True in Hseek by reflexivity.
        split; [exact (agentFrame_trans _ _ _ Hf Hf')|].
        split; [|split; [lia|split; [lia|split; [lia|split]]]].
        -- replace (Z.to_nat (total + consts.maxRamps + num_hiders + (i + 1)))
             with (S (Z.to_nat (total + consts.maxRamps + num_hiders + i)))
             by (unfold consts.maxRamps; lia).
           apply (levelSoFar_agent n0 w num_elongated total r0 _ c c');
             [lia|unfold consts.maxRamps in *; lia|exact Hlc|exact Hf'|exact Hp].
        -- rewrite Hseek, Hsc, Hnext.
           replace (n0 + w + Z.to_nat (total + consts.maxRamps + num_hiders + i))%nat
             with ((n0 + w + Z.to_nat (total + consts.maxRamps + num_hiders))
                   + Z.to_nat i)%nat
             by (unfold consts.maxRamps; lia).
           apply tableFilled_insert; [lia| |exact Htc].
           destruct Hf as (_ & (_ & _ & Ls & _) & _). rewrite Ls. lia.
        -- congruence.
  - intros [] c (Hf & Hlc & Hac & Hsc & Hhc & Htc & Hkc). cbv beta in *.
    replace (0 + Z.of_nat (Z.to_nat count)) with count in * by lia.
    apply HQ; assumption.
Qed.


Lemma objectKind_box (num_elongated total i : Z) :
  i < num_elongated -> objectKind num_elongated total i = Box.
Proof.
  intros H. unfold objectKind.
  replace (i <? num_elongated) with true by (symmetry; apply Z.ltb_lt; lia).
  reflexivity.
Qed.

Lemma objectKind_cube (num_elongated total i : Z) :
  num_elongated <= i < total -> objectKind num_elongated total i = Cube.
Proof.
  intros H. unfold objectKind.
  replace (i <? num_elongated) with false by (symmetry; apply Z.ltb_ge; lia).
  replace (i <? total) with true by (symmetry; apply Z.ltb_lt; lia).
  reflexivity.
Qed.

(** The level that the training generator builds, object by object. *)
Lemma generateTrainingEnvironment_contents (fuel : nat)
    (num_hiders num_seekers : Z) (ctx : Engine) :
  (21 <= fuel)%nat ->
  tablesOk ctx ->
  interfacesOk ctx ->
  (forall r s, (length (fst (staticWalls ext r s)) <= 45)%nat) ->
  numActiveAgents (data ctx) = 0 ->
  numHiders (data ctx) = 0 ->
  numSeekers (data ctx) = 0 ->
  0 <= num_hiders <= 3 ->
  0 <= num_seekers <= 3 ->
  num_hiders + num_seekers <= maxAgentsPerWorld (data ctx) ->
  wp (generateTrainingEnvironment ext fuel num_hiders num_seekers)
     (fun _ ctx' =>
        let r1 := snd (sampleI32 ext 3 10 (rng (data ctx))) in
        let total := fst (sampleI32 ext 3 10 (rng (data ctx))) in
        let num_elongated := fst (sampleI32 ext 3 total r1) in
        let geo := staticWalls ext (snd (sampleI32 ext 3 total r1))
                               (mkVector2 (v2y bounds) (v2y bounds)) in
        let w := length (fst geo) in
        let n0 := nextEntity ctx in
        let objects :=
          Z.to_nat (total + consts.maxRamps + num_hiders + num_seekers) in
        placedInOrder ext ctx' (n0 + w) (Z.of_nat w) num_elongated total
                      (snd geo) objects (rng (data ctx')) /\
        nextEntity ctx' = S (n0 + w + objects) /\
        (forall j : nat,
           Z.of_nat j < Z.of_nat w + total + consts.maxRamps ->
           obstacles (data ctx') !! j = Some (Entity_id (n0 + j))) /\
        obstacles (data ctx') !! (w + Z.to_nat (total + consts.maxRamps))%nat
          = Some (Entity_id (n0 + w + objects)) /\
        numObstacles (data ctx') = Z.of_nat w + total + consts.maxRamps + 1 /\
        tableFilled (boxes (data ctx')) (n0 + w) total /\
        sizesFilled (boxSizes (data ctx')) num_elongated total /\
        tableFilled (ramps (data ctx')) (n0 + w + Z.to_nat total)
                    consts.maxRamps /\
        tableFilled (hiders (data ctx'))
                    (n0 + w + Z.to_nat (total + consts.maxRamps)) num_hiders /\
        tableFilled (seekers (data ctx'))
                    (n0 + w + Z.to_nat (total + consts.maxRamps + num_hiders))
                    num_seekers)
     ctx.
Proof.
  intros Hfuel Ht Hio Hwalls Hna Hnh Hns Hh Hs Hcap.
  unfold generateTrainingEnvironment.
  apply wp_bind, wp_sampleBoxCounts_exact. cbv zeta.
  set (total := fst (sampleI32 ext 3 10 (rng (data ctx)))).
  set (r1 := snd (sampleI32 ext 3 10 (rng (data ctx)))).
  set (elong := fst (sampleI32 ext 3 total r1)).
  set (r2 := snd (sampleI32 ext 3 total r1)).
  intros Htb Heb _. cbv beta iota.
  set (c1 := updData (set_rng r2) ctx).
  assert (Ht1 : tablesOk c1) by (subst c1; tables_tac).
  apply wp_bind, wp_populateStaticGeometry_exact; [exact Ht1|exact Hwalls|].
  change (rng (data c1)) with r2. change (nextEntity c1) with (nextEntity ctx).
  set (geo := staticWalls ext r2 (mkVector2 (v2y bounds) (v2y bounds))).
  assert (Hw : (length (fst geo) <= 45)%nat) by apply Hwalls.
  set (w := length (fst geo)) in *. set (n0 := nextEntity ctx).
  intros c2 Hf2 Hr2 Hn2 Hobs2.
  assert (Hl2 : levelSoFar ext n0 w elong total (snd geo) 0 c2).
  { split; [apply Hf2|]. split; [lia|]. split.
    - intros j Hj. apply Hobs2. unfold obstaclesTested in Hj. lia.
    - cbn [placedInOrder]. exact Hr2. }
  (* the elongated boxes *)
  apply wp_bind.
  replace (Z.of_nat w) with (Z.of_nat w + 0) at 1 by lia.
  apply (wp_boxPhase _ n0 w elong total (snd geo) 0 elong Box);
    [lia|lia|lia|lia|exact Hw| |exact Hl2| | | |].
  { intros i Hi. apply objectKind_box. lia. }
  { intros i Hi. lia. }
  { intros i Hi. lia. }
  { intros i n c Q' Hi Htc Hn HQ'. apply wp_placeElongated_exact;
      [exact Hfuel|exact Htc|exact Hn|unfold consts.maxBoxes; lia|].
    intros c' Hf' Hp Hobs Hboxes Hsizes Hramps.
    apply HQ'; try assumption.
    rewrite Hsizes. unfold boxSizeOf.
    replace (0 + i <? elong) with true by (symmetry; apply Z.ltb_lt; lia).
    reflexivity. }
  replace (Z.of_nat w + 0 + elong) with (Z.of_nat w + elong) by lia.
  change (0 + elong) with elong.
  intros c3 Hf3 Hl3 Hb3 Hs3 _.
  (* the cubes *)
  apply wp_bind.
  apply (wp_boxPhase _ n0 w elong total (snd geo) elong (total - elong) Cube);
    [lia|lia|lia|lia|exact Hw| |exact Hl3|exact Hb3|exact Hs3| |].
  { intros i Hi. apply objectKind_cube. lia. }
  { intros i n c Q' Hi Htc Hn HQ'. apply wp_placeCube_exact;
      [exact Hfuel|exact Htc|exact Hn|unfold consts.maxBoxes; lia|].
    intros c' Hf' Hp Hobs Hboxes Hsizes Hramps.
    replace (i + elong) with (elong + i) in Hboxes, Hsizes by lia.
    apply HQ'; try assumption.
    rewrite Hsizes. unfold boxSizeOf.
    replace (elong + i <? elong) with false by (symmetry; apply Z.ltb_ge; lia).
    reflexivity. }
  replace (elong + (total - elong)) with total by lia.
  replace (Z.of_nat w + elong + (total - elong)) with (Z.of_nat w + total) by lia.
  intros c4 Hf4 Hl4 Hb4 Hs4 _.
  apply wp_bind, wp_modify.
  set (c5 := updData (set_numActiveBoxes total) c4).
  assert (Hl5 : levelSoFar ext n0 w elong total (snd geo) (Z.to_nat total) c5).
  { apply (levelSoFar_frame n0 w elong total (snd geo) _ c4 c5);
      try reflexivity; [exact Hl4|].
    destruct Hl4 as (Ht4 & _). subst c5. tables_tac. }
  (* the ramps *)
  apply wp_bind.
  apply (wp_rampPhase fuel n0 w elong total (snd geo));
    [exact Hfuel|lia|lia|exact Hw|exact Hl5|].
  intros c6 Hf6 Hl6 Hr6 Hb6 Hs6.
  apply wp_bind, wp_modify.
  set (c7 := updData (set_numActiveRamps consts.maxRamps) c6).
  assert (Hl7 : levelSoFar ext n0 w elong total (snd geo)
                  (Z.to_nat (total + consts.maxRamps)) c7).
  { apply (levelSoFar_frame n0 w elong total (snd geo) _ c6 c7);
      try reflexivity; [exact Hl6|].
    destruct Hl6 as (Ht6 & _). subst c7. tables_tac. }
  assert (Hv7 : numActiveAgents (data c7) = 0 /\ numHiders (data c7) = 0 /\
                numSeekers (data c7) = 0 /\
                agentInterfaces (data c7) = agentInterfaces (data ctx) /\
                maxAgentsPerWorld (data c7) = maxAgentsPerWorld (data ctx) /\
                interfaces c7 = interfaces ctx).
  { destruct (placementView_facts _ _ (proj1 Hf2))
      as (A2 & B2 & C2 & D2 & E2 & F2 & _).
    destruct (placementView_facts _ _ (proj1 Hf3))
      as (A3 & B3 & C3 & D3 & E3 & F3 & _).
    destruct (placementView_facts _ _ (proj1 Hf4))
      as (A4 & B4 & C4 & D4 & E4 & F4 & _).
    destruct (placementView_facts _ _ (proj1 Hf6))
      as (A6 & B6 & C6 & D6 & E6 & F6 & _).
    subst c7 c5 c1.
    cbn [data updData set_data set_numActiveRamps set_numActiveBoxes set_rng
         numActiveAgents numHiders numSeekers agentInterfaces
         maxAgentsPerWorld interfaces] in *.
    repeat split; congruence. }
  destruct Hv7 as (A7 & B7 & C7 & D7 & E7 & F7).
  assert (Hio7 : interfacesOk c7).
  { intros k Hk. rewrite E7 in Hk. destruct (Hio k Hk) as (id & H1 & H2).
    exists id. rewrite D7, F7. split; assumption. }
  assert (Hb7 : tableFilled (boxes (data c7)) (n0 + w) total)
    by (change (boxes (data c7)) with (boxes (data c6)); rewrite Hb6; exact Hb4).
  assert (Hs7 : sizesFilled (boxSizes (data c7)) elong total)
    by (change (boxSizes (data c7)) with (boxSizes (data c6)); rewrite Hs6;
        exact Hs4).
  assert (Hr7 : tableFilled (ramps (data c7)) (n0 + w + Z.to_nat total)
                  consts.maxRamps) by exact Hr6.
  clearbody c7. clear Hl6 Hr6 Hb6 Hs6 Hf6 Hl5 Hl4 Hb4 Hs4 Hf4 Hl3 Hb3 Hs3 Hf3.
  (* the hiders *)
  apply wp_bind.
  apply (wp_hiderPhase fuel n0 w elong total (snd geo));
    [exact Hfuel|lia|lia|exact Hl7|exact Hio7|exact A7|exact B7|lia|].
  intros c8 Hf8 Hl8 Hna8 Hnh8 Hns8 Hh8 Hk8.
  destruct (agentPhaseView_tables _ _ (proj1 Hf8))
    as (O8 & Bx8 & Sz8 & Rm8 & M8).
  (* the seekers *)
  apply wp_bind.
  apply (wp_seekerPhase fuel n0 w elong total (snd geo) num_hiders);
    [exact Hfuel|lia|lia|lia|exact Hl8|apply Hf8|exact Hna8|congruence|lia|].
  intros c9 Hf9 Hl9 Hna9 Hns9 Hnh9 Hk9 Hh9.
  destruct (agentPhaseView_tables _ _ (proj1 Hf9))
    as (O9 & Bx9 & Sz9 & Rm9 & M9).
  (* the plane *)
  unfold makePlane, makeDynObject.
  apply wp_bind, wp_newDynEntity.
  destruct Hl9 as (Ht9 & Hnext9 & Hreg9 & Hchain9).
  assert (Lo : length (obstacles (data c9)) = 57%nat).
  { destruct Ht9 as (_ & _ & _ & Lo & _). rewrite Lo. reflexivity. }
  assert (Htested : obstaclesTested (Z.of_nat w) total
                      (Z.of_nat (Z.to_nat (total + consts.maxRamps + num_hiders
                                           + num_seekers)))
                    = Z.of_nat w + total + consts.maxRamps)
    by (unfold obstaclesTested, consts.maxRamps; lia).
  apply wp_bind, wp_tableWrite;
    [change (0 <= Z.of_nat w + total + consts.maxRamps
             < Z.of_nat (length (obstacles (data c9))));
     rewrite Lo; unfold consts.maxRamps; lia|].
  apply wp_modify.
  cbn [data updData set_data set_numObstacles set_obstacles set_nextEntity
       set_dynEntities nextEntity obstacles numObstacles boxes boxSizes ramps
       hiders seekers rng dynEntities].
  split; [|split; [|split; [|split; [|split; [|split; [|split; [|split; [|split]]]]]]]].
  - eapply (placedInOrder_ext n0 w elong total (snd geo) _ c9).
    + exact Hreg9.
    + exact Hnext9.
    + split; [cbn [nextEntity set_nextEntity updData set_data]; lia|].
      intros n Hn.
      cbn [dynEntities set_dynEntities set_nextEntity updData set_data].
      apply lookup_insert_ne. lia.
    + intros j Hj.
      cbn [data updData set_data set_numObstacles set_obstacles
           set_nextEntity set_dynEntities obstacles].
      apply list_lookup_insert_ne.
      rewrite Htested in Hj. unfold consts.maxRamps in *. lia.
    + lia.
    + exact Hchain9.
  - rewrite Hnext9. reflexivity.
  - intros j Hj. rewrite list_lookup_insert_ne
      by (unfold consts.maxRamps in *; lia).
    apply Hreg9. rewrite Htested. exact Hj.
  - replace (Z.to_nat (Z.of_nat w + total + consts.maxRamps))
      with (w + Z.to_nat (total + consts.maxRamps))%nat
      by (unfold consts.maxRamps; lia).
    rewrite list_lookup_insert_eq
      by (rewrite Lo; unfold consts.maxRamps; lia).
    rewrite Hnext9. reflexivity.
  - reflexivity.
  - rewrite Bx9, Bx8. exact Hb7.
  - rewrite Sz9, Sz8. exact Hs7.
  - rewrite Rm9, Rm8. exact Hr7.
  - rewrite Hh9. exact Hh8.
  - exact Hk9.
Qed.

(** The loops of [count] objects took between one and 21 passes each,
    of three draws. *)
Lemma placedInOrder_draws (ctx : Engine) (first : nat)
    (walls num_elongated total : Z) (r0 : RNG) (count : nat) :
  forall r_end,
    placedInOrder ext ctx first walls num_elongated total r0 count r_end ->
    rng_key r_end = rng_key r0 /\
    3 * Z.of_nat count <= rng_count r_end - rng_count r0
      <= 63 * Z.of_nat count.
Proof.
  induction count as [|k IH]; intros r_end H.
  - cbn [placedInOrder] in H. subst r_end. split; [reflexivity|lia].
  - cbn [placedInOrder] in H.
    destruct H as (r & rej & c & Hprev & (Hrej & _) & _ & _ & _ & _ & _ & ->).
    destruct (IH r Hprev) as [Hkey Hcnt].
    unfold advance, max_rejections in *. cbn [rng_key rng_count].
    split; [exact Hkey|lia].
Qed.


(** *** The claims on the generator *)


(** The upper bound of the second draw is exclusive: as soon as there
    are more than three boxes, at least one of them is a cube. *)
Lemma elongated_below_total (ctx : Engine) :
  wp (sampleBoxCounts ext)
     (fun res _ => 3 < res.1.1 -> res.1.2 < res.1.1 /\ 0 < res.2) ctx.
Proof.
  apply wp_sampleBoxCounts. intros t e r' _ _ _ Hlt _ _. cbn [fst snd].
  intros H. specialize (Hlt H). lia.
Qed.

(** C8 (as amended).  The overlap test passes when the sampled box
    overlaps none of the obstacles it reads, the first entries of the
    obstacle table.  A placement loop with fuel for 21 passes returns: it
    accepts the first pass whose pose passes the test, or else pass 20,
    the one sampled after twenty rejections, so that it makes at most 21
    passes.  The generator returns without a
    fault, and the level it leaves holds, as the entities that follow the
    walls, exactly the boxes drawn (elongated ones, then cubes), two
    ramps, the hiders and the seekers asked for: each sits at the pose
    that its own loop accepted, each loop starts in the random stream
    where the loop before it stopped, and the loop of a box or a ramp
    tests the walls and the boxes and ramps placed before it, while the
    loop of every agent tests the walls, the boxes and the two ramps and
    no other agent.  The four entity tables list these entities in order
    and the counters give their numbers. *)
Theorem placement_accepts_first_free (fuel : nat) (num_hiders num_seekers : Z)
    (ctx : Engine) :
  (21 <= fuel)%nat ->
  tablesOk ctx ->
  interfacesOk ctx ->
  (forall r s, (length (fst (staticWalls ext r s)) <= 45)%nat) ->
  numActiveAgents (data ctx) = 0 ->
  numHiders (data ctx) = 0 ->
  numSeekers (data ctx) = 0 ->
  0 <= num_hiders <= 3 ->
  0 <= num_seekers <= 3 ->
  num_hiders + num_seekers <= maxAgentsPerWorld (data ctx) ->
  let total := fst (sampleI32 ext 3 10 (rng (data ctx))) in
  let r1 := snd (sampleI32 ext 3 10 (rng (data ctx))) in
  let num_elongated := fst (sampleI32 ext 3 total r1) in
  let geo := staticWalls ext (snd (sampleI32 ext 3 total r1))
                         (mkVector2 (v2y bounds) (v2y bounds)) in
  let w := length (fst geo) in
  let first := (nextEntity ctx + w)%nat in
  let objects :=
    Z.to_nat (total + consts.maxRamps + num_hiders + num_seekers) in
  (forall n aabb c,
     checkOverlap ext n aabb c = true
     <-> forall i, 0 <= i < n ->
           aabbOverlaps ext aabb (obstaclePlacement c i) = false) /\
  (forall obj n c,
     exists rej,
       acceptedAt ext c obj n (rng (data c)) rej /\
       rejectionLoop ext fuel obj n 0 c
       = Ok ((fst (posePass ext (rng (data c)) rej),
              angleAxis ext (snd (posePass ext (rng (data c)) rej)) zAxis,
              snd (posePass ext (rng (data c)) rej), rej),
             updData (set_rng (advance (rng (data c)) (3 * (rej + 1)))) c) /\
       samplingPasses c
         (updData (set_rng (advance (rng (data c)) (3 * (rej + 1)))) c)
       = rej + 1 /\
       rej + 1 <= 21) /\
  exists ctx',
    generateTrainingEnvironment ext fuel num_hiders num_seekers ctx
    = Ok (tt, ctx') /\
    placedInOrder ext ctx' first (Z.of_nat w) num_elongated total (snd geo)
                  objects (rng (data ctx')) /\
    3 * Z.of_nat objects
      <= rng_count (rng (data ctx')) - rng_count (snd geo)
      <= 63 * Z.of_nat objects /\
    nextEntity ctx' = S (first + objects) /\
    (forall j : nat,
       Z.of_nat j < Z.of_nat w + total + consts.maxRamps ->
       obstacles (data ctx') !! j = Some (Entity_id (nextEntity ctx + j))) /\
    numObstacles (data ctx') = Z.of_nat w + total + consts.maxRamps + 1 /\
    tableFilled (boxes (data ctx')) first total /\
    tableFilled (ramps (data ctx')) (first + Z.to_nat total) consts.maxRamps /\
    tableFilled (hiders (data ctx'))
                (first + Z.to_nat (total + consts.maxRamps)) num_hiders /\
    tableFilled (seekers (data ctx'))
                (first + Z.to_nat (total + consts.maxRamps + num_hiders))
                num_seekers /\
    numActiveBoxes (data ctx') = total /\
    numActiveRamps (data ctx') = consts.maxRamps /\
    numHiders (data ctx') = num_hiders /\
    numSeekers (data ctx') = num_seekers /\
    numActiveAgents (data ctx') = num_hiders + num_seekers.
Proof.
  intros Hfuel Ht Hio Hwalls Hna Hnh Hns Hh Hs Hcap. cbv zeta.
  split; [intros n aabb c; apply checkOverlap_spec|]. split.
  - intros obj n c.
    destruct (rejectionLoop_exact fuel obj n (rng (data c)) 0 c)
      as (rej & _ & Hacc & Hrun).
    + unfold max_rejections; lia.
    + unfold max_rejections; lia.
    + symmetry. apply advance_0.
    + intros k Hk. lia.
    + exists rej. split; [exact Hacc|]. split; [exact Hrun|].
      destruct Hacc as (Hrej & _). unfold max_rejections in Hrej.
      split; [|lia].
      unfold samplingPasses, advance.
      cbn [data updData set_data set_rng rng rng_count].
      replace (rng_count (rng (data c)) + 3 * (rej + 1)
               - rng_count (rng (data c))) with ((rej + 1) * 3) by lia.
      apply Z.div_mul. discriminate.
  - pose proof (generateTrainingEnvironment_run fuel num_hiders num_seekers ctx
                  Hfuel Ht Hio Hwalls Hna Hnh Hns Hh Hs Hcap) as H1.
    pose proof (generateTrainingEnvironment_contents fuel num_hiders
                  num_seekers ctx Hfuel Ht Hio Hwalls Hna Hnh Hns Hh Hs Hcap)
      as H2.
    apply wp_run in H1. apply wp_run in H2.
    destruct H1 as ([] & ctx' & Hgen & t & -> & _ & Hlevel).
    destruct H2 as ([] & ctx2 & Hgen2 & Hcont).
    rewrite Hgen in Hgen2. injection Hgen2 as <-.
    cbv zeta in Hcont.
    destruct Hcont as (Hchain & Hnext & Hobs & _ & Hno & Hboxes & _ & Hramps
                       & Hhiders & Hseekers).
    destruct Hlevel as (Hb & Hr & Ha & Hhid & Hseek & _).
    exists ctx'. split; [exact Hgen|]. split; [exact Hchain|].
    split; [exact (proj2 (placedInOrder_draws _ _ _ _ _ _ _ _ Hchain))|].
    repeat (split; [assumption|]). assumption.
Qed.

(** C10.  The training generator always places two ramps, the capacity
    of the ramp table: whatever the random stream, it leaves
    [numActiveRamps] at 2 and both slots of the ramp table hold distinct
    live ramp entities. *)
Theorem two_ramps_placed (fuel : nat) (num_hiders num_seekers : Z)
    (ctx : Engine) :
  (21 <= fuel)%nat ->
  tablesOk ctx ->
  interfacesOk ctx ->
  (forall r s, (length (fst (staticWalls ext r s)) <= 45)%nat) ->
  numActiveAgents (data ctx) = 0 ->
  numHiders (data ctx) = 0 ->
  numSeekers (data ctx) = 0 ->
  0 <= num_hiders <= 3 ->
  0 <= num_seekers <= 3 ->
  num_hiders + num_seekers <= maxAgentsPerWorld (data ctx) ->
  exists ctx',
    generateTrainingEnvironment ext fuel num_hiders num_seekers ctx
    = Ok (tt, ctx') /\
    numActiveRamps (data ctx') = 2 /\
    consts.maxRamps = 2 /\
    exists r0 r1 c0 c1,
      ramps (data ctx') = [Entity_id r0; Entity_id r1] /\ r0 <> r1 /\
      dynEntities ctx' !! r0 = Some c0 /\ objectID c0 = Ramp /\
      dynEntities ctx' !! r1 = Some c1 /\ objectID c1 = Ramp.
Proof.
  intros Hfuel Ht Hio Hwalls Hna Hnh Hns Hh Hs Hcap.
  pose proof (generateTrainingEnvironment_run fuel num_hiders num_seekers ctx
                Hfuel Ht Hio Hwalls Hna Hnh Hns Hh Hs Hcap) as H.
  apply wp_run in H.
  destruct H as ([] & ctx' & Hrun & total & _ & _ & Hlevel).
  destruct Hlevel as (_ & Hr & _ & _ & _ & Hramps & _).
  exists ctx'. split; [exact Hrun|]. split; [exact Hr|].
  split; [reflexivity|exact Hramps].
Qed.

End GeneratorProperties.

(** *** The generator on the concrete world *)

Lemma demo_constructed_ok :
  tablesOk demo_constructed /\ interfacesOk demo_constructed.
Proof.
  split.
  - vm_compute. repeat split; reflexivity.
  - intros k Hk. change (maxAgentsPerWorld (data demo_constructed)) with 2 in Hk.
    assert (E : k = 0 \/ k = 1) by lia.
    destruct E as [-> | ->].
    + exists 0%nat. split; [reflexivity|]. eexists. vm_compute. reflexivity.
    + exists 1%nat. split; [reflexivity|]. eexists. vm_compute. reflexivity.
Qed.

Lemma demo_walls (overlap : bool) :
  forall r s, (length (fst (staticWalls (demo_ext overlap) r s)) <= 45)%nat.
Proof. intros r s. cbn. lia. Qed.


Lemma placement_accepts_first_free_witness :
  exists ctx',
    generateTrainingEnvironment (demo_ext true) 21 1 1 demo_constructed
    = Ok (tt, ctx') /\
    nextEntity ctx' = 13%nat /\
    numActiveBoxes (data ctx') = 6 /\
    numActiveRamps (data ctx') = 2 /\
    numActiveAgents (data ctx') = 2.
Proof.
  destruct (placement_accepts_first_free (demo_ext true) 21 1 1 demo_constructed
              ltac:(lia) (proj1 demo_constructed_ok) (proj2 demo_constructed_ok)
              (demo_walls true) eq_refl eq_refl eq_refl ltac:(lia) ltac:(lia)
              ltac:(vm_compute; discriminate))
    as (_ & _ & ctx' & Hrun & _ & _ & Hnext & _ & _ & _ & _ & _ & _ & Hb & Hr & _ & _ & Ha).
  exists ctx'. split; [exact Hrun|].
  split; [rewrite Hnext; vm_compute; reflexivity|].
  split; [rewrite Hb; vm_compute; reflexivity|].
  split; [exact Hr|exact Ha].
Defined.

(** C8 as stated fails twice.  On the bound of 20 attempts: when every
    sampled pose overlaps an obstacle, the loop makes 21 passes -- twenty
    rejected poses and the one it then accepts -- and 20 units of fuel do
    not suffice.  On the objects tested: an agent is never entered into
    the obstacle table, so that under a box test for which two agents
    overlap the seeker (entity 11) is accepted at the first pass of its
    loop, which tests the eight boxes and ramps, at the very pose of the
    hider (entity 10) placed just before it. *)
Lemma placement_passes_and_agent_overlap :
  match rejectionLoop (demo_ext true) 21 Box 9 0 (demo_world 0) with
  | Ok ((_, _, _, rej), ctx') => Some (rej, samplingPasses (demo_world 0) ctx')
  | Err _ => None
  end = Some (20, 21) /\
  match rejectionLoop (demo_ext true) 20 Box 9 0 (demo_world 0) with
  | Ok _ => None
  | Err f => Some f
  end = Some OutOfFuel /\
  hiders (data demo_agents_level) !! 0%nat = Some (Entity_id 10) /\
  seekers (data demo_agents_level) !! 0%nat = Some (Entity_id 11) /\
  numObstacles (data demo_agents_level) = 9 /\
  rng_count (rng (data demo_agents_level)) = 2 + 3 * 10 /\
  passFree demo_ext_agents demo_agents_level Agent 8
           (mkRNG (rng_key (rng (data demo_agents_level))) 29) 0 = true /\
  position (readDyn demo_agents_level (Entity_id 11))
    = fst (posePass demo_ext_agents
             (mkRNG (rng_key (rng (data demo_agents_level))) 29) 0) /\
  aabbOverlaps demo_ext_agents
    (passPlacement demo_ext_agents Agent
       (mkRNG (rng_key (rng (data demo_agents_level))) 29) 0)
    (mkPlacement (objectID (readDyn demo_agents_level (Entity_id 10)))
                 (position (readDyn demo_agents_level (Entity_id 10)))
                 (rotation (readDyn demo_agents_level (Entity_id 10)))
                 (scale (readDyn demo_agents_level (Entity_id 10)))) = true.
Proof. vm_compute. repeat split; reflexivity. Qed.

(** The whole first episode under the same collaborator: ten objects,
    of which the first is accepted at once and the nine others after 21
    passes each, that is 190 passes and, with the four integer draws, 574
    draws from the stream. *)
Example all_overlapping_episode :
  match initWorld (demo_ext true) demo_debug (fun _ b => b) 21
                  (demo_cfg 1 1 1 1) 0 demo_bvh demo_fresh with
  | Ok (_, ctx) =>
      Some (rng_count (rng (data ctx)), numActiveBoxes (data ctx),
            numActiveRamps (data ctx), numActiveAgents (data ctx))
  | Err _ => None
  end = Some (574, 6, 2, 2).
Proof. vm_compute. reflexivity. Qed.

Lemma two_ramps_placed_witness :
  exists ctx',
    generateTrainingEnvironment (demo_ext false) 21 1 1 demo_constructed
    = Ok (tt, ctx') /\
    numActiveRamps (data ctx') = 2.
Proof.
  destruct (two_ramps_placed (demo_ext false) 21 1 1 demo_constructed
              ltac:(lia) (proj1 demo_constructed_ok) (proj2 demo_constructed_ok)
              (demo_walls false) eq_refl eq_refl eq_refl ltac:(lia) ltac:(lia)
              ltac:(vm_compute; discriminate))
    as (ctx' & Hrun & Hr & _).
  exists ctx'. split; [exact Hrun|exact Hr].
Defined.

(** ** The task graphs

    The systems, the reset and the generator keep the invariant
    [worldInv]; a world built from a valid configuration therefore runs
    without a fault, and the tick index follows the host inputs. *)

Section PipelineProperties.

Variable ext : Extern.
Variable generateDebugEnvironment : Z -> Gen unit.
Variable setupBroadphase : gmap nat DynComponents -> BVH -> BVH.
Variable physicsStep :
  gmap nat DynComponents -> gmap nat FixedJoint -> gmap nat DynComponents.

Lemma foldl_invariant {A B : Type} (P : A -> Prop) (f : A -> B -> A)
    (l : list B) (a : A) :
  P a -> (forall a b, P a -> P (f a b)) -> P (foldl f a l).
Proof.
  intros Ha Hf. revert a Ha. induction l as [|b l IH]; intros a Ha; [exact Ha|].
  cbn [foldl]. apply IH, Hf, Ha.
Qed.

Lemma physicsOnly_refl (c : Engine) : physicsOnly c c.
Proof. repeat split. Qed.

Lemma physicsOnly_trans (c1 c2 c3 : Engine) :
  physicsOnly c1 c2 -> physicsOnly c2 c3 -> physicsOnly c1 c3.
Proof.
  intros (D1 & I1 & W1) (D2 & I2 & W2). repeat split; congruence.
Qed.

Lemma data_movementSystem (ctx : Engine) (a : Action) (e : Entity)
    (ty : AgentType) :
  physicsOnly ctx (movementSystem ext ctx a e ty).
Proof.
  unfold movementSystem. destruct (decide _); [repeat split|].
  destruct (_ && _); [repeat split|].
  destruct (getDyn ctx e); [|repeat split].
  destruct e; repeat split.
Qed.

Lemma data_lockBlock (ctx : Engine) (e : Entity) (ty : AgentType) :
  physicsOnly ctx (lockBlock ext ctx e ty).
Proof.
  unfold lockBlock. destruct (getDyn ctx e); [|repeat split].
  destruct (bvh ctx _ _ _) as [l t].
  destruct (decide _); [repeat split|].
  destruct (getDyn ctx l); [|repeat split].
  repeat (destruct (decide _) || destruct (_ || _));
    destruct l; repeat split.
Qed.

Lemma data_grabBlock (ctx : Engine) (e : Entity) :
  physicsOnly ctx (grabBlock ext ctx e).
Proof.
  unfold grabBlock. destruct (getDyn ctx e) as [c|]; [|repeat split].
  destruct (grabData c) as [j|]; [|repeat split].
  destruct (decide _).
  { destruct e, j; repeat split. }
  destruct (bvh ctx _ _ _) as [g t].
  destruct (decide _); [repeat split|].
  destruct (getDyn ctx g); [|repeat split].
  destruct (_ && _); [|repeat split].
  destruct e; repeat split.
Qed.

Lemma data_actionSystem (ctx : Engine) (a : Action) (e : Entity)
    (ty : AgentType) :
  physicsOnly ctx (fst (actionSystem ext ctx a e ty)).
Proof.
  unfold actionSystem. destruct (decide _); [repeat split|].
  destruct (_ && _); [repeat split|]. cbn [fst].
  destruct (action_l a =? 1), (action_g a =? 1);
    try solve [repeat split].
  - exact (physicsOnly_trans _ _ _ (data_lockBlock ctx e ty)
             (data_grabBlock (lockBlock ext ctx e ty) e)).
  - apply data_lockBlock.
  - apply data_grabBlock.
Qed.

(** The visibility system stores nothing but [-1.f] into the team
    scalar. *)
Lemma agentVisLoop_team (ctx : Engine) (agent_e : Entity) (ty : AgentType)
    (pos fwd : Vector3) (vis : list float) :
  snd (agentVisLoop ext ctx agent_e ty pos fwd vis) = hiderTeamReward (data ctx) \/
  snd (agentVisLoop ext ctx agent_e ty pos fwd vis) = F32.ofZ (-1).
Proof.
  unfold agentVisLoop.
  apply (foldl_invariant
           (fun s : list float * Z * float =>
              snd s = hiderTeamReward (data ctx) \/ snd s = F32.ofZ (-1))).
  - left. reflexivity.
  - intros [[v c] t] i H. cbn [snd] in H.
    destruct (i >=? _); [exact H|].
    destruct (decide _); [exact H|]. cbn [snd].
    destruct (_ && _); [|exact H].
    destruct (getIface ctx _) as [o|]; [|exact H].
    destruct (decide _); [right; reflexivity|exact H].
Qed.

Lemma data_computeVisibilitySystem (ctx : Engine) (agent_e sim_e : Entity)
    (ty : AgentType) (av bv rv : list float) :
  exists t,
    fst (fst (fst (computeVisibilitySystem ext ctx agent_e sim_e ty av bv rv)))
    = updData (set_hiderTeamReward t) ctx /\
    (t = hiderTeamReward (data ctx) \/ t = F32.ofZ (-1)).
Proof.
  unfold computeVisibilitySystem. destruct (decide _).
  - exists (hiderTeamReward (data ctx)). split; [|left; reflexivity].
    cbn [fst]. destruct ctx as [d ? ? ? ? ? ? ? ? ?]. destruct d. reflexivity.
  - pose proof (agentVisLoop_team ctx agent_e ty
                  (position (readDyn ctx sim_e))
                  (rotateVec ext (rotation (readDyn ctx sim_e)) math.fwd) av) as H.
    destruct (agentVisLoop _ _ _ _ _ _ _) as [[v c] t]. cbn [snd] in H.
    exists t. split; [reflexivity|exact H].
Qed.

Lemma interfacesOk_alter (f : AgentInterface -> AgentInterface) (e : Entity)
    (ctx : Engine) :
  interfacesOk ctx -> interfacesOk (updIface f e ctx).
Proof.
  intros H k Hk. destruct e as [|n]; [exact (H k Hk)|].
  destruct (H k Hk) as (id & H1 & H2). exists id. split; [exact H1|].
  cbn. apply lookup_alter_is_Some. exact H2.
Qed.

Lemma runningAt_data (sv : StaticView) (t w : Z) (c c' : Engine) :
  physicsOnly c c' -> runningAt sv t w c -> runningAt sv t w c'.
Proof.
  intros (Hd & Hi & Hw) H.
  unfold runningAt, worldInv, tablesOk, interfacesOk, configOk, teamRewardSet,
    staticView in *.
  rewrite Hd, Hi, Hw. exact H.
Qed.

Lemma runningAt_updIface (sv : StaticView) (t w : Z)
    (f : AgentInterface -> AgentInterface) (e : Entity) (c : Engine) :
  runningAt sv t w c -> runningAt sv t w (updIface f e c).
Proof.
  intros ((Ht & Hio & Hc & Hr) & Hsv & Hstep & Hw).
  split; [|split; [|split]].
  - split; [|split; [|split]].
    + destruct e; exact Ht.
    + apply interfacesOk_alter. exact Hio.
    + destruct e; exact Hc.
    + destruct e; exact Hr.
  - destruct e; exact Hsv.
  - destruct e; exact Hstep.
  - destruct e; exact Hw.
Qed.

Lemma runningAt_team (sv : StaticView) (t w : Z) (x : float) (c : Engine) :
  x = hiderTeamReward (data c) \/ x = F32.ofZ (-1) ->
  runningAt sv t w c -> runningAt sv t w (updData (set_hiderTeamReward x) c).
Proof.
  intros Hx ((Ht & Hio & Hc & Hr) & Hsv & Hstep & Hw).
  split; [|split; [exact Hsv|split; [exact Hstep|exact Hw]]].
  split; [exact Ht|]. split; [exact Hio|]. split; [exact Hc|].
  unfold teamRewardSet in *. cbn.
  destruct Hx as [-> | ->]; [exact Hr|right; reflexivity].
Qed.

Lemma forEachAgent_invariant (P : Engine -> Prop)
    (f : Engine -> Entity -> AgentInterface -> Engine) (ctx : Engine) :
  P ctx -> (forall c e i, P c -> P (f c e i)) -> P (forEachAgent f ctx).
Proof.
  intros H Hf. unfold forEachAgent. apply foldl_invariant; [exact H|].
  intros c e Hc. destruct (getIface c e); [apply Hf|]; exact Hc.
Qed.


Lemma runningAt_movementNode (sv : StaticView) (t w : Z) (ctx : Engine) :
  runningAt sv t w ctx -> runningAt sv t w (movementNode ext ctx).
Proof.
  intros H. unfold movementNode. apply forEachAgent_invariant; [exact H|].
  intros c e i Hc.
  exact (runningAt_data sv t w c _
           (data_movementSystem c (action i) (simEntity i) (agentType i)) Hc).
Qed.

Lemma runningAt_actionNode (sv : StaticView) (t w : Z) (ctx : Engine) :
  runningAt sv t w ctx -> runningAt sv t w (actionNode ext ctx).
Proof.
  intros H. unfold actionNode. apply forEachAgent_invariant; [exact H|].
  intros c e i Hc.
  pose proof (data_actionSystem c (action i) (simEntity i) (agentType i))
    as Hp.
  destruct (actionSystem ext c (action i) (simEntity i) (agentType i))
    as [c' a]. cbn [fst] in Hp.
  apply runningAt_updIface. exact (runningAt_data sv t w c _ Hp Hc).
Qed.

Lemma runningAt_outputRewardsDonesNode (sv : StaticView) (t w : Z) (ctx : Engine) :
  runningAt sv t w ctx -> runningAt sv t w (outputRewardsDonesNode ctx).
Proof.
  intros H. unfold outputRewardsDonesNode.
  apply forEachAgent_invariant; [exact H|].
  intros c e i Hc.
  destruct (outputRewardsDonesSystem c (simEntity i) (agentType i)
              (reward i) (done i)) as [r d].
  apply runningAt_updIface. exact Hc.
Qed.

Lemma runningAt_observationsTasks (sv : StaticView) (t w : Z) (ctx : Engine) :
  runningAt sv t w ctx -> runningAt sv t w (observationsTasks ext ctx).
Proof.
  intros H. unfold observationsTasks, computeVisibilityNode,
    collectObservationsNode.
  apply forEachAgent_invariant.
  - apply forEachAgent_invariant; [exact H|].
    intros c e i Hc.
    destruct (collectObservationsSystem ext c e (simEntity i) (agentObs i)
                (boxObs i) (rampObs i) (prepCounter i)) as [[[ao bo] ro] p].
    apply runningAt_updIface. exact Hc.
  - intros c e i Hc.
    destruct (data_computeVisibilitySystem c e (simEntity i) (agentType i)
                (agentVis i) (boxVis i) (rampVis i)) as (x & Hx & Hteam).
    destruct (computeVisibilitySystem ext c e (simEntity i) (agentType i)
                (agentVis i) (boxVis i) (rampVis i)) as [[[c' av] bv] rv].
    cbn [fst] in Hx. subst c'.
    apply runningAt_updIface, runningAt_team; assumption.
Qed.

Lemma runningAt_broadphaseTasks (sv : StaticView) (t w : Z) (ctx : Engine) :
  runningAt sv t w ctx -> runningAt sv t w (broadphaseTasks setupBroadphase ctx).
Proof. apply runningAt_data. repeat split. Qed.

Lemma runningAt_physicsTasks (sv : StaticView) (t w : Z) (ctx : Engine) :
  runningAt sv t w ctx -> runningAt sv t w (physicsTasks physicsStep ctx).
Proof. apply runningAt_data. repeat split. Qed.


(** *** Reset *)

Lemma initEpisodeRNG_view (ctx : Engine) :
  resetView (initEpisodeRNG ext ctx) = resetView ctx.
Proof.
  unfold initEpisodeRNG.
  destruct (UseFixedWorld _); [reflexivity|].
  destruct (loadCheckpoint ctx =? 1); reflexivity.
Qed.

Lemma data_destroyRenderableEntity (e : Entity) (ctx : Engine) :
  physicsOnly ctx (destroyRenderableEntity e ctx).
Proof. destruct e; repeat split. Qed.

Lemma data_destroyAgent (e : Entity) (ctx : Engine) :
  physicsOnly ctx (destroyAgent e ctx).
Proof.
  unfold destroyAgent.
  destruct (getDyn ctx e) as [c|]; [|apply data_destroyRenderableEntity].
  destruct (grabData c) as [j|]; [|apply data_destroyRenderableEntity].
  refine (physicsOnly_trans _ _ _ _
            (data_destroyRenderableEntity e (destroyConstraint j ctx))).
  destruct j; repeat split.
Qed.

Lemma data_foldl_destroy (f : Engine -> Z -> Engine) (l : list Z) (ctx : Engine) :
  (forall c i, physicsOnly c (f c i)) -> physicsOnly ctx (foldl f ctx l).
Proof.
  intros Hf. apply (foldl_invariant (physicsOnly ctx)); [repeat split|].
  intros c i H. exact (physicsOnly_trans _ _ _ H (Hf c i)).
Qed.

(** After [resetEnvironment] the counters and the tick index are zero
    and the tables, the configuration and the interface entities are as
    before. *)
Lemma resetEnvironment_view (ctx : Engine) :
  resetView (resetEnvironment ext ctx) =
  resetView
    (updData (fun d =>
       set_numActiveAgents 0 (set_numSeekers 0 (set_numHiders 0
         (set_numActiveRamps 0 (set_numActiveBoxes 0 (set_numObstacles 0
           (set_curEpisodeStep 0 d))))))) ctx).
Proof.
  unfold resetEnvironment. rewrite initEpisodeRNG_view.
  set (c1 := updData (set_curEpisodeStep 0) ctx).
  set (c2 := foldl _ c1 _).
  assert (H2 : physicsOnly c1 c2).
  { apply data_foldl_destroy. intros c i. apply data_destroyRenderableEntity. }
  set (c3 := updData (set_numActiveRamps 0)
               (updData (set_numActiveBoxes 0) (updData (set_numObstacles 0) c2))).
  set (c4 := foldl _ c3 _).
  assert (H4 : physicsOnly c3 c4).
  { apply data_foldl_destroy. intros c i. apply data_destroyAgent. }
  set (c5 := updData (set_numHiders 0) c4).
  set (c6 := foldl _ c5 _).
  assert (H6 : physicsOnly c5 c6).
  { apply data_foldl_destroy. intros c i. apply data_destroyAgent. }
  destruct H2 as (D2 & I2 & W2), H4 as (D4 & I4 & W4), H6 as (D6 & I6 & W6).
  unfold resetView.
  cbn [data updData set_data interfaces worldReset]. rewrite D6, I6, W6.
  subst c5. cbn [data updData set_data interfaces worldReset].
  rewrite D4, I4, W4.
  subst c3. cbn [data updData set_data interfaces worldReset].
  rewrite D2, I2, W2.
  subst c1. reflexivity.
Qed.


Lemma resetView_inv (c c' : Engine) :
  resetView c' = resetView c ->
  (tablesOk c -> tablesOk c') /\
  (interfacesOk c -> interfacesOk c') /\
  staticView c' = staticView c /\
  numActiveAgents (data c') = numActiveAgents (data c) /\
  numHiders (data c') = numHiders (data c) /\
  numSeekers (data c') = numSeekers (data c) /\
  curEpisodeStep (data c') = curEpisodeStep (data c) /\
  worldReset c' = worldReset c.
Proof.
  unfold resetView, staticView, tablesOk, interfacesOk. intros H.
  injection H; intros.
  split.
  { intros (T1 & T2 & T3 & T4 & T5 & T6 & T7 & T8 & T9).
    repeat (split; [congruence|]). congruence. }
  split; [|repeat (split; [congruence|]); congruence].
  intros Hi k Hk.
  replace (maxAgentsPerWorld (data c')) with (maxAgentsPerWorld (data c)) in Hk
    by congruence.
  destruct (Hi k Hk) as (id & H1' & H2'). exists id.
  split; congruence.
Qed.

Lemma resetEnvironment_facts (ctx : Engine) :
  tablesOk ctx -> interfacesOk ctx ->
  tablesOk (resetEnvironment ext ctx) /\
  interfacesOk (resetEnvironment ext ctx) /\
  staticView (resetEnvironment ext ctx) = staticView ctx /\
  numActiveAgents (data (resetEnvironment ext ctx)) = 0 /\
  numHiders (data (resetEnvironment ext ctx)) = 0 /\
  numSeekers (data (resetEnvironment ext ctx)) = 0 /\
  curEpisodeStep (data (resetEnvironment ext ctx)) = 0 /\
  worldReset (resetEnvironment ext ctx) = worldReset ctx.
Proof.
  intros Ht Hio.
  destruct (resetView_inv _ _ (resetEnvironment_view ctx))
    as (Ht0 & Hio0 & Hs0 & Ha0 & Hh0 & Hk0 & He0 & Hw0).
  split; [exact (Ht0 Ht)|]. split; [exact (Hio0 Hio)|].
  split; [exact Hs0|]. split; [exact Ha0|]. split; [exact Hh0|].
  split; [exact Hk0|]. split; [exact He0|exact Hw0].
Qed.


(** The loop at the end of [generateEnvironment] clears the unused
    interface slots and touches nothing else. *)
Lemma wp_generateEnvironment_tail (first : Z) (Q : unit -> Engine -> Prop)
    (ctx : Engine) :
  interfacesOk ctx ->
  0 <= first ->
  (forall c', data c' = data ctx -> interfacesOk c' ->
              worldReset c' = worldReset ctx -> Q tt c') ->
  wp (forLoopFrom (Z.to_nat (maxAgentsPerWorld (data ctx) - first)) first
        (fun i =>
           agent_iface <- tableRead agentInterfaces i ;;
           ifaceWrite agent_iface (set_simEntity Entity_none) ;;;
           ifaceWrite agent_iface (set_activeMask F32.zero)))
     Q ctx.
Proof.
  intros Hio Hfirst HQ.
  eapply wp_mono.
  - apply (wp_forLoopFrom
             (fun _ c => data c = data ctx /\ interfacesOk c /\
                         worldReset c = worldReset ctx)).
    + split; [reflexivity|]. split; [exact Hio|reflexivity].
    + intros i c Hi (Hd & Hc & Hw).
      assert (Hk : 0 <= i < maxAgentsPerWorld (data c)) by (rewrite Hd; lia).
      destruct (Hc i Hk) as (id & Hslot & [x Hx]).
      apply wp_bind. apply (wp_tableRead _ _ (Entity_id id)); [lia|exact Hslot|].
      apply wp_bind.
      apply (wp_ifaceWrite _ _ x); [exact Hx|].
      assert (Hx' : is_Some (getIface (updIface (set_simEntity Entity_none)
                                          (Entity_id id) c) (Entity_id id))).
      { cbn. apply lookup_alter_is_Some. exists x. exact Hx. }
      destruct Hx' as [x' Hx'].
      apply (wp_ifaceWrite _ _ x'); [exact Hx'|].
      split; [exact Hd|]. split; [|exact Hw].
      apply interfacesOk_alter, interfacesOk_alter. exact Hc.
  - intros [] c (Hd & Hc & Hw). apply HQ; assumption.
Qed.

Lemma configOk_static (c c' : Engine) :
  staticView c' = staticView c -> configOk c -> configOk c'.
Proof.
  unfold staticView, configOk. intros H. injection H; intros.
  repeat match goal with E : _ (data c') = _ |- _ => rewrite E; clear E end.
  assumption.
Qed.

(** The generator on a world whose counters are zero: it returns, and
    the tables, the interface slots, the configuration, the tick index
    and the reset request are as before. *)
Lemma wp_generateEnvironment (fuel : nat) (num_hiders num_seekers : Z)
    (Q : unit -> Engine -> Prop) (ctx : Engine) :
  (21 <= fuel)%nat ->
  (forall r s, (length (fst (staticWalls ext r s)) <= 45)%nat) ->
  tablesOk ctx -> interfacesOk ctx ->
  numActiveAgents (data ctx) = 0 ->
  numHiders (data ctx) = 0 ->
  numSeekers (data ctx) = 0 ->
  0 <= num_hiders <= 3 ->
  0 <= num_seekers <= 3 ->
  num_hiders + num_seekers <= maxAgentsPerWorld (data ctx) ->
  (forall c', tablesOk c' -> interfacesOk c' ->
              staticView c' = staticView ctx ->
              curEpisodeStep (data c') = curEpisodeStep (data ctx) ->
              worldReset c' = worldReset ctx ->
              Q tt c') ->
  wp (generateEnvironment ext generateDebugEnvironment fuel 1
        num_hiders num_seekers) Q ctx.
Proof.
  intros Hfuel Hwalls Ht Hio Ha Hh Hs Hnh Hns Hcap HQ.
  unfold generateEnvironment. cbn [Z.eqb Pos.eqb].
  apply wp_bind.
  eapply wp_mono.
  { apply (generateTrainingEnvironment_run ext fuel num_hiders num_seekers ctx);
      assumption. }
  intros [] c2 (total & _ & _ & Hlvl).
  destruct Hlvl
    as (_ & _ & Hna2 & _ & _ & _ & Ht2 & Hio2 & _ & Hm2 & He2 & Hs2 & Hw2).
  apply wp_bind, wp_gets. apply wp_bind, wp_gets.
  apply wp_generateEnvironment_tail; [exact Hio2|lia|].
  intros c3 Hd3 Hio3 Hw3. apply HQ.
  - unfold tablesOk in Ht2 |- *. rewrite Hd3. exact Ht2.
  - exact Hio3.
  - unfold staticView in Hs2 |- *. rewrite Hd3. exact Hs2.
  - rewrite Hd3. exact He2.
  - rewrite Hw3. exact Hw2.
Qed.

(** The last assignment of [resetSystem]. *)
Lemma runningAt_teamReset (sv : StaticView) (t w : Z) (x : float)
    (c : Engine) :
  x = F32.ofZ 1 ->
  tablesOk c -> interfacesOk c -> configOk c -> staticView c = sv ->
  curEpisodeStep (data c) = t -> worldReset c = w ->
  runningAt sv t w (updData (set_hiderTeamReward x) c) /\
  hiderTeamReward (data (updData (set_hiderTeamReward x) c)) = x.
Proof.
  intros Hx Ht Hio Hc Hsv Hstep Hw.
  split; [|reflexivity].
  split; [|split; [exact Hsv|split; [exact Hstep|exact Hw]]].
  split; [exact Ht|]. split; [exact Hio|]. split; [exact Hc|].
  left. exact Hx.
Qed.

(** [resetSystem] when no reset is due: the tick count advances. *)
Lemma wp_resetSystem_idle (sv : StaticView) (t w : Z) (fuel : nat)
    (ctx : Engine) :
  runningAt sv t w ctx ->
  resetLevelOf ctx = 0 ->
  wp (resetSystem ext generateDebugEnvironment fuel)
     (fun _ c' =>
        runningAt sv (t + 1) 0 c' /\
        hiderTeamReward (data c') = F32.ofZ 1)
     ctx.
Proof.
  intros ((Ht & Hio & Hc & Hr) & Hsv & Hstep & Hw) Hl.
  unfold resetSystem.
  apply wp_bind, wp_gets. apply wp_bind, wp_gets. cbv beta zeta. unfold id.
  fold (resetLevelOf ctx). rewrite Hl. cbn [Z.eqb negb].
  apply wp_bind.
  apply wp_modify, wp_modify.
  assert (Hw0 : worldReset ctx = 0).
  { unfold resetLevelOf in Hl.
    destruct (_ && _); [discriminate Hl|exact Hl]. }
  apply runningAt_teamReset;
    [reflexivity|exact Ht|exact Hio|exact Hc|exact Hsv| |exact Hw0].
  change (curEpisodeStep (data ctx) + 1 = t + 1). lia.
Qed.

Lemma wp_rngSampleI32_range (a b : Z) (Q : Z -> Engine -> Prop)
    (ctx : Engine) :
  a < b -> b - a < two32 ->
  (forall v r', a <= v < b -> Q v (updData (set_rng r') ctx)) ->
  wp (rngSampleI32 ext a b) Q ctx.
Proof.
  intros Hab Hs HQ. apply wp_rngSampleI32. apply HQ.
  apply sampleI32_range; assumption.
Qed.

Lemma freshEpisode_rng (sv : StaticView) (r : RNG) (ctx : Engine) :
  freshEpisode sv ctx -> freshEpisode sv (updData (set_rng r) ctx).
Proof. intros H. exact H. Qed.

Lemma freshEpisode_reset (sv : StaticView) (t w : Z) (ctx : Engine) :
  runningAt sv t w ctx ->
  freshEpisode sv (set_worldReset 0 (resetEnvironment ext ctx)).
Proof.
  intros ((Ht & Hio & Hc & Hr) & Hsv & Hstep & Hw).
  destruct (resetEnvironment_facts ctx Ht Hio)
    as (Ht0 & Hio0 & Hs0 & Ha0 & Hh0 & Hk0 & He0 & _).
  revert Ht0 Hio0 Hs0 Ha0 Hh0 Hk0 He0.
  generalize (resetEnvironment ext ctx).
  intros cR Ht0 Hio0 Hs0 Ha0 Hh0 Hk0 He0.
  split; [exact Ht0|]. split; [exact Hio0|].
  split; [apply (configOk_static ctx); [exact Hs0|exact Hc]|].
  split; [rewrite <- Hsv; exact Hs0|].
  split; [exact Ha0|]. split; [exact Hh0|]. split; [exact Hk0|].
  split; [exact He0|reflexivity].
Qed.

(** [resetSystem] when a reset to the training level is due: the level
    is rebuilt and the tick count restarts. *)
Lemma wp_resetSystem_reset (sv : StaticView) (t w : Z) (fuel : nat)
    (ctx : Engine) :
  (21 <= fuel)%nat ->
  (forall r s, (length (fst (staticWalls ext r s)) <= 45)%nat) ->
  runningAt sv t w ctx ->
  resetLevelOf ctx = 1 ->
  wp (resetSystem ext generateDebugEnvironment fuel)
     (fun _ c' =>
        runningAt sv 0 0 c' /\
        hiderTeamReward (data c') = F32.ofZ 1)
     ctx.
Proof.
  intros Hfuel Hwalls Hrun Hl.
  unfold resetSystem.
  apply wp_bind, wp_gets. apply wp_bind, wp_gets. cbv beta zeta. unfold id.
  fold (resetLevelOf ctx). rewrite Hl. cbn [Z.eqb negb].
  apply wp_bind.
  apply wp_bind, wp_modify. apply wp_bind, wp_modify.
  pose proof (freshEpisode_reset sv t w ctx Hrun) as H0. revert H0.
  generalize (set_worldReset 0 (resetEnvironment ext ctx)). intros c0 H0.
  assert (Hc0 := H0).
  destruct Hc0 as (_ & _ & (Hh1 & Hh2 & _) & Hsv0 & _).
  apply wp_bind, wp_gets. apply wp_bind, wp_gets.
  apply wp_bind, wp_rngSampleI32_range; [lia|unfold two32; lia|].
  intros nh r1 Hnh.
  apply (freshEpisode_rng sv r1) in H0. revert H0.
  generalize (updData (set_rng r1) c0). intros c1 H1.
  assert (Hc1 := H1).
  destruct Hc1 as (_ & _ & (_ & _ & Hs1 & Hs2 & _) & Hsv1 & _).
  apply wp_bind, wp_gets. apply wp_bind, wp_gets.
  apply wp_bind, wp_rngSampleI32_range; [lia|unfold two32; lia|].
  intros ns r2 Hns.
  apply (freshEpisode_rng sv r2) in H1. revert H1.
  generalize (updData (set_rng r2) c1). intros c2 H2.
  destruct H2 as (Ht2 & Hio2 & Hc2 & Hsv2 & Ha2 & Hh2' & Hk2 & He2 & Hw2).
  assert (Hcap : nh + ns <= maxAgentsPerWorld (data c2)).
  { destruct Hc2 as (_ & _ & _ & _ & Hm).
    pose proof (eq_trans Hsv0 (eq_sym Hsv2)) as E0.
    pose proof (eq_trans Hsv1 (eq_sym Hsv2)) as E1.
    unfold staticView in E0, E1.
    injection E0 as _ _ _ E0 _ _ _. injection E1 as _ _ _ _ _ E1 _.
    lia. }
  apply wp_generateEnvironment;
    [exact Hfuel|exact Hwalls|exact Ht2|exact Hio2|exact Ha2|exact Hh2'
    |exact Hk2|lia|lia|exact Hcap|].
  intros c3 Ht3 Hio3 Hs3 He3 Hw3. apply wp_modify.
  apply runningAt_teamReset.
  - reflexivity.
  - exact Ht3.
  - exact Hio3.
  - apply (configOk_static c2); [exact Hs3|exact Hc2].
  - rewrite Hs3. exact Hsv2.
  - rewrite He3. exact He2.
  - rewrite Hw3. exact Hw2.
Qed.

(** *** The step *)

Lemma resetLevelOf_running (sv : StaticView) (t w : Z) (ctx : Engine) :
  runningAt sv t w ctx ->
  resetLevelOf ctx = if episodeOver sv t then 1 else w.
Proof.
  intros (_ & Hsv & Hstep & Hw). unfold resetLevelOf, episodeOver.
  rewrite <- Hsv, Hstep, Hw. reflexivity.
Qed.

(** [resetSystem] keeps the invariant, clears the request and leaves
    the team scalar at [1.f]. *)
Lemma wp_resetSystem (sv : StaticView) (t w : Z) (fuel : nat) (ctx : Engine) :
  (21 <= fuel)%nat ->
  (forall r s, (length (fst (staticWalls ext r s)) <= 45)%nat) ->
  runningAt sv t w ctx ->
  w = 0 \/ w = 1 ->
  wp (resetSystem ext generateDebugEnvironment fuel)
     (fun _ c' =>
        runningAt sv (tickAfter sv t w) 0 c' /\
        hiderTeamReward (data c') = F32.ofZ 1)
     ctx.
Proof.
  intros Hfuel Hwalls Hrun Hw.
  pose proof (resetLevelOf_running sv t w ctx Hrun) as Hl.
  unfold tickAfter.
  destruct (episodeOver sv t); cbn [orb].
  - apply (wp_resetSystem_reset sv t w); assumption.
  - destruct Hw as [-> | ->]; cbn [Z.eqb negb].
    + apply (wp_resetSystem_idle sv t 0); assumption.
    + apply (wp_resetSystem_reset sv t 1); assumption.
Qed.

Lemma runningAt_applyHost (sv : StaticView) (t w : Z) (h : HostInput)
    (ctx : Engine) :
  runningAt sv t w ctx ->
  runningAt sv t (requestAfter h w) (applyHost h ctx).
Proof.
  intros H. unfold applyHost, requestAfter.
  apply foldl_invariant.
  - destruct (host_reset h) as [level|]; [|exact H].
    destruct H as (Hinv & Hsv & Hstep & _).
    split; [exact Hinv|]. split; [exact Hsv|]. split; [exact Hstep|reflexivity].
  - intros c [e [a|]] Hc; [|exact Hc].
    apply runningAt_updIface. exact Hc.
Qed.

(** The step task graph from tick [t]: it returns, and the world is at
    the next tick with no request pending. *)
Lemma wp_stepTasks (sv : StaticView) (t w : Z) (fuel : nat) (ctx : Engine) :
  (21 <= fuel)%nat ->
  (forall r s, (length (fst (staticWalls ext r s)) <= 45)%nat) ->
  runningAt sv t w ctx ->
  w = 0 \/ w = 1 ->
  wp (stepTasks ext generateDebugEnvironment setupBroadphase physicsStep fuel)
     (fun _ c' => runningAt sv (tickAfter sv t w) 0 c')
     ctx.
Proof.
  intros Hfuel Hwalls Hrun Hw. unfold stepTasks, resetTasks.
  apply wp_bind, wp_modify. apply wp_bind, wp_modify.
  apply wp_bind, wp_modify. apply wp_bind, wp_modify.
  apply wp_bind, wp_modify. apply wp_bind, wp_bind.
  eapply wp_mono.
  - apply (wp_resetSystem sv t w); [exact Hfuel|exact Hwalls| |exact Hw].
    apply runningAt_outputRewardsDonesNode, runningAt_physicsTasks,
      runningAt_actionNode, runningAt_broadphaseTasks, runningAt_movementNode.
    exact Hrun.
  - intros [] c [Hc _]. apply wp_modify, wp_modify.
    apply runningAt_observationsTasks, runningAt_broadphaseTasks. exact Hc.
Qed.

Lemma requestAfter_ok (h : HostInput) :
  hostOk h -> requestAfter h 0 = 0 \/ requestAfter h 0 = 1.
Proof.
  unfold requestAfter. intros [-> | [-> | ->]]; [left|left|right]; reflexivity.
Qed.

Lemma wp_step (sv : StaticView) (t : Z) (fuel : nat) (h : HostInput)
    (ctx : Engine) :
  (21 <= fuel)%nat ->
  (forall r s, (length (fst (staticWalls ext r s)) <= 45)%nat) ->
  hostOk h ->
  runningAt sv t 0 ctx ->
  wp (step ext generateDebugEnvironment setupBroadphase physicsStep fuel h)
     (fun _ c' => runningAt sv (nextTick sv t h) 0 c')
     ctx.
Proof.
  intros Hfuel Hwalls Hh Hrun. unfold step, nextTick.
  apply wp_bind, wp_modify.
  apply wp_stepTasks;
    [exact Hfuel|exact Hwalls|apply runningAt_applyHost; exact Hrun
    |apply requestAfter_ok; exact Hh].
Qed.

Lemma wp_run_steps (sv : StaticView) (fuel : nat) (hs : list HostInput) :
  (21 <= fuel)%nat ->
  (forall r s, (length (fst (staticWalls ext r s)) <= 45)%nat) ->
  Forall hostOk hs ->
  forall (t : Z) (ctx : Engine),
    runningAt sv t 0 ctx ->
    wp (run ext generateDebugEnvironment setupBroadphase physicsStep fuel hs)
       (fun _ c' => runningAt sv (foldl (nextTick sv) t hs) 0 c')
       ctx.
Proof.
  intros Hfuel Hwalls Hhs.
  induction Hhs as [|h hs Hh Hhs IH]; intros t ctx Hrun.
  - apply wp_ret. exact Hrun.
  - cbn [run foldl]. apply wp_bind.
    eapply wp_mono; [apply (wp_step sv t); eassumption|].
    intros [] c Hc. apply IH. exact Hc.
Qed.

(** The world that the reward system sees in a step satisfies the
    invariant; in particular the team scalar holds [1.f] or [-1.f]
    there. *)
Lemma reward_world_running (sv : StaticView) (t w : Z) (ctx : Engine) :
  runningAt sv t w ctx ->
  runningAt sv t w
    (physicsTasks physicsStep
       (actionNode ext (broadphaseTasks setupBroadphase (movementNode ext ctx)))).
Proof.
  intros H.
  apply runningAt_physicsTasks, runningAt_actionNode,
    runningAt_broadphaseTasks, runningAt_movementNode.
  exact H.
Qed.

(** Without a request from the host the tick index counts up to the
    last tick of the episode and then restarts. *)
Lemma nextTick_quiet (sv : StaticView) (t : Z) (h : HostInput) :
  host_reset h = None ->
  IgnoreEpisodeLength (snd sv) = false ->
  nextTick sv t h = if t =? episodeLen - 1 then 0 else t + 1.
Proof.
  intros Hh Hf. unfold nextTick, tickAfter, requestAfter, episodeOver.
  rewrite Hh, Hf. cbn [negb andb Z.eqb]. rewrite orb_false_r. reflexivity.
Qed.

(** *** Construction *)

Lemma constructed_slot (fresh : AgentInterface) (n m : nat) (k : Z) :
  0 <= k < Z.of_nat n ->
  exists id,
    ((Entity_id <$> seq 0 n) ++ replicate m Entity_none) !! Z.to_nat k
      = Some (Entity_id id) /\
    is_Some ((list_to_map ((fun i => (i, fresh)) <$> seq 0 n)
                : gmap nat AgentInterface) !! id).
Proof.
  intros Hk. exists (Z.to_nat k). split.
  - rewrite lookup_app_l by (rewrite length_fmap, length_seq; lia).
    rewrite list_lookup_fmap, lookup_seq_lt by lia. reflexivity.
  - apply not_eq_None_Some. intros Hnone.
    apply not_elem_of_list_to_map in Hnone. apply Hnone.
    rewrite <- list_fmap_compose.
    apply list_elem_of_fmap. exists (Z.to_nat k).
    split; [reflexivity|]. apply elem_of_seq. lia.
Qed.

(** The constructor accepts a valid configuration and builds a world
    that satisfies the invariant, with a reset to the training level
    pending. *)
Lemma Sim_ctor_running (cfg : Config) (world_idx : Z) (bvh0 : BVH)
    (fresh : AgentInterface) :
  configValid cfg ->
  exists ctx,
    Sim_ctor cfg world_idx bvh0 fresh = Ok ctx /\
    runningAt (staticOf cfg) 0 1 ctx.
Proof.
  intros (Hh1 & Hh2 & Hs1 & Hs2 & Hpos). unfold Sim_ctor.
  replace (cfg_maxHiders cfg + cfg_maxSeekers cfg <=? consts.maxAgents)
    with true by (symmetry; apply Z.leb_le; unfold consts.maxAgents; lia).
  replace (0 <? cfg_maxHiders cfg + cfg_maxSeekers cfg)
    with true by (symmetry; apply Z.ltb_lt; lia).
  cbn [andb negb]. eexists. split; [reflexivity|].
  split; [|split; [reflexivity|split; reflexivity]].
  split; [|split; [|split]].
  - unfold tablesOk. cbn [data agentInterfaces hiders seekers obstacles boxes
                          boxSizes boxRotations ramps rampRotations].
    rewrite length_app, length_fmap, length_seq, !length_replicate.
    unfold consts.maxAgents. repeat split; lia.
  - intros k Hk. cbn [data maxAgentsPerWorld agentInterfaces interfaces] in *.
    apply constructed_slot. lia.
  - unfold configOk. cbn [data minHiders maxHiders minSeekers maxSeekers
                          maxAgentsPerWorld]. lia.
  - left. reflexivity.
Qed.

(** The init task graph on a constructed world. *)
Lemma wp_initTasks (sv : StaticView) (fuel : nat) (ctx : Engine) :
  (21 <= fuel)%nat ->
  (forall r s, (length (fst (staticWalls ext r s)) <= 45)%nat) ->
  runningAt sv 0 1 ctx ->
  wp (initTasks ext generateDebugEnvironment setupBroadphase fuel)
     (fun _ c' => runningAt sv 0 0 c')
     ctx.
Proof.
  intros Hfuel Hwalls Hrun. unfold initTasks, resetTasks.
  apply wp_bind, wp_bind. eapply wp_mono.
  - apply (wp_resetSystem sv 0 1); [exact Hfuel|exact Hwalls|exact Hrun|].
    right. reflexivity.
  - intros [] c [Hc _]. apply wp_modify, wp_modify.
    apply runningAt_observationsTasks, runningAt_broadphaseTasks.
    unfold tickAfter in Hc. cbn [Z.eqb negb] in Hc.
    rewrite orb_true_r in Hc. exact Hc.
Qed.

(** A world built from a valid configuration runs without a fault under
    any host inputs that ask for the training level only; the invariant
    holds afterwards and the tick index is the one that the inputs
    determine. *)
Lemma pipeline_runs (cfg : Config) (world_idx : Z) (bvh0 : BVH)
    (fresh : AgentInterface) (fuel : nat) (hs : list HostInput) :
  (21 <= fuel)%nat ->
  (forall r s, (length (fst (staticWalls ext r s)) <= 45)%nat) ->
  configValid cfg ->
  Forall hostOk hs ->
  exists ctx0 ctx,
    initWorld ext generateDebugEnvironment setupBroadphase fuel cfg world_idx
              bvh0 fresh = Ok (tt, ctx0) /\
    run ext generateDebugEnvironment setupBroadphase physicsStep fuel hs ctx0
      = Ok (tt, ctx) /\
    runningAt (staticOf cfg) 0 0 ctx0 /\
    runningAt (staticOf cfg) (foldl (nextTick (staticOf cfg)) 0 hs) 0 ctx.
Proof.
  intros Hfuel Hwalls Hcfg Hhs.
  destruct (Sim_ctor_running cfg world_idx bvh0 fresh Hcfg) as (c & Hc & Hrun).
  pose proof (wp_initTasks _ fuel c Hfuel Hwalls Hrun) as Hinit.
  apply wp_run in Hinit. destruct Hinit as ([] & ctx0 & Hinit & Hrun0).
  pose proof (wp_run_steps _ fuel hs Hfuel Hwalls Hhs 0 ctx0 Hrun0) as Hsteps.
  apply wp_run in Hsteps. destruct Hsteps as ([] & ctx & Hsteps & Hrun1).
  exists ctx0, ctx. unfold initWorld. rewrite Hc.
  split; [exact Hinit|]. split; [exact Hsteps|]. split; assumption.
Qed.

End PipelineProperties.

(** The concrete world of the examples runs for any number of steps. *)
Lemma demo_pipeline (n : nat) :
  exists ctx,
    demo_run (demo_cfg 1 1 1 1) (replicate n no_input) = Ok (tt, ctx) /\
    worldInv ctx.
Proof.
  destruct (pipeline_runs (demo_ext false) demo_debug (fun _ b => b)
              (fun d _ => d) (demo_cfg 1 1 1 1) 0 demo_bvh demo_fresh 21
              (replicate n no_input))
    as (ctx0 & ctx & Hinit & Hrun & _ & Hinv & _).
  - lia.
  - exact (demo_walls false).
  - unfold configValid. cbn. lia.
  - apply Forall_replicate. left. reflexivity.
  - exists ctx. unfold demo_run. rewrite Hinit. split; [exact Hrun|exact Hinv].
Qed.

(** ** Configuration checks *)

(** The constructor accepts a configuration exactly when the total of
    the two team maxima lies between 1 and [consts.maxAgents]. *)
Lemma Sim_ctor_accepts (cfg : Config) (world_idx : Z) (bvh0 : BVH)
    (fresh : AgentInterface) :
  (exists ctx, Sim_ctor cfg world_idx bvh0 fresh = Ok ctx) <->
  0 < cfg_maxHiders cfg + cfg_maxSeekers cfg <= consts.maxAgents.
Proof.
  unfold Sim_ctor.
  destruct ((cfg_maxHiders cfg + cfg_maxSeekers cfg <=? consts.maxAgents)
            && (0 <? cfg_maxHiders cfg + cfg_maxSeekers cfg)) eqn:E.
  - apply andb_true_iff in E. destruct E as [E1 E2].
    apply Z.leb_le in E1. apply Z.ltb_lt in E2. cbn [negb].
    split; [lia|]. intros _. eexists. reflexivity.
  - cbn [negb]. split; [intros [ctx H]; discriminate H|].
    intros [H1 H2]. apply andb_false_iff in E.
    destruct E as [E|E]; [apply Z.leb_gt in E|apply Z.ltb_ge in E]; lia.
Qed.

(** C9, at the failing input.  With four hiders and one seeker the total
    of five passes the assertion of the constructor, the world is built,
    and the init task graph then writes the fourth hider past the end of
    the three-entry hider table. *)
Theorem team_capacity_not_checked :
  (exists ctx, Sim_ctor (demo_cfg 4 4 1 1) 0 demo_bvh demo_fresh = Ok ctx) /\
  initWorld (demo_ext false) demo_debug (fun _ b => b) 21 (demo_cfg 4 4 1 1) 0
            demo_bvh demo_fresh = Err OutOfBounds /\
  Sim_ctor (demo_cfg 1 9 1 8) 0 demo_bvh demo_fresh = Err AssertFailed.
Proof.
  split; [|split].
  - apply Sim_ctor_accepts. vm_compute. split; [reflexivity|discriminate].
  - vm_compute. reflexivity.
  - vm_compute. reflexivity.
Qed.

(** * Further properties of the code *)
(** * Further properties of the systems *)

(** ** Lock and grab *)

Section InteractionProperties.

Variable ext : Extern.

Lemma lockBlock_frame (ctx : Engine) (sim_e : Entity) (agent_type : AgentType) :
  data (lockBlock ext ctx sim_e agent_type) = data ctx /\
  constraints (lockBlock ext ctx sim_e agent_type) = constraints ctx /\
  nextEntity (lockBlock ext ctx sim_e agent_type) = nextEntity ctx /\
  bvh (lockBlock ext ctx sim_e agent_type) = bvh ctx.
Proof.
  unfold lockBlock. destruct (getDyn ctx sim_e); [|repeat split].
  destruct (bvh ctx _ _ _) as [l t].
  destruct (decide _); [repeat split|].
  destruct (getDyn ctx l); [|repeat split].
  repeat (destruct (decide _) || destruct (_ || _));
    destruct l; repeat split.
Qed.

(** The lock block changes the entity that the ray hits, and only when
    that entity is unowned and not static, or static and owned by the
    team of the agent. *)
Lemma lockBlock_other (ctx : Engine) (sim_e e : Entity)
    (agent_type : AgentType) (o : DynComponents) :
  getDyn ctx e = Some o ->
  (ownerTeam o = OwnerTeam_Unownable \/
   (responseType o = Static /\ ownerTeam o <> teamOf agent_type) \/
   (responseType o <> Static /\ ownerTeam o <> OwnerTeam_None)) ->
  getDyn (lockBlock ext ctx sim_e agent_type) e = Some o.
Proof.
  intros He Hkeep. unfold lockBlock.
  destruct (getDyn ctx sim_e) as [a|]; [|exact He].
  destruct (bvh ctx _ _ _) as [l t].
  destruct (decide (l = Entity_none)); [exact He|].
  destruct (getDyn ctx l) as [ol|] eqn:Hl; [|exact He].
  destruct (decide (l = e)) as [->|Hne].
  - rewrite He in Hl. injection Hl as <-.
    destruct (decide (responseType o = Static)) as [Hs|Hs].
    + destruct (bool_decide _ || bool_decide _) eqn:Hown; [|exact He].
      exfalso. apply orb_true_iff in Hown.
      destruct Hown as [H|H]; apply bool_decide_eq_true in H;
        destruct H as [-> Ho]; rewrite Ho in Hkeep; cbn in Hkeep;
        destruct Hkeep as [H|[[_ H]|[H _]]]; congruence.
    + destruct (decide (ownerTeam o = OwnerTeam_None)) as [Hn|Hn]; [|exact He].
      exfalso. rewrite Hn in Hkeep.
      destruct Hkeep as [H|[[H _]|[_ H]]]; congruence.
  - repeat (destruct (decide _) || destruct (_ || _));
      try exact He; rewrite getDyn_updDyn, decide_False by exact Hne; exact He.
Qed.

(** The grab block when the agent holds a joint: the joint is destroyed
    and the handle cleared, whatever is in front of the agent. *)
Lemma grabBlock_release (ctx : Engine) (sim_e : Entity) (a : DynComponents)
    (j : nat) :
  getDyn ctx sim_e = Some a ->
  grabData a = Some (Entity_id j) ->
  grabBlock ext ctx sim_e =
  updDyn (set_grabData (Some Entity_none)) sim_e
         (set_constraints (delete j (constraints ctx)) ctx).
Proof.
  intros Ha Hg. unfold grabBlock. rewrite Ha, Hg.
  rewrite decide_True by discriminate. reflexivity.
Qed.

(** The grab block when the agent holds nothing and the ray hits an
    unowned dynamic object. *)
Lemma grabBlock_attach (ctx : Engine) (sim_e obj : Entity)
    (a o : DynComponents) (hit_t : float) :
  getDyn ctx sim_e = Some a ->
  grabData a = Some Entity_none ->
  bvh ctx (interactOrigin a) (interactDir ext a) f_2_5 = (obj, hit_t) ->
  getDyn ctx obj = Some o ->
  ownerTeam o = OwnerTeam_None ->
  responseType o = Dynamic ->
  exists jt,
    joint_e1 jt = sim_e /\ joint_e2 jt = obj /\
    joint_separation jt = F32.sub hit_t f_1_25 /\
    grabBlock ext ctx sim_e =
    updDyn (set_grabData (Some (Entity_id (nextEntity ctx)))) sim_e
      (set_nextEntity (S (nextEntity ctx))
         (set_constraints (<[nextEntity ctx := jt]> (constraints ctx)) ctx)).
Proof.
  intros Ha Hg Hray Ho Hown Hdyn. unfold grabBlock. rewrite Ha, Hg.
  rewrite decide_False by (intros H; apply H; reflexivity).
  unfold interactOrigin, interactDir in Hray. rewrite Hray.
  rewrite decide_False by (intros ->; discriminate Ho).
  rewrite Ho, Hown, Hdyn. cbn [bool_decide decide_rel andb makeFixedJoint].
  rewrite !bool_decide_eq_true_2 by reflexivity. cbn [andb].
  eexists. split; [|split; [|split; [|reflexivity]]]; reflexivity.
Qed.

(** The grab block does nothing when the agent holds nothing and the
    entity in front of it is owned, unownable or not dynamic. *)
Lemma grabBlock_refused (ctx : Engine) (sim_e obj : Entity)
    (a o : DynComponents) (hit_t : float) :
  getDyn ctx sim_e = Some a ->
  grabData a = Some Entity_none ->
  bvh ctx (interactOrigin a) (interactDir ext a) f_2_5 = (obj, hit_t) ->
  getDyn ctx obj = Some o ->
  ownerTeam o <> OwnerTeam_None \/ responseType o <> Dynamic ->
  grabBlock ext ctx sim_e = ctx.
Proof.
  intros Ha Hg Hray Ho Hno. unfold grabBlock. rewrite Ha, Hg.
  rewrite decide_False by (intros H; apply H; reflexivity).
  unfold interactOrigin, interactDir in Hray. rewrite Hray.
  rewrite decide_False by (intros ->; discriminate Ho).
  rewrite Ho.
  destruct Hno as [H|H].
  - rewrite (bool_decide_eq_false_2 _ H). reflexivity.
  - rewrite (bool_decide_eq_false_2 _ H). rewrite andb_false_r. reflexivity.
Qed.

Lemma set_grabData_same (a : DynComponents) (g : option Entity) :
  grabData a = g -> set_grabData g a = a.
Proof. intros <-. destruct a; reflexivity. Qed.

Lemma actionSystem_run (ctx : Engine) (action : Action) (sim_e : Entity)
    (agent_type : AgentType) :
  sim_e <> Entity_none ->
  processed ctx agent_type ->
  fst (actionSystem ext ctx action sim_e agent_type) =
  (let ctx1 := if action_l action =? 1
               then lockBlock ext ctx sim_e agent_type else ctx in
   if action_g action =? 1 then grabBlock ext ctx1 sim_e else ctx1).
Proof.
  intros Hlive Hp. unfold actionSystem.
  rewrite decide_False by exact Hlive.
  rewrite (gate_open ctx agent_type Hp). reflexivity.
Qed.

(** X1.  Grab is a toggle.  An agent that holds nothing and faces an
    unowned dynamic object gets a fixed joint between itself and the
    object, at the separation [hit_t - 1.25]; its next grab destroys that
    joint and clears the handle, so that the joints and the agent are as
    they were before the first grab. *)
Theorem grab_then_release (ctx : Engine) (act1 act2 : Action)
    (sim_e obj : Entity) (agent_type : AgentType) (a o : DynComponents)
    (hit_t : float) :
  getDyn ctx sim_e = Some a ->
  grabData a = Some Entity_none ->
  processed ctx agent_type ->
  action_l act1 <> 1 -> action_g act1 = 1 ->
  action_l act2 <> 1 -> action_g act2 = 1 ->
  bvh ctx (interactOrigin a) (interactDir ext a) f_2_5 = (obj, hit_t) ->
  getDyn ctx obj = Some o ->
  ownerTeam o = OwnerTeam_None ->
  responseType o = Dynamic ->
  constraints ctx !! nextEntity ctx = None ->
  let ctx1 := fst (actionSystem ext ctx act1 sim_e agent_type) in
  let ctx2 := fst (actionSystem ext ctx1 act2 sim_e agent_type) in
  (exists jt,
     constraints ctx1 = <[nextEntity ctx := jt]> (constraints ctx) /\
     joint_e1 jt = sim_e /\ joint_e2 jt = obj /\
     joint_separation jt = F32.sub hit_t f_1_25) /\
  (grabData <$> getDyn ctx1 sim_e) = Some (Some (Entity_id (nextEntity ctx))) /\
  constraints ctx2 = constraints ctx /\
  getDyn ctx2 sim_e = Some a /\
  dynEntities ctx2 = dynEntities ctx.
Proof.
  intros Ha Hg Hp Hl1 Hg1 Hl2 Hg2 Hray Ho Hown Hdyn Hfresh ctx1 ctx2.
  assert (Hlive : sim_e <> Entity_none) by (intros ->; discriminate Ha).
  destruct (grabBlock_attach ctx sim_e obj a o hit_t Ha Hg Hray Ho Hown Hdyn)
    as (jt & He1 & He2 & Hsep & Hgrab).
  assert (H1 : ctx1 =
            updDyn (set_grabData (Some (Entity_id (nextEntity ctx)))) sim_e
              (set_nextEntity (S (nextEntity ctx))
                 (set_constraints (<[nextEntity ctx := jt]> (constraints ctx))
                    ctx))).
  { subst ctx1. rewrite (actionSystem_run ctx act1 sim_e agent_type Hlive Hp).
    cbv zeta. replace (action_l act1 =? 1) with false
      by (symmetry; apply Z.eqb_neq; exact Hl1).
    rewrite Hg1. cbn [Z.eqb Pos.eqb]. exact Hgrab. }
  assert (Ha1 : getDyn ctx1 sim_e =
                Some (set_grabData (Some (Entity_id (nextEntity ctx))) a)).
  { rewrite H1, getDyn_updDyn, decide_True by reflexivity.
    destruct sim_e as [|n]; [contradiction|]. cbn. cbn in Ha. rewrite Ha.
    reflexivity. }
  assert (Hc1 : constraints ctx1 = <[nextEntity ctx := jt]> (constraints ctx)).
  { rewrite H1. destruct sim_e; reflexivity. }
  assert (Hp1 : processed ctx1 agent_type).
  { unfold processed in *. rewrite H1, data_updDyn. exact Hp. }
  assert (H2 : ctx2 =
            updDyn (set_grabData (Some Entity_none)) sim_e
              (set_constraints (delete (nextEntity ctx) (constraints ctx1)) ctx1)).
  { subst ctx2. rewrite (actionSystem_run ctx1 act2 sim_e agent_type Hlive Hp1).
    cbv zeta. replace (action_l act2 =? 1) with false
      by (symmetry; apply Z.eqb_neq; exact Hl2).
    rewrite Hg2. cbn [Z.eqb Pos.eqb].
    exact (grabBlock_release ctx1 sim_e _ _ Ha1 eq_refl). }
  split; [exists jt; split; [exact Hc1|split; [exact He1|split; assumption]]|].
  split; [rewrite Ha1; reflexivity|].
  assert (Hd2 : dynEntities ctx2 = dynEntities ctx).
  { rewrite H2, H1. destruct sim_e as [|n]; [contradiction|].
    cbn in Ha. cbn. apply map_eq. intros k.
    destruct (decide (k = n)) as [->|Hne].
    - rewrite lookup_alter_eq, lookup_alter_eq, Ha. cbn.
      f_equal. destruct a. cbn in Hg. subst. reflexivity.
    - rewrite !lookup_alter_ne by congruence. reflexivity. }
  split; [|split; [|exact Hd2]].
  - rewrite H2. destruct sim_e as [|n]; [contradiction|]. cbn.
    rewrite Hc1. apply delete_insert_id. exact Hfresh.
  - destruct sim_e as [|n]; [contradiction|]. cbn. rewrite Hd2. exact Ha.
Qed.

(** X2.  Lock runs before grab within one action.  An agent that holds
    nothing and issues lock and grab together on the unowned dynamic
    object in front of it locks the object for its team and grabs
    nothing: no joint is made and the agent is unchanged. *)
Theorem lock_precedes_grab (ctx : Engine) (action : Action)
    (sim_e obj : Entity) (agent_type : AgentType) (a o : DynComponents)
    (hit_t : float) :
  getDyn ctx sim_e = Some a ->
  grabData a = Some Entity_none ->
  processed ctx agent_type ->
  action_l action = 1 -> action_g action = 1 ->
  bvh ctx (interactOrigin a) (interactDir ext a) f_2_5 = (obj, hit_t) ->
  getDyn ctx obj = Some o ->
  obj <> sim_e ->
  ownerTeam o = OwnerTeam_None ->
  responseType o = Dynamic ->
  let ctx' := fst (actionSystem ext ctx action sim_e agent_type) in
  getDyn ctx' obj =
    Some (set_ownerTeam (teamOf agent_type) (set_responseType Static o)) /\
  getDyn ctx' sim_e = Some a /\
  constraints ctx' = constraints ctx /\
  nextEntity ctx' = nextEntity ctx.
Proof.
  intros Ha Hg Hp Hl Hgr Hray Ho Hne Hown Hdyn ctx'.
  assert (Hlive : sim_e <> Entity_none) by (intros ->; discriminate Ha).
  assert (Hobj : obj <> Entity_none) by (intros ->; discriminate Ho).
  set (c1 := lockBlock ext ctx sim_e agent_type).
  assert (Hc1 : c1 = updDyn (fun o => set_ownerTeam (teamOf agent_type)
                                        (set_responseType Static o)) obj ctx).
  { subst c1. unfold lockBlock. rewrite Ha.
    unfold interactOrigin, interactDir in Hray. rewrite Hray.
    rewrite decide_False by exact Hobj. rewrite Ho.
    rewrite decide_False by (rewrite Hdyn; discriminate).
    rewrite decide_True by exact Hown.
    destruct agent_type; reflexivity. }
  assert (Ho1 : getDyn c1 obj =
                Some (set_ownerTeam (teamOf agent_type) (set_responseType Static o))).
  { rewrite Hc1, getDyn_updDyn, decide_True, Ho by reflexivity. reflexivity. }
  assert (Ha1 : getDyn c1 sim_e = Some a).
  { rewrite Hc1, getDyn_updDyn, decide_False by exact Hne. exact Ha. }
  assert (Hbvh : bvh c1 = bvh ctx) by (rewrite Hc1; destruct obj; reflexivity).
  assert (Hgrab : grabBlock ext c1 sim_e = c1).
  { apply (grabBlock_refused c1 sim_e obj a
             (set_ownerTeam (teamOf agent_type) (set_responseType Static o))
             hit_t Ha1 Hg);
      [rewrite Hbvh; exact Hray|exact Ho1|].
    right. cbn. discriminate. }
  assert (H' : ctx' = c1).
  { subst ctx'. rewrite (actionSystem_run ctx action sim_e agent_type Hlive Hp).
    cbv zeta. rewrite Hl, Hgr. cbn [Z.eqb Pos.eqb]. exact Hgrab. }
  rewrite H'. split; [exact Ho1|]. split; [exact Ha1|].
  rewrite Hc1. destruct obj; split; reflexivity.
Qed.

(** The action system and an [Unownable] entity [e]: its components
    stay, the grab handle of the acting agent apart, and a joint that the
    run has made is held by the acting agent and grabs another entity. *)
Lemma actionSystem_unownable (ctx : Engine) (action : Action)
    (sim_e e : Entity) (agent_type : AgentType) (o : DynComponents) :
  getDyn ctx e = Some o ->
  ownerTeam o = OwnerTeam_Unownable ->
  let ctx' := fst (actionSystem ext ctx action sim_e agent_type) in
  (exists o', getDyn ctx' e = Some o' /\
              (e <> sim_e -> o' = o) /\
              set_grabData (grabData o) o' = o) /\
  (forall j jt, constraints ctx' !! j = Some jt ->
                constraints ctx !! j = Some jt \/
                (joint_e1 jt = sim_e /\ joint_e2 jt <> e)).
Proof.
  intros He Hown ctx'. subst ctx'. unfold actionSystem.
  assert (Hsame : set_grabData (grabData o) o = o)
    by (apply set_grabData_same; reflexivity).
  destruct (decide (sim_e = Entity_none)) as [Hdead|Hlive];
    [split; [exists o; split; [exact He|split; [reflexivity|exact Hsame]]
            |intros j jt H; left; exact H]|].
  destruct (_ && _);
    [split; [exists o; split; [exact He|split; [reflexivity|exact Hsame]]
            |intros j jt H; left; exact H]|].
  cbn [fst].
  set (c1 := if action_l action =? 1
             then lockBlock ext ctx sim_e agent_type else ctx).
  assert (He1 : getDyn c1 e = Some o).
  { subst c1. destruct (action_l action =? 1); [|exact He].
    apply lockBlock_other; [exact He|left; exact Hown]. }
  assert (Hc1 : constraints c1 = constraints ctx).
  { subst c1. destruct (action_l action =? 1); [|reflexivity].
    apply lockBlock_frame. }
  clearbody c1.
  destruct (action_g action =? 1);
    [|split; [exists o; split; [exact He1|split; [reflexivity|exact Hsame]]
             |intros j jt H; left; rewrite <- Hc1; exact H]].
  unfold grabBlock.
  destruct (getDyn c1 sim_e) as [a|] eqn:Ha;
    [|split; [exists o; split; [exact He1|split; [reflexivity|exact Hsame]]
             |intros j jt H; left; rewrite <- Hc1; exact H]].
  destruct (grabData a) as [ce|] eqn:Hg;
    [|split; [exists o; split; [exact He1|split; [reflexivity|exact Hsame]]
             |intros j jt H; left; rewrite <- Hc1; exact H]].
  destruct (decide (ce <> Entity_none)) as [Hce|Hce].
  { split.
    - rewrite getDyn_updDyn, getDyn_destroyConstraint, He1.
      destruct (decide (sim_e = e)) as [->|Hne].
      + eexists. split; [reflexivity|]. split; [intros H; contradiction|].
        destruct o; reflexivity.
      + exists o. split; [reflexivity|]. split; [reflexivity|exact Hsame].
    - intros j jt H. left. rewrite <- Hc1.
      destruct sim_e as [|ns]; [contradiction|].
      destruct ce as [|k]; [contradiction|]. cbn in H.
      destruct (decide (k = j)) as [->|Hkj].
      + rewrite lookup_delete_eq in H. discriminate H.
      + rewrite lookup_delete_ne in H by exact Hkj. exact H. }
  destruct (bvh c1 _ _ _) as [g hit_t].
  destruct (decide (g = Entity_none));
    [split; [exists o; split; [exact He1|split; [reflexivity|exact Hsame]]
            |intros j jt H; left; rewrite <- Hc1; exact H]|].
  destruct (getDyn c1 g) as [og|] eqn:Hog;
    [|split; [exists o; split; [exact He1|split; [reflexivity|exact Hsame]]
             |intros j jt H; left; rewrite <- Hc1; exact H]].
  destruct (bool_decide (ownerTeam og = OwnerTeam_None)) eqn:Hnone;
    [|split; [exists o; split; [exact He1|split; [reflexivity|exact Hsame]]
             |intros j jt H; left; rewrite <- Hc1; exact H]].
  destruct (bool_decide (responseType og = Dynamic));
    [|split; [exists o; split; [exact He1|split; [reflexivity|exact Hsame]]
             |intros j jt H; left; rewrite <- Hc1; exact H]].
  cbn [andb makeFixedJoint]. apply bool_decide_eq_true in Hnone.
  assert (Hge : g <> e).
  { intros ->. rewrite He1 in Hog. injection Hog as <-. congruence. }
  split.
  - rewrite getDyn_updDyn.
    replace (getDyn _ e) with (Some o)
      by (destruct e; [discriminate He1|exact (eq_sym He1)]).
    destruct (decide (sim_e = e)) as [->|Hne].
    + eexists. split; [reflexivity|]. split; [intros H; contradiction|].
      destruct o; reflexivity.
    + exists o. split; [reflexivity|]. split; [reflexivity|exact Hsame].
  - intros j jt H. rewrite <- Hc1.
    destruct sim_e as [|ns]; [contradiction|]. cbn in H.
    destruct (decide (nextEntity c1 = j)) as [<-|Hnj].
    + rewrite lookup_insert_eq in H. injection H as <-. right.
      split; [reflexivity|exact Hge].
    + rewrite lookup_insert_ne in H by exact Hnj. left. exact H.
Qed.


(** X3.  Walls, the floor plane and agents (owner [Unownable]) are never
    the target of an interaction: after the action system has run for any
    agent and any action, such an entity has all its components as before,
    the grab handle of the acting agent apart; no joint that the run has
    made has it as the grabbed end; and no joint that the run has made
    has it as the holding end, unless it is the acting agent itself, which
    holds the object it has just grabbed. *)
Theorem unownable_untouched (ctx : Engine) (action : Action)
    (sim_e e : Entity) (agent_type : AgentType) (o : DynComponents) :
  getDyn ctx e = Some o ->
  ownerTeam o = OwnerTeam_Unownable ->
  let ctx' := fst (actionSystem ext ctx action sim_e agent_type) in
  (exists o', getDyn ctx' e = Some o' /\
              (e <> sim_e -> o' = o) /\
              set_grabData (grabData o) o' = o) /\
  (forall j jt, constraints ctx' !! j = Some jt -> joint_e2 jt = e ->
                constraints ctx !! j = Some jt) /\
  (forall j jt, constraints ctx' !! j = Some jt -> joint_e1 jt = e ->
                e <> sim_e -> constraints ctx !! j = Some jt) /\
  (forall j jt, constraints ctx' !! j = Some jt ->
                constraints ctx !! j <> Some jt ->
                joint_e1 jt = sim_e /\ joint_e2 jt <> e).
Proof.
  intros He Hown ctx'.
  destruct (actionSystem_unownable ctx action sim_e e agent_type o He Hown)
    as [Hcomp Hjoint].
  split; [exact Hcomp|]. split; [|split].
  - intros j jt H He2. destruct (Hjoint j jt H) as [Hold|[_ Hne]];
      [exact Hold|contradiction].
  - intros j jt H He1 Hne. destruct (Hjoint j jt H) as [Hold|[Hs _]];
      [exact Hold|congruence].
  - intros j jt H Hnew. destruct (Hjoint j jt H) as [Hold|Hnewj];
      [contradiction|exact Hnewj].
Qed.

End InteractionProperties.

(** The three statements on the concrete world: the hider (entity 10)
    faces the box with identifier 2; the seeker is entity 11. *)
Lemma grab_then_release_witness :
  constraints
    (fst (actionSystem (demo_ext false)
            (fst (actionSystem (demo_ext false) (demo_world 0)
                    (mkAction 5 5 5 1 0) (Entity_id 10) Hider))
            (mkAction 5 5 5 1 0) (Entity_id 10) Hider))
  = constraints (demo_world 0).
Proof.
  refine (proj1 (proj2 (proj2
    (grab_then_release (demo_ext false) (demo_world 0)
       (mkAction 5 5 5 1 0) (mkAction 5 5 5 1 0) (Entity_id 10) (Entity_id 2)
       Hider (readDyn (demo_world 0) (Entity_id 10))
       (readDyn (demo_world 0) (Entity_id 2))
       (F32.div (F32.ofZ 3) (F32.ofZ 2)) _ _ _ _ _ _ _ _ _ _ _ _)))).
  - vm_compute; reflexivity.
  - vm_compute; reflexivity.
  - left; reflexivity.
  - discriminate.
  - reflexivity.
  - discriminate.
  - reflexivity.
  - vm_compute; reflexivity.
  - vm_compute; reflexivity.
  - vm_compute; reflexivity.
  - vm_compute; reflexivity.
  - vm_compute; reflexivity.
Defined.

Lemma lock_precedes_grab_witness :
  constraints (fst (actionSystem (demo_ext false) (demo_world 0)
                      (mkAction 5 5 5 1 1) (Entity_id 10) Hider))
  = constraints (demo_world 0).
Proof.
  refine (proj1 (proj2 (proj2
    (lock_precedes_grab (demo_ext false) (demo_world 0)
       (mkAction 5 5 5 1 1) (Entity_id 10) (Entity_id 2)
       Hider (readDyn (demo_world 0) (Entity_id 10))
       (readDyn (demo_world 0) (Entity_id 2))
       (F32.div (F32.ofZ 3) (F32.ofZ 2)) _ _ _ _ _ _ _ _ _ _)))).
  - vm_compute; reflexivity.
  - vm_compute; reflexivity.
  - left; reflexivity.
  - reflexivity.
  - reflexivity.
  - vm_compute; reflexivity.
  - vm_compute; reflexivity.
  - discriminate.
  - vm_compute; reflexivity.
  - vm_compute; reflexivity.
Defined.

Lemma unownable_untouched_witness :
  (exists o',
     getDyn (fst (actionSystem (demo_ext false) (demo_world 0)
                    (mkAction 5 5 5 1 1) (Entity_id 10) Hider)) (Entity_id 11)
       = Some o' /\
     o' = readDyn (demo_world 0) (Entity_id 11)) /\
  (exists jt,
     constraints (fst (actionSystem (demo_ext false) (demo_world 0)
                         (mkAction 5 5 5 1 0) (Entity_id 10) Hider)) !! 13%nat
       = Some jt /\
     joint_e1 jt = Entity_id 10 /\ joint_e2 jt <> Entity_id 10).
Proof.
  split.
  - destruct (unownable_untouched (demo_ext false) (demo_world 0)
                (mkAction 5 5 5 1 1) (Entity_id 10) (Entity_id 11) Hider
                (readDyn (demo_world 0) (Entity_id 11)))
      as [(o' & Ho' & Hsame & _) _].
    + vm_compute; reflexivity.
    + vm_compute; reflexivity.
    + exists o'. split; [exact Ho'|]. apply Hsame. discriminate.
  - destruct (unownable_untouched (demo_ext false) (demo_world 0)
                (mkAction 5 5 5 1 0) (Entity_id 10) (Entity_id 10) Hider
                (readDyn (demo_world 0) (Entity_id 10)))
      as (_ & _ & _ & Hnew).
    + vm_compute; reflexivity.
    + vm_compute; reflexivity.
    + assert (H : exists jt,
                constraints (fst (actionSystem (demo_ext false) (demo_world 0)
                                    (mkAction 5 5 5 1 0) (Entity_id 10) Hider))
                  !! 13%nat = Some jt)
        by (vm_compute; eexists; reflexivity).
      destruct H as [jt Hjt]. exists jt. split; [exact Hjt|].
      apply (Hnew 13%nat jt Hjt).
      assert (Hold : constraints (demo_world 0) !! 13%nat = None)
        by (vm_compute; reflexivity).
      rewrite Hold. discriminate.
Defined.

(** ** Movement, rewards and visibility *)

Section SystemProperties.

Variable ext : Extern.

(** X4.  The movement system writes the external force and torque of
    the agent's own physics entity and nothing else: position, rotation,
    velocity, mobility, owner and grab handle of that entity, every other
    entity, the world data, the interfaces and the joints are as before.
    For a processed agent the torque is about the vertical axis only, and
    the neutral turn bucket 5 gives the zero torque. *)
Theorem movement_writes_forces_only (ctx : Engine) (action : Action)
    (sim_e : Entity) (agent_type : AgentType) :
  let ctx' := movementSystem ext ctx action sim_e agent_type in
  data ctx' = data ctx /\
  interfaces ctx' = interfaces ctx /\
  constraints ctx' = constraints ctx /\
  nextEntity ctx' = nextEntity ctx /\
  (forall e, e <> sim_e -> getDyn ctx' e = getDyn ctx e) /\
  (forall c, getDyn ctx sim_e = Some c ->
     exists c', getDyn ctx' sim_e = Some c' /\ sameButForces c c' /\
       (processed ctx agent_type ->
          v3x (externalTorque c') = F32.zero /\
          v3y (externalTorque c') = F32.zero /\
          (action_r action = 5 -> externalTorque c' = Vector3_zero))).
Proof.
  intros ctx'. subst ctx'. unfold movementSystem.
  destruct (decide (sim_e = Entity_none)) as [->|Hlive].
  { repeat split; try reflexivity. intros c Hc. discriminate Hc. }
  destruct (bool_decide (agent_type = Seeker)
            && (curEpisodeStep (data ctx) <? numPrepSteps - 1)) eqn:Hgate.
  { repeat split; try reflexivity. intros c Hc. exists c.
    split; [exact Hc|]. split; [destruct c; reflexivity|].
    intros Hp. rewrite (gate_open ctx agent_type Hp) in Hgate.
    discriminate Hgate. }
  destruct (getDyn ctx sim_e) as [a|] eqn:Ha.
  2:{ repeat split; try reflexivity. intros c Hc. discriminate Hc. }
  destruct sim_e as [|n]; [contradiction|].
  split; [reflexivity|]. split; [reflexivity|]. split; [reflexivity|].
  split; [reflexivity|]. split.
  - intros e He. rewrite !getDyn_updDyn.
    rewrite !decide_False by (intros E; apply He; symmetry; exact E).
    reflexivity.
  - intros c Hc. injection Hc as <-.
    rewrite !getDyn_updDyn, !decide_True by reflexivity. rewrite Ha.
    eexists. split; [reflexivity|]. split; [destruct a; reflexivity|].
    intros _. cbn. split; [reflexivity|]. split; [reflexivity|].
    intros ->. vm_compute. reflexivity.
Qed.

(** X5.  The reward of a live agent takes one of five values: 0 during
    the preparation ticks; afterwards 1 or -1, and -9 or -11 when the
    agent is outside the arena. *)
Theorem reward_values (ctx : Engine) (sim_e : Entity) (agent_type : AgentType)
    (reward : float) (done : Z) :
  sim_e <> Entity_none ->
  teamRewardSet ctx ->
  let r := fst (outputRewardsDonesSystem ctx sim_e agent_type reward done) in
  (curEpisodeStep (data ctx) < numPrepSteps - 1 -> r = F32.zero) /\
  (numPrepSteps - 1 <= curEpisodeStep (data ctx) ->
   outsideArena (position (readDyn ctx sim_e)) = false ->
   r = F32.ofZ 1 \/ r = F32.ofZ (-1)) /\
  (numPrepSteps - 1 <= curEpisodeStep (data ctx) ->
   outsideArena (position (readDyn ctx sim_e)) = true ->
   r = F32.ofZ (-9) \/ r = F32.ofZ (-11)).
Proof.
  intros Hlive Hset r. subst r.
  rewrite (output_live ctx sim_e agent_type reward done Hlive). cbv zeta.
  split; [|split].
  - intros H. replace (_ <? _) with true by (symmetry; apply Z.ltb_lt; exact H).
    reflexivity.
  - intros H Hin.
    replace (_ <? _) with false by (symmetry; apply Z.ltb_ge; exact H).
    cbn [fst]. unfold withBoundaryPenalty. rewrite Hin.
    unfold teamRewardVal.
    destruct Hset as [-> | ->], agent_type;
      cbn [decide]; vm_compute; (left; reflexivity) || (right; reflexivity).
  - intros H Hout.
    replace (_ <? _) with false by (symmetry; apply Z.ltb_ge; exact H).
    cbn [fst]. unfold withBoundaryPenalty. rewrite Hout.
    unfold teamRewardVal.
    destruct Hset as [-> | ->], agent_type;
      cbn [decide]; vm_compute; (left; reflexivity) || (right; reflexivity).
Qed.

Lemma checkVisibility_binary (ctx : Engine) (agent_pos agent_fwd : Vector3)
    (other_e : Entity) :
  binaryMask (checkVisibility ext ctx agent_pos agent_fwd other_e).
Proof.
  unfold checkVisibility. destruct (F32.ltb _ _); [left; reflexivity|].
  destruct (bvh ctx _ _ _) as [h t].
  destruct (decide _); [right|left]; reflexivity.
Qed.

Lemma bool_to_float_binary (b : bool) : binaryMask (bool_to_float b).
Proof. destruct b; [right|left]; reflexivity. Qed.

Lemma Forall_writeAt {A : Type} (P : A -> Prop) (i : Z) (v : A) (l : list A) :
  P v -> Forall P l -> Forall P (writeAt i v l).
Proof. intros Hv Hl. apply Forall_insert; assumption. Qed.

Lemma agentVisLoop_binary (ctx : Engine) (agent_e : Entity)
    (agent_type : AgentType) (agent_pos agent_fwd : Vector3)
    (agent_vis : list float) :
  Forall binaryMask agent_vis ->
  Forall binaryMask
    (fst (fst (agentVisLoop ext ctx agent_e agent_type agent_pos agent_fwd
                 agent_vis))) /\
  length (fst (fst (agentVisLoop ext ctx agent_e agent_type agent_pos agent_fwd
                      agent_vis))) = length agent_vis /\
  (agent_type = Hider ->
   snd (agentVisLoop ext ctx agent_e agent_type agent_pos agent_fwd agent_vis)
   = hiderTeamReward (data ctx)).
Proof.
  intros Hbin. unfold agentVisLoop.
  apply (foldl_invariant
           (fun s : list float * Z * float =>
              Forall binaryMask (fst (fst s)) /\
              length (fst (fst s)) = length agent_vis /\
              (agent_type = Hider -> snd s = hiderTeamReward (data ctx)))).
  - split; [exact Hbin|]. split; reflexivity.
  - intros [[v c] t] i (Hv & Hl & Ht). cbn [fst snd] in *.
    destruct (i >=? _).
    { cbn [fst snd]. split; [apply Forall_writeAt; [left; reflexivity|exact Hv]|].
      split; [rewrite length_writeAt; exact Hl|exact Ht]. }
    destruct (decide _); [cbn [fst snd]; split; [exact Hv|split; assumption]|].
    cbn [fst snd].
    split; [apply Forall_writeAt; [apply bool_to_float_binary|exact Hv]|].
    split; [rewrite length_writeAt; exact Hl|].
    intros ->. rewrite bool_decide_eq_false_2 by discriminate.
    cbn [andb]. apply Ht. reflexivity.
Qed.

(** X6.  Visibility masks are binary.  After the visibility system has
    run for a live agent every entry of its box and ramp masks is [0.f]
    or [1.f], and so is every entry of its agent mask when the mask was
    binary before; the lengths of the three arrays are kept.  The world
    changes in the team scalar at most, which keeps its value or becomes
    [-1.f], and a hider's pass never changes it. *)
Theorem visibility_masks_binary (ctx : Engine) (agent_e sim_e : Entity)
    (agent_type : AgentType) (agent_vis box_vis ramp_vis : list float) :
  sim_e <> Entity_none ->
  length box_vis = Z.to_nat consts.maxBoxes ->
  length ramp_vis = Z.to_nat consts.maxRamps ->
  Forall binaryMask agent_vis ->
  let res := computeVisibilitySystem ext ctx agent_e sim_e agent_type
               agent_vis box_vis ramp_vis in
  Forall binaryMask (snd (fst (fst res))) /\
  Forall binaryMask (snd (fst res)) /\
  Forall binaryMask (snd res) /\
  length (snd (fst (fst res))) = length agent_vis /\
  length (snd (fst res)) = length box_vis /\
  length (snd res) = length ramp_vis /\
  (exists t, fst (fst (fst res)) = updData (set_hiderTeamReward t) ctx /\
             (t = hiderTeamReward (data ctx) \/
              (agent_type = Seeker /\ t = F32.ofZ (-1)))).
Proof.
  intros Hlive Hbl Hrl Hbin res. subst res. unfold computeVisibilitySystem.
  rewrite decide_False by exact Hlive. cbv zeta.
  set (pos := position (readDyn ctx sim_e)).
  set (fwd := rotateVec ext (rotation (readDyn ctx sim_e)) math.fwd).
  destruct (agentVisLoop_binary ctx agent_e agent_type pos fwd agent_vis Hbin)
    as (Hav & Hal & Hh).
  pose proof (agentVisLoop_team ext ctx agent_e agent_type pos fwd agent_vis)
    as Ht.
  destruct (agentVisLoop ext ctx agent_e agent_type pos fwd agent_vis)
    as [[av c] t]. cbn [fst snd] in *.
  assert (Hbl' : length (boxVisLoop ext ctx pos fwd box_vis) = length box_vis).
  { unfold boxVisLoop.
    rewrite (foldl_ext _ (fun vis i => writeAt i
               (if i <? numActiveBoxes (data ctx)
                then checkVisibility ext ctx pos fwd
                       (entityAt (boxes (data ctx)) i)
                else F32.zero) vis) _ _)
      by (intros vis i; destruct (_ <? _); reflexivity).
    apply foldl_writeAt_length. }
  assert (Hrl' : length (rampVisLoop ext ctx pos fwd ramp_vis) = length ramp_vis).
  { unfold rampVisLoop.
    rewrite (foldl_ext _ (fun vis i => writeAt i
               (if i <? numActiveRamps (data ctx)
                then checkVisibility ext ctx pos fwd
                       (entityAt (ramps (data ctx)) i)
                else F32.zero) vis) _ _)
      by (intros vis i; destruct (_ <? _); reflexivity).
    apply foldl_writeAt_length. }
  split; [exact Hav|]. split; [|split; [|split; [exact Hal|split; [exact Hbl'|split; [exact Hrl'|]]]]].
  - apply Forall_lookup. intros i x Hx.
    assert (Hi : (i < Z.to_nat consts.maxBoxes)%nat)
      by (rewrite <- Hbl, <- Hbl'; apply lookup_lt_Some in Hx; exact Hx).
    pose proof (boxVisLoop_lookup ext ctx pos fwd box_vis (Z.of_nat i)
                  ltac:(lia) Hbl) as Hk.
    rewrite Nat2Z.id, Hx in Hk. injection Hk as ->.
    destruct (_ <? _); [apply checkVisibility_binary|left; reflexivity].
  - apply Forall_lookup. intros i x Hx.
    assert (Hi : (i < Z.to_nat consts.maxRamps)%nat)
      by (rewrite <- Hrl, <- Hrl'; apply lookup_lt_Some in Hx; exact Hx).
    pose proof (rampVisLoop_lookup ext ctx pos fwd ramp_vis (Z.of_nat i)
                  ltac:(lia) Hrl) as Hk.
    rewrite Nat2Z.id, Hx in Hk. injection Hk as ->.
    destruct (_ <? _); [apply checkVisibility_binary|left; reflexivity].
  - exists t. split; [reflexivity|].
    destruct agent_type.
    + destruct Ht as [Ht|Ht]; [left; exact Ht|right; split; [reflexivity|exact Ht]].
    + left. apply Hh. reflexivity.
Qed.

End SystemProperties.

(** The reward of the seeker of the concrete world at tick 96, inside
    the arena, and the masks of its hider. *)
Lemma reward_values_witness :
  fst (outputRewardsDonesSystem (demo_world 96) (Entity_id 11) Seeker F32.zero 0)
    = F32.ofZ 1 \/
  fst (outputRewardsDonesSystem (demo_world 96) (Entity_id 11) Seeker F32.zero 0)
    = F32.ofZ (-1).
Proof.
  assert (Hset : teamRewardSet (demo_world 96)) by (left; vm_compute; reflexivity).
  assert (Hlive : Entity_id 11 <> Entity_none) by discriminate.
  assert (Hstep : numPrepSteps - 1 <= curEpisodeStep (data (demo_world 96)))
    by (vm_compute; discriminate).
  assert (Hin : outsideArena (position (readDyn (demo_world 96) (Entity_id 11)))
                = false) by (vm_compute; reflexivity).
  exact (proj1 (proj2 (reward_values (demo_world 96) (Entity_id 11) Seeker
                         F32.zero 0 Hlive Hset)) Hstep Hin).
Defined.

Lemma visibility_masks_binary_witness :
  Forall binaryMask
    (snd (fst (computeVisibilitySystem (demo_ext false) (demo_world 0)
                 (Entity_id 0) (Entity_id 10) Hider (agentVis demo_fresh)
                 (boxVis demo_fresh) (rampVis demo_fresh)))).
Proof.
  assert (Hbin : Forall binaryMask (agentVis demo_fresh)).
  { apply Forall_forall. intros x Hx. apply elem_of_replicate in Hx.
    left. apply Hx. }
  assert (Hlive : Entity_id 10 <> Entity_none) by discriminate.
  exact (proj1 (proj2 (visibility_masks_binary (demo_ext false) (demo_world 0)
                         (Entity_id 0) (Entity_id 10) Hider (agentVis demo_fresh)
                         (boxVis demo_fresh) (rampVis demo_fresh)
                         Hlive eq_refl eq_refl Hbin))).
Defined.

(** ** The order of the other agents *)

Lemma foldl_writeAt_keep {A : Type} (g : Z -> A) (idxs : list Z) (arr : list A)
    (p : nat) :
  (forall i, i ∈ idxs -> Z.to_nat i <> p) ->
  foldl (fun obs i => writeAt i (g i) obs) arr idxs !! p = arr !! p.
Proof.
  revert arr. induction idxs as [|i idxs IH]; intros arr Hp; [reflexivity|].
  cbn [foldl]. rewrite IH by (intros i' Hi'; apply Hp; right; exact Hi').
  unfold writeAt. apply list_lookup_insert_ne. apply Hp. left.
Qed.

Lemma foldl_writeAt_shift {A : Type} (g : Z -> A) (off : Z) (m : nat) :
  forall (a : Z) (arr : list A),
    foldl (fun obs i => writeAt (i + off) (g i) obs) arr (seqZ a (Z.of_nat m)) =
    foldl (fun obs i => writeAt i (g (i - off)) obs) arr
          (seqZ (a + off) (Z.of_nat m)).
Proof.
  induction m as [|m IH]; intros a arr.
  - rewrite !seqZ_nil by lia. reflexivity.
  - rewrite !(seqZ_cons _ (Z.of_nat (S m))) by lia.
    replace (Z.pred (Z.of_nat (S m))) with (Z.of_nat m) by lia.
    cbn [foldl]. rewrite IH.
    replace (Z.succ a + off) with (Z.succ (a + off)) by lia.
    replace (a + off - off) with a by lia. reflexivity.
Qed.

(** A loop with a running slot index in which the step for an index
    other than [self] stores [val i] at the counter. *)
Section CounterLoopValues.

Context {St A : Type}.
Variable arr : St -> list A.
Variable cnt : St -> Z.
Variable G : St -> Z -> St.
Variable val : Z -> A.
Variable zero : A.
Variable n : Z.
Variable self : Z.

Hypothesis G_pad : forall s i, n <= i ->
  arr (G s i) = writeAt (cnt s) zero (arr s) /\ cnt (G s i) = cnt s + 1.
Hypothesis G_val : forall s i, 0 <= i < n -> i <> self ->
  arr (G s i) = writeAt (cnt s) (val i) (arr s) /\ cnt (G s i) = cnt s + 1.
Hypothesis G_self : forall s, self < n -> G s self = s.

Lemma counter_segment (m : nat) : forall (a : Z) (s : St),
  0 <= a ->
  a + Z.of_nat m <= n ->
  (self < a \/ a + Z.of_nat m <= self) ->
  arr (foldl G s (seqZ a (Z.of_nat m))) =
    foldl (fun o j => writeAt (j + (cnt s - a)) (val j) o) (arr s)
          (seqZ a (Z.of_nat m)) /\
  cnt (foldl G s (seqZ a (Z.of_nat m))) = cnt s + Z.of_nat m.
Proof.
  induction m as [|m IH]; intros a s H0 Ha Hself.
  - rewrite !seqZ_nil by lia. cbn [foldl]. split; [reflexivity|lia].
  - rewrite !(seqZ_cons _ (Z.of_nat (S m))) by lia.
    replace (Z.pred (Z.of_nat (S m))) with (Z.of_nat m) by lia.
    cbn [foldl]. destruct (G_val s a ltac:(lia) ltac:(lia)) as [Harr Hcnt].
    destruct (IH (Z.succ a) (G s a) ltac:(lia) ltac:(lia) ltac:(lia))
      as [IH1 IH2].
    rewrite IH1, IH2, Harr, Hcnt.
    replace (a + (cnt s - a)) with (cnt s) by lia.
    replace (cnt s + 1 - Z.succ a) with (cnt s - a) by lia.
    split; [reflexivity|lia].
Qed.

Lemma counter_loop_values (total : Z) (s : St) (j : Z) :
  0 <= self < n -> n <= total ->
  cnt s = 0 ->
  0 <= j < n - 1 ->
  (Z.to_nat j < length (arr s))%nat ->
  arr (foldl G s (seqZ 0 total)) !! Z.to_nat j =
  Some (val (if j <? self then j else j + 1)).
Proof.
  intros Hself Hn Hc Hj Hlen.
  replace total with (self + (1 + ((n - self - 1) + (total - n)))) by lia.
  rewrite !seqZ_app by lia. rewrite !foldl_app.
  replace (0 + self) with self by lia.
  replace (self + 1 + (n - self - 1)) with n by lia.
  set (s1 := foldl G s (seqZ 0 self)).
  destruct (counter_segment (Z.to_nat self) 0 s) as [H1a H1c]; [lia|lia|lia|].
  rewrite Z2Nat.id in H1a, H1c by lia. fold s1 in H1a, H1c.
  replace (seqZ self 1) with [self] by reflexivity. cbn [foldl].
  rewrite G_self by lia.
  set (s2 := foldl G s1 (seqZ (self + 1) (n - self - 1))).
  destruct (counter_segment (Z.to_nat (n - self - 1)) (self + 1) s1)
    as [H2a H2c]; [lia|lia|lia|].
  rewrite Z2Nat.id in H2a, H2c by lia. fold s2 in H2a, H2c.
  destruct (counter_pad arr cnt G zero n G_pad (Z.to_nat (total - n)) n s2)
    as [H3 _]; [lia|].
  rewrite Z2Nat.id in H3 by lia. rewrite H3.
  rewrite foldl_writeAt_keep
    by (intros i Hi; apply elem_of_seqZ in Hi; lia).
  rewrite H2a.
  pose proof (foldl_writeAt_shift val (cnt s1 - (self + 1))
                (Z.to_nat (n - self - 1)) (self + 1) (arr s1)) as Hs2.
  rewrite Z2Nat.id in Hs2 by lia. rewrite Hs2. clear Hs2.
  assert (Hlen1 : length (arr s1) = length (arr s)).
  { rewrite H1a.
    pose proof (foldl_writeAt_shift val (cnt s - 0) (Z.to_nat self) 0 (arr s))
      as Hs1.
    rewrite Z2Nat.id in Hs1 by lia. rewrite Hs1.
    apply foldl_writeAt_length. }
  destruct (j <? self) eqn:Hjs.
  - apply Z.ltb_lt in Hjs.
    rewrite foldl_writeAt_keep
      by (intros i Hi; apply elem_of_seqZ in Hi; lia).
    rewrite H1a.
    pose proof (foldl_writeAt_shift val (cnt s - 0) (Z.to_nat self) 0 (arr s))
      as Hs1.
    rewrite Z2Nat.id in Hs1 by lia. rewrite Hs1. clear Hs1.
    rewrite (foldl_writeAt_lookup (fun i => val (i - (cnt s - 0))) _ _ j).
    + f_equal. f_equal. lia.
    + apply elem_of_seqZ. lia.
    + apply Forall_forall. intros i Hi. apply elem_of_seqZ in Hi. lia.
    + exact Hlen.
  - apply Z.ltb_ge in Hjs.
    rewrite (foldl_writeAt_lookup
               (fun i => val (i - (cnt s1 - (self + 1)))) _ _ j).
    + f_equal. f_equal. lia.
    + apply elem_of_seqZ. lia.
    + apply Forall_forall. intros i Hi. apply elem_of_seqZ in Hi. lia.
    + rewrite Hlen1. exact Hlen.
Qed.

End CounterLoopValues.

Section SlotOrder.

Variable ext : Extern.

(** The simulation entity behind an agent interface, as both agent
    loops read it. *)
Lemma agentObsLoop_values (ctx : Engine) (agent_e : Entity)
    (agent_pos : Vector3) (agent_rot : Quat)
    (agent_obs : list AgentObservation) (self j : Z) :
  0 <= self < numActiveAgents (data ctx) ->
  numActiveAgents (data ctx) <= consts.maxAgents ->
  entityAt (agentInterfaces (data ctx)) self = agent_e ->
  (forall i, 0 <= i < numActiveAgents (data ctx) -> i <> self ->
             entityAt (agentInterfaces (data ctx)) i <> agent_e) ->
  length agent_obs = Z.to_nat (consts.maxAgents - 1) ->
  0 <= j < numActiveAgents (data ctx) - 1 ->
  fst (agentObsLoop ext ctx agent_e agent_pos agent_rot agent_obs) !! Z.to_nat j
  = Some (agentObservationOf ext ctx agent_pos agent_rot
            (entityAt (agentInterfaces (data ctx))
                      (if j <? self then j else j + 1))).
Proof.
  intros Hself Hn Hme Hothers Hlen Hj. unfold agentObsLoop.
  apply (counter_loop_values fst snd _
           (fun i => agentObservationOf ext ctx agent_pos agent_rot
                       (entityAt (agentInterfaces (data ctx)) i))
           AgentObservation_zero (numActiveAgents (data ctx)) self).
  - intros [obs c] i Hi. cbn [fst snd].
    replace (i >=? numActiveAgents (data ctx)) with true
      by (symmetry; apply geb_true; lia).
    split; reflexivity.
  - intros [obs c] i Hi Hne. cbn [fst snd].
    replace (i >=? numActiveAgents (data ctx)) with false
      by (symmetry; apply geb_false; lia).
    rewrite decide_False by (intros E; exact (Hothers i Hi Hne (eq_sym E))).
    cbn [fst snd]. split; reflexivity.
  - intros [obs c] Hlt.
    replace (self >=? numActiveAgents (data ctx)) with false
      by (symmetry; apply geb_false; lia).
    rewrite decide_True by (symmetry; exact Hme). reflexivity.
  - exact Hself.
  - exact Hn.
  - reflexivity.
  - exact Hj.
  - cbn [fst]. rewrite Hlen. unfold consts.maxAgents in *. lia.
Qed.

Lemma agentVisLoop_values (ctx : Engine) (agent_e : Entity)
    (agent_type : AgentType) (agent_pos agent_fwd : Vector3)
    (agent_vis : list float) (self j : Z) :
  0 <= self < numActiveAgents (data ctx) ->
  numActiveAgents (data ctx) <= consts.maxAgents ->
  entityAt (agentInterfaces (data ctx)) self = agent_e ->
  (forall i, 0 <= i < numActiveAgents (data ctx) -> i <> self ->
             entityAt (agentInterfaces (data ctx)) i <> agent_e) ->
  length agent_vis = Z.to_nat (consts.maxAgents - 1) ->
  0 <= j < numActiveAgents (data ctx) - 1 ->
  fst (fst (agentVisLoop ext ctx agent_e agent_type agent_pos agent_fwd agent_vis))
    !! Z.to_nat j
  = Some (bool_to_float (float_to_bool
            (checkVisibility ext ctx agent_pos agent_fwd
               (simEntityOf ctx (entityAt (agentInterfaces (data ctx))
                                          (if j <? self then j else j + 1)))))).
Proof.
  intros Hself Hn Hme Hothers Hlen Hj. unfold agentVisLoop.
  apply (counter_loop_values (fun s => fst (fst s)) (fun s => snd (fst s)) _
           (fun i => bool_to_float (float_to_bool
              (checkVisibility ext ctx agent_pos agent_fwd
                 (simEntityOf ctx (entityAt (agentInterfaces (data ctx)) i)))))
           F32.zero (numActiveAgents (data ctx)) self).
  - intros [[vis c] t] i Hi. cbn [fst snd].
    replace (i >=? numActiveAgents (data ctx)) with true
      by (symmetry; apply geb_true; lia).
    split; reflexivity.
  - intros [[vis c] t] i Hi Hne. cbn [fst snd].
    replace (i >=? numActiveAgents (data ctx)) with false
      by (symmetry; apply geb_false; lia).
    rewrite decide_False by (intros E; exact (Hothers i Hi Hne (eq_sym E))).
    cbn [fst snd]. split; reflexivity.
  - intros [[vis c] t] Hlt.
    replace (self >=? numActiveAgents (data ctx)) with false
      by (symmetry; apply geb_false; lia).
    rewrite decide_True by (symmetry; exact Hme). reflexivity.
  - exact Hself.
  - exact Hn.
  - reflexivity.
  - exact Hj.
  - cbn [fst]. rewrite Hlen. unfold consts.maxAgents in *. lia.
Qed.

(** X7. For a live agent stored once, at index [self], among the active
    entries of the agent table, slot [j] of its relative observations and
    slot [j] of its agent visibility mask both describe the agent at table
    index [j] when [j < self] and [j + 1] otherwise: the other agents
    appear in table order with the agent itself left out. *)
Theorem other_agents_in_table_order (ctx : Engine) (agent_e sim_e : Entity)
    (agent_type : AgentType)
    (agent_obs : list AgentObservation) (box_obs : list BoxObservation)
    (ramp_obs : list RampObservation) (prep_counter : Z)
    (agent_vis box_vis ramp_vis : list float) (self j : Z) :
  sim_e <> Entity_none ->
  0 <= self < numActiveAgents (data ctx) ->
  numActiveAgents (data ctx) <= consts.maxAgents ->
  entityAt (agentInterfaces (data ctx)) self = agent_e ->
  (forall i, 0 <= i < numActiveAgents (data ctx) -> i <> self ->
             entityAt (agentInterfaces (data ctx)) i <> agent_e) ->
  length agent_obs = Z.to_nat (consts.maxAgents - 1) ->
  length agent_vis = Z.to_nat (consts.maxAgents - 1) ->
  0 <= j < numActiveAgents (data ctx) - 1 ->
  let other :=
    entityAt (agentInterfaces (data ctx)) (if j <? self then j else j + 1) in
  let agent_pos := position (readDyn ctx sim_e) in
  let agent_rot := rotation (readDyn ctx sim_e) in
  let obs := collectObservationsSystem ext ctx agent_e sim_e
               agent_obs box_obs ramp_obs prep_counter in
  let vis := computeVisibilitySystem ext ctx agent_e sim_e agent_type
               agent_vis box_vis ramp_vis in
  fst (fst (fst obs)) !! Z.to_nat j =
    Some (agentObservationOf ext ctx agent_pos agent_rot other) /\
  snd (fst (fst vis)) !! Z.to_nat j =
    Some (bool_to_float (float_to_bool
            (checkVisibility ext ctx agent_pos
               (rotateVec ext agent_rot math.fwd) (simEntityOf ctx other)))).
Proof.
  intros Hlive Hself Hn Hme Hothers Hlo Hlv Hj. cbv zeta.
  unfold collectObservationsSystem, computeVisibilitySystem.
  rewrite !decide_False by exact Hlive. cbv zeta. split.
  - cbn [fst snd].
    apply (agentObsLoop_values ctx agent_e _ _ agent_obs self j); assumption.
  - pose proof (agentVisLoop_values ctx agent_e agent_type
                  (position (readDyn ctx sim_e))
                  (rotateVec ext (rotation (readDyn ctx sim_e)) math.fwd)
                  agent_vis self j Hself Hn Hme Hothers Hlv Hj) as H.
    destruct (agentVisLoop _ _ _ _ _ _ _) as [[v c] t]. cbn [fst snd] in H |- *.
    exact H.
Qed.

End SlotOrder.

(** The hider of the concrete world is at table index 0, so that its
    first slot describes the seeker at index 1. *)
Lemma other_agents_in_table_order_witness :
  fst (fst (fst (collectObservationsSystem (demo_ext false) (demo_world 0)
                   (Entity_id 0) (Entity_id 10) (agentObs demo_fresh)
                   (boxObs demo_fresh) (rampObs demo_fresh) 0)))
    !! Z.to_nat 0
  = Some (agentObservationOf (demo_ext false) (demo_world 0)
            (position (readDyn (demo_world 0) (Entity_id 10)))
            (rotation (readDyn (demo_world 0) (Entity_id 10)))
            (entityAt (agentInterfaces (data (demo_world 0)))
                      (if 0 <? 0 then 0 else 0 + 1))).
Proof.
  assert (Hn : numActiveAgents (data (demo_world 0)) = 2)
    by (vm_compute; reflexivity).
  assert (Hlive : Entity_id 10 <> Entity_none) by discriminate.
  assert (Hself : 0 <= 0 < numActiveAgents (data (demo_world 0)))
    by (rewrite Hn; lia).
  assert (Hcap : numActiveAgents (data (demo_world 0)) <= consts.maxAgents)
    by (rewrite Hn; vm_compute; discriminate).
  assert (Hme : entityAt (agentInterfaces (data (demo_world 0))) 0 = Entity_id 0)
    by (vm_compute; reflexivity).
  assert (Hothers : forall i, 0 <= i < numActiveAgents (data (demo_world 0)) ->
            i <> 0 ->
            entityAt (agentInterfaces (data (demo_world 0))) i <> Entity_id 0).
  { rewrite Hn. intros i Hi Hne. assert (i = 1) as -> by lia.
    vm_compute. discriminate. }
  assert (Hj : 0 <= 0 < numActiveAgents (data (demo_world 0)) - 1)
    by (rewrite Hn; lia).
  exact (proj1 (other_agents_in_table_order (demo_ext false) (demo_world 0)
                  (Entity_id 0) (Entity_id 10) Hider (agentObs demo_fresh)
                  (boxObs demo_fresh) (rampObs demo_fresh) 0
                  (agentVis demo_fresh) (boxVis demo_fresh) (rampVis demo_fresh)
                  0 0 Hlive Hself Hcap Hme Hothers eq_refl eq_refl Hj)).
Defined.

(** ** Runs of the step task graph *)

Lemma foldl_nextTick_quiet (sv : StaticView) (hs : list HostInput) :
  Forall (fun h => host_reset h = None) hs ->
  IgnoreEpisodeLength (snd sv) = false ->
  forall t, 0 <= t < episodeLen ->
    foldl (nextTick sv) t hs = (t + Z.of_nat (length hs)) mod episodeLen.
Proof.
  intros Hhs Hf. induction Hhs as [|h hs Hh Hhs IH]; intros t Ht.
  - cbn [foldl length]. rewrite Z.add_0_r, Z.mod_small by lia. reflexivity.
  - cbn [foldl length]. rewrite (nextTick_quiet sv t h Hh Hf).
    unfold episodeLen in *.
    destruct (t =? 240 - 1) eqn:E.
    + apply Z.eqb_eq in E. rewrite IH by lia. subst t.
      replace (240 - 1 + Z.of_nat (S (length hs)))
        with (0 + Z.of_nat (length hs) + 1 * 240) by lia.
      rewrite Z.mod_add by lia. reflexivity.
    + apply Z.eqb_neq in E. rewrite IH by lia. f_equal. lia.
Qed.

Lemma foldl_nextTick_unbounded (sv : StaticView) (hs : list HostInput) :
  Forall (fun h => host_reset h = None) hs ->
  IgnoreEpisodeLength (snd sv) = true ->
  forall t, foldl (nextTick sv) t hs = t + Z.of_nat (length hs).
Proof.
  intros Hhs Hf. induction Hhs as [|h hs Hh Hhs IH]; intros t.
  - cbn [foldl length]. lia.
  - cbn [foldl length].
    replace (nextTick sv t h) with (t + 1).
    + rewrite IH. lia.
    + unfold nextTick, tickAfter, requestAfter, episodeOver.
      rewrite Hh, Hf. reflexivity.
Qed.

Lemma hostOk_quiet (hs : list HostInput) :
  Forall (fun h => host_reset h = None) hs -> Forall hostOk hs.
Proof.
  intros H. eapply Forall_impl; [exact H|].
  intros h Hh. left. exact Hh.
Qed.

Section RunProperties.

Variable ext : Extern.
Variable generateDebugEnvironment : Z -> Gen unit.
Variable setupBroadphase : gmap nat DynComponents -> BVH -> BVH.
Variable physicsStep :
  gmap nat DynComponents -> gmap nat FixedJoint -> gmap nat DynComponents.

(** X8. The fallible code of the pipeline, that is the constructor, the
    reset system and the level generator, returns without a fault in a
    world built from a configuration whose team ranges fit the two
    three-entry team tables: the constructor's assertion passes, and in
    every reset that the init task graph or one of the following steps
    runs, at the end of an episode or when the host asks for the training
    level, the team sizes drawn fit the interface slots and the team
    tables, every table write of the generator falls inside its table,
    both assertions on the box counts pass and every sampling loop ends
    within its 21 passes.  After the steps the world invariant holds and
    no reset request is left pending.  The per-agent systems are total
    functions of this development and cannot fault; the theorem says
    nothing on their accesses. *)
Theorem valid_config_never_faults (cfg : Config) (world_idx : Z) (bvh0 : BVH)
    (fresh : AgentInterface) (fuel : nat) (hs : list HostInput) :
  (21 <= fuel)%nat ->
  (forall r s, (length (fst (staticWalls ext r s)) <= 45)%nat) ->
  configValid cfg ->
  Forall hostOk hs ->
  exists ctx0 ctx,
    initWorld ext generateDebugEnvironment setupBroadphase fuel cfg world_idx
              bvh0 fresh = Ok (tt, ctx0) /\
    run ext generateDebugEnvironment setupBroadphase physicsStep fuel hs ctx0
      = Ok (tt, ctx) /\
    worldInv ctx /\
    worldReset ctx = 0 /\
    curEpisodeStep (data ctx0) = 0 /\
    staticView ctx = staticOf cfg.
Proof.
  intros Hfuel Hwalls Hcfg Hhs.
  destruct (pipeline_runs ext generateDebugEnvironment setupBroadphase
              physicsStep cfg world_idx bvh0 fresh fuel hs Hfuel Hwalls Hcfg Hhs)
    as (ctx0 & ctx & Hinit & Hrun & (_ & _ & H0 & _) & (Hinv & Hsv & _ & Hw)).
  exists ctx0, ctx. repeat (split; [assumption|]). assumption.
Qed.

(** X9. A request for the training level written by the host before a
    step restarts the episode in that step, at whatever tick it comes:
    afterwards the tick index is 0 and the request is cleared, and a
    following step without a request moves on to tick 1. *)
Theorem reset_request_restarts_episode (sv : StaticView) (t : Z) (fuel : nat)
    (h h' : HostInput) (ctx : Engine) :
  (21 <= fuel)%nat ->
  (forall r s, (length (fst (staticWalls ext r s)) <= 45)%nat) ->
  runningAt sv t 0 ctx ->
  host_reset h = Some 1 ->
  host_reset h' = None ->
  exists ctx1 ctx2,
    step ext generateDebugEnvironment setupBroadphase physicsStep fuel h ctx
      = Ok (tt, ctx1) /\
    curEpisodeStep (data ctx1) = 0 /\ worldReset ctx1 = 0 /\
    step ext generateDebugEnvironment setupBroadphase physicsStep fuel h' ctx1
      = Ok (tt, ctx2) /\
    curEpisodeStep (data ctx2) = 1 /\ worldReset ctx2 = 0.
Proof.
  intros Hfuel Hwalls Hrun Hh Hh'.
  pose proof (wp_step ext generateDebugEnvironment setupBroadphase physicsStep
                sv t fuel h ctx Hfuel Hwalls
                (or_intror (or_intror Hh)) Hrun) as H1.
  apply wp_run in H1. destruct H1 as ([] & ctx1 & H1 & Hrun1).
  assert (E1 : nextTick sv t h = 0).
  { unfold nextTick, tickAfter, requestAfter. rewrite Hh.
    cbn [Z.eqb negb]. rewrite orb_true_r. reflexivity. }
  rewrite E1 in Hrun1.
  pose proof (wp_step ext generateDebugEnvironment setupBroadphase physicsStep
                sv 0 fuel h' ctx1 Hfuel Hwalls (or_introl Hh') Hrun1) as H2.
  apply wp_run in H2. destruct H2 as ([] & ctx2 & H2 & Hrun2).
  assert (E2 : nextTick sv 0 h' = 1).
  { unfold nextTick, tickAfter, requestAfter, episodeOver. rewrite Hh'.
    cbn [Z.eqb negb]. rewrite andb_false_r. reflexivity. }
  rewrite E2 in Hrun2.
  destruct Hrun1 as (_ & _ & Ht1 & Hw1), Hrun2 as (_ & _ & Ht2 & Hw2).
  exists ctx1, ctx2. repeat (split; [assumption|]). assumption.
Qed.

(** X10. Without the flag [IgnoreEpisodeLength] and without requests
    from the host, the tick index after [n] steps from tick [t] is
    [(t + n) mod 240]: the step task graph restarts the episode by itself
    at the step taken at tick 239, and only there. *)
Theorem episode_restarts_every_240_steps (sv : StaticView) (t : Z)
    (fuel : nat) (hs : list HostInput) (ctx : Engine) :
  (21 <= fuel)%nat ->
  (forall r s, (length (fst (staticWalls ext r s)) <= 45)%nat) ->
  Forall (fun h => host_reset h = None) hs ->
  IgnoreEpisodeLength (snd sv) = false ->
  0 <= t < episodeLen ->
  runningAt sv t 0 ctx ->
  exists ctx',
    run ext generateDebugEnvironment setupBroadphase physicsStep fuel hs ctx
      = Ok (tt, ctx') /\
    curEpisodeStep (data ctx') = (t + Z.of_nat (length hs)) mod episodeLen /\
    worldInv ctx'.
Proof.
  intros Hfuel Hwalls Hhs Hf Ht Hrun.
  pose proof (wp_run_steps ext generateDebugEnvironment setupBroadphase
                physicsStep sv fuel hs Hfuel Hwalls (hostOk_quiet hs Hhs)
                t ctx Hrun) as H.
  apply wp_run in H. destruct H as ([] & ctx' & H & Hinv & _ & Hstep & _).
  exists ctx'. split; [exact H|]. split; [|exact Hinv].
  rewrite Hstep. apply foldl_nextTick_quiet; assumption.
Qed.

(** X11. With the flag [IgnoreEpisodeLength] and without requests from
    the host the episode never restarts: after [n] steps from tick [t]
    the tick index is [t + n], as long as that fits the counter. *)
Theorem ignore_episode_length_never_resets (sv : StaticView) (t : Z)
    (fuel : nat) (hs : list HostInput) (ctx : Engine) :
  (21 <= fuel)%nat ->
  (forall r s, (length (fst (staticWalls ext r s)) <= 45)%nat) ->
  Forall (fun h => host_reset h = None) hs ->
  IgnoreEpisodeLength (snd sv) = true ->
  t + Z.of_nat (length hs) < 2 ^ 31 ->
  runningAt sv t 0 ctx ->
  exists ctx',
    run ext generateDebugEnvironment setupBroadphase physicsStep fuel hs ctx
      = Ok (tt, ctx') /\
    curEpisodeStep (data ctx') = t + Z.of_nat (length hs) /\
    worldInv ctx'.
Proof.
  intros Hfuel Hwalls Hhs Hf _ Hrun.
  pose proof (wp_run_steps ext generateDebugEnvironment setupBroadphase
                physicsStep sv fuel hs Hfuel Hwalls (hostOk_quiet hs Hhs)
                t ctx Hrun) as H.
  apply wp_run in H. destruct H as ([] & ctx' & H & Hinv & _ & Hstep & _).
  exists ctx'. split; [exact H|]. split; [|exact Hinv].
  rewrite Hstep. apply foldl_nextTick_unbounded; assumption.
Qed.

End RunProperties.

(** *** The runs of the concrete world *)

Lemma demo_initWorld_running (cfg : Config) :
  configValid cfg ->
  runningAt (staticOf cfg) 0 0
    (worldOf (initWorld (demo_ext false) demo_debug (fun _ b => b) 21 cfg 0
                        demo_bvh demo_fresh)).
Proof.
  intros Hcfg.
  destruct (pipeline_runs (demo_ext false) demo_debug (fun _ b => b)
              (fun d _ => d) cfg 0 demo_bvh demo_fresh 21 [])
    as (ctx0 & ctx & Hinit & _ & Hrun & _).
  - lia.
  - exact (demo_walls false).
  - exact Hcfg.
  - constructor.
  - rewrite Hinit. exact Hrun.
Qed.

Lemma demo_world_running (n : nat) :
  runningAt (staticOf (demo_cfg 1 1 1 1))
    (foldl (nextTick (staticOf (demo_cfg 1 1 1 1))) 0 (replicate n no_input)) 0
    (demo_world n).
Proof.
  destruct (pipeline_runs (demo_ext false) demo_debug (fun _ b => b)
              (fun d _ => d) (demo_cfg 1 1 1 1) 0 demo_bvh demo_fresh 21
              (replicate n no_input))
    as (ctx0 & ctx & Hinit & Hrun & _ & Hinv).
  - lia.
  - exact (demo_walls false).
  - unfold configValid. cbn. lia.
  - apply Forall_replicate. left. reflexivity.
  - unfold demo_world, demo_run. rewrite Hinit, Hrun. exact Hinv.
Qed.

Lemma demo_cfg_valid (f : SimFlags) :
  configValid (mkConfig f (mkRandKey 7 7) 1 1 1 1).
Proof. unfold configValid. cbn. lia. Qed.

Lemma valid_config_never_faults_witness :
  exists ctx0 ctx,
    initWorld (demo_ext false) demo_debug (fun _ b => b) 21 (demo_cfg 1 1 1 1) 0
              demo_bvh demo_fresh = Ok (tt, ctx0) /\
    run (demo_ext false) demo_debug (fun _ b => b) (fun d _ => d) 21
        (replicate 3 (mkHostInput (Some 1) [Some (mkAction 0 10 5 1 1)])) ctx0
      = Ok (tt, ctx) /\
    worldInv ctx /\
    worldReset ctx = 0 /\
    curEpisodeStep (data ctx0) = 0 /\
    staticView ctx = staticOf (demo_cfg 1 1 1 1).
Proof.
  apply (valid_config_never_faults (demo_ext false) demo_debug (fun _ b => b)
           (fun d _ => d) (demo_cfg 1 1 1 1) 0 demo_bvh demo_fresh 21).
  - lia.
  - exact (demo_walls false).
  - exact (demo_cfg_valid (mkSimFlags false false)).
  - apply Forall_replicate. right. right. reflexivity.
Defined.

Lemma reset_request_restarts_episode_witness :
  exists ctx1 ctx2,
    step (demo_ext false) demo_debug (fun _ b => b) (fun d _ => d) 21
         (mkHostInput (Some 1) []) (demo_world 5) = Ok (tt, ctx1) /\
    curEpisodeStep (data ctx1) = 0 /\ worldReset ctx1 = 0 /\
    step (demo_ext false) demo_debug (fun _ b => b) (fun d _ => d) 21
         no_input ctx1 = Ok (tt, ctx2) /\
    curEpisodeStep (data ctx2) = 1 /\ worldReset ctx2 = 0.
Proof.
  apply (reset_request_restarts_episode (demo_ext false) demo_debug
           (fun _ b => b) (fun d _ => d) (staticOf (demo_cfg 1 1 1 1)) 5 21).
  - lia.
  - exact (demo_walls false).
  - exact (demo_world_running 5).
  - reflexivity.
  - reflexivity.
Defined.

Lemma episode_restarts_every_240_steps_witness :
  exists ctx',
    run (demo_ext false) demo_debug (fun _ b => b) (fun d _ => d) 21
        (replicate 241 no_input) (demo_world 0) = Ok (tt, ctx') /\
    curEpisodeStep (data ctx') =
      (0 + Z.of_nat (length (replicate 241 no_input))) mod episodeLen /\
    worldInv ctx'.
Proof.
  apply (episode_restarts_every_240_steps (demo_ext false) demo_debug
           (fun _ b => b) (fun d _ => d) (staticOf (demo_cfg 1 1 1 1)) 0 21).
  - lia.
  - exact (demo_walls false).
  - apply Forall_replicate. reflexivity.
  - reflexivity.
  - unfold episodeLen. lia.
  - exact (demo_world_running 0).
Defined.

Lemma ignore_episode_length_never_resets_witness :
  exists ctx',
    run (demo_ext false) demo_debug (fun _ b => b) (fun d _ => d) 21
        (replicate 241 no_input)
        (worldOf (initWorld (demo_ext false) demo_debug (fun _ b => b) 21
                    (mkConfig (mkSimFlags false true) (mkRandKey 7 7) 1 1 1 1)
                    0 demo_bvh demo_fresh))
      = Ok (tt, ctx') /\
    curEpisodeStep (data ctx') = 0 + Z.of_nat (length (replicate 241 no_input)) /\
    worldInv ctx'.
Proof.
  apply (ignore_episode_length_never_resets (demo_ext false) demo_debug
           (fun _ b => b) (fun d _ => d)
           (staticOf (mkConfig (mkSimFlags false true) (mkRandKey 7 7) 1 1 1 1))
           0 21).
  - lia.
  - exact (demo_walls false).
  - apply Forall_replicate. reflexivity.
  - reflexivity.
  - rewrite length_replicate. lia.
  - exact (demo_initWorld_running _ (demo_cfg_valid (mkSimFlags false true))).
Defined.

(** ** The reset of a world *)

Lemma destroyedFrom_refl (c : Engine) : destroyedFrom c c.
Proof. repeat (split; [reflexivity|]). reflexivity. Qed.

Lemma destroyedFrom_trans (a b c : Engine) :
  destroyedFrom a b -> destroyedFrom b c -> destroyedFrom a c.
Proof.
  intros (A1 & A2 & A3 & A4 & A5 & A6 & A7 & A8 & A9)
         (B1 & B2 & B3 & B4 & B5 & B6 & B7 & B8 & B9).
  repeat (split; [congruence|]). etrans; eassumption.
Qed.

Lemma destroyRenderableEntity_dyn (e : Entity) (c : Engine) (n : nat) :
  dynEntities (destroyRenderableEntity e c) !! n =
  if decide (e = Entity_id n) then None else dynEntities c !! n.
Proof.
  destruct e as [|m]; cbn [destroyRenderableEntity].
  - rewrite decide_False by discriminate. reflexivity.
  - cbn [set_dynEntities dynEntities].
    destruct (decide (Entity_id m = Entity_id n)) as [E|E].
    + injection E as ->. apply lookup_delete_eq.
    + apply lookup_delete_ne. congruence.
Qed.

Lemma destroyRenderableEntity_destroyed (e : Entity) (c : Engine) :
  destroyedFrom c (destroyRenderableEntity e c).
Proof. destruct e; repeat (split; [reflexivity|]); reflexivity. Qed.

Lemma destroyConstraint_destroyed (j : Entity) (c : Engine) :
  destroyedFrom c (destroyConstraint j c) /\
  dynEntities (destroyConstraint j c) = dynEntities c.
Proof.
  destruct j as [|m]; [split; [apply destroyedFrom_refl|reflexivity]|].
  split; [|reflexivity]. repeat (split; [reflexivity|]).
  cbn [destroyConstraint set_constraints constraints]. apply delete_subseteq.
Qed.

Lemma destroyAgent_dyn (e : Entity) (c : Engine) (n : nat) :
  dynEntities (destroyAgent e c) !! n =
  if decide (e = Entity_id n) then None else dynEntities c !! n.
Proof.
  unfold destroyAgent.
  destruct (getDyn c e) as [x|]; [|apply destroyRenderableEntity_dyn].
  destruct (grabData x) as [j|]; [|apply destroyRenderableEntity_dyn].
  rewrite destroyRenderableEntity_dyn.
  rewrite (proj2 (destroyConstraint_destroyed j c)). reflexivity.
Qed.

Lemma destroyAgent_destroyed (e : Entity) (c : Engine) :
  destroyedFrom c (destroyAgent e c).
Proof.
  unfold destroyAgent.
  destruct (getDyn c e) as [x|]; [|apply destroyRenderableEntity_destroyed].
  destruct (grabData x) as [j|]; [|apply destroyRenderableEntity_destroyed].
  eapply destroyedFrom_trans;
    [apply (proj1 (destroyConstraint_destroyed j c))
    |apply destroyRenderableEntity_destroyed].
Qed.

Lemma destroyAgent_joint (e : Entity) (c : Engine) (n j : nat)
    (x : DynComponents) :
  e = Entity_id n -> dynEntities c !! n = Some x ->
  grabData x = Some (Entity_id j) ->
  constraints (destroyAgent e c) !! j = None.
Proof.
  intros -> Hx Hg. unfold destroyAgent. cbn [getDyn]. rewrite Hx, Hg.
  cbn [destroyConstraint destroyRenderableEntity set_dynEntities
       set_constraints constraints].
  apply lookup_delete_eq.
Qed.

Lemma destroyedFrom_joint (c c' : Engine) (j : nat) :
  destroyedFrom c c' -> constraints c !! j = None -> constraints c' !! j = None.
Proof.
  intros (_ & _ & _ & _ & _ & _ & _ & _ & Hsub) Hj.
  destruct (constraints c' !! j) as [y|] eqn:E; [|reflexivity].
  rewrite (lookup_weaken _ _ _ _ E Hsub) in Hj. discriminate Hj.
Qed.

(** A loop that destroys the entities of a table. *)
Lemma destroy_loop (tbl : Sim -> list Entity) (f : Entity -> Engine -> Engine) :
  (forall e c, destroyedFrom c (f e c)) ->
  (forall e c n, dynEntities (f e c) !! n =
                 if decide (e = Entity_id n) then None else dynEntities c !! n) ->
  forall (l : list Z) (c : Engine),
    let c' := foldl (fun c i => f (entityAt (tbl (data c)) i) c) c l in
    destroyedFrom c c' /\
    forall n, dynEntities c' !! n =
              if decide (Entity_id n ∈ (entityAt (tbl (data c)) <$> l))
              then None else dynEntities c !! n.
Proof.
  intros Hf Hd. induction l as [|a l IH]; intros c; cbv zeta.
  - split; [apply destroyedFrom_refl|]. intros n. cbn [foldl fmap list_fmap].
    rewrite decide_False by apply not_elem_of_nil. reflexivity.
  - cbn [foldl]. set (c1 := f (entityAt (tbl (data c)) a) c).
    destruct (IH c1) as [H1 H2].
    pose proof (Hf (entityAt (tbl (data c)) a) c) as H0. fold c1 in H0.
    split; [exact (destroyedFrom_trans _ _ _ H0 H1)|].
    intros n. rewrite H2.
    replace (data c1) with (data c) by (symmetry; apply H0).
    unfold c1. rewrite Hd.
    rewrite fmap_cons.
    destruct (decide (Entity_id n ∈ entityAt (tbl (data c)) <$> l)) as [E|E].
    + rewrite decide_True by (right; exact E). reflexivity.
    + destruct (decide (entityAt (tbl (data c)) a = Entity_id n)) as [E'|E'].
      * rewrite decide_True by (rewrite E'; left). reflexivity.
      * rewrite decide_False; [reflexivity|].
        intros H. apply elem_of_cons in H. destruct H as [H|H]; congruence.
Qed.

(** The loop over a team table destroys the joint of every agent that
    is still there when the loop starts. *)
Lemma destroyAgent_loop_joint (tbl : Sim -> list Entity) (n j : nat)
    (x : DynComponents) :
  grabData x = Some (Entity_id j) ->
  forall (l : list Z) (c : Engine),
    dynEntities c !! n = Some x ->
    Entity_id n ∈ (entityAt (tbl (data c)) <$> l) ->
    constraints
      (foldl (fun c i => destroyAgent (entityAt (tbl (data c)) i) c) c l) !! j
    = None.
Proof.
  intros Hg. induction l as [|a l IH]; intros c Hx Hin.
  - apply elem_of_nil in Hin. destruct Hin.
  - cbn [foldl]. set (c1 := destroyAgent (entityAt (tbl (data c)) a) c).
    pose proof (destroyAgent_destroyed (entityAt (tbl (data c)) a) c) as H0.
    fold c1 in H0.
    destruct (decide (entityAt (tbl (data c)) a = Entity_id n)) as [E|E].
    + pose proof (destroyAgent_joint _ c n j x E Hx Hg) as Hj. fold c1 in Hj.
      destruct (destroy_loop tbl destroyAgent destroyAgent_destroyed
                  destroyAgent_dyn l c1) as [H1 _].
      exact (destroyedFrom_joint _ _ j H1 Hj).
    + apply IH.
      * unfold c1. rewrite destroyAgent_dyn, decide_False by exact E. exact Hx.
      * replace (data c1) with (data c) by (symmetry; apply H0).
        rewrite fmap_cons in Hin. apply elem_of_cons in Hin.
        destruct Hin as [Hin|Hin]; [congruence|exact Hin].
Qed.

Section ResetProperties.

Variable ext : Extern.

(** The world just before [initEpisodeRNG] in [resetEnvironment]. *)
Lemma resetEnvironment_split (ctx : Engine) :
  exists c,
    resetEnvironment ext ctx = initEpisodeRNG ext c /\
    data c = clearCounters (data ctx) /\
    interfaces c = interfaces ctx /\
    nextEntity c = nextEntity ctx /\
    loadCheckpoint c = loadCheckpoint ctx /\
    checkpoint c = checkpoint ctx /\ worldID c = worldID ctx /\
    constraints c ⊆ constraints ctx /\
    (forall n, dynEntities c !! n =
               if decide (Entity_id n ∈ registeredEntities ctx)
               then None else dynEntities ctx !! n) /\
    (forall n j x,
       dynEntities ctx !! n = Some x -> grabData x = Some (Entity_id j) ->
       Entity_id n ∈ registeredAgents ctx ->
       Entity_id n ∉ registeredObstacles ctx ->
       constraints c !! j = None).
Proof.
  unfold resetEnvironment.
  set (c1 := updData (set_curEpisodeStep 0) ctx).
  destruct (destroy_loop obstacles destroyRenderableEntity
              destroyRenderableEntity_destroyed destroyRenderableEntity_dyn
              (seqZ 0 (numObstacles (data c1))) c1) as [F2 D2].
  set (c2 := foldl _ c1 _) in *.
  set (c3 := updData (set_numActiveRamps 0)
               (updData (set_numActiveBoxes 0) (updData (set_numObstacles 0) c2))).
  destruct (destroy_loop hiders destroyAgent
              destroyAgent_destroyed destroyAgent_dyn
              (seqZ 0 (numHiders (data c3))) c3) as [F4 D4].
  pose proof (destroyAgent_loop_joint hiders) as J4.
  specialize (fun n j x Hg => J4 n j x Hg (seqZ 0 (numHiders (data c3))) c3).
  set (c4 := foldl _ c3 _) in *.
  set (c5 := updData (set_numHiders 0) c4).
  destruct (destroy_loop seekers destroyAgent
              destroyAgent_destroyed destroyAgent_dyn
              (seqZ 0 (numSeekers (data c5))) c5) as [F6 D6].
  pose proof (destroyAgent_loop_joint seekers) as J6.
  specialize (fun n j x Hg => J6 n j x Hg (seqZ 0 (numSeekers (data c5))) c5).
  set (c6 := foldl _ c5 _) in *.
  exists (updData (set_numActiveAgents 0) (updData (set_numSeekers 0) c6)).
  split; [reflexivity|].
  clearbody c6. clearbody c4. clearbody c2.
  assert (E2 : data c2 = set_curEpisodeStep 0 (data ctx)) by apply F2.
  assert (E3 : data c3 = set_numActiveRamps 0 (set_numActiveBoxes 0
                 (set_numObstacles 0 (set_curEpisodeStep 0 (data ctx))))).
  { subst c3. cbn [updData set_data data]. rewrite E2. reflexivity. }
  assert (E4 : data c4 = data c3) by apply F4.
  assert (E5 : data c5 = set_numHiders 0 (data c3)).
  { subst c5. cbn [updData set_data data]. rewrite E4. reflexivity. }
  assert (L2 : entityAt (obstacles (data c1)) <$> seqZ 0 (numObstacles (data c1))
               = registeredObstacles ctx) by reflexivity.
  assert (L4 : entityAt (hiders (data c3)) <$> seqZ 0 (numHiders (data c3))
               = entityAt (hiders (data ctx)) <$> seqZ 0 (numHiders (data ctx)))
    by (rewrite E3; reflexivity).
  assert (L6 : entityAt (seekers (data c5)) <$> seqZ 0 (numSeekers (data c5))
               = entityAt (seekers (data ctx)) <$> seqZ 0 (numSeekers (data ctx)))
    by (rewrite E5, E3; reflexivity).
  rewrite L2 in D2. rewrite L4 in D4, J4. rewrite L6 in D6, J6.
  assert (N3 : forall n, dynEntities c3 !! n =
                 if decide (Entity_id n ∈ registeredObstacles ctx)
                 then None else dynEntities ctx !! n).
  { intros n. exact (D2 n). }
  assert (N5 : forall n, dynEntities c5 !! n = dynEntities c4 !! n)
    by reflexivity.
  destruct F2 as (A1 & A2 & A3 & A4 & A5 & A6 & A7 & A8 & A9).
  destruct F4 as (B1 & B2 & B3 & B4 & B5 & B6 & B7 & B8 & B9).
  assert (F6' := F6).
  destruct F6' as (C1 & C2 & C3 & C4 & C5 & C6 & C7 & C8 & C9).
  cbn [updData set_data data dynEntities interfaces nextEntity bvh worldReset
       loadCheckpoint checkpoint worldID constraints].
  split; [rewrite C1, E5, E3; reflexivity|].
  split; [rewrite C2; cbn; rewrite B2; cbn; rewrite A2; reflexivity|].
  split; [rewrite C3; cbn; rewrite B3; cbn; rewrite A3; reflexivity|].
  split; [rewrite C6; cbn; rewrite B6; cbn; rewrite A6; reflexivity|].
  split; [rewrite C7; cbn; rewrite B7; cbn; rewrite A7; reflexivity|].
  split; [rewrite C8; cbn; rewrite B8; cbn; rewrite A8; reflexivity|].
  split.
  { etrans; [exact C9|]. cbn. etrans; [exact B9|]. cbn. exact A9. }
  split.
  - intros n. rewrite D6, N5, D4, N3.
    unfold registeredEntities, registeredAgents.
    set (lo := registeredObstacles ctx).
    set (lh := entityAt (hiders (data ctx)) <$> _).
    set (ls := entityAt (seekers (data ctx)) <$> _).
    destruct (decide (Entity_id n ∈ ls)) as [Es|Es];
      [rewrite decide_True by (rewrite !elem_of_app; tauto); reflexivity|].
    destruct (decide (Entity_id n ∈ lh)) as [Eh|Eh];
      [rewrite decide_True by (rewrite !elem_of_app; tauto); reflexivity|].
    destruct (decide (Entity_id n ∈ lo)) as [Eo|Eo];
      [rewrite decide_True by (rewrite !elem_of_app; tauto); reflexivity|].
    rewrite decide_False by (rewrite !elem_of_app; tauto). reflexivity.
  - intros n j x Hx Hg Hin Hout.
    assert (H3 : dynEntities c3 !! n = Some x).
    { rewrite N3, decide_False by exact Hout. exact Hx. }
    unfold registeredAgents in Hin.
    destruct (decide (Entity_id n ∈
                entityAt (hiders (data ctx)) <$> seqZ 0 (numHiders (data ctx))))
      as [Eh|Eh].
    + apply (destroyedFrom_joint c5 c6 j F6).
      exact (J4 n j x Hg H3 Eh).
    + apply elem_of_app in Hin. destruct Hin as [Hin|Hin]; [contradiction|].
      apply (J6 n j x Hg); [|exact Hin].
      rewrite N5, D4, decide_False by exact Eh. exact H3.
Qed.

Lemma initEpisodeRNG_dyn (c : Engine) :
  dynEntities (initEpisodeRNG ext c) = dynEntities c.
Proof.
  unfold initEpisodeRNG.
  destruct (UseFixedWorld _); [reflexivity|].
  destruct (loadCheckpoint c =? 1); reflexivity.
Qed.

Lemma resetEnvironment_dyn (ctx : Engine) (n : nat) :
  dynEntities (resetEnvironment ext ctx) !! n =
  if decide (Entity_id n ∈ registeredEntities ctx)
  then None else dynEntities ctx !! n.
Proof.
  destruct (resetEnvironment_split ctx) as (c & -> & _ & _ & _ & _ & _ & _ & _ & D & _).
  rewrite initEpisodeRNG_dyn. apply D.
Qed.

(** X12. [resetEnvironment] removes exactly the physics entities that
    the obstacle table and the two team tables register and keeps every
    other one as it is; afterwards the tables register nothing.  The
    interface entities are not touched, no joint is added, and the joint
    of every registered agent is destroyed with it. *)
Theorem reset_destroys_registered (ctx : Engine) :
  let ctx' := resetEnvironment ext ctx in
  (forall n, dynEntities ctx' !! n =
             if decide (Entity_id n ∈ registeredEntities ctx)
             then None else dynEntities ctx !! n) /\
  registeredEntities ctx' = [] /\
  interfaces ctx' = interfaces ctx /\
  nextEntity ctx' = nextEntity ctx /\
  constraints ctx' ⊆ constraints ctx /\
  (forall n j x,
     dynEntities ctx !! n = Some x -> grabData x = Some (Entity_id j) ->
     Entity_id n ∈ registeredAgents ctx ->
     Entity_id n ∉ registeredObstacles ctx ->
     constraints ctx' !! j = None).
Proof.
  cbv zeta.
  destruct (resetEnvironment_split ctx)
    as (c & -> & C1 & C2 & C3 & C6 & C7 & C8 & C9 & D & J).
  pose proof initEpisodeRNG_dyn as Hd.
  assert (Hc : forall c0, constraints (initEpisodeRNG ext c0) = constraints c0).
  { intros c0. unfold initEpisodeRNG.
    destruct (UseFixedWorld _); [reflexivity|].
    destruct (loadCheckpoint c0 =? 1); reflexivity. }
  assert (Hn : forall c0, nextEntity (initEpisodeRNG ext c0) = nextEntity c0).
  { intros c0. unfold initEpisodeRNG.
    destruct (UseFixedWorld _); [reflexivity|].
    destruct (loadCheckpoint c0 =? 1); reflexivity. }
  pose proof (initEpisodeRNG_view ext c) as Hv.
  unfold resetView in Hv. injection Hv; intros.
  split; [intros n; rewrite Hd; apply D|].
  split.
  { unfold registeredEntities, registeredObstacles, registeredAgents.
    replace (numObstacles (data (initEpisodeRNG ext c))) with 0
      by (symmetry; etrans; [eassumption|rewrite C1; reflexivity]).
    replace (numHiders (data (initEpisodeRNG ext c))) with 0
      by (symmetry; etrans; [eassumption|rewrite C1; reflexivity]).
    replace (numSeekers (data (initEpisodeRNG ext c))) with 0
      by (symmetry; etrans; [eassumption|rewrite C1; reflexivity]).
    reflexivity. }
  split; [etrans; [eassumption|exact C2]|].
  split; [rewrite Hn; exact C3|].
  split; [rewrite Hc; exact C9|].
  intros n j x Hx Hg Hin Hout. rewrite Hc. exact (J n j x Hx Hg Hin Hout).
Qed.

Lemma initEpisodeRNG_key (c : Engine) :
  let c' := initEpisodeRNG ext c in
  let key := curEpisodeRNDCounter (data c') in
  rng (data c') =
    mkRNG (split_i ext (initRandKey (data c)) (rk_a key) (rk_b key)) 0 /\
  initRandKey (data c') = initRandKey (data c) /\
  (UseFixedWorld (simFlags (data c)) = true ->
     key = mkRandKey 0 0 /\
     curWorldEpisode (data c') = curWorldEpisode (data c)) /\
  (UseFixedWorld (simFlags (data c)) = false -> loadCheckpoint c = 1 ->
     key = checkpoint c /\
     curWorldEpisode (data c') = curWorldEpisode (data c)) /\
  (UseFixedWorld (simFlags (data c)) = false -> loadCheckpoint c <> 1 ->
     key = mkRandKey (curWorldEpisode (data c)) (worldID c) /\
     curWorldEpisode (data c') = curWorldEpisode (data c) + 1).
Proof.
  cbv zeta. unfold initEpisodeRNG.
  destruct (UseFixedWorld (simFlags (data c))) eqn:Ef.
  - split; [reflexivity|]. split; [reflexivity|].
    split; [intros _; split; reflexivity|].
    split; intros Hf; discriminate Hf.
  - destruct (loadCheckpoint c =? 1) eqn:El.
    + apply Z.eqb_eq in El.
      split; [reflexivity|]. split; [reflexivity|].
      split; [intros Hf; discriminate Hf|].
      split; [intros _ _; split; reflexivity|].
      intros _ Hne. contradiction.
    + apply Z.eqb_neq in El.
      split; [reflexivity|]. split; [reflexivity|].
      split; [intros Hf; discriminate Hf|].
      split; [intros _ He; contradiction|].
      intros _ _. split; reflexivity.
Qed.

(** X13. The episode key that [resetEnvironment] installs: the fixed
    key (0, 0) under [UseFixedWorld], else the checkpoint key when a
    checkpoint load is requested, else the pair of the episode count and
    the world index; only the last case advances the episode count.  The
    random stream restarts from the split of the initial key by the
    episode key.  The episode count is a 32-bit counter and the world
    index a non-negative [int32_t]; the statement is for values below the
    wrap-around. *)
Theorem episode_key_selection (ctx : Engine) :
  0 <= curWorldEpisode (data ctx) < 2 ^ 32 - 1 ->
  0 <= worldID ctx < 2 ^ 31 ->
  let ctx' := resetEnvironment ext ctx in
  let key := curEpisodeRNDCounter (data ctx') in
  rng (data ctx') =
    mkRNG (split_i ext (initRandKey (data ctx)) (rk_a key) (rk_b key)) 0 /\
  initRandKey (data ctx') = initRandKey (data ctx) /\
  (UseFixedWorld (simFlags (data ctx)) = true ->
     key = mkRandKey 0 0 /\
     curWorldEpisode (data ctx') = curWorldEpisode (data ctx)) /\
  (UseFixedWorld (simFlags (data ctx)) = false -> loadCheckpoint ctx = 1 ->
     key = checkpoint ctx /\
     curWorldEpisode (data ctx') = curWorldEpisode (data ctx)) /\
  (UseFixedWorld (simFlags (data ctx)) = false -> loadCheckpoint ctx <> 1 ->
     key = mkRandKey (curWorldEpisode (data ctx)) (worldID ctx) /\
     curWorldEpisode (data ctx') = curWorldEpisode (data ctx) + 1).
Proof.
  intros _ _. cbv zeta.
  destruct (resetEnvironment_split ctx)
    as (c & -> & C1 & _ & _ & C6 & C7 & C8 & _).
  pose proof (initEpisodeRNG_key c) as H. cbv zeta in H.
  rewrite C1, C6, C7, C8 in H. exact H.
Qed.

End ResetProperties.

Lemma episode_key_selection_witness :
  curEpisodeRNDCounter (data (resetEnvironment (demo_ext false) (demo_world 0)))
  = mkRandKey (curWorldEpisode (data (demo_world 0))) (worldID (demo_world 0)).
Proof.
  assert (E : curWorldEpisode (data (demo_world 0)) = 1)
    by (vm_compute; reflexivity).
  assert (W : worldID (demo_world 0) = 0) by (vm_compute; reflexivity).
  assert (H1 : 0 <= curWorldEpisode (data (demo_world 0)) < 2 ^ 32 - 1)
    by (rewrite E; lia).
  assert (H2 : 0 <= worldID (demo_world 0) < 2 ^ 31) by (rewrite W; lia).
  assert (Hf : UseFixedWorld (simFlags (data (demo_world 0))) = false)
    by (vm_compute; reflexivity).
  assert (Hl : loadCheckpoint (demo_world 0) <> 1)
    by (vm_compute; discriminate).
  exact (proj1 (proj2 (proj2 (proj2 (proj2
           (episode_key_selection (demo_ext false) (demo_world 0) H1 H2))))
           Hf Hl)).
Defined.

(** ** The debug export of positions *)

Lemma offset_loop {A : Type} (val : Z -> A) (m : nat) :
  forall (a : Z) (arr : list A) (off : Z),
    foldl (fun '(ap, o) i => (writeAt o (val i) ap, o + 1)) (arr, off)
          (seqZ a (Z.of_nat m))
    = (foldl (fun ap i => writeAt i (val (i - (off - a))) ap) arr
             (seqZ off (Z.of_nat m)),
       off + Z.of_nat m).
Proof.
  induction m as [|m IH]; intros a arr off.
  - rewrite !seqZ_nil by lia. cbn [foldl]. f_equal. lia.
  - rewrite !(seqZ_cons _ (Z.of_nat (S m))) by lia.
    replace (Z.pred (Z.of_nat (S m))) with (Z.of_nat m) by lia.
    cbn [foldl]. replace (off + 1) with (Z.succ off) by lia. rewrite IH.
    replace (off - (off - a)) with a by lia.
    replace (Z.succ off - Z.succ a) with (off - a) by lia.
    f_equal. lia.
Qed.

(** The padding loop zeroes the slots at an even distance from its first
    index and no other slot. *)
Lemma padAgentPositions_lookup (passes : nat) :
  forall (off : Z) (pos : list Vector2) (k : Z),
    0 <= off -> 0 <= k ->
    consts.maxAgents - off <= Z.of_nat passes ->
    (Z.to_nat k < length pos)%nat ->
    padAgentPositions passes off pos !! Z.to_nat k =
    if (off <=? k) && (k <? consts.maxAgents) && Z.even (k - off)
    then Some Vector2_zero else pos !! Z.to_nat k.
Proof.
  induction passes as [|p IH]; intros off pos k Hoff Hk Hp Hlen.
  - cbn [padAgentPositions]. unfold consts.maxAgents in *.
    destruct (Z.leb_spec off k); destruct (Z.ltb_spec k 16);
      cbn [andb]; try reflexivity; lia.
  - cbn [padAgentPositions].
    destruct (Z.ltb_spec off consts.maxAgents) as [Hlt|Hge].
    + cbv zeta. rewrite IH; [|lia|lia|lia|rewrite length_writeAt; exact Hlen].
      destruct (decide (k = off)) as [->|Hne].
      * replace (off + 1 + 1 <=? off) with false by (symmetry; apply Z.leb_gt; lia).
        cbn [andb]. rewrite Z.leb_refl.
        replace (off <? consts.maxAgents) with true
          by (symmetry; apply Z.ltb_lt; lia).
        rewrite Z.sub_diag. cbn [andb Z.even].
        unfold writeAt. apply list_lookup_insert_eq. exact Hlen.
      * unfold writeAt.
        rewrite list_lookup_insert_ne by (intros E; apply Hne; lia).
        destruct (Z.leb_spec (off + 1 + 1) k) as [H2|H2].
        -- replace (off <=? k) with true by (symmetry; apply Z.leb_le; lia).
           replace (k - off) with (Z.succ (Z.succ (k - (off + 1 + 1)))) by lia.
           rewrite Z.even_succ_succ. reflexivity.
        -- cbn [andb].
           destruct (Z.leb_spec off k) as [H3|H3]; [|reflexivity].
           assert (k = off + 1) as -> by lia.
           replace (off + 1 - off) with 1 by lia. cbn [Z.even].
           rewrite andb_false_r. reflexivity.
    + destruct (Z.leb_spec off k); destruct (Z.ltb_spec k consts.maxAgents);
        cbn [andb]; try reflexivity; lia.
Qed.

Lemma foldl_writeAt_at {A : Type} (g : Z -> A) (a n : Z) (arr : list A) (k : Z) :
  0 <= a ->
  (Z.to_nat k < length arr)%nat -> 0 <= k ->
  foldl (fun ap i => writeAt i (g i) ap) arr (seqZ a n) !! Z.to_nat k =
  if (a <=? k) && (k <? a + n) then Some (g k) else arr !! Z.to_nat k.
Proof.
  intros Ha Hlen Hk.
  destruct (Z.leb_spec a k) as [H1|H1];
    [destruct (Z.ltb_spec k (a + n)) as [H2|H2]|]; cbn [andb].
  - apply foldl_writeAt_lookup; [apply elem_of_seqZ; lia| |exact Hlen].
    apply Forall_forall. intros i Hi. apply elem_of_seqZ in Hi. lia.
  - apply foldl_writeAt_keep. intros i Hi. apply elem_of_seqZ in Hi. lia.
  - apply foldl_writeAt_keep. intros i Hi. apply elem_of_seqZ in Hi. lia.
Qed.

(** X14. The debug export: box and ramp slots hold the position of the
    object or zero past the active count; the agent slots hold the
    hiders, then the seekers; and of the remaining agent slots only those
    at an even distance from the first free one are zeroed, the others
    keep what they held, because the padding loop advances its index
    twice per pass. *)
Theorem global_positions_padding (ctx : Engine) (gp : GlobalDebugPositions) :
  0 <= numHiders (data ctx) -> 0 <= numSeekers (data ctx) ->
  numHiders (data ctx) + numSeekers (data ctx) <= consts.maxAgents ->
  length (boxPositions gp) = Z.to_nat consts.maxBoxes ->
  length (rampPositions gp) = Z.to_nat consts.maxRamps ->
  length (agentPositions gp) = Z.to_nat consts.maxAgents ->
  let gp' := globalPositionsDebugSystem ctx gp in
  let n := numHiders (data ctx) + numSeekers (data ctx) in
  (forall i, 0 <= i < consts.maxBoxes ->
     boxPositions gp' !! Z.to_nat i =
     Some (if i >=? numActiveBoxes (data ctx) then Vector2_zero
           else getXY (position (readDyn ctx (entityAt (boxes (data ctx)) i))))) /\
  (forall i, 0 <= i < consts.maxRamps ->
     rampPositions gp' !! Z.to_nat i =
     Some (if i >=? numActiveRamps (data ctx) then Vector2_zero
           else getXY (position (readDyn ctx (entityAt (ramps (data ctx)) i))))) /\
  (forall k, 0 <= k < numHiders (data ctx) ->
     agentPositions gp' !! Z.to_nat k =
     Some (getXY (position (readDyn ctx (entityAt (hiders (data ctx)) k))))) /\
  (forall k, numHiders (data ctx) <= k < n ->
     agentPositions gp' !! Z.to_nat k =
     Some (getXY (position (readDyn ctx
             (entityAt (seekers (data ctx)) (k - numHiders (data ctx))))))) /\
  (forall k, n <= k < consts.maxAgents ->
     agentPositions gp' !! Z.to_nat k =
     if Z.even (k - n) then Some Vector2_zero
     else agentPositions gp !! Z.to_nat k).
Proof.
  intros Hh Hs Hn Hlb Hlr Hla. cbv zeta.
  unfold globalPositionsDebugSystem.
  pose proof (offset_loop
    (fun i => getXY (position (readDyn ctx (entityAt (hiders (data ctx)) i))))
    (Z.to_nat (numHiders (data ctx))) 0 (agentPositions gp) 0) as E1.
  rewrite Z2Nat.id in E1 by lia. rewrite E1. clear E1.
  pose proof (offset_loop
    (fun i => getXY (position (readDyn ctx (entityAt (seekers (data ctx)) i))))
    (Z.to_nat (numSeekers (data ctx))) 0) as E2.
  rewrite Z2Nat.id in E2 by lia. rewrite E2. clear E2.
  cbn [boxPositions rampPositions agentPositions].
  replace (0 + numHiders (data ctx)) with (numHiders (data ctx)) by lia.
  cbv beta.
  pose (vh := fun i => getXY (position (readDyn ctx
                         (entityAt (hiders (data ctx)) (i - (0 - 0)))))).
  pose (vs := fun i => getXY (position (readDyn ctx
                         (entityAt (seekers (data ctx))
                                   (i - (numHiders (data ctx) - 0)))))).
  change (fun (ap : list Vector2) (i : Z) =>
            writeAt i (getXY (position (readDyn ctx
              (entityAt (hiders (data ctx)) (i - (0 - 0)))))) ap)
    with (fun (ap : list Vector2) (i : Z) => writeAt i (vh i) ap).
  change (fun (ap : list Vector2) (i : Z) =>
            writeAt i (getXY (position (readDyn ctx
              (entityAt (seekers (data ctx))
                        (i - (numHiders (data ctx) - 0)))))) ap)
    with (fun (ap : list Vector2) (i : Z) => writeAt i (vs i) ap).
  set (a1 := foldl (fun ap i => writeAt i (vh i) ap) (agentPositions gp) _).
  set (a2 := foldl (fun ap i => writeAt i (vs i) ap) a1 _).
  assert (L1 : length a1 = length (agentPositions gp))
    by apply foldl_writeAt_length.
  assert (L2 : length a2 = length (agentPositions gp))
    by (unfold a2; rewrite foldl_writeAt_length; exact L1).
  assert (Hpad : forall k, 0 <= k < consts.maxAgents ->
            padAgentPositions (Z.to_nat consts.maxAgents)
              (numHiders (data ctx) + numSeekers (data ctx)) a2 !! Z.to_nat k =
            if (numHiders (data ctx) + numSeekers (data ctx) <=? k)
               && (k <? consts.maxAgents)
               && Z.even (k - (numHiders (data ctx) + numSeekers (data ctx)))
            then Some Vector2_zero else a2 !! Z.to_nat k).
  { intros k Hk. apply padAgentPositions_lookup; [lia|lia| |].
    - unfold consts.maxAgents in *. lia.
    - rewrite L2, Hla. unfold consts.maxAgents in *. lia. }
  assert (H2 : forall k, 0 <= k < consts.maxAgents ->
            a2 !! Z.to_nat k =
            if (numHiders (data ctx) <=? k)
               && (k <? numHiders (data ctx) + numSeekers (data ctx))
            then Some (vs k) else a1 !! Z.to_nat k).
  { intros k Hk. apply foldl_writeAt_at; [lia| |lia].
    rewrite L1, Hla. unfold consts.maxAgents in *. lia. }
  assert (H1 : forall k, 0 <= k < consts.maxAgents ->
            a1 !! Z.to_nat k =
            if (0 <=? k) && (k <? 0 + numHiders (data ctx))
            then Some (vh k) else agentPositions gp !! Z.to_nat k).
  { intros k Hk. apply foldl_writeAt_at; [lia| |lia].
    rewrite Hla. unfold consts.maxAgents in *. lia. }
  split; [|split; [|split; [|split]]].
  - intros i Hi.
    rewrite (foldl_ext _ (fun bp j => writeAt j
               (if j >=? numActiveBoxes (data ctx) then Vector2_zero
                else getXY (position (readDyn ctx (entityAt (boxes (data ctx)) j))))
               bp) _ _)
      by (intros bp j; destruct (_ >=? _); reflexivity).
    apply foldl_writeAt_lookup;
      [apply elem_of_seqZ; lia|apply seqZ_0_nonneg|].
    rewrite Hlb. unfold consts.maxBoxes in *. lia.
  - intros i Hi.
    rewrite (foldl_ext _ (fun rp j => writeAt j
               (if j >=? numActiveRamps (data ctx) then Vector2_zero
                else getXY (position (readDyn ctx (entityAt (ramps (data ctx)) j))))
               rp) _ _)
      by (intros rp j; destruct (_ >=? _); reflexivity).
    apply foldl_writeAt_lookup;
      [apply elem_of_seqZ; lia|apply seqZ_0_nonneg|].
    rewrite Hlr. unfold consts.maxRamps in *. lia.
  - intros k Hk.
    rewrite Hpad, H2, H1 by lia.
    replace (numHiders (data ctx) + numSeekers (data ctx) <=? k) with false
      by (symmetry; apply Z.leb_gt; lia).
    replace (numHiders (data ctx) <=? k) with false
      by (symmetry; apply Z.leb_gt; lia).
    replace (0 <=? k) with true by (symmetry; apply Z.leb_le; lia).
    replace (k <? 0 + numHiders (data ctx)) with true
      by (symmetry; apply Z.ltb_lt; lia).
    cbn [andb]. unfold vh.
    replace (k - (0 - 0)) with k by lia. reflexivity.
  - intros k Hk.
    rewrite Hpad, H2 by lia.
    replace (numHiders (data ctx) + numSeekers (data ctx) <=? k) with false
      by (symmetry; apply Z.leb_gt; lia).
    replace (numHiders (data ctx) <=? k) with true
      by (symmetry; apply Z.leb_le; lia).
    replace (k <? numHiders (data ctx) + numSeekers (data ctx)) with true
      by (symmetry; apply Z.ltb_lt; lia).
    cbn [andb]. unfold vs.
    replace (k - (numHiders (data ctx) - 0)) with (k - numHiders (data ctx))
      by lia.
    reflexivity.
  - intros k Hk.
    rewrite Hpad by lia.
    replace (numHiders (data ctx) + numSeekers (data ctx) <=? k) with true
      by (symmetry; apply Z.leb_le; lia).
    replace (k <? consts.maxAgents) with true
      by (symmetry; apply Z.ltb_lt; lia).
    cbn [andb]. destruct (Z.even _); [reflexivity|].
    rewrite H2, H1 by lia.
    replace (k <? numHiders (data ctx) + numSeekers (data ctx)) with false
      by (symmetry; apply Z.ltb_ge; lia).
    replace (k <? 0 + numHiders (data ctx)) with false
      by (symmetry; apply Z.ltb_ge; lia).
    rewrite !andb_false_r. reflexivity.
Qed.

(** With one hider and one seeker the first free slot is 2; slot 3 keeps
    what it held. *)
Lemma global_positions_padding_witness :
  agentPositions (globalPositionsDebugSystem (demo_world 0) demo_positions)
    !! Z.to_nat 3
  = if Z.even (3 - (numHiders (data (demo_world 0))
                    + numSeekers (data (demo_world 0))))
    then Some Vector2_zero
    else agentPositions demo_positions !! Z.to_nat 3.
Proof.
  assert (Eh : numHiders (data (demo_world 0)) = 1) by (vm_compute; reflexivity).
  assert (Es : numSeekers (data (demo_world 0)) = 1) by (vm_compute; reflexivity).
  assert (H1 : 0 <= numHiders (data (demo_world 0))) by (rewrite Eh; lia).
  assert (H2 : 0 <= numSeekers (data (demo_world 0))) by (rewrite Es; lia).
  assert (H3 : numHiders (data (demo_world 0)) + numSeekers (data (demo_world 0))
               <= consts.maxAgents)
    by (rewrite Eh, Es; unfold consts.maxAgents; lia).
  assert (H4 : numHiders (data (demo_world 0)) + numSeekers (data (demo_world 0))
               <= 3 < consts.maxAgents)
    by (rewrite Eh, Es; unfold consts.maxAgents; lia).
  exact (proj2 (proj2 (proj2 (proj2
           (global_positions_padding (demo_world 0) demo_positions
              H1 H2 H3 eq_refl eq_refl eq_refl)))) 3 H4).
Defined.

(** ** The lidar and the team scalar *)

Lemma flag_fold {St B : Type} (flag : St -> float) (G : St -> B -> St)
    (P : B -> bool) (c : float) :
  (forall s i, flag (G s i) = if P i then c else flag s) ->
  forall (l : list B) (s : St),
    flag (foldl G s l) = if existsb P l then c else flag s.
Proof.
  intros HG. induction l as [|b l IH]; intros s; [reflexivity|].
  cbn [foldl existsb]. rewrite IH, HG.
  destruct (P b); cbn [orb]; [|reflexivity].
  destruct (existsb P l); reflexivity.
Qed.

Section SensorProperties.

Variable ext : Extern.
Variable lm : MathLib.

(** X15. The lidar of a live agent overwrites each of its 30 depths:
    depth [idx] is the hit distance of ray [idx], cast from the agent's
    position with range 200, and 0 when the ray hits nothing.  The buffer
    of an agent without a physics entity is left as it is. *)
Theorem lidar_depths (ctx : Engine) (sim_e : Entity) (depth : list float) :
  length depth = 30%nat ->
  let depth' := lidarSystem ext lm ctx sim_e depth in
  length depth' = 30%nat /\
  (sim_e = Entity_none -> depth' = depth) /\
  (sim_e <> Entity_none ->
   forall idx, 0 <= idx < 30 ->
     let hit := bvh ctx (position (readDyn ctx sim_e))
                    (lidarRayDir ext lm (rotation (readDyn ctx sim_e)) idx)
                    (F32.ofZ 200) in
     depth' !! Z.to_nat idx =
     Some (if decide (fst hit = Entity_none) then F32.zero else snd hit)).
Proof.
  intros Hlen. cbv zeta. unfold lidarSystem.
  destruct (decide (sim_e = Entity_none)) as [Hd|Hl].
  - split; [exact Hlen|]. split; [reflexivity|]. intros H. contradiction.
  - set (g := fun idx =>
               let hit := bvh ctx (position (readDyn ctx sim_e))
                            (lidarRayDir ext lm (rotation (readDyn ctx sim_e)) idx)
                            (F32.ofZ 200) in
               if decide (fst hit = Entity_none) then F32.zero else snd hit).
    rewrite (foldl_ext _ (fun d i => writeAt i (g i) d) _ _).
    + split; [rewrite foldl_writeAt_length; exact Hlen|].
      split; [intros H; contradiction|].
      intros _ idx Hi.
      apply (foldl_writeAt_lookup g);
        [apply elem_of_seqZ; lia|apply seqZ_0_nonneg|rewrite Hlen; lia].
    + intros d i. unfold traceRay, g. cbv zeta.
      destruct (bvh ctx _ _ _) as [h t]. cbn [fst snd].
      destruct (decide (h = Entity_none)); reflexivity.
Qed.

Lemma agentVisLoop_flag (ctx : Engine) (agent_e : Entity)
    (agent_type : AgentType) (pos fwd : Vector3) (vis : list float) :
  snd (agentVisLoop ext ctx agent_e agent_type pos fwd vis) =
  if existsb
       (fun idx =>
          negb (idx >=? numActiveAgents (data ctx))
          && negb (bool_decide
                     (agent_e = entityAt (agentInterfaces (data ctx)) idx))
          && (bool_decide (agent_type = Seeker)
              && float_to_bool
                   (checkVisibility ext ctx pos fwd
                      (simEntityOf ctx
                         (entityAt (agentInterfaces (data ctx)) idx))))
          && match getIface ctx (entityAt (agentInterfaces (data ctx)) idx) with
             | Some i => bool_decide (agentType i = Hider)
             | None => false
             end)
       (seqZ 0 consts.maxAgents)
  then F32.ofZ (-1) else hiderTeamReward (data ctx).
Proof.
  unfold agentVisLoop.
  apply (flag_fold snd).
  intros [[v c] t] idx. cbn [snd].
  destruct (idx >=? numActiveAgents (data ctx)); cbn [negb andb snd];
    [reflexivity|].
  destruct (decide (agent_e = entityAt (agentInterfaces (data ctx)) idx))
    as [E|E].
  - rewrite (bool_decide_eq_true_2 (agent_e = _)) by exact E. reflexivity.
  - rewrite (bool_decide_eq_false_2 (agent_e = _)) by exact E.
    cbn [negb andb snd].
    fold (simEntityOf ctx (entityAt (agentInterfaces (data ctx)) idx)).
    destruct (bool_decide (agent_type = Seeker)
              && float_to_bool _); cbn [andb]; [|reflexivity].
    destruct (getIface ctx _) as [i|]; [|reflexivity].
    destruct (decide (agentType i = Hider)) as [H|H].
    + rewrite (bool_decide_eq_true_2 (agentType i = Hider)) by exact H.
      reflexivity.
    + rewrite (bool_decide_eq_false_2 (agentType i = Hider)) by exact H.
      reflexivity.
Qed.

(** X16. The team scalar after the visibility system has run for one
    live agent: it becomes [-1.f] exactly when the agent is a seeker that
    sees, among the active entries of the agent table, another agent that
    is a hider; otherwise it keeps its value.  A hider's sight never
    changes it. *)
Theorem seeker_sight_sets_team_reward (ctx : Engine) (agent_e sim_e : Entity)
    (agent_type : AgentType) (agent_vis box_vis ramp_vis : list float) :
  sim_e <> Entity_none ->
  numActiveAgents (data ctx) <= consts.maxAgents ->
  let agent_pos := position (readDyn ctx sim_e) in
  let agent_fwd := rotateVec ext (rotation (readDyn ctx sim_e)) math.fwd in
  let ctx' := fst (fst (fst (computeVisibilitySystem ext ctx agent_e sim_e
                               agent_type agent_vis box_vis ramp_vis))) in
  let seen := exists idx, 0 <= idx < numActiveAgents (data ctx) /\
                seesHiderAt ext ctx agent_e agent_pos agent_fwd idx in
  (agent_type = Seeker -> seen ->
     hiderTeamReward (data ctx') = F32.ofZ (-1)) /\
  (~ seen -> hiderTeamReward (data ctx') = hiderTeamReward (data ctx)) /\
  (agent_type = Hider ->
     hiderTeamReward (data ctx') = hiderTeamReward (data ctx)).
Proof.
  intros Hlive Hn. cbv zeta. unfold computeVisibilitySystem.
  rewrite decide_False by exact Hlive. cbv zeta.
  pose proof (agentVisLoop_flag ctx agent_e agent_type
                (position (readDyn ctx sim_e))
                (rotateVec ext (rotation (readDyn ctx sim_e)) math.fwd)
                agent_vis) as Hflag.
  destruct (agentVisLoop _ _ _ _ _ _ _) as [[v c] t]. cbn [fst snd] in *.
  change (hiderTeamReward (data (updData (set_hiderTeamReward t) ctx))) with t.
  subst t.
  match goal with |- context [existsb ?P ?l] =>
    set (P0 := P); destruct (existsb P0 l) eqn:Eex end.
  - apply existsb_exists in Eex. destruct Eex as (idx & Hin & HP).
    apply list_elem_of_In, elem_of_seqZ in Hin. unfold P0 in HP.
    apply andb_true_iff in HP. destruct HP as [HP H4].
    apply andb_true_iff in HP. destruct HP as [HP H3].
    apply andb_true_iff in HP. destruct HP as [H1 H2].
    apply andb_true_iff in H3. destruct H3 as [H3 H3'].
    apply negb_true_iff in H1, H2.
    apply bool_decide_eq_false_1 in H2. apply bool_decide_eq_true_1 in H3.
    assert (Hseen : exists idx0, 0 <= idx0 < numActiveAgents (data ctx) /\
              seesHiderAt ext ctx agent_e (position (readDyn ctx sim_e))
                (rotateVec ext (rotation (readDyn ctx sim_e)) math.fwd) idx0).
    { exists idx. split.
      - rewrite Z.geb_leb in H1. apply Z.leb_gt in H1. lia.
      - split; [congruence|]. split; [exact H3'|].
        destruct (getIface ctx _) as [i|]; [|discriminate H4].
        exists i. split; [reflexivity|].
        apply bool_decide_eq_true_1 in H4. exact H4. }
    split; [reflexivity|]. split; [intros Hno; contradiction|].
    intros Hh. rewrite Hh in H3. discriminate H3.
  - assert (Hnone : forall idx, 0 <= idx < numActiveAgents (data ctx) ->
              seesHiderAt ext ctx agent_e (position (readDyn ctx sim_e))
                (rotateVec ext (rotation (readDyn ctx sim_e)) math.fwd) idx ->
              agent_type <> Seeker).
    { intros idx Hi (Hne & Hvis & i & Hi' & Hty) Hs.
      assert (HP : P0 idx = true).
      { unfold P0. rewrite Hvis, Hi'.
        rewrite (geb_false idx) by lia.
        rewrite (bool_decide_eq_false_2 (agent_e = _)) by congruence.
        rewrite (bool_decide_eq_true_2 (agent_type = Seeker)) by exact Hs.
        rewrite (bool_decide_eq_true_2 (agentType i = Hider)) by exact Hty.
        reflexivity. }
      assert (Hin : In idx (seqZ 0 consts.maxAgents)).
      { apply list_elem_of_In, elem_of_seqZ. lia. }
      pose proof (proj2 (existsb_exists P0 _) (ex_intro _ idx (conj Hin HP))).
      congruence. }
    split; [|split; reflexivity].
    intros Hs (idx & Hi & Hsee). exfalso. exact (Hnone idx Hi Hsee Hs).
Qed.

End SensorProperties.

Lemma lidar_depths_witness :
  length (lidarSystem (demo_ext false) demo_mathlib (demo_world 0)
            (Entity_id 10) (replicate 30 (F32.ofZ 7))) = 30%nat.
Proof.
  exact (proj1 (lidar_depths (demo_ext false) demo_mathlib (demo_world 0)
                  (Entity_id 10) (replicate 30 (F32.ofZ 7)) eq_refl)).
Defined.

Lemma seeker_sight_sets_team_reward_witness :
  hiderTeamReward (data demo_world_sight) = F32.ofZ 1 /\
  hiderTeamReward
    (data (fst (fst (fst (computeVisibilitySystem (demo_ext false)
                            demo_world_sight (Entity_id 1) (Entity_id 11) Seeker
                            (agentVis demo_fresh) (boxVis demo_fresh)
                            (rampVis demo_fresh))))))
  = F32.ofZ (-1).
Proof.
  split; [vm_compute; reflexivity|].
  assert (Hlive : Entity_id 11 <> Entity_none) by discriminate.
  assert (Hn : numActiveAgents (data demo_world_sight) <= consts.maxAgents)
    by (vm_compute; discriminate).
  apply (proj1 (seeker_sight_sets_team_reward (demo_ext false)
                  demo_world_sight (Entity_id 1) (Entity_id 11) Seeker
                  (agentVis demo_fresh) (boxVis demo_fresh)
                  (rampVis demo_fresh) Hlive Hn) eq_refl).
  exists 0. split; [vm_compute; split; [discriminate|reflexivity]|].
  split; [vm_compute; discriminate|].
  split; [vm_compute; reflexivity|].
  eexists. split; [vm_compute; reflexivity|reflexivity].
Defined.

(** The same system run for the hider of [demo_world 0] leaves the
    scalar as it is. *)
Example hider_sight_keeps_team_reward :
  hiderTeamReward
    (data (fst (fst (fst (computeVisibilitySystem (demo_ext false)
                            (demo_world 0) (Entity_id 0) (Entity_id 10) Hider
                            (agentVis demo_fresh) (boxVis demo_fresh)
                            (rampVis demo_fresh))))))
  = hiderTeamReward (data (demo_world 0)).
Proof. vm_compute. reflexivity. Qed.

(** ** The debug levels *)

(** The loop at the end of [generateEnvironment] marks every slot from
    [first] on as inactive and touches nothing but the interfaces. *)
Lemma wp_tail_clears (first : Z) (Q : unit -> Engine -> Prop) (ctx : Engine) :
  interfacesOk ctx ->
  0 <= first ->
  (forall c', data c' = data ctx -> dynEntities c' = dynEntities ctx ->
              nextEntity c' = nextEntity ctx ->
              constraints c' = constraints ctx ->
              interfacesOk c' ->
              (forall k, first <= k < maxAgentsPerWorld (data ctx) ->
                         slotCleared c' k) ->
              Q tt c') ->
  wp (forLoopFrom (Z.to_nat (maxAgentsPerWorld (data ctx) - first)) first
        (fun i =>
           agent_iface <- tableRead agentInterfaces i ;;
           ifaceWrite agent_iface (set_simEntity Entity_none) ;;;
           ifaceWrite agent_iface (set_activeMask F32.zero)))
     Q ctx.
Proof.
  intros Hio Hfirst HQ.
  eapply wp_mono.
  - apply (wp_forLoopFrom
             (fun i c => data c = data ctx /\ dynEntities c = dynEntities ctx /\
                         nextEntity c = nextEntity ctx /\
                         constraints c = constraints ctx /\
                         interfacesOk c /\
                         forall k, first <= k < i -> slotCleared c k)).
    + repeat (split; [reflexivity || exact Hio|]). intros k Hk. lia.
    + intros i c Hi (Hd & Hdy & Hn & Hc & Hok & Hcl).
      assert (Hk : 0 <= i < maxAgentsPerWorld (data c)) by (rewrite Hd; lia).
      destruct (Hok i Hk) as (id & Hslot & [x Hx]).
      apply wp_bind. apply (wp_tableRead _ _ (Entity_id id)); [lia|exact Hslot|].
      apply wp_bind.
      apply (wp_ifaceWrite _ _ x); [exact Hx|].
      assert (Hx' : getIface (updIface (set_simEntity Entity_none)
                                (Entity_id id) c) (Entity_id id)
                    = Some (set_simEntity Entity_none x)).
      { cbn. rewrite lookup_alter_eq, Hx. reflexivity. }
      apply (wp_ifaceWrite _ _ (set_simEntity Entity_none x)); [exact Hx'|].
      split; [exact Hd|]. split; [exact Hdy|]. split; [exact Hn|].
      split; [exact Hc|].
      split; [apply interfacesOk_alter, interfacesOk_alter; exact Hok|].
      intros k Hk'.
      destruct (decide (k = i)) as [->|Hne].
      * exists id, (set_activeMask F32.zero (set_simEntity Entity_none x)).
        split; [exact Hslot|]. split; [|split; reflexivity].
        cbn. rewrite !lookup_alter_eq, Hx. reflexivity.
      * destruct (Hcl k ltac:(lia)) as (id' & y & Hs' & Hy & Hy1 & Hy2).
        destruct (decide (id' = id)) as [->|Hid].
        -- exists id, (set_activeMask F32.zero (set_simEntity Entity_none y)).
           split; [exact Hs'|]. split; [|split; reflexivity].
           cbn. rewrite !lookup_alter_eq, Hy. reflexivity.
        -- exists id', y. split; [exact Hs'|]. split; [|split; assumption].
           cbn. rewrite !lookup_alter_ne by congruence. exact Hy.
  - intros [] c (Hd & Hdy & Hn & Hc & Hok & Hcl). apply HQ; try assumption.
    intros k Hk. apply Hcl. lia.
Qed.

Lemma entityAt_seqZ_take (tbl : list Entity) (n : nat) :
  (n <= length tbl)%nat ->
  entityAt tbl <$> seqZ 0 (Z.of_nat n) = take n tbl.
Proof.
  intros Hn. apply list_eq. intros i.
  rewrite list_lookup_fmap.
  destruct (decide (i < n)%nat) as [Hi|Hi].
  - rewrite lookup_seqZ_lt by lia. cbn [fmap option_fmap option_map].
    rewrite lookup_take_lt by lia. unfold entityAt.
    replace (Z.to_nat (0 + Z.of_nat i)) with i by lia.
    destruct (lookup_lt_is_Some_2 tbl i ltac:(lia)) as [e He].
    rewrite He. reflexivity.
  - rewrite lookup_seqZ_ge by lia. rewrite lookup_take_ge by lia. reflexivity.
Qed.

Lemma built_registered (n0 no nh ns : nat) (ctx : Engine) :
  built n0 no nh ns ctx ->
  (no <= 57)%nat -> (nh <= 3)%nat -> (ns <= 3)%nat ->
  numObstacles (data ctx) = Z.of_nat no ->
  forall n, (n0 <= n < nextEntity ctx)%nat ->
            Entity_id n ∈ registeredEntities ctx.
Proof.
  intros (Hn & Ht & _ & Hh & Hs & _ & Hall) Lo Lh Ls Ho n Hin.
  destruct Ht as (_ & Th & Ts & To & _).
  unfold registeredEntities, registeredObstacles, registeredAgents.
  rewrite Ho, Hh, Hs.
  rewrite !entityAt_seqZ_take; [exact (Hall n Hin)| | |].
  - rewrite Ts. lia.
  - rewrite Th. lia.
  - rewrite To. unfold consts.maxBoxes, consts.maxRamps, consts.maxAgents. lia.
Qed.

(** The table lengths survive writes into the tables. *)
Ltac tables_keep H :=
  unfold tablesOk in H |- *;
  cbn [data updData set_data set_obstacles set_dynEntities set_nextEntity
       set_interfaces set_numObstacles set_numActiveAgents set_numHiders
       set_numSeekers set_hiders set_seekers updIface updDyn
       agentInterfaces hiders seekers obstacles boxes boxSizes boxRotations
       ramps rampRotations];
  rewrite ?length_insert;
  exact H.

Lemma built_start (ctx : Engine) :
  tablesOk ctx -> interfacesOk ctx ->
  numHiders (data ctx) = 0 -> numSeekers (data ctx) = 0 ->
  numActiveAgents (data ctx) = 0 ->
  built (nextEntity ctx) 0 0 0 ctx.
Proof.
  intros Ht Hio Hh Hs Ha.
  split; [lia|]. split; [exact Ht|]. split; [exact Hio|].
  split; [exact Hh|]. split; [exact Hs|]. split; [exact Ha|].
  intros n Hn. lia.
Qed.

(** One obstacle: a new physics entity stored at the next obstacle
    slot. *)
Lemma wp_addObstacle (n0 no : nat) (pos : Vector3) (rot : Quat)
    (obj : SimObject) (rt : ResponseType) (ot : OwnerTeam) (sc : Vector3)
    (i : Z) (rest : Entity -> Gen unit) (Q : unit -> Engine -> Prop)
    (ctx : Engine) :
  built n0 no 0 0 ctx ->
  i = Z.of_nat no -> (no < 57)%nat ->
  (forall ctx',
     built n0 (S no) 0 0 ctx' ->
     dynEntities ctx' =
       <[nextEntity ctx := mkDyn pos rot sc obj Vector3_zero rt ot
                                 Vector3_zero Vector3_zero None]>
         (dynEntities ctx) ->
     numObstacles (data ctx') = numObstacles (data ctx) ->
     maxAgentsPerWorld (data ctx') = maxAgentsPerWorld (data ctx) ->
     wp (rest (Entity_id (nextEntity ctx))) Q ctx') ->
  wp (e <- makeDynObject pos rot obj rt ot sc ;;
      tableWrite obstacles set_obstacles i e ;;; rest e) Q ctx.
Proof.
  intros (Hn & Ht & Hio & Hh & Hs & Ha & Hall) -> Hno HQ.
  assert (To : length (obstacles (data ctx)) = 57%nat).
  { destruct Ht as (_ & _ & _ & To & _). exact To. }
  unfold makeDynObject.
  apply wp_bind, wp_newDynEntity.
  apply wp_bind, wp_tableWrite.
  { cbn [data set_nextEntity set_dynEntities]. rewrite To. lia. }
  apply HQ; [|reflexivity|reflexivity|reflexivity].
  split; [cbn; lia|]. split; [tables_keep Ht|].
  split.
  { intros k Hk. destruct (Hio k Hk) as (id & H1 & H2).
    exists id. split; assumption. }
  split; [exact Hh|]. split; [exact Hs|]. split; [exact Ha|].
  intros n Hin.
  cbn [data updData set_data set_nextEntity set_dynEntities set_obstacles
       obstacles hiders seekers nextEntity] in Hin |- *.
  rewrite Nat2Z.id. rewrite !take_0, !app_nil_r in *.
  rewrite (take_S_r _ _ (Entity_id (nextEntity ctx)))
    by (apply list_lookup_insert_eq; lia).
  rewrite take_insert_ge by lia.
  apply elem_of_app.
  destruct (decide (n = nextEntity ctx)) as [->|Hne].
  - right. apply list_elem_of_singleton. reflexivity.
  - left. apply Hall. lia.
Qed.

Lemma built_data (n0 no nh ns : nat) (c c' : Engine) :
  data c' = data c -> interfaces c' = interfaces c ->
  nextEntity c' = nextEntity c ->
  built n0 no nh ns c -> built n0 no nh ns c'.
Proof.
  intros Hd Hi Hn (B1 & B2 & B3 & B4 & B5 & B6 & B7).
  unfold built, tablesOk, interfacesOk in *. rewrite Hd, Hi, Hn.
  repeat (split; [assumption|]). assumption.
Qed.

Lemma built_frame (n0 no nh ns : nat) (c c' : Engine) :
  data c' = data c -> interfacesOk c' ->
  nextEntity c' = nextEntity c ->
  built n0 no nh ns c -> built n0 no nh ns c'.
Proof.
  intros Hd Hi Hn (B1 & B2 & B3 & B4 & B5 & B6 & B7).
  unfold built, tablesOk in *. rewrite Hd, Hn.
  repeat (split; [assumption|]). assumption.
Qed.

(** One agent: the next interface slot is activated and a new physics
    entity is stored at the next slot of its team table. *)
Lemma wp_addAgent (n0 no nh ns : nat) (pos : Vector3) (rot : Quat)
    (agent_type : AgentType) (rest : Gen unit) (Q : unit -> Engine -> Prop)
    (ctx : Engine) :
  built n0 no nh ns ctx ->
  Z.of_nat (nh + ns) < maxAgentsPerWorld (data ctx) ->
  (agent_type = Hider -> (nh < 3)%nat) ->
  (agent_type = Seeker -> (ns < 3)%nat) ->
  (forall ctx',
     built n0 no (if decide (agent_type = Hider) then S nh else nh)
                 (if decide (agent_type = Seeker) then S ns else ns) ctx' ->
     (forall n, n <> nextEntity ctx ->
                dynEntities ctx' !! n = dynEntities ctx !! n) ->
     numObstacles (data ctx') = numObstacles (data ctx) ->
     obstacles (data ctx') = obstacles (data ctx) ->
     maxAgentsPerWorld (data ctx') = maxAgentsPerWorld (data ctx) ->
     (agent_type = Hider ->
        hiders (data ctx') =
          <[nh := Entity_id (nextEntity ctx)]> (hiders (data ctx))) ->
     (agent_type = Seeker ->
        seekers (data ctx') =
          <[ns := Entity_id (nextEntity ctx)]> (seekers (data ctx))) ->
     wp rest Q ctx') ->
  wp (makeDynAgent pos rot agent_type ;;; rest) Q ctx.
Proof.
  intros (Hn & Ht & Hio & Hh & Hs & Ha & Hall) Hcap Hhid Hsee HQ.
  assert (Hlens := Ht). destruct Hlens as (_ & Lh & Ls & _).
  assert (Hslot : 0 <= numActiveAgents (data ctx) < maxAgentsPerWorld (data ctx))
    by lia.
  destruct (Hio _ Hslot) as (id & Hid & [i0 Hi0]).
  unfold makeDynAgent, makeAgent.
  apply wp_bind, wp_bind, wp_bind, wp_gets.
  apply wp_bind. eapply wp_tableRead; [cbn; lia|cbn; exact Hid|].
  apply wp_bind, wp_modify.
  apply wp_bind. eapply wp_ifaceWrite;
    [cbn [getIface interfaces updData set_data]; exact Hi0|].
  apply wp_bind, wp_newDynEntity.
  apply wp_bind. eapply wp_ifaceWrite;
    [cbn [getIface interfaces updData set_data updIface set_interfaces
          set_nextEntity set_dynEntities];
     rewrite ?lookup_alter_eq, Hi0; reflexivity|].
  apply wp_bind. eapply wp_ifaceWrite;
    [cbn [getIface interfaces updData set_data updIface set_interfaces
          set_nextEntity set_dynEntities];
     rewrite ?lookup_alter_eq, Hi0; reflexivity|].
  destruct agent_type.
  - (* Seeker *)
    rewrite decide_True by reflexivity.
    apply wp_bind, wp_bind, wp_gets.
    apply wp_bind, wp_modify.
    apply wp_tableWrite; [cbn; rewrite Ls; specialize (Hsee eq_refl); lia|].
    apply wp_bind, wp_gets.
    apply wp_bind. eapply wp_ifaceWrite;
      [cbn [getIface interfaces updData set_data updIface set_interfaces
            set_nextEntity set_dynEntities];
       rewrite ?lookup_alter_eq, Hi0; reflexivity|].
    apply wp_bind. eapply wp_ifaceWrite;
      [cbn [getIface interfaces updData set_data updIface set_interfaces
            set_nextEntity set_dynEntities];
       rewrite ?lookup_alter_eq, Hi0; reflexivity|].
    apply wp_ret. apply wp_bind, wp_modify. apply wp_ret.
    specialize (Hsee eq_refl).
    apply HQ; [| |reflexivity|reflexivity|reflexivity
               |intros E; discriminate E
               |intros _; cbn; rewrite Hs, Nat2Z.id; reflexivity].
    + rewrite decide_False by discriminate.
      rewrite decide_True by reflexivity.
      split; [cbn; lia|]. split; [tables_keep Ht|].
      split.
      { intros k Hk. destruct (Hio k Hk) as (id' & Hslot' & Hsome).
        exists id'. split; [exact Hslot'|]. cbn.
        rewrite !lookup_alter_is_Some. exact Hsome. }
      split; [cbn; exact Hh|]. split; [cbn; lia|]. split; [cbn; lia|].
      intros n Hin.
      cbn [data updData set_data set_nextEntity set_dynEntities set_seekers
           set_numSeekers set_numActiveAgents updIface updDyn set_interfaces
           obstacles hiders seekers nextEntity numSeekers] in Hin |- *.
      rewrite Hs, Nat2Z.id.
      rewrite (take_S_r _ _ (Entity_id (nextEntity ctx)))
        by (apply list_lookup_insert_eq; lia).
      rewrite take_insert_ge by lia.
      rewrite !elem_of_app.
      destruct (decide (n = nextEntity ctx)) as [->|Hne].
      * right. right. right. apply list_elem_of_singleton. reflexivity.
      * specialize (Hall n ltac:(lia)). rewrite !elem_of_app in Hall. tauto.
    + intros n Hne. cbn. rewrite lookup_alter_ne by congruence.
      apply lookup_insert_ne. congruence.
  - (* Hider *)
    rewrite decide_False by discriminate.
    apply wp_bind, wp_bind, wp_gets.
    apply wp_bind, wp_modify.
    apply wp_tableWrite; [cbn; rewrite Lh; specialize (Hhid eq_refl); lia|].
    apply wp_bind, wp_gets.
    apply wp_bind. eapply wp_ifaceWrite;
      [cbn [getIface interfaces updData set_data updIface set_interfaces
            set_nextEntity set_dynEntities];
       rewrite ?lookup_alter_eq, Hi0; reflexivity|].
    apply wp_bind. eapply wp_ifaceWrite;
      [cbn [getIface interfaces updData set_data updIface set_interfaces
            set_nextEntity set_dynEntities];
       rewrite ?lookup_alter_eq, Hi0; reflexivity|].
    apply wp_ret. apply wp_bind, wp_modify. apply wp_ret.
    specialize (Hhid eq_refl).
    apply HQ; [| |reflexivity|reflexivity|reflexivity
               |intros _; cbn; rewrite Hh, Nat2Z.id; reflexivity
               |intros E; discriminate E].
    + rewrite decide_True by reflexivity.
      rewrite decide_False by discriminate.
      split; [cbn; lia|]. split; [tables_keep Ht|].
      split.
      { intros k Hk. destruct (Hio k Hk) as (id' & Hslot' & Hsome).
        exists id'. split; [exact Hslot'|]. cbn.
        rewrite !lookup_alter_is_Some. exact Hsome. }
      split; [cbn; lia|]. split; [cbn; exact Hs|]. split; [cbn; lia|].
      intros n Hin.
      cbn [data updData set_data set_nextEntity set_dynEntities set_hiders
           set_numHiders set_numActiveAgents updIface updDyn set_interfaces
           obstacles hiders seekers nextEntity numHiders] in Hin |- *.
      rewrite Hh, Nat2Z.id.
      rewrite (take_S_r _ _ (Entity_id (nextEntity ctx)))
        by (apply list_lookup_insert_eq; lia).
      rewrite take_insert_ge by lia.
      rewrite !elem_of_app.
      destruct (decide (n = nextEntity ctx)) as [->|Hne].
      * right. left. right. apply list_elem_of_singleton. reflexivity.
      * specialize (Hall n ltac:(lia)). rewrite !elem_of_app in Hall. tauto.
    + intros n Hne. cbn. rewrite lookup_alter_ne by congruence.
      apply lookup_insert_ne. congruence.
Qed.

Section DebugProperties.

Variable ext : Extern.
Variable lm : MathLib.

Ltac obstacle_step n :=
  eapply (wp_addObstacle _ n); [eassumption|reflexivity|lia|];
  let c := fresh "c" in
  let B := fresh "B" in
  let D := fresh "D" in
  let O := fresh "O" in
  let M := fresh "M" in
  intros c B D O M.

Lemma wp_singleCubeLevel (pos : Vector3) (rot : Quat) (n0 : nat)
    (Q : unit -> Engine -> Prop) (ctx : Engine) :
  built n0 0 0 0 ctx ->
  (forall c', built n0 2 0 0 c' -> numObstacles (data c') = 2 ->
              maxAgentsPerWorld (data c') = maxAgentsPerWorld (data ctx) ->
              Q tt c') ->
  wp (singleCubeLevel ext pos rot) Q ctx.
Proof.
  intros B0 HQ. unfold singleCubeLevel, makePlane. cbv zeta.
  obstacle_step 0%nat. obstacle_step 1%nat.
  apply wp_modify. apply HQ; [exact B1|reflexivity|].
  cbn [data updData set_data set_numObstacles maxAgentsPerWorld]. congruence.
Qed.

Lemma wp_level4 (n0 : nat) (Q : unit -> Engine -> Prop) (ctx : Engine) :
  built n0 0 0 0 ctx ->
  (forall c', built n0 2 0 0 c' -> numObstacles (data c') = 2 ->
              maxAgentsPerWorld (data c') = maxAgentsPerWorld (data ctx) ->
              Q tt c') ->
  wp (level4 ext lm) Q ctx.
Proof.
  intros B0 HQ. unfold level4, makePlane. cbv zeta.
  obstacle_step 0%nat. obstacle_step 1%nat.
  apply wp_modify. apply HQ; [exact B1|reflexivity|].
  cbn [data updData set_data set_numObstacles maxAgentsPerWorld]. congruence.
Qed.

Lemma wp_level7 (n0 : nat) (Q : unit -> Engine -> Prop) (ctx : Engine) :
  built n0 0 0 0 ctx ->
  (forall c', built n0 5 0 0 c' -> numObstacles (data c') = 5 ->
              maxAgentsPerWorld (data c') = maxAgentsPerWorld (data ctx) ->
              Q tt c') ->
  wp (level7 ext lm) Q ctx.
Proof.
  intros B0 HQ. unfold level7, makePlane. cbv zeta.
  obstacle_step 0%nat. obstacle_step 1%nat. obstacle_step 2%nat.
  obstacle_step 3%nat. obstacle_step 4%nat.
  apply wp_modify. apply HQ; [exact B4|reflexivity|].
  cbn [data updData set_data set_numObstacles maxAgentsPerWorld]. congruence.
Qed.

Lemma wp_level8 (n0 : nat) (Q : unit -> Engine -> Prop) (ctx : Engine) :
  built n0 0 0 0 ctx ->
  (forall c', built n0 5 0 0 c' -> numObstacles (data c') = 5 ->
              maxAgentsPerWorld (data c') = maxAgentsPerWorld (data ctx) ->
              Q tt c') ->
  wp (level8 ext lm) Q ctx.
Proof.
  intros B0 HQ. unfold level8, makePlane. cbv zeta.
  obstacle_step 0%nat.
  apply wp_bind, wp_modify.
  set (c2 := updDyn _ _ c).
  assert (B2 : built n0 1 0 0 c2)
    by (apply (built_data _ _ _ _ c);
        [reflexivity|reflexivity|reflexivity|exact B]).
  assert (M2 : maxAgentsPerWorld (data c2) = maxAgentsPerWorld (data ctx))
    by exact M.
  clearbody c2. clear B.
  obstacle_step 1%nat. obstacle_step 2%nat.
  obstacle_step 3%nat. obstacle_step 4%nat.
  apply wp_modify. apply HQ; [eassumption|reflexivity|].
  cbn [data updData set_data set_numObstacles maxAgentsPerWorld]. congruence.
Qed.

Lemma wp_level6 (n0 : nat) (Q : unit -> Engine -> Prop) (ctx : Engine) :
  built n0 0 0 0 ctx ->
  2 <= maxAgentsPerWorld (data ctx) ->
  (forall c', built n0 3 1 1 c' -> numObstacles (data c') = 3 ->
              maxAgentsPerWorld (data c') = maxAgentsPerWorld (data ctx) ->
              Q tt c') ->
  wp (level6 ext lm) Q ctx.
Proof.
  intros B0 Hcap HQ. unfold level6, makePlane. cbv zeta.
  obstacle_step 0%nat. obstacle_step 1%nat. obstacle_step 2%nat.
  apply (wp_addAgent n0 3 0 0); [exact B2|cbn; lia|lia|lia|].
  intros c3 B3 _ O3 _ M3 _ _.
  rewrite decide_True in B3 by reflexivity.
  rewrite decide_False in B3 by discriminate.
  apply (wp_addAgent n0 3 1 0); [exact B3|cbn; lia|lia|lia|].
  intros c4 B4 _ O4 _ M4 _ _.
  rewrite decide_False in B4 by discriminate.
  rewrite decide_True in B4 by reflexivity.
  apply wp_modify. apply HQ; [exact B4|reflexivity|].
  cbn [data updData set_data set_numObstacles maxAgentsPerWorld]. congruence.
Qed.

Lemma generateDebugEnvironment_other (lvl : Z) :
  ~ 2 <= lvl <= 8 -> generateDebugEnvironment ext lm lvl = ret tt.
Proof.
  intros H. destruct lvl as [|p|p]; [reflexivity| |reflexivity].
  do 4 (try destruct p as [p|p|]); try reflexivity; lia.
Qed.

(** X17. A level id other than 1 to 8 builds nothing: the generator
    returns, makes no entity and changes no table or counter, and marks
    every interface slot from the number of active agents on as
    inactive. *)
Theorem unknown_level_builds_nothing (fuel : nat) (lvl nh ns : Z)
    (ctx : Engine) :
  interfacesOk ctx ->
  0 <= numActiveAgents (data ctx) ->
  ~ 1 <= lvl <= 8 ->
  exists ctx',
    generateEnvironment ext (generateDebugEnvironment ext lm) fuel lvl nh ns ctx
      = Ok (tt, ctx') /\
    data ctx' = data ctx /\
    dynEntities ctx' = dynEntities ctx /\
    nextEntity ctx' = nextEntity ctx /\
    forall k, numActiveAgents (data ctx) <= k < maxAgentsPerWorld (data ctx) ->
              slotCleared ctx' k.
Proof.
  intros Hio Ha Hl.
  assert (H : wp (generateEnvironment ext (generateDebugEnvironment ext lm)
                    fuel lvl nh ns)
                 (fun _ ctx' =>
                    data ctx' = data ctx /\
                    dynEntities ctx' = dynEntities ctx /\
                    nextEntity ctx' = nextEntity ctx /\
                    forall k, numActiveAgents (data ctx) <= k
                              < maxAgentsPerWorld (data ctx) ->
                              slotCleared ctx' k) ctx).
  { unfold generateEnvironment.
    replace (lvl =? 1) with false by (symmetry; apply Z.eqb_neq; lia).
    rewrite generateDebugEnvironment_other by lia.
    apply wp_bind, wp_ret. apply wp_bind, wp_gets. apply wp_bind, wp_gets.
    apply wp_tail_clears; [exact Hio|exact Ha|].
    intros c' Hd Hdy Hn _ _ Hcl. repeat (split; [assumption|]). exact Hcl. }
  apply wp_run in H. destruct H as ([] & ctx' & Hrun & Hpost).
  exists ctx'. split; [exact Hrun|exact Hpost].
Qed.

(** The generator on a debug level that [built] describes. *)
Lemma wp_debug_tail (n0 no nh ns : nat) (c : Engine)
    (Q : unit -> Engine -> Prop) :
  built n0 no nh ns c ->
  (forall c', built n0 no nh ns c' -> data c' = data c ->
              dynEntities c' = dynEntities c -> Q tt c') ->
  wp (first <- gets (fun ctx => numActiveAgents (data ctx)) ;;
      last <- gets (fun ctx => maxAgentsPerWorld (data ctx)) ;;
      forLoopFrom (Z.to_nat (last - first)) first
        (fun i =>
           agent_iface <- tableRead agentInterfaces i ;;
           ifaceWrite agent_iface (set_simEntity Entity_none) ;;;
           ifaceWrite agent_iface (set_activeMask F32.zero)))
     Q c.
Proof.
  intros B HQ. assert (B' := B).
  destruct B' as (_ & _ & Hio & _ & _ & Ha & _).
  apply wp_bind, wp_gets. apply wp_bind, wp_gets.
  apply wp_tail_clears; [exact Hio|lia|].
  intros c' Hd Hdy Hn _ Hio' _.
  apply HQ; [|exact Hd|exact Hdy].
  exact (built_frame _ _ _ _ c c' Hd Hio' Hn B).
Qed.

(** X18. On a world that has just been reset, each of the debug levels
    2, 3, 4, 6, 7 and 8 returns and registers every entity it makes: two
    obstacles for the levels 2 to 4, three obstacles, a hider and a
    seeker for level 6, five obstacles for the levels 7 and 8.  The next
    reset therefore destroys all of them.  Level 6 needs two interface
    slots. *)
Theorem debug_levels_register_all (fuel : nat) (lvl nh ns : Z) (ctx : Engine) :
  tablesOk ctx -> interfacesOk ctx ->
  numHiders (data ctx) = 0 -> numSeekers (data ctx) = 0 ->
  numActiveAgents (data ctx) = 0 ->
  lvl ∈ [2; 3; 4; 6; 7; 8] ->
  (lvl = 6 -> 2 <= maxAgentsPerWorld (data ctx)) ->
  exists ctx',
    generateEnvironment ext (generateDebugEnvironment ext lm) fuel lvl nh ns ctx
      = Ok (tt, ctx') /\
    numObstacles (data ctx') = (if lvl =? 6 then 3 else if lvl <? 6 then 2 else 5) /\
    numActiveAgents (data ctx') = (if lvl =? 6 then 2 else 0) /\
    Z.of_nat (nextEntity ctx') =
      Z.of_nat (nextEntity ctx) + numObstacles (data ctx')
      + numActiveAgents (data ctx') /\
    forall n, (nextEntity ctx <= n < nextEntity ctx')%nat ->
      Entity_id n ∈ registeredEntities ctx' /\
      dynEntities (resetEnvironment ext ctx') !! n = None.
Proof.
  intros Ht Hio Hh Hs Ha Hl Hcap.
  pose proof (built_start ctx Ht Hio Hh Hs Ha) as B0.
  assert (Hpost : forall (no nh' ns' : nat) (c' : Engine),
            (no <= 57)%nat -> (nh' <= 3)%nat -> (ns' <= 3)%nat ->
            built (nextEntity ctx) no nh' ns' c' ->
            numObstacles (data c') = Z.of_nat no ->
            numActiveAgents (data c') = Z.of_nat (nh' + ns') /\
            Z.of_nat (nextEntity c') =
              Z.of_nat (nextEntity ctx) + numObstacles (data c')
              + numActiveAgents (data c') /\
            forall n, (nextEntity ctx <= n < nextEntity c')%nat ->
              Entity_id n ∈ registeredEntities c' /\
              dynEntities (resetEnvironment ext c') !! n = None).
  { intros no nh' ns' c' Lo Lh Ls B Ho.
    assert (B' := B). destruct B' as (Hn & _ & _ & _ & _ & Ha' & _).
    split; [exact Ha'|]. split; [rewrite Ho, Ha', Hn; lia|].
    intros n Hn'.
    pose proof (built_registered _ _ _ _ c' B Lo Lh Ls Ho n Hn') as Hreg.
    split; [exact Hreg|].
    rewrite resetEnvironment_dyn, decide_True by exact Hreg. reflexivity. }
  assert (H : wp (generateEnvironment ext (generateDebugEnvironment ext lm)
                    fuel lvl nh ns)
                 (fun _ ctx' =>
                    numObstacles (data ctx') =
                      (if lvl =? 6 then 3 else if lvl <? 6 then 2 else 5) /\
                    numActiveAgents (data ctx') = (if lvl =? 6 then 2 else 0) /\
                    Z.of_nat (nextEntity ctx') =
                      Z.of_nat (nextEntity ctx) + numObstacles (data ctx')
                      + numActiveAgents (data ctx') /\
                    forall n, (nextEntity ctx <= n < nextEntity ctx')%nat ->
                      Entity_id n ∈ registeredEntities ctx' /\
                      dynEntities (resetEnvironment ext ctx') !! n = None)
                 ctx).
  { unfold generateEnvironment.
    repeat (apply elem_of_cons in Hl; destruct Hl as [->|Hl]);
      [| | | | | |apply elem_of_nil in Hl; destruct Hl];
      cbn [Z.eqb Pos.eqb Z.ltb Z.compare Pos.compare Pos.compare_cont
           generateDebugEnvironment];
      apply wp_bind.
    - apply (wp_singleCubeLevel _ _ (nextEntity ctx)); [exact B0|].
      intros c B Ho _.
      apply (wp_debug_tail (nextEntity ctx) 2 0 0 c); [exact B|].
      intros c' B' Hd _.
      destruct (Hpost 2%nat 0%nat 0%nat c' ltac:(lia) ltac:(lia) ltac:(lia) B'
                  ltac:(rewrite Hd; exact Ho)) as (P1 & P2 & P3).
      split; [rewrite Hd; exact Ho|]. split; [exact P1|].
      split; [exact P2|exact P3].
    - apply (wp_singleCubeLevel _ _ (nextEntity ctx)); [exact B0|].
      intros c B Ho _.
      apply (wp_debug_tail (nextEntity ctx) 2 0 0 c); [exact B|].
      intros c' B' Hd _.
      destruct (Hpost 2%nat 0%nat 0%nat c' ltac:(lia) ltac:(lia) ltac:(lia) B'
                  ltac:(rewrite Hd; exact Ho)) as (P1 & P2 & P3).
      split; [rewrite Hd; exact Ho|]. split; [exact P1|].
      split; [exact P2|exact P3].
    - apply (wp_level4 (nextEntity ctx)); [exact B0|].
      intros c B Ho _.
      apply (wp_debug_tail (nextEntity ctx) 2 0 0 c); [exact B|].
      intros c' B' Hd _.
      destruct (Hpost 2%nat 0%nat 0%nat c' ltac:(lia) ltac:(lia) ltac:(lia) B'
                  ltac:(rewrite Hd; exact Ho)) as (P1 & P2 & P3).
      split; [rewrite Hd; exact Ho|]. split; [exact P1|].
      split; [exact P2|exact P3].
    - apply (wp_level6 (nextEntity ctx)); [exact B0|exact (Hcap eq_refl)|].
      intros c B Ho _.
      apply (wp_debug_tail (nextEntity ctx) 3 1 1 c); [exact B|].
      intros c' B' Hd _.
      destruct (Hpost 3%nat 1%nat 1%nat c' ltac:(lia) ltac:(lia) ltac:(lia) B'
                  ltac:(rewrite Hd; exact Ho)) as (P1 & P2 & P3).
      split; [rewrite Hd; exact Ho|]. split; [exact P1|].
      split; [exact P2|exact P3].
    - apply (wp_level7 (nextEntity ctx)); [exact B0|].
      intros c B Ho _.
      apply (wp_debug_tail (nextEntity ctx) 5 0 0 c); [exact B|].
      intros c' B' Hd _.
      destruct (Hpost 5%nat 0%nat 0%nat c' ltac:(lia) ltac:(lia) ltac:(lia) B'
                  ltac:(rewrite Hd; exact Ho)) as (P1 & P2 & P3).
      split; [rewrite Hd; exact Ho|]. split; [exact P1|].
      split; [exact P2|exact P3].
    - apply (wp_level8 (nextEntity ctx)); [exact B0|].
      intros c B Ho _.
      apply (wp_debug_tail (nextEntity ctx) 5 0 0 c); [exact B|].
      intros c' B' Hd _.
      destruct (Hpost 5%nat 0%nat 0%nat c' ltac:(lia) ltac:(lia) ltac:(lia) B'
                  ltac:(rewrite Hd; exact Ho)) as (P1 & P2 & P3).
      split; [rewrite Hd; exact Ho|]. split; [exact P1|].
      split; [exact P2|exact P3]. }
  apply wp_run in H. destruct H as ([] & ctx' & Hrun & Hpost').
  exists ctx'. split; [exact Hrun|exact Hpost'].
Qed.

(** X19. Level 5 stores its ground plane in the obstacle table but never
    sets the obstacle count: on a world that has just been reset the
    plane is made and stays unregistered, so the next reset destroys the
    hider of the level and leaves the plane in the world. *)
Theorem level5_plane_outlives_reset (fuel : nat) (nh ns : Z) (ctx : Engine) :
  tablesOk ctx -> interfacesOk ctx ->
  numHiders (data ctx) = 0 -> numSeekers (data ctx) = 0 ->
  numActiveAgents (data ctx) = 0 -> numObstacles (data ctx) = 0 ->
  1 <= maxAgentsPerWorld (data ctx) ->
  exists ctx' plane,
    generateEnvironment ext (generateDebugEnvironment ext lm) fuel 5 nh ns ctx
      = Ok (tt, ctx') /\
    numObstacles (data ctx') = 0 /\
    registeredEntities ctx' = [Entity_id (S (nextEntity ctx))] /\
    entityAt (obstacles (data ctx')) 0 = Entity_id (nextEntity ctx) /\
    objectID plane = Plane /\
    dynEntities ctx' !! nextEntity ctx = Some plane /\
    dynEntities (resetEnvironment ext ctx') !! nextEntity ctx = Some plane /\
    dynEntities (resetEnvironment ext ctx') !! S (nextEntity ctx) = None.
Proof.
  intros Ht Hio Hh Hs Ha Ho Hcap.
  pose proof (built_start ctx Ht Hio Hh Hs Ha) as B0.
  set (plane := mkDyn Vector3_zero (angleAxis ext F32.zero xAxis) one3 Plane
                      Vector3_zero Static OwnerTeam_Unownable
                      Vector3_zero Vector3_zero None).
  assert (H : wp (generateEnvironment ext (generateDebugEnvironment ext lm)
                    fuel 5 nh ns)
                 (fun _ ctx' =>
                    numObstacles (data ctx') = 0 /\
                    registeredEntities ctx' = [Entity_id (S (nextEntity ctx))] /\
                    entityAt (obstacles (data ctx')) 0
                      = Entity_id (nextEntity ctx) /\
                    dynEntities ctx' !! nextEntity ctx = Some plane)
                 ctx).
  { unfold generateEnvironment.
    cbn [Z.eqb Pos.eqb generateDebugEnvironment].
    apply wp_bind. unfold level5, makePlane. cbv zeta.
    eapply (wp_addObstacle _ 0%nat); [exact B0|reflexivity|lia|].
    intros c1 B1 D1 O1 M1.
    assert (N1 : nextEntity c1 = S (nextEntity ctx)).
    { destruct B1 as (N1 & _). rewrite N1. lia. }
    assert (T1 : obstacles (data c1) !! 0%nat = Some (Entity_id (nextEntity ctx))).
    { destruct B1 as (_ & (_ & _ & _ & To & _) & _ & _ & _ & _ & Hall).
      specialize (Hall (nextEntity ctx) ltac:(lia)).
      rewrite !take_0, !app_nil_r in Hall.
      destruct (obstacles (data c1)) as [|e l]; [inversion Hall|].
      cbn in Hall. apply list_elem_of_singleton in Hall.
      rewrite Hall. reflexivity. }
    apply (wp_addAgent (nextEntity ctx) 1 0 0); [exact B1|cbn; lia|lia|lia|].
    intros c2 B2 D2 O2 T2 M2 H2 _. specialize (H2 eq_refl).
    rewrite decide_True in B2 by reflexivity.
    rewrite decide_False in B2 by discriminate.
    apply wp_ret.
    apply (wp_debug_tail (nextEntity ctx) 1 1 0 c2); [exact B2|].
    intros c3 B3 Hd3 Hdy3.
    assert (B3' := B3).
    destruct B3' as (_ & (_ & Lh & _) & _ & Hh3 & Hs3 & _).
    split; [rewrite Hd3, O2, O1; exact Ho|].
    split.
    - unfold registeredEntities, registeredObstacles, registeredAgents.
      rewrite Hh3, Hs3. rewrite Hd3, O2, O1, Ho.
      change (seqZ 0 0) with (@nil Z).
      change (Z.of_nat 0) with 0. change (seqZ 0 0) with (@nil Z).
      cbn [fmap list_fmap app].
      rewrite app_nil_r. rewrite entityAt_seqZ_take by (rewrite <- Hd3, Lh; lia).
      rewrite H2, N1.
      rewrite (take_S_r _ _ (Entity_id (S (nextEntity ctx)))).
      + rewrite take_0. reflexivity.
      + apply list_lookup_insert_eq.
        destruct B1 as (_ & (_ & Lh1 & _) & _). rewrite Lh1. lia.
    - split.
      + unfold entityAt. rewrite Hd3, T2. change (Z.to_nat 0) with 0%nat.
        rewrite T1. reflexivity.
      + rewrite Hdy3, D2 by (rewrite N1; lia). rewrite D1.
        apply lookup_insert_eq. }
  apply wp_run in H.
  destruct H as ([] & ctx' & Hrun & Ho' & Hreg & Hslot & Hplane).
  exists ctx', plane. split; [exact Hrun|]. split; [exact Ho'|].
  split; [exact Hreg|]. split; [exact Hslot|]. split; [reflexivity|].
  split; [exact Hplane|].
  rewrite !resetEnvironment_dyn, Hreg. split.
  - rewrite decide_False; [exact Hplane|].
    intros Hin. apply list_elem_of_singleton in Hin. injection Hin. lia.
  - rewrite decide_True by (apply list_elem_of_singleton; reflexivity).
    reflexivity.
Qed.

End DebugProperties.

Lemma demo_reset_fresh :
  tablesOk demo_reset /\ interfacesOk demo_reset /\
  numHiders (data demo_reset) = 0 /\ numSeekers (data demo_reset) = 0 /\
  numActiveAgents (data demo_reset) = 0.
Proof.
  destruct (demo_world_running 0) as ((Ht & Hio & _) & _).
  destruct (resetEnvironment_facts (demo_ext false) (demo_world 0) Ht Hio)
    as (Ht0 & Hio0 & _ & Ha0 & Hh0 & Hs0 & _).
  split; [exact Ht0|]. split; [exact Hio0|]. split; [exact Hh0|].
  split; [exact Hs0|exact Ha0].
Qed.

Lemma unknown_level_builds_nothing_witness :
  exists ctx',
    generateEnvironment (demo_ext false)
      (generateDebugEnvironment (demo_ext false) demo_mathlib) 21 9 1 1
      demo_reset = Ok (tt, ctx') /\
    data ctx' = data demo_reset /\
    dynEntities ctx' = dynEntities demo_reset /\
    nextEntity ctx' = nextEntity demo_reset /\
    forall k, numActiveAgents (data demo_reset) <= k
              < maxAgentsPerWorld (data demo_reset) ->
              slotCleared ctx' k.
Proof.
  destruct demo_reset_fresh as (_ & Hio & _ & _ & Ha).
  apply (unknown_level_builds_nothing (demo_ext false) demo_mathlib 21 9 1 1
           demo_reset Hio).
  - rewrite Ha. lia.
  - lia.
Defined.

Lemma debug_levels_register_all_witness :
  exists ctx',
    generateEnvironment (demo_ext false)
      (generateDebugEnvironment (demo_ext false) demo_mathlib) 21 6 1 1
      demo_reset = Ok (tt, ctx') /\
    numObstacles (data ctx') = 3 /\
    numActiveAgents (data ctx') = 2 /\
    Z.of_nat (nextEntity ctx') =
      Z.of_nat (nextEntity demo_reset) + numObstacles (data ctx')
      + numActiveAgents (data ctx') /\
    forall n, (nextEntity demo_reset <= n < nextEntity ctx')%nat ->
      Entity_id n ∈ registeredEntities ctx' /\
      dynEntities (resetEnvironment (demo_ext false) ctx') !! n = None.
Proof.
  destruct demo_reset_fresh as (Ht & Hio & Hh & Hs & Ha).
  apply (debug_levels_register_all (demo_ext false) demo_mathlib 21 6 1 1
           demo_reset Ht Hio Hh Hs Ha).
  - do 3 right. left.
  - intros _. vm_compute. discriminate.
Defined.

Lemma level5_plane_outlives_reset_witness :
  exists ctx' plane,
    generateEnvironment (demo_ext false)
      (generateDebugEnvironment (demo_ext false) demo_mathlib) 21 5 1 1
      demo_reset = Ok (tt, ctx') /\
    numObstacles (data ctx') = 0 /\
    registeredEntities ctx' = [Entity_id (S (nextEntity demo_reset))] /\
    entityAt (obstacles (data ctx')) 0 = Entity_id (nextEntity demo_reset) /\
    objectID plane = Plane /\
    dynEntities ctx' !! nextEntity demo_reset = Some plane /\
    dynEntities (resetEnvironment (demo_ext false) ctx') !! nextEntity demo_reset
      = Some plane /\
    dynEntities (resetEnvironment (demo_ext false) ctx')
      !! S (nextEntity demo_reset) = None.
Proof.
  destruct demo_reset_fresh as (Ht & Hio & Hh & Hs & Ha).
  apply (level5_plane_outlives_reset (demo_ext false) demo_mathlib 21 1 1
           demo_reset Ht Hio Hh Hs Ha).
  - vm_compute. reflexivity.
  - vm_compute. discriminate.
Defined.

(** ** Box and ramp slots *)

Section ObjectSlots.

Variable ext : Extern.

(** X20. For a live agent, slot [i] of the box observations and slot [i]
    of the box visibility mask both describe the box at index [i] of the
    box table, for every [i] below the active count, and likewise for
    the ramps; the preparation counter reads [96 - tick] up to tick 96
    and is left as it is afterwards. *)
Theorem object_slots_follow_tables (ctx : Engine) (agent_e sim_e : Entity)
    (agent_type : AgentType) (agent_obs : list AgentObservation)
    (box_obs : list BoxObservation) (ramp_obs : list RampObservation)
    (prep : Z) (agent_vis box_vis ramp_vis : list float) :
  sim_e <> Entity_none ->
  length box_obs = Z.to_nat consts.maxBoxes ->
  length ramp_obs = Z.to_nat consts.maxRamps ->
  length box_vis = Z.to_nat consts.maxBoxes ->
  length ramp_vis = Z.to_nat consts.maxRamps ->
  let agent_pos := position (readDyn ctx sim_e) in
  let agent_rot := rotation (readDyn ctx sim_e) in
  let agent_fwd := rotateVec ext agent_rot math.fwd in
  let obs := collectObservationsSystem ext ctx agent_e sim_e
               agent_obs box_obs ramp_obs prep in
  let vis := computeVisibilitySystem ext ctx agent_e sim_e agent_type
               agent_vis box_vis ramp_vis in
  (forall i, 0 <= i < numActiveBoxes (data ctx) -> i < consts.maxBoxes ->
     snd (fst (fst obs)) !! Z.to_nat i =
       Some (boxObservationOf ext ctx agent_pos agent_rot i) /\
     snd (fst vis) !! Z.to_nat i =
       Some (checkVisibility ext ctx agent_pos agent_fwd
               (entityAt (boxes (data ctx)) i))) /\
  (forall i, 0 <= i < numActiveRamps (data ctx) -> i < consts.maxRamps ->
     snd (fst obs) !! Z.to_nat i =
       Some (rampObservationOf ext ctx agent_pos agent_rot i) /\
     snd vis !! Z.to_nat i =
       Some (checkVisibility ext ctx agent_pos agent_fwd
               (entityAt (ramps (data ctx)) i))) /\
  snd obs = (if curEpisodeStep (data ctx) <=? numPrepSteps
             then numPrepSteps - curEpisodeStep (data ctx) else prep).
Proof.
  intros Hlive Hbo Hro Hbv Hrv. cbv zeta.
  unfold collectObservationsSystem, computeVisibilitySystem.
  rewrite !decide_False by exact Hlive. cbv zeta.
  destruct (agentVisLoop ext ctx agent_e agent_type
              (position (readDyn ctx sim_e))
              (rotateVec ext (rotation (readDyn ctx sim_e)) math.fwd) agent_vis)
    as [[v c] t].
  cbn [fst snd].
  split; [|split; [|reflexivity]].
  - intros i Hi Hm. split.
    + rewrite boxObsLoop_lookup by (try exact Hbo; lia).
      rewrite geb_false by lia. reflexivity.
    + rewrite boxVisLoop_lookup by (try exact Hbv; lia).
      replace (i <? numActiveBoxes (data ctx)) with true
        by (symmetry; apply Z.ltb_lt; lia).
      reflexivity.
  - intros i Hi Hm. split.
    + rewrite rampObsLoop_lookup by (try exact Hro; lia).
      rewrite geb_false by lia. reflexivity.
    + rewrite rampVisLoop_lookup by (try exact Hrv; lia).
      replace (i <? numActiveRamps (data ctx)) with true
        by (symmetry; apply Z.ltb_lt; lia).
      reflexivity.
Qed.

End ObjectSlots.

Lemma object_slots_follow_tables_witness :
  snd (collectObservationsSystem (demo_ext false) (demo_world 7) (Entity_id 0)
         (Entity_id 10) (agentObs demo_fresh) (boxObs demo_fresh)
         (rampObs demo_fresh) 0)
  = (if curEpisodeStep (data (demo_world 7)) <=? numPrepSteps
     then numPrepSteps - curEpisodeStep (data (demo_world 7)) else 0).
Proof.
  assert (Hlive : Entity_id 10 <> Entity_none) by discriminate.
  exact (proj2 (proj2 (object_slots_follow_tables (demo_ext false)
                         (demo_world 7) (Entity_id 0) (Entity_id 10) Hider
                         (agentObs demo_fresh) (boxObs demo_fresh)
                         (rampObs demo_fresh) 0 (agentVis demo_fresh)
                         (boxVis demo_fresh) (rampVis demo_fresh)
                         Hlive eq_refl eq_refl eq_refl eq_refl))).
Defined.
